(* ===== verification/_CoqProject ===== *)
-Q . S2P
Prelude.v
Regex.v
ChatNLP.v
ChatResponse.v
AuthService.v
AuthContext.v
Events.v
Language.v
Weather.v
Speech.v
SupabaseService.v
Buildings.v
ChatAssistant.v
Forum.v
LoginPage.v
SettingsModal.v
UserProfileModal.v
LiveUpdates.v
EnhancedAssistant.v
Calendar.v
CampusViews.v
Navigation.v
