(* ===== verification/Prelude.v ===== *)
(** * A verification development of UDECompass (src/uni-main/src)

    UDECompass is a client-side campus portal in TypeScript/React.  Its
    parts: the services ([services/authService.ts], [supabaseService.ts],
    [eventsService.ts], [weatherService.ts], [speechService.ts]), the
    contexts that share them ([contexts/AuthContext.tsx],
    [LanguageContext.tsx]), the chat assistants' text classifier
    ([utils/chatNLP.ts]) and the components that hold state: the keyword
    chat ([components/chat/ChatAssistant.tsx]), the NLP chat
    ([chat/EnhancedAIAssistant.tsx]), the forum ([Forum.tsx]), the login
    page ([LoginPage.tsx]), the settings and profile dialogs
    ([SettingsModal.tsx], [UserProfileModal.tsx]), the live-update feed
    ([LiveUpdates.tsx]), the mobile and desktop campus views
    ([campus/MobileCampusView.tsx], [DesktopCampusView.tsx]), the search
    bar, campus navigator and building pages, the events calendar, the
    weather widget and the voice assistant, and the shell around them:
    the routes of [App.tsx], the [Header], the [Sidebar], the
    [CampusMap] and the responsive switch of [AdvancedCampusView].  The components call the services through the contexts and
    share [localStorage]: the login page signs up through [AuthContext]
    and [authService], which stores the profile photo that the settings
    dialog shows, and both dialogs store and read the uploaded photo
    under the same key; the language chosen in the settings is the one
    [LanguageContext] reads back, and the feed and the chats rerun their
    language effects on it; the NLP chat answers with [ChatResponse].

    ** Layout (library root S2P, files in dependency order)

    - [Prelude] (this file): JavaScript strings as lists of UTF-16 code
      units, the decoding of Rocq's UTF-8 literals into them ([js]) and
      back ([utf8_of_js], with the round trip [js_utf8_of_js]), the
      string built-ins the code calls ([toLowerCase], [toUpperCase],
      [indexOf], [trim], [substring], [String(n)]), [Map] as an
      association list ([map_get], [map_set]), JavaScript objects and
      JSON values ([assoc_get], [assoc_set], [obj_spread] for
      [{ ...a, ...b }], [json], [json_wf]) and the class [JsonEngine] of
      [JSON.parse]/[JSON.stringify] with its law [JsonLaws] (parsed
      objects have distinct keys); the [js_scope] notations, the [jsdb]
      hints and the lemmas on lists, folds, maps and objects the other
      files share.
    - [Regex]: the ECMAScript regular expressions the classifier uses, a
      backtracking matcher after ECMA-262 22.2 and the code's
      [while ((m = re.exec(s)) !== null)] loop ([exec_loop]).
    - [ChatNLP] and [ChatResponse]: [extractIntent], [extractEntities],
      [calculateConfidence] with their tables, and
      [generateContextualResponse] with its template helpers.  Theorems:
      confidence bounds, the maximum and default intents, the exact-match
      bonus, entity spans, the keyword round trip, termination of the
      [exec] loops.
    - [AuthService]: both modes of every method; the demo-mode [Map] and
      [localStorage] ([Storage]) as explicit state, the Supabase client
      behind a class.  Theorems: reload restores the accounts, sign-up
      then sign-in, duplicate sign-up rejected.
    - [AuthContext]: the provider's [user]/[loading] state, each async
      handler split at its [await] into a call and a resumption, over the
      interface [AuthApi] with its laws [AuthApiLaws] (discharged by the
      demo service).  Theorems: loading only while a call is pending;
      signup, logout, login restore the user against any lawful service.
    - [Events], [Language], [Weather], [Speech], [SupabaseService]: the
      services and the calendar, widget and voice-assistant logic, with
      step relations where the code reacts to events.
    - [Buildings]: the building data verbatim, the search bar as a step
      relation, the navigator and building-page handlers.
    - [ChatAssistant]: the keyword chat; its [setTimeout] callbacks are
      pending [timer] values in the state that capture the render's state
      (as the closures do); [chat_step] and [timer_step] are the user's
      and the timers' events.  Theorems: the messages' well-formedness
      (a type invariant by rule induction), liveness of the timers
      ([eventually], proved with a weight that every firing lowers), the
      answer to a sent message.
    - [Forum]: posts, search, form and comment state with every handler
      and the realtime reload, a setoid [post_equiv] with its [Proper]
      instances.  Theorems: like counters stay non-negative, liking twice
      is the identity up to [post_equiv], the create-post guard, the
      units of [formatTimeAgo].
    - [LoginPage]: the form state and handlers, [handleSubmit] composed
      with the [AuthContext] provider.  Theorems: sign-up, logout and login
      navigate to [/campus] against any lawful service; blank names are
      refused; the stored name is the trimmed typed name; the photo
      resizing bounds.
    - [SettingsModal]: the settings as a JSON value with the code's
      spreads, the toggles and buttons of each tab as a table driving the
      step relation [settings_step].  Theorems: settings without a control
      keep their loaded or default value, saving syncs the app's theme, two
      clicks on a switch restore it, the photo stored at sign-up is the
      one the dialog shows.
    - [UserProfileModal]: the dialog's state, the form's fields as
      [profile_field], the user effect and the photo upload over the
      [Storage] the other files use, as the step relation [profile_step].
      Theorems: the form equals the profile when not editing (by rule
      induction), the photo is shared with [SettingsModal], the dialog
      never writes the accounts, an edit is lost on reload.
    - [LiveUpdates]: the eight templates verbatim, the random pick with
      [Math.random()] and the clock as inputs ([Clock]), the interval
      ([tick]) and the handlers as [feed_step].  Theorems: the feed holds
      at most 8 real updates, two to five templates apply at every hour,
      the unread counter outruns the feed.
    - [EnhancedAssistant]: the NLP chat; [handleSendMessage]'s two
      [setTimeout] callbacks are pending [etimer] values capturing the
      closure's [soundEnabled] and [language], [speechService.speak] and
      [onBuildingSelect] are recorded calls; [enhanced_step] holds every
      control.  Theorems: every building selected is a keyword building,
      the typing indicator shows only while a reply is pending, a clicked
      suggestion is read aloud as a voice message.
    - [Calendar]: the events calendar; ECMA-262's date getters
      ([YearFromTime], [MonthFromTime], [DateFromTime], [WeekDay]) and
      date-fns' month functions on the time value, [loadEvents] split at
      its [await] over the shared event array of [Events], and every
      control as [cal_step].  Theorems: at most one load in flight and the
      events shown are the current search's results, the month arrows are
      inverse, the grid has one button per day of the month, the days are
      drawn under the wrong weekday, and each keystroke unmounts the search
      field.
    - [CampusViews]: the mobile and desktop campus views; their shared
      filter (reusing the search bar's [building_matches]) and widget
      handlers, the mobile scroll snap ([handleScroll] over the rectangles
      the browser reports), dots and footer, each view's controls as a
      step relation.  Theorems: at most one widget panel is open, the
      scroll loop picks the first closest card, no category but "All"
      lists the visa services.
    - [Navigation]: the routes of [App.tsx] ([app_routes], [resolve]
      following the redirects), the [Sidebar]'s filter and buttons, the
      [CampusMap]'s zoom and drag handlers ([map_step]), the responsive
      switch of [AdvancedCampusView] with its queue of 150 ms timers and
      the effect's rerun of [checkMobile] ([resp_step]), the [Header]'s
      dropdowns, dialogs and buttons as effects ([header_handle]) and the
      navigator's shell that receives them ([nav_header_effect],
      [nav_shell]).  Theorems: the pending timers settle on the view the
      width asks for, the routes settle within three redirects, the zoom
      stays in [0.5, 3], the assistant's visit actions open the building's
      page, the header's logout bounces through ["/campus"] before the
      sign-out settles, and the header's view toggle switches between the
      cards and the map.

    Where two components declare operations of the same name (the two
    chat assistants' handlers, the services' [signUp], the dialogs'
    [handlePhotoUpload], ...), a component's definitions sit in a Module
    named after it, exported at its end: [ChatAssistant], [Forum],
    [LoginPage] and [UserProfileModal] in their files,
    [supabaseService] in [SupabaseService], [EventsCalendar] in
    [Calendar], [AdvancedCampusView] and [Header] in [Navigation].

    ** Modelling choices

    - A JavaScript string is its sequence of UTF-16 code units, so that
      [length], [indexOf] and offsets are the code's numbers; case mapping
      covers Latin and basic Cyrillic.  Rocq [string]s (for the values the
      auth service stores) convert by [utf8_of_js].
    - Numbers are exact: integers as [Z] or [N], fractions as [Q]; the
      IEEE-754 rounding of confidence and weather values is not modelled.
    - [Math.random()], [Date.now()] and [new Date()] are inputs of the
      handlers that read them ([Clock] in [LiveUpdates]); a theorem about
      them holds for every value in the browser's range.
    - Asynchronous code is split at each [await] into the call and its
      continuation, and React's state updates are applied in the order
      the handlers call them; timers are explicit values in the state.
    - [JSON.parse] and [JSON.stringify] are abstract ([JsonEngine]); the
      theorems that need them assume only [JsonLaws].

    ** Fuel and bounds

    The matcher's [RepeatMatcher] has [S min + length input] steps, and
    the [exec] loop [S (length input)] iterations; theorems of [Regex] and
    [ChatNLP] show that more fuel gives the same result for the patterns
    of the code.  The chat's timers are drained by well-founded induction
    on their weight.  [resolve] follows at most three redirects, which
    [resolve_routes] shows is enough for every path; [resp_settle] fires
    at most [resp_measure] timers (each timer, and once more each timer
    that sets the wrong value), which [resp_settles] shows empties the
    queue.  [YearFromDay]
    corrects a one-division estimate of the year by one step, which
    [year_guess_bounds] shows is enough for every day number.

    ** Not modelled

    Rendering and styling (the header's overlay stacking, the map's SVG
    drawing and its random decorations), the router's history beyond the
    paths it resolves, the browser's speech engines, canvas drawing (only
    its size computation), network I/O of the Supabase client (its
    answers are inputs), and the unused [hooks/useResponsive.ts] effect
    registration. *)

From Stdlib Require Import String Ascii DecimalString NArith ZArith List Lia.
From stdpp Require Import base list options sets.

(** ** JavaScript strings *)

Abbreviation jschar := N (only parsing).
Abbreviation jsstring := (list N) (only parsing).

(** Decoding the UTF-8 bytes of a Rocq literal into Unicode code points. *)
Fixpoint utf8_decode (bs : list N) : list N :=
  match bs with
  | [] => []
  | b1 :: rest =>
      if (b1 <? 128)%N then b1 :: utf8_decode rest
      else if (b1 <? 224)%N then
        match rest with
        | b2 :: rest' => ((b1 - 192) * 64 + (b2 - 128))%N :: utf8_decode rest'
        | [] => [65533%N]
        end
      else if (b1 <? 240)%N then
        match rest with
        | b2 :: b3 :: rest' =>
            ((b1 - 224) * 4096 + (b2 - 128) * 64 + (b3 - 128))%N :: utf8_decode rest'
        | _ => [65533%N]
        end
      else
        match rest with
        | b2 :: b3 :: b4 :: rest' =>
            ((b1 - 240) * 262144 + (b2 - 128) * 4096 + (b3 - 128) * 64
             + (b4 - 128))%N :: utf8_decode rest'
        | _ => [65533%N]
        end
  end.

(** A code point as UTF-16 code units (a surrogate pair above U+FFFF). *)
Definition utf16_units (cp : N) : list N :=
  if (cp <? 65536)%N then [cp]
  else [(55296 + (cp - 65536) / 1024)%N; (56320 + (cp - 65536) mod 1024)%N].

Definition js (s : string) : list N :=
  flat_map utf16_units (utf8_decode (map N_of_ascii (list_ascii_of_string s))).

Definition in_range (lo hi c : N) : bool := (lo <=? c)%N && (c <=? hi)%N.

(** The UTF-8 octets of a code point. *)
Definition utf8_octets (cp : N) : list N :=
  if (cp <? 128)%N then [cp]
  else if (cp <? 2048)%N then [192 + cp / 64; 128 + cp mod 64]%N
  else if (cp <? 65536)%N then [224 + cp / 4096; 128 + (cp / 64) mod 64; 128 + cp mod 64]%N
  else [240 + cp / 262144; 128 + (cp / 4096) mod 64; 128 + (cp / 64) mod 64; 128 + cp mod 64]%N.

Definition is_high_surrogate (c : N) : bool := in_range 55296 56319 c.
Definition is_low_surrogate (c : N) : bool := in_range 56320 57343 c.

(** The code points of a JavaScript string: a surrogate pair is one code
    point, a lone surrogate is kept as it is. *)
Fixpoint code_points (s : list N) : list N :=
  match s with
  | [] => []
  | hi :: rest =>
      match rest with
      | lo :: rest' =>
          if is_high_surrogate hi && is_low_surrogate lo
          then (65536 + (hi - 55296) * 1024 + (lo - 56320))%N :: code_points rest'
          else hi :: code_points rest
      | [] => [hi]
      end
  end.

(** A string of UTF-16 code units, as every JavaScript string is. *)
Definition valid_units (s : list N) : Prop := Forall (fun c => (c < 65536)%N) s.

(** A JavaScript string handed to a service whose model takes Rocq
    strings: its UTF-8 bytes ([js] inverts it, [js_utf8_of_js]). *)
Definition utf8_of_js (s : list N) : string :=
  string_of_list_ascii (map ascii_of_N (flat_map utf8_octets (code_points s))).

(** ** Character classes of ECMAScript *)


(** [\d] *)
Definition is_digit (c : N) : bool := in_range 48 57 c.

(** [IsWordChar]: the characters of [\w], [a-zA-Z0-9_]. *)
Definition is_word_char (c : N) : bool :=
  is_digit c || in_range 65 90 c || in_range 97 122 c || (c =? 95)%N.

(** [\s] and the characters [String.prototype.trim] removes: WhiteSpace
    (TAB, VT, FF, SP, NBSP, ZWNBSP, category Zs) and LineTerminator. *)
Definition is_js_space (c : N) : bool :=
  existsb (N.eqb c) [9; 10; 11; 12; 13; 32; 160; 5760; 8232; 8233; 8239; 8287; 12288; 65279]%N
  || in_range 8192 8202 c.

(** ** Case mapping per code unit *)

(** Upper-case letters of Latin Extended-A whose lower case is the next
    code point. *)
Definition latin_ext_upper (c : N) : bool :=
  (in_range 256 311 c && N.even c && negb (c =? 304)%N)
  || (in_range 313 328 c && N.odd c)
  || (in_range 330 375 c && N.even c)
  || (in_range 377 382 c && N.odd c).

Definition to_lower_unit (c : N) : list N :=
  if in_range 65 90 c then [c + 32]%N
  else if in_range 192 222 c && negb (c =? 215)%N then [c + 32]%N
  else if (c =? 304)%N then [105; 775]%N
  else if latin_ext_upper c then [c + 1]%N
  else if (c =? 376)%N then [255%N]
  else if in_range 1040 1071 c then [c + 32]%N
  else if in_range 1024 1039 c then [c + 80]%N
  else [c].

Definition to_upper_unit (c : N) : list N :=
  if in_range 97 122 c then [c - 32]%N
  else if in_range 224 254 c && negb (c =? 247)%N then [c - 32]%N
  else if (c =? 255)%N then [376%N]
  else if (c =? 181)%N then [924%N]
  else if (c =? 223)%N then [83; 83]%N
  else if (c =? 305)%N then [73%N]
  else if (c =? 383)%N then [83%N]
  else if (c =? 329)%N then [700; 78]%N
  else if (1 <=? c)%N && latin_ext_upper (c - 1) then [c - 1]%N
  else if in_range 1072 1103 c then [c - 32]%N
  else if in_range 1104 1119 c then [c - 80]%N
  else [c].

(** [String.prototype.toLowerCase]. *)
Definition js_toLowerCase (s : list N) : list N := flat_map to_lower_unit s.

(** [String.prototype.toUpperCase]. *)
Definition js_toUpperCase (s : list N) : list N := flat_map to_upper_unit s.

(** [Canonicalize(ch)] of ECMA-262 §22.2.2.7.3 for a pattern without the
    [u] flag: the upper case if it is one code unit and does not map a
    non-ASCII character into ASCII. *)
Definition canonicalize (c : N) : N :=
  match to_upper_unit c with
  | [u] => if (128 <=? c)%N && (u <? 128)%N then c else u
  | _ => c
  end.

(** ** String operations *)

Fixpoint is_prefix (p s : list N) : bool :=
  match p, s with
  | [], _ => true
  | a :: p', b :: s' => (a =? b)%N && is_prefix p' s'
  | _ :: _, [] => false
  end.

(** [s.indexOf(p)]: the first position of [p] in [s]; [None] is the
    code's [-1]. *)
Fixpoint index_of_from (p s : list N) (i : nat) : option nat :=
  if is_prefix p s then Some i
  else match s with
       | [] => None
       | _ :: s' => index_of_from p s' (S i)
       end.

Definition index_of (s p : list N) : option nat := index_of_from p s 0.

(** [s.includes(p)]. *)
Definition includes (s p : list N) : bool := bool_decide (is_Some (index_of s p)).

(** [s.substring(i, j)] for [i <= j]. *)
Definition substring (s : list N) (i j : nat) : list N := take (j - i) (drop i s).

Fixpoint drop_spaces (s : list N) : list N :=
  match s with
  | c :: s' => if is_js_space c then drop_spaces s' else s
  | [] => []
  end.

(** [String.prototype.trim]. *)
Definition js_trim (s : list N) : list N := rev (drop_spaces (rev (drop_spaces s))).

Definition jsstring_eqb (s t : list N) : bool := bool_decide (s = t).

(** A JavaScript string is truthy when it is not empty. *)
Definition truthy_str (s : list N) : bool := negb (bool_decide (s = [])).

(** [String(n)] of a non-negative integer (e.g. [Date.now().toString()]). *)
Definition decimal (n : N) : list N := js (NilEmpty.string_of_uint (N.to_uint n)).

(** The double quote, U+0022, which [js] literals cannot hold. *)
Definition dquote : list N := [34%N].

(** [String(z)] of an integer: a minus sign before a negative one. *)
Definition zdecimal (z : Z) : list N :=
  if (z <? 0)%Z then 45%N :: decimal (Z.to_N (- z)) else decimal (Z.to_N z).

(** ** The two interface languages *)

(** [type Language = 'en' | 'de'] of [LanguageContext.tsx], also the
    [language] parameter of [ChatNLP] and of the speech service. *)
Inductive language := En | De.

#[export] Instance language_eq_dec : EqDecision language.
Proof. solve_decision. Defined.

(** [language === 'en' ? en : de], the components' way to pick a text. *)
Definition by_lang {A} (l : language) (en de : A) : A :=
  match l with En => en | De => de end.

(** ** JavaScript [Map] with string keys *)

(** A [Map] is its entries in insertion order: [set] on a present key
    replaces the value in place, on a new key appends. *)
Section JsMap.
Context {V : Type}.

Fixpoint map_set (k : string) (v : V) (m : list (string * V)) : list (string * V) :=
  match m with
  | [] => [(k, v)]
  | (k', v') :: m' => if String.eqb k' k then (k, v) :: m' else (k', v') :: map_set k v m'
  end.

Definition map_get (k : string) (m : list (string * V)) : option V :=
  snd <$> find (fun kv => String.eqb (fst kv) k) m.

Definition map_has (k : string) (m : list (string * V)) : bool :=
  match map_get k m with Some _ => true | None => false end.

End JsMap.

(** ** JavaScript objects *)

(** An object with string keys as its own properties in insertion order:
    [obj[key]] (the keys of the code are never names of
    [Object.prototype]) and [{ ...obj, [key]: v }], which replaces a
    present key in place and appends a new one. *)
Definition assoc_get {A} (k : list N) (l : list (list N * A)) : option A :=
  snd <$> find (fun kv => bool_decide (fst kv = k)) l.

Definition assoc_set {A} (k : list N) (v : A) (l : list (list N * A)) : list (list N * A) :=
  if bool_decide (is_Some (assoc_get k l))
  then map (fun kv => if bool_decide (fst kv = k) then (k, v) else kv) l
  else l ++ [(k, v)].

(** A JSON value as [JSON.parse] yields it and [JSON.stringify] takes it;
    numbers are integers (the program stores no other). *)
Inductive json :=
  | JNull
  | JBool (b : bool)
  | JNum (n : Z)
  | JStr (s : list N)
  | JArr (items : list json)
  | JObj (fields : list (list N * json)).

(** The own enumerable properties of a value, as a spread sees them: an
    object's fields, the indices of a string (one code unit each) or of
    an array, and none for [null], booleans and numbers. *)
Definition own_props (b : json) : list (list N * json) :=
  match b with
  | JObj fs => fs
  | JStr s => imap (fun i c => (decimal (N.of_nat i), JStr [c])) s
  | JArr items => imap (fun i v => (decimal (N.of_nat i), v)) items
  | _ => []
  end.

(** [{ ...a, ...b }]: the own properties of [b] set on a copy of [a], in
    [b]'s order (integer-like keys are not moved before the others, as
    engines order them; the program's keys are never integer-like). *)
Definition obj_spread (a : list (list N * json)) (b : json) : list (list N * json) :=
  fold_left (fun acc kv => assoc_set (fst kv) (snd kv) acc) (own_props b) a.

(** The values [JSON.parse] yields: objects have distinct keys (a
    repeated key keeps its last value). *)
Fixpoint json_wf (v : json) : bool :=
  match v with
  | JArr items => forallb json_wf items
  | JObj fs => bool_decide (NoDup fs.*1) && forallb (fun kv => json_wf (snd kv)) fs
  | _ => true
  end.

(** The engine's [JSON.parse] of a stored text ([None] when it throws)
    and [JSON.stringify]. *)
Class JsonEngine := { json_parse : string -> option json; json_stringify : json -> string }.

Class JsonLaws `{JsonEngine} :=
  json_parse_wf : forall t v, json_parse t = Some v -> json_wf v = true.

(** A key that does not start with a digit is not an index of a string
    or an array. *)
Definition word_key (k : list N) : bool :=
  match k with c :: _ => negb (in_range 48 57 c) | [] => false end.

(** [s.replace(a, b)] with a one-character string pattern: the first
    occurrence only. *)
Fixpoint replace_first (a b : N) (s : list N) : list N :=
  match s with
  | [] => []
  | c :: s' => if (c =? a)%N then b :: s' else c :: replace_first a b s'
  end.

(** [v[key]] of a JSON value; [None] is [undefined]. *)
Definition json_get (k : list N) (v : json) : option json :=
  match v with JObj fs => assoc_get k fs | _ => None end.

(** ** Notations *)

Declare Scope js_scope.
Delimit Scope js_scope with js.
Notation "s ==ₛ t" := (jsstring_eqb s t) (at level 70, no associativity) : js_scope.
Notation "s .[ i , j ]" := (substring s i j) (at level 1, format "s .[ i ,  j ]") : js_scope.
Notation "'‹' s '›'" := (js s%string) (at level 0, format "‹ s ›") : js_scope.

(** ** Automation *)

Create HintDb jsdb discriminated.
Create Rewrite HintDb jsrw.

(** Unfold a boolean conjunction or equality test from the code into the
    proposition it decides. *)
Ltac js_bool :=
  repeat match goal with
  | H : (_ && _)%bool = true |- _ => apply andb_prop in H as [? ?]
  | H : (_ =? _)%N = true |- _ => apply N.eqb_eq in H
  | H : (_ =? _)%nat = true |- _ => apply Nat.eqb_eq in H
  | H : (_ =? _)%N = false |- _ => apply N.eqb_neq in H
  | H : (_ =? _)%nat = false |- _ => apply Nat.eqb_neq in H
  | H : (_ <=? _)%N = true |- _ => apply N.leb_le in H
  | H : (_ <? _)%N = true |- _ => apply N.ltb_lt in H
  end.

(** Case on every [if] and [match] of a goal whose conditions are
    closed: used to evaluate the code's tables. *)
Ltac case_ifs :=
  repeat match goal with
  | |- context [if ?b then _ else _] => destruct b eqn:?
  end.

(** ** Generic lemmas *)

Lemma is_prefix_spec (p s : list N) : is_prefix p s = true <-> exists t, s = p ++ t.
Proof.
  revert s; induction p as [|a p IH]; intros [|b s]; simpl.
  - split; eauto.
  - split; eauto.
  - split; [discriminate | intros [t Ht]; discriminate].
  - rewrite andb_true_iff, N.eqb_eq, IH. split.
    + intros [-> [t ->]]. eauto.
    + intros [t Ht]. injection Ht as -> ->. eauto.
Qed.

Lemma is_prefix_refl (p : list N) : is_prefix p p = true.
Proof. apply is_prefix_spec. exists []. by rewrite app_nil_r. Qed.

Lemma is_prefix_app (p t : list N) : is_prefix p (p ++ t) = true.
Proof. apply is_prefix_spec. eauto. Qed.

#[export] Hint Resolve is_prefix_refl is_prefix_app : jsdb.

Lemma index_of_from_spec (p s : list N) (i k : nat) :
  index_of_from p s i = Some k ->
  i <= k <= i + length s /\ exists t, drop (k - i) s = p ++ t.
Proof.
  revert i; induction s as [|c s IH]; intros i H; simpl in H.
  - destruct (is_prefix p []) eqn:E; [|discriminate].
    injection H as <-. rewrite Nat.sub_diag. apply is_prefix_spec in E. split; [simpl; lia|done].
  - destruct (is_prefix p (c :: s)) eqn:E.
    + injection H as <-. rewrite Nat.sub_diag. apply is_prefix_spec in E. split; [simpl; lia|done].
    + apply IH in H as [Hle Ht]. split; [simpl; lia|].
      replace (k - i) with (S (k - S i)) by lia. done.
Qed.

(** The position [indexOf] reports is an occurrence of the pattern. *)
Lemma index_of_spec (s p : list N) (k : nat) :
  index_of s p = Some k -> exists t, drop k s = p ++ t.
Proof.
  unfold index_of. intros H. apply index_of_from_spec in H as [_ Ht].
  by rewrite Nat.sub_0_r in Ht.
Qed.

Lemma index_of_from_self (p t : list N) (i : nat) : index_of_from p (p ++ t) i = Some i.
Proof. assert (H := is_prefix_app p t). destruct (p ++ t); simpl; by rewrite H. Qed.

Lemma index_of_from_bound (p s : list N) (i k : nat) :
  index_of_from p s i = Some k -> k + length p <= i + length s.
Proof.
  intros H. apply index_of_from_spec in H as [Hle [t Ht]].
  assert (Hl := f_equal length Ht). rewrite length_drop, length_app in Hl. lia.
Qed.

(** An occurrence found by [indexOf] lies inside the string. *)
Lemma index_of_bound (s p : list N) (k : nat) :
  index_of s p = Some k -> k + length p <= length s.
Proof. unfold index_of. intros H. by apply index_of_from_bound in H. Qed.

#[export] Hint Resolve index_of_spec index_of_bound : jsdb.

Lemma substring_length (s : list N) (i j : nat) :
  j <= length s -> i <= j -> length (substring s i j) = j - i.
Proof. intros. unfold substring. rewrite length_take, length_drop. lia. Qed.

Lemma substring_app (s p t : list N) (k : nat) :
  drop k s = p ++ t -> substring s k (k + length p) = p.
Proof.
  intros H. unfold substring. rewrite H. replace (k + length p - k) with (length p) by lia.
  by rewrite take_app_length.
Qed.

#[export] Hint Rewrite substring_app using assumption : jsrw.

(** ** Loops over lists *)

Section Folds.
Context {A B : Type} (f : A -> B -> A).

(** An invariant of every iteration holds after a [for ... of] loop. *)
Lemma foldl_invariant (P : A -> Prop) (l : list B) (a : A) :
  (forall acc x, In x l -> P acc -> P (f acc x)) -> P a -> P (foldl f a l).
Proof.
  revert a; induction l as [|x l IH]; intros a Hf Ha; simpl; [done|].
  apply IH; [intros; apply Hf; simpl; auto|]. apply Hf; simpl; auto.
Qed.

(** A property established by the iteration on [x] and kept by every
    later iteration holds at the end of the loop. *)
Lemma foldl_establish (P : A -> Prop) (l : list B) (a : A) (x : B) :
  In x l -> (forall acc, P (f acc x)) -> (forall acc y, P acc -> P (f acc y)) ->
  P (foldl f a l).
Proof.
  revert a; induction l as [|y l IH]; intros a Hx Hest Hkeep; [done|].
  simpl. destruct Hx as [<-|Hx]; [|by apply IH].
  apply foldl_invariant; [intros; by apply Hkeep|apply Hest].
Qed.
End Folds.

Lemma existsb_false_forall {A} (f : A -> bool) (l : list A) :
  existsb f l = false -> forall x, In x l -> f x = false.
Proof.
  intros H x Hx. destruct (f x) eqn:E; [|done].
  assert (existsb f l = true) by (apply existsb_exists; eauto). congruence.
Qed.

(** ** Lemmas on [Map] *)

Section JsMapLemmas.
Context {V : Type}.

Lemma map_get_set_eq (k : string) (v : V) (m : list (string * V)) :
  map_get k (map_set k v m) = Some v.
Proof.
  induction m as [|[k' v'] m IH]; unfold map_get in *; simpl; [by rewrite String.eqb_refl|].
  destruct (String.eqb k' k) eqn:E; simpl; [by rewrite String.eqb_refl|by rewrite E].
Qed.

Lemma map_get_set_ne (k k' : string) (v : V) (m : list (string * V)) :
  k <> k' -> map_get k' (map_set k v m) = map_get k' m.
Proof.
  intros Hne. induction m as [|[k0 v0] m IH]; unfold map_get in *; simpl.
  - by rewrite (proj2 (String.eqb_neq k k') Hne).
  - destruct (String.eqb k0 k) eqn:E; simpl.
    + apply String.eqb_eq in E as ->. by rewrite (proj2 (String.eqb_neq k k') Hne).
    + destruct (String.eqb k0 k'); simpl; [done|apply IH].
Qed.

(** [set] on a present key keeps the keys and their order. *)
Lemma map_set_keys_present (k : string) (v : V) (m : list (string * V)) :
  map_has k m = true -> map fst (map_set k v m) = map fst m.
Proof.
  unfold map_has, map_get. induction m as [|[k' v'] m IH]; simpl; [discriminate|].
  destruct (String.eqb k' k) eqn:E; simpl.
  - apply String.eqb_eq in E as ->. done.
  - intros H. f_equal. by apply IH.
Qed.

(** The keys of a [Map] stay distinct. *)
Lemma map_set_nodup (k : string) (v : V) (m : list (string * V)) :
  NoDup (map fst m) -> NoDup (map fst (map_set k v m)).
Proof.
  induction m as [|[k' v'] m IH]; simpl; intros Hnd; [constructor; [set_solver|constructor]|].
  inversion Hnd as [|? ? Hnin Hnd']; subst.
  destruct (String.eqb k' k) eqn:E; simpl.
  - apply String.eqb_eq in E as ->. by constructor.
  - constructor; [|by apply IH].
    assert (Hk : forall m0 : list (string * V), k' ∉ map fst m0 -> k' <> k -> k' ∉ map fst (map_set k v m0)).
    { intros m0. induction m0 as [|[k1 v1] m0 IH0]; simpl; intros H1 H2.
      - set_solver.
      - destruct (String.eqb k1 k); simpl; set_solver. }
    apply Hk; [done|]. intros ->. by rewrite String.eqb_refl in E.
Qed.

Lemma map_has_set (k k' : string) (v : V) (m : list (string * V)) :
  map_has k' (map_set k v m) = (String.eqb k k' || map_has k' m)%bool.
Proof.
  unfold map_has. destruct (String.eqb_spec k k') as [->|Hne].
  - by rewrite map_get_set_eq.
  - by rewrite map_get_set_ne.
Qed.

End JsMapLemmas.

Section JsMapLemmas2.
Context {V : Type}.
Implicit Types (m : list (string * V)) (k : string) (v : V).

Lemma map_has_false_notin k m : map_has k m = false <-> k ∉ map fst m.
Proof.
  unfold map_has, map_get. induction m as [|[k' v'] m IH]; simpl.
  - split; [set_solver|done].
  - destruct (String.eqb_spec k' k) as [->|Hne]; simpl.
    + split; [discriminate|set_solver].
    + rewrite IH. set_solver.
Qed.

(** [set] on a new key appends the entry. *)
Lemma map_set_fresh k v m : k ∉ map fst m -> map_set k v m = m ++ [(k, v)].
Proof.
  induction m as [|[k' v'] m IH]; simpl; [done|].
  intros Hn. destruct (String.eqb_spec k' k) as [->|Hne]; [set_solver|].
  f_equal. apply IH. set_solver.
Qed.

Lemma map_set_set k v v' m : map_set k v (map_set k v' m) = map_set k v m.
Proof.
  induction m as [|[k0 v0] m IH]; simpl; [by rewrite String.eqb_refl|].
  destruct (String.eqb k0 k) eqn:E; simpl; [by rewrite String.eqb_refl|by rewrite E, IH].
Qed.

Lemma map_set_Forall (P : string * V -> Prop) k v m :
  P (k, v) -> Forall P m -> Forall P (map_set k v m).
Proof.
  intros Hp Hm. induction Hm as [|[k' v'] m Hx Hm IH]; simpl; [by repeat constructor|].
  destruct (String.eqb k' k); by constructor.
Qed.

Lemma map_get_elem k v m : map_get k m = Some v -> (k, v) ∈ m.
Proof.
  unfold map_get. destruct (find _ m) as [[k' v']|] eqn:E; simpl; [|discriminate].
  intros [= ->]. apply find_some in E as [Hin Hk]. apply String.eqb_eq in Hk.
  simpl in Hk; subst. by apply list_elem_of_In.
Qed.

Lemma map_get_has k m : map_has k m = true <-> exists v, map_get k m = Some v.
Proof. unfold map_has. destruct (map_get k m); split; eauto; [discriminate|by intros [? ?]]. Qed.

End JsMapLemmas2.

Lemma map_get_nodup_elem {V} (k : string) (v : V) (m : list (string * V)) :
  NoDup (map fst m) -> (k, v) ∈ m -> map_get k m = Some v.
Proof.
  unfold map_get. induction m as [|[k' v'] m IH]; simpl; intros Hnd Hin; [set_solver|].
  inversion Hnd as [|? ? Hn Hnd']; subst.
  apply elem_of_cons in Hin as [[= -> ->]|Hin]; [by rewrite String.eqb_refl|].
  destruct (String.eqb_spec k' k) as [->|]; [|by apply IH].
  destruct Hn. apply list_elem_of_fmap. by exists (k, v).
Qed.

(** Deleting another element of a list keeps [x]. *)
Lemma elem_of_delete_ne {A} (x y : A) (i : nat) (l : list A) :
  x ∈ l -> l !! i = Some y -> x <> y -> x ∈ delete i l.
Proof.
  intros Hx Hi Hne. rewrite delete_take_drop.
  rewrite <- (take_drop_middle l i y Hi) in Hx. set_solver.
Qed.

(** Every string includes the empty string. *)
Lemma includes_nil (s : list N) : includes s [] = true.
Proof. unfold includes, index_of. by destruct s. Qed.

(** ** UTF-8 and UTF-16 *)

(** Arithmetic on [N] with division and remainder. *)
Ltac nlia := zify; Z.to_euclidean_division_equations; lia.

Lemma utf8_octets_bound (cp : N) : (cp < 1114112)%N -> Forall (fun o => (o < 256)%N) (utf8_octets cp).
Proof.
  intros Hcp. unfold utf8_octets. apply List.Forall_forall.
  destruct (N.ltb_spec cp 128); [|destruct (N.ltb_spec cp 2048); [|destruct (N.ltb_spec cp 65536)]];
    simpl; intros o Ho; repeat destruct Ho as [<-|Ho]; try contradiction;
    match goal with
    | |- (_ + ?x mod 64 < _)%N => pose proof (N.mod_lt x 64 ltac:(discriminate)); lia
    | |- (_ + _ / _ < _)%N => zify; Z.div_mod_to_equations; lia
    | _ => lia
    end.
Qed.

Lemma valid_units_check (s : list N) : forallb (fun c => (c <? 65536)%N) s = true -> valid_units s.
Proof.
  intros H. apply List.Forall_forall. intros c Hc.
  rewrite forallb_forall in H. by apply N.ltb_lt, H.
Qed.

(** Decoding the octets of a code point gives it back. *)
Lemma utf8_decode_octets (cp : N) (r : list N) :
  (cp < 1114112)%N -> utf8_decode (utf8_octets cp ++ r) = cp :: utf8_decode r.
Proof.
  intros Hcp. unfold utf8_octets.
  destruct (N.ltb_spec cp 128); [|destruct (N.ltb_spec cp 2048); [|destruct (N.ltb_spec cp 65536)]];
    cbn [app utf8_decode];
    repeat match goal with |- context [(?a <? ?b)%N] => destruct (N.ltb_spec a b); try (exfalso; nlia) end;
    f_equal; nlia.
Qed.

Lemma code_points_cons2 (hi lo : N) (rest : list N) :
  code_points (hi :: lo :: rest) =
  if is_high_surrogate hi && is_low_surrogate lo
  then (65536 + (hi - 55296) * 1024 + (lo - 56320))%N :: code_points rest
  else hi :: code_points (lo :: rest).
Proof. reflexivity. Qed.

Lemma code_points_bound (s : list N) :
  valid_units s -> Forall (fun cp => (cp < 1114112)%N) (code_points s).
Proof.
  intros H. remember (length s) as n eqn:Hn. revert s H Hn.
  induction n as [n IH] using lt_wf_ind. intros [|hi [|lo rest]] H Hn;
    [constructor|simpl|rewrite code_points_cons2].
  - inversion H; subst. constructor; [lia|constructor].
  - inversion H as [|? ? Hhi H']; inversion H' as [|? ? Hlo Hr]; subst.
    case_match.
    + apply andb_prop in H0 as [Hh Hl]. unfold is_high_surrogate, is_low_surrogate, in_range in Hh, Hl.
      apply andb_prop in Hh as [Hh1 Hh2]; apply andb_prop in Hl as [Hl1 Hl2].
      apply N.leb_le in Hh1, Hh2, Hl1, Hl2.
      constructor; [lia|]. apply (IH (length rest)); [simpl; lia|done|done].
    + constructor; [lia|]. apply (IH (length (lo :: rest))); [simpl; lia|by constructor|done].
Qed.

(** UTF-16 units of the code points of a string are the string. *)
Lemma code_points_units (s : list N) :
  valid_units s -> flat_map utf16_units (code_points s) = s.
Proof.
  intros H. remember (length s) as n eqn:Hn. revert s H Hn.
  induction n as [n IH] using lt_wf_ind. intros [|hi [|lo rest]] H Hn;
    [done|simpl|rewrite code_points_cons2].
  - inversion H; subst. unfold utf16_units. by rewrite (proj2 (N.ltb_lt hi 65536)).
  - inversion H as [|? ? Hhi H']; inversion H' as [|? ? Hlo Hr]; subst.
    case_match.
    + apply andb_prop in H0 as [Hh Hl]. unfold is_high_surrogate, is_low_surrogate, in_range in Hh, Hl.
      apply andb_prop in Hh as [Hh1 Hh2]; apply andb_prop in Hl as [Hl1 Hl2].
      apply N.leb_le in Hh1, Hh2, Hl1, Hl2. simpl.
      rewrite (IH (length rest)) by (simpl in *; lia || done). unfold utf16_units.
      rewrite (proj2 (N.ltb_ge _ 65536)) by lia. simpl.
      match goal with |- ?a :: ?b :: _ = ?c :: ?d :: _ => replace a with c by nlia; replace b with d by nlia end.
      reflexivity.
    + cbn [flat_map]. rewrite (IH (length (lo :: rest))) by (simpl in *; lia || by constructor).
      unfold utf16_units. by rewrite (proj2 (N.ltb_lt hi 65536)).
Qed.

(** A JavaScript string survives the passage to a Rocq string and back. *)
Lemma js_utf8_of_js (s : list N) : valid_units s -> js (utf8_of_js s) = s.
Proof.
  intros H. unfold js, utf8_of_js. rewrite list_ascii_of_string_of_list_ascii, map_map.
  assert (Hb : Forall (fun cp => (cp < 1114112)%N) (code_points s)) by (by apply code_points_bound).
  rewrite (map_ext_in _ (fun n => n)).
  - rewrite map_id. rewrite <- (code_points_units s H) at 2. f_equal.
    induction (code_points s) as [|cp cps IH]; [done|]. inversion Hb; subst.
    simpl. rewrite utf8_decode_octets by done. f_equal. by apply IH.
  - intros b Hin. apply N_ascii_embedding. apply in_flat_map in Hin as (cp & Hcp & Hb').
    rewrite List.Forall_forall in Hb. pose proof (utf8_octets_bound cp (Hb cp Hcp)) as Ho.
    rewrite List.Forall_forall in Ho. by apply Ho.
Qed.

(** ** Truthiness *)

Lemma truthy_str_false s : truthy_str s = false <-> s = [].
Proof. unfold truthy_str. destruct (bool_decide (s = [])) eqn:E; simpl; [|split; [done|]].
  - split; [intros; by apply bool_decide_eq_true in E|done].
  - intros ->. by rewrite bool_decide_true in E.
Qed.

(** ** Lemmas on objects *)

Section ObjectLemmas.
Context {A : Type}.
Implicit Types (l : list (list N * A)) (k : list N) (v : A).

Lemma assoc_get_cons k k' v l :
  assoc_get k ((k', v) :: l) = if bool_decide (k' = k) then Some v else assoc_get k l.
Proof. unfold assoc_get; simpl. by case_bool_decide. Qed.

Lemma assoc_get_app k l1 l2 :
  assoc_get k (l1 ++ l2) = match assoc_get k l1 with Some v => Some v | None => assoc_get k l2 end.
Proof.
  induction l1 as [|[k' w] l1 IH]; [done|]. simpl. rewrite !assoc_get_cons. by case_bool_decide.
Qed.

Lemma assoc_get_map_set k k' v l :
  assoc_get k (map (fun kv => if bool_decide (fst kv = k') then (k', v) else kv) l) =
  if bool_decide (k' = k) then (if bool_decide (is_Some (assoc_get k l)) then Some v else None)
  else assoc_get k l.
Proof.
  induction l as [|[k'' w] l IH]; cbn [map].
  - repeat case_bool_decide; try done; exfalso; match goal with H : is_Some _ |- _ => destruct H as [? [=]] end.
  - cbn [fst]. destruct (decide (k'' = k')) as [->|Hne];
      [rewrite (bool_decide_true (k' = k')) by done|rewrite (bool_decide_false (k'' = k')) by done];
      rewrite !assoc_get_cons, IH; repeat case_bool_decide; subst; try done; exfalso; eauto.
Qed.

Lemma assoc_get_set k k' v l :
  assoc_get k (assoc_set k' v l) = if bool_decide (k' = k) then Some v else assoc_get k l.
Proof.
  unfold assoc_set. case_bool_decide as H.
  - rewrite assoc_get_map_set. case_bool_decide; subst; [|done]. by rewrite bool_decide_true.
  - rewrite assoc_get_app, assoc_get_cons. case_bool_decide; subst.
    + destruct (assoc_get k l); [exfalso; eauto|done].
    + by destruct (assoc_get k l).
Qed.

Lemma assoc_get_fold_set k l a :
  assoc_get k (fold_left (fun acc kv => assoc_set (fst kv) (snd kv) acc) l a) =
  match assoc_get k (rev l) with Some v => Some v | None => assoc_get k a end.
Proof.
  revert a. induction l as [|[k' w] l IH]; intros a; [done|]. simpl.
  rewrite IH, assoc_get_app, assoc_get_set, assoc_get_cons.
  destruct (assoc_get k (rev l)); [done|]. by case_bool_decide.
Qed.
End ObjectLemmas.

Lemma assoc_get_spread (k : list N) (a : list (list N * json)) (b : json) :
  assoc_get k (obj_spread a b) =
  match assoc_get k (rev (own_props b)) with Some v => Some v | None => assoc_get k a end.
Proof. apply assoc_get_fold_set. Qed.

Lemma assoc_get_rev_nodup {A} (k : list N) (l : list (list N * A)) :
  NoDup l.*1 -> assoc_get k (rev l) = assoc_get k l.
Proof.
  induction l as [|[k' w] l IH]; intros Hnd; [done|]. simpl. simpl in Hnd. apply NoDup_cons in Hnd as [Hk Hnd'].
  rewrite assoc_get_app, IH by done. rewrite !assoc_get_cons.
  destruct (decide (k' = k)) as [->|E]; [rewrite !bool_decide_true by done|rewrite !bool_decide_false by done].
  - destruct (assoc_get k l) eqn:Hg; [|done]. exfalso; apply Hk.
    unfold assoc_get in Hg. destruct (find _ l) as [[k'' x]|] eqn:Hf; [|discriminate].
    apply find_some in Hf as [Hin Heq]. apply bool_decide_eq_true in Heq; simpl in Heq; subst.
    apply list_elem_of_In, in_map_iff. by exists (k, x).
  - by destruct (assoc_get k l).
Qed.

Lemma assoc_set_keys {A} (k : list N) (v : A) (l : list (list N * A)) :
  NoDup l.*1 -> NoDup (assoc_set k v l).*1.
Proof.
  unfold assoc_set. case_bool_decide as H; intros Hnd.
  - assert (E : (map (fun kv => if bool_decide (kv.1 = k) then (k, v) else kv) l).*1 = l.*1).
    { clear. induction l as [|[k' w] l IH]; [done|]. simpl. case_bool_decide; subst; simpl; by f_equal. }
    by rewrite E.
  - rewrite fmap_app. apply NoDup_app; split_and!; [done| |apply NoDup_singleton].
    intros x Hx Hx'. apply list_elem_of_singleton in Hx'; subst. apply H.
    apply list_elem_of_fmap in Hx as [[k' w] [Heq Hin]]; simpl in Heq; subst.
    unfold assoc_get. destruct (find (fun kv => bool_decide (kv.1 = k')) l) eqn:Hf; [done|].
    eapply find_none in Hf; [|apply list_elem_of_In, Hin]. by rewrite bool_decide_true in Hf.
Qed.

Lemma assoc_set_Forall {A} (P : A -> Prop) (k : list N) (v : A) (l : list (list N * A)) :
  Forall (fun kv => P kv.2) l -> P v -> Forall (fun kv => P kv.2) (assoc_set k v l).
Proof.
  intros Hl Hv. unfold assoc_set. case_bool_decide.
  - apply Forall_forall. intros x Hx. apply list_elem_of_In, in_map_iff in Hx as [[k' w] [<- Hin]].
    case_bool_decide; [done|]. apply list_elem_of_In in Hin. by eapply Forall_forall in Hl; [|exact Hin].
  - apply Forall_app; split; [done|]. by constructor.
Qed.

Lemma json_wf_obj (fs : list (list N * json)) :
  json_wf (JObj fs) = true <-> NoDup fs.*1 /\ Forall (fun kv => json_wf kv.2 = true) fs.
Proof.
  simpl. rewrite andb_true_iff, bool_decide_eq_true, forallb_forall, Forall_forall.
  setoid_rewrite list_elem_of_In. done.
Qed.

Lemma assoc_set_wf (k : list N) (v : json) (fs : list (list N * json)) :
  json_wf (JObj fs) = true -> json_wf v = true -> json_wf (JObj (assoc_set k v fs)) = true.
Proof.
  intros [Hnd Hf]%json_wf_obj Hv. apply json_wf_obj; split.
  - by apply assoc_set_keys.
  - by apply (assoc_set_Forall (fun x => json_wf x = true)).
Qed.

(** [{ ...a, ...b }] of well-formed values is a well-formed object. *)
Lemma obj_spread_wf (a : list (list N * json)) (b : json) :
  json_wf (JObj a) = true -> json_wf b = true -> json_wf (JObj (obj_spread a b)) = true.
Proof.
  intros Ha Hb. assert (Hp : Forall (fun kv => json_wf kv.2 = true) (own_props b)).
  { destruct b as [| | |s|items|fs]; simpl; try by constructor.
    - apply Forall_forall. intros x Hx. apply list_elem_of_lookup in Hx as [i Hi].
      apply list_lookup_imap_Some in Hi as (c & _ & ->). done.
    - apply Forall_forall. intros x Hx. apply list_elem_of_lookup in Hx as [i Hi].
      apply list_lookup_imap_Some in Hi as (w & Hw & ->).
      simpl in Hb. apply forallb_forall with (x := w) in Hb; [done|].
      apply list_elem_of_In. by eapply list_elem_of_lookup_2.
    - by apply json_wf_obj in Hb as [_ ?]. }
  unfold obj_spread. revert a Ha. induction Hp as [|[k w] l Hw Hl IH]; intros a Ha; [done|].
  simpl. by apply IH, assoc_set_wf.
Qed.

Lemma js_String (c : ascii) (s : string) :
  (N_of_ascii c < 128)%N -> js (String c s) = N_of_ascii c :: js s.
Proof.
  intros H. unfold js. cbn [list_ascii_of_string map utf8_decode].
  rewrite (proj2 (N.ltb_lt _ _) H). cbn [flat_map]. unfold utf16_units at 1.
  rewrite (proj2 (N.ltb_lt _ 65536)) by lia. reflexivity.
Qed.

(** [String(n)] is made of the digits '0' to '9'. *)
Lemma decimal_digits (n : N) : Forall (fun c => 48 <= c <= 57)%N (decimal n).
Proof.
  unfold decimal. induction (N.to_uint n); simpl; [constructor|..];
    rewrite js_String by (vm_compute; reflexivity); constructor; try done; split; vm_compute; congruence.
Qed.

Lemma assoc_get_notin {A} (k : list N) (l : list (list N * A)) :
  k ∉ l.*1 -> assoc_get k l = None.
Proof.
  intros Hk. unfold assoc_get. destruct (find _ l) as [[k' x]|] eqn:Hf; [|done].
  apply find_some in Hf as [Hin Heq]. apply bool_decide_eq_true in Heq; simpl in Heq; subst.
  exfalso. apply Hk, list_elem_of_In, in_map_iff. by exists (k, x).
Qed.

Lemma word_key_not_index (k : list N) (n : N) : word_key k = true -> k <> decimal n.
Proof.
  intros Hw ->. pose proof (decimal_digits n) as Hd. destruct (decimal n) as [|c ds]; [done|].
  apply List.Forall_cons_iff in Hd as [[H1 H2] _]. simpl in Hw. unfold in_range in Hw.
  apply N.leb_le in H1. apply N.leb_le in H2. by rewrite H1, H2 in Hw.
Qed.

(** A non-empty JavaScript string stored in [localStorage] is read back
    as itself, and is truthy. *)
Lemma stored_js_string {A} (d : list N) (x : A) (f : list N -> A) :
  valid_units d -> d <> [] ->
  (if String.eqb (utf8_of_js d) EmptyString then x else f (js (utf8_of_js d))) = f d.
Proof.
  intros Hv Hne. destruct (String.eqb _ _) eqn:He.
  - apply String.eqb_eq in He. exfalso. apply Hne. rewrite <-(js_utf8_of_js d Hv), He. reflexivity.
  - by rewrite js_utf8_of_js.
Qed.
