(* ===== verification/Regex.v ===== *)
(** * The ECMAScript regular expressions of [chatNLP.ts]

    [chatNLP.ts] relies on JavaScript's [RegExp]: [pattern.test] and
    [message.match(pattern)] for intents, and a [while (re.exec(s))] loop
    with the [g] flag for time and weekday entities.  This file models the
    fragment of the pattern language these patterns use (characters, [\d],
    [\s], [\b], sequence, disjunction, greedy quantifiers) with a
    backtracking matcher written after ECMA-262 §22.2.2 (a [Matcher] takes
    a position and a continuation), [RegExpBuiltinExec] (§22.2.7.2) with
    its [lastIndex] scan, and the [exec] loop of the code. *)

From Stdlib Require Import String NArith List Lia.
From stdpp Require Import base list options.
From S2P Require Import Prelude.

(** ** Patterns *)

Inductive regex : Type :=
| REmpty                                        (** the empty Alternative *)
| RChar (c : N)                                 (** a PatternCharacter *)
| RDigit                                        (** [\d] *)
| RSpace                                        (** [\s] *)
| RWordBoundary                                 (** [\b] *)
| RSeq (r1 r2 : regex)                          (** Alternative Term *)
| RAlt (r1 r2 : regex)                          (** Alternative [|] Disjunction *)
| RRep (min : nat) (max : option nat) (r : regex). (** greedy Quantifier, [None] is infinity *)

(** A literal word as a sequence of pattern characters. *)
Definition lit (w : list N) : regex := foldr (fun c r => RSeq (RChar c) r) REmpty w.

(** [w0|w1|...|wn]: a disjunction of literal words. *)
Fixpoint lit_alts (w : list N) (ws : list (list N)) : regex :=
  match ws with
  | [] => lit w
  | w' :: ws' => RAlt (lit w) (lit_alts w' ws')
  end.

(** [r?] and [r*]. *)
Definition ropt (r : regex) : regex := RRep 0 (Some 1) r.
Definition rstar (r : regex) : regex := RRep 0 None r.

(** The fewest code units a pattern consumes. *)
Definition rep_min (mn : nat) (mx : option nat) : nat :=
  match mx with Some m => Nat.min mn m | None => mn end.

Fixpoint min_width (r : regex) : nat :=
  match r with
  | REmpty | RWordBoundary => 0
  | RChar _ | RDigit | RSpace => 1
  | RSeq r1 r2 => min_width r1 + min_width r2
  | RAlt r1 r2 => Nat.min (min_width r1) (min_width r2)
  | RRep mn mx r1 => rep_min mn mx * min_width r1
  end.

(** ** The matcher *)

(** A continuation takes the end position of the match so far and returns
    the end of the whole match, or [None] for failure. *)
Definition cont := nat -> option nat.

Section Matcher.
Context (ignoreCase : bool) (input : list N).

(** Character comparison: through [Canonicalize] under the [i] flag. *)
Definition char_eq (p c : N) : bool :=
  if ignoreCase then (canonicalize p =? canonicalize c)%N else (p =? c)%N.

Definition class_matcher (test : N -> bool) (x : nat) (k : cont) : option nat :=
  match input !! x with
  | Some c => if test c then k (S x) else None
  | None => None
  end.

Definition word_at (i : nat) : bool :=
  match input !! i with Some c => is_word_char c | None => false end.

Definition word_before (x : nat) : bool :=
  match x with 0 => false | S j => word_at j end.

(** [\b]: [IsWordChar(e - 1)] differs from [IsWordChar(e)]. *)
Definition is_boundary (x : nat) : bool := xorb (word_before x) (word_at x).

(** [RepeatMatcher(m, min, max, greedy = true, x, c)]: [d] refuses an
    iteration that consumed nothing once [min] is reached. *)
Fixpoint repeat_matcher (m : nat -> cont -> option nat) (k : cont)
    (fuel mn : nat) (mx : option nat) (x : nat) : option nat :=
  match fuel with
  | O => None
  | S fuel' =>
      match mx with
      | Some 0 => k x
      | _ =>
          let d := fun y =>
            if (mn =? 0) && (y =? x) then None
            else repeat_matcher m k fuel' (pred mn) (pred <$> mx) y in
          if mn =? 0 then
            match m x d with Some e => Some e | None => k x end
          else m x d
      end
  end.

Definition rep_fuel (mn : nat) : nat := S mn + length input.

Fixpoint rmatch (r : regex) (x : nat) (k : cont) {struct r} : option nat :=
  match r with
  | REmpty => k x
  | RChar p => class_matcher (char_eq p) x k
  | RDigit => class_matcher is_digit x k
  | RSpace => class_matcher is_js_space x k
  | RWordBoundary => if is_boundary x then k x else None
  | RSeq r1 r2 => rmatch r1 x (fun y => rmatch r2 y k)
  | RAlt r1 r2 =>
      match rmatch r1 x k with Some e => Some e | None => rmatch r2 x k end
  | RRep mn mx r1 => repeat_matcher (rmatch r1) k (rep_fuel mn) mn mx x
  end.

(** The pattern matched at [x] alone: the end of [match[0]]. *)
Definition exec_at (r : regex) (x : nat) : option nat := rmatch r x (fun y => Some y).

(** Try the positions [x], [x + 1], ..., [x + n] in order. *)
Fixpoint search_from (r : regex) (x n : nat) : option (nat * nat) :=
  match exec_at r x with
  | Some e => Some (x, e)
  | None => match n with 0 => None | S n' => search_from r (S x) n' end
  end.

(** [RegExpBuiltinExec] from [lastIndex]: [Some (index, end)] or the
    [null] result.  A non-global pattern starts at [0]. *)
Definition regexp_exec (r : regex) (lastIndex : nat) : option (nat * nat) :=
  if length input <? lastIndex then None
  else search_from r lastIndex (length input - lastIndex).

(** [while ((m = re.exec(s)) !== null) { ... }] for a global pattern:
    each iteration resumes at the previous match's end.  [None] means
    the loop had not finished when the fuel ran out. *)
Fixpoint exec_all (fuel : nat) (r : regex) (lastIndex : nat) : option (list (nat * nat)) :=
  match fuel with
  | O => None
  | S fuel' =>
      match regexp_exec r lastIndex with
      | None => Some []
      | Some (i, e) => cons (i, e) <$> exec_all fuel' r e
      end
  end.

Definition exec_loop (r : regex) : option (list (nat * nat)) :=
  exec_all (S (length input)) r 0.

(** ** Reference search for a disjunction of literals *)

Fixpoint prefix_ci (p s : list N) : bool :=
  match p, s with
  | [], _ => true
  | a :: p', b :: s' => char_eq a b && prefix_ci p' s'
  | _ :: _, [] => false
  end.

Definition lit_at (w : list N) (x : nat) : bool := prefix_ci w (drop x input).

Definition first_lit (ws : list (list N)) (x : nat) : option (list N) :=
  find (fun w => lit_at w x) ws.

(** The leftmost position from [x] where a word matches, and the first
    word of the list that matches there. *)
Fixpoint first_lit_match (ws : list (list N)) (x n : nat) : option (nat * nat) :=
  match first_lit ws x with
  | Some w => Some (x, x + length w)
  | None => match n with 0 => None | S n' => first_lit_match ws (S x) n' end
  end.

(** The matches an [exec] loop collects: each starts at or after the end
    of the previous one and spans at least [w] units of the input. *)
Fixpoint chained (w li : nat) (ms : list (nat * nat)) : Prop :=
  match ms with
  | [] => True
  | (i, e) :: ms' => li <= i /\ i + w <= e <= length input /\ chained w e ms'
  end.

(** ** Properties of the matcher *)

(** A matcher succeeds only through its continuation, at a position at
    least [w] units further and inside the input. *)
Definition within (m : nat -> cont -> option nat) (w : nat) : Prop :=
  forall x k e, x <= length input -> m x k = Some e ->
    exists y, x + w <= y <= length input /\ k y = Some e.

(** A matcher only looks at its continuation inside the input, from its
    start position on. *)
Definition local (m : nat -> cont -> option nat) : Prop :=
  forall x k1 k2, x <= length input ->
    (forall y, x <= y <= length input -> k1 y = k2 y) -> m x k1 = m x k2.

Lemma class_matcher_within (t : N -> bool) : within (class_matcher t) 1.
Proof.
  intros x k e Hx. unfold class_matcher.
  destruct (input !! x) as [c|] eqn:Hc; [|discriminate].
  apply lookup_lt_Some in Hc. destruct (t c); [|discriminate].
  intros H. exists (S x). split; [lia|done].
Qed.

Lemma class_matcher_local (t : N -> bool) : local (class_matcher t).
Proof.
  intros x k1 k2 Hx Hk. unfold class_matcher.
  destruct (input !! x) as [c|] eqn:Hc; [|done].
  apply lookup_lt_Some in Hc. destruct (t c); [|done]. apply Hk. lia.
Qed.

Lemma rep_min_step (mn : nat) (mx : option nat) :
  mn <> 0 -> mx <> Some 0 -> rep_min mn mx = S (rep_min (pred mn) (pred <$> mx)).
Proof. destruct mn, mx as [[|]|]; simpl; lia || congruence. Qed.

Lemma repeat_matcher_within (m : nat -> cont -> option nat) (w : nat) (k : cont) :
  within m w ->
  forall fuel mn mx x e, x <= length input ->
    repeat_matcher m k fuel mn mx x = Some e ->
    exists y, x + rep_min mn mx * w <= y <= length input /\ k y = Some e.
Proof.
  intros Hm fuel. induction fuel as [|f IH]; intros mn mx x e Hx H; [discriminate|].
  simpl in H. destruct mx as [[|m']|].
  1: { exists x. simpl. rewrite Nat.min_0_r. split; [lia|done]. }
  all: destruct mn as [|mn']; simpl in H.
  all: try (destruct (m x _) as [e'|] eqn:Hd; [injection H as <-|exists x; simpl; split; [lia|done]]).
  all: [> apply Hm in Hd as (y & Hy & Hd) | apply Hm in H as (y & Hy & Hd)
       | apply Hm in Hd as (y & Hy & Hd) | apply Hm in H as (y & Hy & Hd)]; try done.
  all: simpl in Hd; try (destruct (y =? x); [discriminate|]); simpl in Hd.
  all: apply IH in Hd as (z & Hz & Hk); [|lia].
  all: exists z; split; [simpl in *; nia|done].
Qed.

Lemma repeat_matcher_local (m : nat -> cont -> option nat) :
  local m ->
  forall fuel mn mx x k1 k2, x <= length input ->
    (forall y, x <= y <= length input -> k1 y = k2 y) ->
    repeat_matcher m k1 fuel mn mx x = repeat_matcher m k2 fuel mn mx x.
Proof.
  intros Hm fuel. induction fuel as [|f IH]; intros mn mx x k1 k2 Hx Hk; [done|].
  simpl. assert (Hmd : m x (fun y => if (mn =? 0) && (y =? x) then None
                                 else repeat_matcher m k1 f (pred mn) (pred <$> mx) y)
                     = m x (fun y => if (mn =? 0) && (y =? x) then None
                                 else repeat_matcher m k2 f (pred mn) (pred <$> mx) y)).
  { apply Hm; [done|]. intros y Hy. destruct (_ && _); [done|].
    apply IH; [lia|]. intros z Hz. apply Hk. lia. }
  destruct mx as [[|m']|]; [apply Hk; lia| |]; rewrite Hmd; destruct (m x _);
    rewrite ?Hk by lia; done.
Qed.

(** The fuel given to [RepeatMatcher] does not matter above
    [S min + (length input - x)]: the recursion of the specification
    terminates within that many steps. *)
Lemma repeat_matcher_fuel (m : nat -> cont -> option nat) (k : cont) :
  local m ->
  forall f1 f2 mn mx x, x <= length input ->
    S mn + (length input - x) <= f1 -> S mn + (length input - x) <= f2 ->
    repeat_matcher m k f1 mn mx x = repeat_matcher m k f2 mn mx x.
Proof.
  intros Hm f1. induction f1 as [|f1 IH]; intros [|f2] mn mx x Hx H1 H2; try lia.
  simpl. assert (Hmd : m x (fun y => if (mn =? 0) && (y =? x) then None
                                 else repeat_matcher m k f1 (pred mn) (pred <$> mx) y)
                     = m x (fun y => if (mn =? 0) && (y =? x) then None
                                 else repeat_matcher m k f2 (pred mn) (pred <$> mx) y)).
  { apply Hm; [done|]. intros y Hy.
    destruct (mn =? 0) eqn:Hmn, (y =? x) eqn:Hyx; simpl; js_bool; try done;
      apply IH; lia. }
  destruct mx as [[|m']|]; [done| |]; by rewrite Hmd.
Qed.

Lemma rmatch_within_local (r : regex) : within (rmatch r) (min_width r) /\ local (rmatch r).
Proof.
  induction r as [| c | | | | r1 [IH1w IH1l] r2 [IH2w IH2l] | r1 [IH1w IH1l] r2 [IH2w IH2l]
                 | mn mx r [IHw IHl]]; cbn [rmatch min_width]; split.
  - intros x k e Hx H. exists x. split; [lia|done].
  - intros x k1 k2 Hx Hk. apply Hk. lia.
  - apply class_matcher_within.
  - apply class_matcher_local.
  - apply class_matcher_within.
  - apply class_matcher_local.
  - apply class_matcher_within.
  - apply class_matcher_local.
  - intros x k e Hx H. destruct (is_boundary x); [|discriminate]. exists x. split; [lia|done].
  - intros x k1 k2 Hx Hk. destruct (is_boundary x); [apply Hk; lia|done].
  - intros x k e Hx H. apply IH1w in H as (y & Hy & H); [|done].
    apply IH2w in H as (z & Hz & H); [|lia]. exists z. split; [lia|done].
  - intros x k1 k2 Hx Hk. apply IH1l; [done|]. intros y Hy.
    apply IH2l; [lia|]. intros z Hz. apply Hk. lia.
  - intros x k e Hx H. destruct (rmatch r1 x k) eqn:E1.
    + injection H as <-. apply IH1w in E1 as (y & Hy & E1); [|done].
      exists y. split; [lia|done].
    + apply IH2w in H as (y & Hy & H); [|done]. exists y. split; [lia|done].
  - intros x k1 k2 Hx Hk. rewrite (IH1l x k1 k2), (IH2l x k1 k2); done.
  - intros x k e Hx H. exact (repeat_matcher_within _ _ k IHw _ mn mx x e Hx H).
  - intros x k1 k2 Hx Hk. by apply repeat_matcher_local.
Qed.

(** The matcher only succeeds by consuming at least [min_width r] code
    units of the input. *)
Lemma rmatch_within (r : regex) : within (rmatch r) (min_width r).
Proof. apply rmatch_within_local. Qed.

Lemma rmatch_local (r : regex) : local (rmatch r).
Proof. apply rmatch_within_local. Qed.

Lemma exec_at_bounds (r : regex) (x e : nat) :
  x <= length input -> exec_at r x = Some e -> x + min_width r <= e <= length input.
Proof.
  intros Hx H. apply rmatch_within in H as (y & Hy & Hk); [|done].
  injection Hk as ->. lia.
Qed.

Lemma search_from_bounds (r : regex) (x n i e : nat) :
  x + n <= length input -> search_from r x n = Some (i, e) ->
  x <= i <= x + n /\ i + min_width r <= e <= length input.
Proof.
  revert x; induction n as [|n IH]; intros x Hx H; simpl in H;
    destruct (exec_at r x) as [e'|] eqn:He.
  all: try (injection H as <- <-; apply exec_at_bounds in He; lia).
  - discriminate.
  - apply IH in H; lia.
Qed.

(** The result of [exec] starts at or after [lastIndex] and spans at
    least [min_width r] code units of the input. *)
Lemma regexp_exec_bounds (r : regex) (li i e : nat) :
  regexp_exec r li = Some (i, e) -> li <= i /\ i + min_width r <= e <= length input.
Proof.
  unfold regexp_exec. destruct (length input <? li) eqn:E; [discriminate|].
  apply Nat.ltb_ge in E. intros H. apply search_from_bounds in H; lia.
Qed.

#[local] Hint Resolve regexp_exec_bounds exec_at_bounds : jsdb.


(** ** Theorems *)

(** Termination of the quantifier loop: the result of
    [RepeatMatcher] is the same for every fuel above
    [S min + (length input - x)]; the fuel the model gives is one of
    them. *)
Theorem repeat_matcher_fuel_irrelevant (r : regex) (mn : nat) (mx : option nat)
    (x : nat) (k : cont) (fuel : nat) :
  x <= length input -> S mn + (length input - x) <= fuel ->
  rmatch (RRep mn mx r) x k = repeat_matcher (rmatch r) k fuel mn mx x.
Proof.
  intros Hx Hf. cbn [rmatch].
  apply repeat_matcher_fuel; [apply rmatch_local|done|unfold rep_fuel; lia|done].
Qed.

Lemma exec_all_step (r : regex) (li i e : nat) :
  1 <= min_width r -> regexp_exec r li = Some (i, e) ->
  li < e <= length input /\ length input - e < length input - li.
Proof. intros Hw H. apply regexp_exec_bounds in H. lia. Qed.

Lemma exec_all_fuel_eq (r : regex) :
  1 <= min_width r ->
  forall f1 f2 li, S (length input - li) <= f1 -> S (length input - li) <= f2 ->
    exec_all f1 r li = exec_all f2 r li.
Proof.
  intros Hw f1. induction f1 as [|f1 IH]; intros [|f2] li H1 H2; try lia.
  simpl. destruct (regexp_exec r li) as [[i e]|] eqn:E; [|done].
  apply exec_all_step in E as [He Hlt]; [|done]. f_equal. apply IH; lia.
Qed.

Lemma exec_all_some (r : regex) :
  1 <= min_width r ->
  forall f li, S (length input - li) <= f -> is_Some (exec_all f r li).
Proof.
  intros Hw f. induction f as [|f IH]; intros li Hf; [lia|].
  simpl. destruct (regexp_exec r li) as [[i e]|] eqn:E; [|by eexists].
  apply exec_all_step in E as [He Hlt]; [|done].
  destruct (IH e) as [ms Hms]; [lia|]. rewrite Hms. by eexists.
Qed.

Lemma exec_all_stable (r : regex) (li : nat) :
  1 <= min_width r ->
  exists ms, forall fuel, S (length input - li) <= fuel -> exec_all fuel r li = Some ms.
Proof.
  intros Hw. destruct (exec_all_some r Hw (S (length input - li)) li) as [ms Hms]; [lia|].
  exists ms. intros fuel Hf. rewrite <- Hms. apply exec_all_fuel_eq; lia.
Qed.

(** The [while (re.exec(s))] loop terminates when the pattern
    cannot match the empty string: [S (length input - lastIndex)]
    iterations suffice, and more iterations give the same list of
    matches. *)
Theorem exec_all_terminates (r : regex) (li : nat) :
  1 <= min_width r ->
  exists ms, forall fuel, S (length input - li) <= fuel -> exec_all fuel r li = Some ms.
Proof. apply exec_all_stable. Qed.

Lemma exec_all_chain (r : regex) (fuel li : nat) (ms : list (nat * nat)) :
  exec_all fuel r li = Some ms -> chained (min_width r) li ms.
Proof.
  revert li ms; induction fuel as [|f IH]; intros li ms H; [discriminate|].
  simpl in H. destruct (regexp_exec r li) as [[i e]|] eqn:E.
  - destruct (exec_all f r e) as [ms'|] eqn:E'; [|discriminate].
    injection H as <-. apply regexp_exec_bounds in E. simpl. split; [lia|].
    split; [lia|]. by apply IH.
  - by injection H as <-.
Qed.

(** The matches of an [exec] loop come left to right, do not
    overlap, lie inside the input and span at least [min_width r] code
    units each. *)
Theorem exec_all_chained (r : regex) (fuel li : nat) (ms : list (nat * nat)) :
  exec_all fuel r li = Some ms -> chained (min_width r) li ms.
Proof. apply exec_all_chain. Qed.

(** With a pattern that matches the empty string at every position
    the same loop never ends: [lastIndex] stays where it is. *)
Theorem exec_all_empty_diverges (r : regex) (li fuel : nat) :
  (forall x, x <= length input -> exec_at r x = Some x) ->
  li <= length input -> exec_all fuel r li = None.
Proof.
  intros Hr Hli. induction fuel as [|f IH]; [done|].
  simpl. unfold regexp_exec.
  destruct (length input <? li) eqn:E; [apply Nat.ltb_lt in E; lia|].
  destruct (length input - li); simpl; rewrite Hr by done; by rewrite IH.
Qed.

Lemma rmatch_lit (w : list N) (x : nat) (k : cont) :
  rmatch (lit w) x k = if lit_at w x then k (x + length w) else None.
Proof.
  revert x; induction w as [|c w IH]; intros x; simpl.
  - unfold lit_at. simpl. by rewrite Nat.add_0_r.
  - unfold class_matcher, lit_at. destruct (input !! x) as [d|] eqn:E.
    + rewrite (drop_S _ _ _ E). simpl. destruct (char_eq c d); [|done].
      rewrite IH. unfold lit_at. by rewrite Nat.add_succ_r.
    + apply lookup_ge_None in E. by rewrite drop_ge.
Qed.

Lemma exec_at_lit_alts (w : list N) (ws : list (list N)) (x : nat) :
  exec_at (lit_alts w ws) x = (fun v => x + length v) <$> first_lit (w :: ws) x.
Proof.
  revert w; induction ws as [|w' ws IH]; intros w; unfold exec_at, first_lit in *; simpl.
  - rewrite rmatch_lit. by destruct (lit_at w x).
  - rewrite rmatch_lit. destruct (lit_at w x); [done|]. apply IH.
Qed.

Lemma search_from_lit_alts (w : list N) (ws : list (list N)) (x n : nat) :
  search_from (lit_alts w ws) x n = first_lit_match (w :: ws) x n.
Proof.
  revert x; induction n as [|n IH]; intros x; cbn [search_from first_lit_match];
    rewrite exec_at_lit_alts; destruct (first_lit (w :: ws) x); simpl; auto.
Qed.

Lemma regexp_exec_lit_alts_eq (w : list N) (ws : list (list N)) (li : nat) :
  regexp_exec (lit_alts w ws) li =
    if length input <? li then None else first_lit_match (w :: ws) li (length input - li).
Proof. unfold regexp_exec. destruct (length input <? li); [done|]. apply search_from_lit_alts. Qed.

(** A disjunction of literal words [w0|w1|...] finds the leftmost
    position where one of them occurs (under the [i] flag: up to
    [Canonicalize]) and, there, the first word of the list: the
    backtracking matcher agrees with the direct search. *)
Theorem regexp_exec_lit_alts (w : list N) (ws : list (list N)) (li : nat) :
  regexp_exec (lit_alts w ws) li =
    if length input <? li then None else first_lit_match (w :: ws) li (length input - li).
Proof. apply regexp_exec_lit_alts_eq. Qed.

(** No word of the disjunction occurs: the search fails. *)
Lemma first_lit_match_none (ws : list (list N)) (x n : nat) :
  (forall w y, In w ws -> lit_at w y = false) -> first_lit_match ws x n = None.
Proof.
  intros Hw. assert (Hf : forall y, first_lit ws y = None).
  { intros y. unfold first_lit. induction ws as [|w ws IH]; simpl; [done|].
    rewrite Hw by (simpl; auto). apply IH. intros. apply Hw; simpl; auto. }
  revert x; induction n as [|n IH]; intros x; simpl; rewrite Hf; auto.
Qed.

(** Past the end of the input every position looks like the end. *)
Lemma lit_at_beyond (w : list N) (x : nat) :
  length input <= x -> lit_at w x = lit_at w (length input).
Proof. intros H. unfold lit_at. by rewrite !drop_ge by lia. Qed.

End Matcher.

#[export] Hint Resolve rmatch_within rmatch_local : jsdb.

(** ** Witnesses *)

#[local] Open Scope string_scope.

Lemma repeat_matcher_fuel_irrelevant_witness :
  (0 <= length (js "123"))%nat /\ (S 0 + (length (js "123") - 0) <= 10)%nat /\
  rmatch false (js "123") (rstar RDigit) 0 (fun y => Some y) =
  repeat_matcher (rmatch false (js "123") RDigit) (fun y => Some y) 10 0 None 0.
Proof.
  assert (H1 : (0 <= length (js "123"))%nat) by (vm_compute; lia).
  assert (H2 : (S 0 + (length (js "123") - 0) <= 10)%nat) by (vm_compute; lia).
  split; [exact H1|split; [exact H2|]].
  exact (repeat_matcher_fuel_irrelevant false (js "123") RDigit 0 None 0 (fun y => Some y) 10 H1 H2).
Defined.

Lemma exec_all_terminates_witness :
  (1 <= min_width (RRep 1 (Some 2) RDigit))%nat /\
  exists ms, forall fuel, (S (length (js "12 345") - 0) <= fuel)%nat ->
    exec_all true (js "12 345") fuel (RRep 1 (Some 2) RDigit) 0 = Some ms.
Proof.
  assert (H : (1 <= min_width (RRep 1 (Some 2) RDigit))%nat) by (vm_compute; lia).
  split; [exact H|exact (exec_all_terminates true (js "12 345") _ 0 H)].
Defined.

Lemma exec_all_chained_witness :
  exec_all true (js "a1b22") 6 (RRep 1 None RDigit) 0 = Some [(1, 2); (3, 5)]%nat /\
  chained (js "a1b22") (min_width (RRep 1 None RDigit)) 0 [(1, 2); (3, 5)]%nat.
Proof.
  assert (H : exec_all true (js "a1b22") 6 (RRep 1 None RDigit) 0 = Some [(1, 2); (3, 5)]%nat)
    by (vm_compute; reflexivity).
  split; [exact H|exact (exec_all_chained _ _ _ _ _ _ H)].
Defined.

Lemma exec_all_empty_diverges_witness :
  (forall x, (x <= length (js "abc"))%nat -> exec_at true (js "abc") (rstar RDigit) x = Some x) /\
  (0 <= length (js "abc"))%nat /\
  exec_all true (js "abc") 100 (rstar RDigit) 0 = None.
Proof.
  assert (H1 : forall x, (x <= length (js "abc"))%nat -> exec_at true (js "abc") (rstar RDigit) x = Some x).
  { intros x Hx. vm_compute in Hx. destruct x as [|[|[|[|x]]]]; try lia; vm_compute; reflexivity. }
  assert (H2 : (0 <= length (js "abc"))%nat) by lia.
  split; [exact H1|split; [exact H2|]].
  exact (exec_all_empty_diverges true (js "abc") _ 0 100 H1 H2).
Defined.
