(* ===== verification/ChatNLP.v ===== *)
(** * Intent and entity extraction ([src/uni-main/src/utils/chatNLP.ts])

    [ChatNLP.extractIntent] lower-cases the message, tests it against the
    patterns of [intentPatterns] in declaration order and keeps the first
    pattern whose [calculateConfidence] is strictly the highest, starting
    from the [general] intent at [0.3].  [ChatNLP.extractEntities] searches
    the lowered message for every keyword of [buildingKeywords] with
    [indexOf], then runs the global time and weekday patterns over the
    original message with an [exec] loop. *)

From Stdlib Require Import String NArith QArith Qminmax List Lia Lqa.
From stdpp Require Import base list options.
From S2P Require Import Prelude Regex.

(** ** Data *)

(** The [type] of an [Entity]: the code only creates these three. *)
Inductive entity_type := EBuilding | ETime | EDay.

#[export] Instance entity_type_eq_dec : EqDecision entity_type.
Proof. solve_decision. Defined.

Record Entity := mkEntity {
  etype : entity_type;
  value : list N;
  start : nat;
  end_ : nat
}.

(** The intent names of [intentPatterns] and the default [general]. *)
Inductive intent_name :=
| Find_building | Get_hours | Get_contact | Get_services | Get_info | General.

#[export] Instance intent_name_eq_dec : EqDecision intent_name.
Proof. solve_decision. Defined.

Record Intent := mkIntent {
  name : intent_name;
  confidence : Q;
  entities : list Entity
}.

(** ** Static tables *)

#[local] Open Scope string_scope.

Definition words (ws : list string) : list (list N) := map js ws.

(** A JavaScript regular-expression literal [/w0|w1|...|wn/i] whose
    alternatives are words. *)
Definition alt_words (ws : list string) : regex :=
  match ws with
  | [] => REmpty
  | w :: ws' => lit_alts (js w) (words ws')
  end.

(** [buildingKeywords], in declaration order (lines 16-23). *)
Definition buildingKeywords : list (list N * list (list N)) := [
  (js "library", words ["library"; "bibliothek"; "books"; "bücher"; "study"; "lernen"; "research"; "forschung"]);
  (js "cafeteria", words ["cafeteria"; "mensa"; "food"; "essen"; "dining"; "restaurant"; "meal"; "mahlzeit"]);
  (js "student-center", words ["student center"; "studierendenzentrum"; "activities"; "aktivitäten"; "organizations"; "organisationen"]);
  (js "visa-services", words ["visa"; "immigration"; "einwanderung"; "permit"; "genehmigung"; "documents"; "dokumente"]);
  (js "administration", words ["administration"; "verwaltung"; "registration"; "anmeldung"; "office"; "büro"]);
  (js "ude-portals", words ["portal"; "online"; "digital"; "moodle"; "website"; "platform"; "plattform"])
].

(** [intentPatterns] (lines 25-46): every pattern is a disjunction of
    words with the [i] flag; [intentPatternWords] lists the words. *)
Definition intentPatternWords : list (intent_name * list (list string)) := [
  (Find_building,
    [["where is"; "wo ist"; "find"; "finden"; "locate"; "lokalisieren"];
     ["how to get to"; "wie komme ich zu"; "direction"; "richtung"]]);
  (Get_hours,
    [["hours"; "öffnungszeiten"; "time"; "zeit"; "open"; "geöffnet"; "close"; "geschlossen"];
     ["when"; "wann"; "schedule"; "zeitplan"]]);
  (Get_contact,
    [["contact"; "kontakt"; "phone"; "telefon"; "email"; "mail"; "address"; "adresse"];
     ["call"; "anrufen"; "reach"; "erreichen"]]);
  (Get_services,
    [["services"; "dienstleistungen"; "what can"; "was kann"; "help"; "hilfe"; "support"; "unterstützung"];
     ["available"; "verfügbar"; "offer"; "anbieten"]]);
  (Get_info,
    [["info"; "information"; "about"; "über"; "tell me"; "erzähl mir"; "explain"; "erklären"];
     ["what is"; "was ist"; "describe"; "beschreiben"]])
].

Definition intentPatterns : list (intent_name * list regex) :=
  map (fun '(intentName, wss) => (intentName, map alt_words wss)) intentPatternWords.

(** [/\b(\d{1,2}):?(\d{2})?\s*(am|pm|uhr)?\b/gi] (line 91). *)
Definition timePattern : regex :=
  RSeq RWordBoundary
    (RSeq (RRep 1 (Some 2) RDigit)
      (RSeq (ropt (RChar 58))
        (RSeq (ropt (RRep 2 (Some 2) RDigit))
          (RSeq (rstar RSpace)
            (RSeq (ropt (alt_words ["am"; "pm"; "uhr"])) RWordBoundary))))).

(** The weekday pattern of line 103, [/\b(monday|...|sonntag)\b/gi]. *)
Definition dayPattern : regex :=
  RSeq RWordBoundary
    (RSeq (alt_words ["monday"; "tuesday"; "wednesday"; "thursday"; "friday"; "saturday";
                      "sunday"; "montag"; "dienstag"; "mittwoch"; "donnerstag"; "freitag";
                      "samstag"; "sonntag"])
      RWordBoundary).

#[local] Close Scope string_scope.

(** ** [extractEntities] (lines 71-115) *)

(** One [indexOf] per keyword on the lowered message: the first
    occurrence only. *)
Definition building_entities (lowerMessage : list N) : list Entity :=
  flat_map (fun '(buildingId, keywords) =>
    omap (fun keyword =>
      (fun index => mkEntity EBuilding buildingId index (index + length keyword))
        <$> index_of lowerMessage (js_toLowerCase keyword)) keywords)
    buildingKeywords.

(** The [while ((m = re.exec(message)) !== null)] loop with [value =
    m[0]], [start = m.index], [end = m.index + m[0].length]. *)
Definition regex_entities (t : entity_type) (r : regex) (message : list N) : list Entity :=
  match exec_loop true message r with
  | Some ms => map (fun '(i, e) => mkEntity t (substring message i e) i e) ms
  | None => []
  end.

Definition extractEntities (message : list N) : list Entity :=
  building_entities (js_toLowerCase message)
  ++ regex_entities ETime timePattern message
  ++ regex_entities EDay dayPattern message.

(** ** [calculateConfidence] (lines 117-137) and [extractIntent] (48-69) *)

Definition Q_of_nat (n : nat) : Q := inject_Z (Z.of_nat n).

(** [a < b] on numbers. *)
Definition Qltb (a b : Q) : bool := negb (Qle_bool b a).

Definition calculateConfidence (message : list N) (pattern : regex) : Q :=
  match regexp_exec true message pattern 0 with
  | None => 0%Q
  | Some (i, e) =>
      let m0 := substring message i e in
      let coverage := (Q_of_nat (length m0) / Q_of_nat (length message))%Q in
      let confidence := ((6 # 10) + coverage * (3 # 10))%Q in
      let confidence := if jsstring_eqb m0 (js_trim message) then (confidence + (2 # 10))%Q
                        else confidence in
      Qmin confidence 1
  end.

Definition general_intent : Intent := mkIntent General (3 # 10) [].

(** One iteration of the inner loop: [if (pattern.test(lowerMessage))],
    then replace [bestIntent] when the confidence is strictly higher. *)
Definition consider (message lowerMessage : list N) (bestIntent : Intent)
    (intentName : intent_name) (pattern : regex) : Intent :=
  if bool_decide (is_Some (regexp_exec true lowerMessage pattern 0)) then
    let c := calculateConfidence lowerMessage pattern in
    if Qltb (confidence bestIntent) c then mkIntent intentName c (extractEntities message)
    else bestIntent
  else bestIntent.

Definition extractIntent (message : list N) : Intent :=
  let lowerMessage := js_toLowerCase message in
  foldl (fun best '(intentName, patterns) =>
           foldl (fun b p => consider message lowerMessage b intentName p) best patterns)
        general_intent intentPatterns.

(** ** Predicates used by the theorems *)

(** What every iteration of [extractIntent]'s loop keeps: the intent is
    the initial [general] one, or a named intent with a confidence in
    [0.6, 1] and the entities of the message. *)
Definition intent_ok (message : list N) (it : Intent) : Prop :=
  it = general_intent \/
  (name it <> General /\ (6 # 10 <= confidence it <= 1)%Q /\ entities it = extractEntities message).

(** The words of all intent patterns, and whether one of them occurs in
    a string at some position (through [Canonicalize]). *)
Definition intent_words : list string := concat (concat (map snd intentPatternWords)).

Definition mentions_intent_word (s : list N) : bool :=
  existsb (fun w => existsb (lit_at true s (js w)) (seq 0 (S (length s)))) intent_words.

(** Entities found by an [exec] loop: left to right, disjoint, non-empty,
    inside the message, and each [value] the text it spans. *)
Fixpoint spans_in_order (message : list N) (from : nat) (es : list Entity) : Prop :=
  match es with
  | [] => True
  | e :: es' =>
      (from <= start e < end_ e)%nat /\ (end_ e <= length message)%nat /\
      value e = substring message (start e) (end_ e) /\ spans_in_order message (end_ e) es'
  end.

(** ** Confidence *)

Lemma Q_of_nat_le (a b : nat) : (a <= b)%nat -> (Q_of_nat a <= Q_of_nat b)%Q.
Proof. intros H. unfold Q_of_nat, Qle. simpl. lia. Qed.

Lemma coverage_bounds (a b : nat) :
  (a <= b)%nat -> (0 <= Q_of_nat a / Q_of_nat b <= 1)%Q.
Proof.
  intros H. destruct b as [|b].
  - assert (a = 0)%nat as -> by lia. split; unfold Q_of_nat, Qdiv, Qle; simpl; lia.
  - assert (Hb : (0 < Q_of_nat (S b))%Q) by (unfold Q_of_nat, Qlt; simpl; lia).
    split.
    + apply Qle_shift_div_l; [done|]. rewrite Qmult_0_l. unfold Q_of_nat, Qle. simpl. lia.
    + apply Qle_shift_div_r; [done|]. rewrite Qmult_1_l. apply Q_of_nat_le. lia.
Qed.

Lemma coverage_full (n : nat) : (0 < n)%nat -> (Q_of_nat n / Q_of_nat n == 1)%Q.
Proof.
  intros H. unfold Qdiv. apply Qmult_inv_r. unfold Q_of_nat, Qeq. simpl. lia.
Qed.

(** The match [calculateConfidence] scores: its coverage is in [0, 1]. *)
Lemma calculateConfidence_cov (message : list N) (pattern : regex) (i e : nat) :
  regexp_exec true message pattern 0 = Some (i, e) ->
  length (substring message i e) = (e - i)%nat /\ (e <= length message)%nat /\
  (0 <= Q_of_nat (length (substring message i e)) / Q_of_nat (length message) <= 1)%Q.
Proof.
  intros H. apply regexp_exec_bounds in H as [_ [Hi He]].
  rewrite substring_length by lia. split; [done|]. split; [lia|].
  apply coverage_bounds. lia.
Qed.

Lemma calculateConfidence_range (message : list N) (pattern : regex) (i e : nat) :
  regexp_exec true message pattern 0 = Some (i, e) ->
  (6 # 10 <= calculateConfidence message pattern <= 1)%Q.
Proof.
  intros H. unfold calculateConfidence. rewrite H.
  apply calculateConfidence_cov in H as (_ & _ & Hc).
  destruct (jsstring_eqb _ _); split; try apply Q.le_min_r; apply Q.min_glb; lra.
Qed.

(** ** The loop of [extractIntent] *)

Lemma intentPatterns_names (nm : intent_name) (ps : list regex) :
  In (nm, ps) intentPatterns -> nm <> General.
Proof.
  unfold intentPatterns. intros [[n wss] [Heq Hin]]%in_map_iff. injection Heq as <- _.
  repeat destruct Hin as [Hin|Hin]; try injection Hin as <- _; done.
Qed.

Lemma consider_ok (message : list N) (b : Intent) (nm : intent_name) (p : regex) :
  nm <> General -> intent_ok message b ->
  intent_ok message (consider message (js_toLowerCase message) b nm p).
Proof.
  intros Hnm Hb. unfold consider. case_bool_decide as Ht; [|done].
  destruct Ht as [[i e] Hie]. destruct (Qltb _ _); [|done].
  right. simpl. split; [done|]. split; [|done]. by eapply calculateConfidence_range.
Qed.

Lemma consider_mono (message lower : list N) (b : Intent) (nm : intent_name) (p : regex) :
  (confidence b <= confidence (consider message lower b nm p))%Q.
Proof.
  unfold consider, Qltb. case_bool_decide; [|apply Qle_refl].
  destruct (Qle_bool _ _) eqn:E; simpl; [apply Qle_refl|].
  apply Qlt_le_weak, Qnot_le_lt. intros Hle. apply Qle_bool_iff in Hle. congruence.
Qed.

Lemma consider_ge (message lower : list N) (b : Intent) (nm : intent_name) (p : regex) :
  is_Some (regexp_exec true lower p 0) ->
  (calculateConfidence lower p <= confidence (consider message lower b nm p))%Q.
Proof.
  intros Ht. unfold consider, Qltb. rewrite bool_decide_eq_true_2 by done.
  destruct (Qle_bool _ _) eqn:E; simpl; [by apply Qle_bool_iff|apply Qle_refl].
Qed.

Lemma extractIntent_ok (message : list N) : intent_ok message (extractIntent message).
Proof.
  unfold extractIntent. apply foldl_invariant; [|by left].
  intros acc [nm ps] Hin Hacc. apply foldl_invariant; [|done].
  intros b p _ Hb. apply consider_ok; [by eapply intentPatterns_names|done].
Qed.

Lemma intentPatternWords_nonempty (nm : intent_name) (wss : list (list string)) (ws : list string) :
  In (nm, wss) intentPatternWords -> In ws wss -> ws <> [].
Proof.
  intros Hin Hws. repeat destruct Hin as [Hin|Hin]; try injection Hin as <- <-; try done;
    repeat destruct Hws as [Hws|Hws]; subst; done.
Qed.

(** A disjunction of words none of which occurs never matches. *)
Lemma alt_words_no_match (s : list N) (ws : list string) :
  ws <> [] -> (forall w x, In w ws -> lit_at true s (js w) x = false) ->
  regexp_exec true s (alt_words ws) 0 = None.
Proof.
  intros Hne Hw. destruct ws as [|w0 ws]; [done|]. simpl.
  rewrite regexp_exec_lit_alts_eq. destruct (length s <? 0); [done|].
  apply first_lit_match_none. intros w y Hin. simpl in Hin.
  destruct Hin as [<-|Hin]; [apply Hw; simpl; auto|].
  unfold words in Hin. apply in_map_iff in Hin as [w' [<- Hw']]. apply Hw. simpl. auto.
Qed.

(** ** Theorems about [extractIntent] *)

(** C2: [extractIntent] returns either the initial [general] intent
    (confidence 0.3, no entities), or one of the five named intents with
    a confidence between 0.6 and 1 whose entities are exactly
    [extractEntities] of the message. *)
Theorem extractIntent_shape (message : list N) :
  extractIntent message = general_intent \/
  (name (extractIntent message) <> General /\
   (6 # 10 <= confidence (extractIntent message) <= 1)%Q /\
   entities (extractIntent message) = extractEntities message).
Proof. apply extractIntent_ok. Qed.


Lemma mentions_intent_word_false (s : list N) (nm : intent_name) (wss : list (list string))
    (ws : list string) (w : string) (x : nat) :
  mentions_intent_word s = false -> In (nm, wss) intentPatternWords -> In ws wss -> In w ws ->
  lit_at true s (js w) x = false.
Proof.
  intros H Hin Hws Hw. unfold mentions_intent_word in H.
  assert (Hwi : In w intent_words).
  { unfold intent_words. apply in_concat. exists ws. split; [|done].
    apply in_concat. exists wss. split; [|done]. apply in_map_iff. by exists (nm, wss). }
  eapply existsb_false_forall in H; [|exact Hwi]. cbv beta in H.
  destruct (decide (x <= length s)) as [Hx|Hx].
  - apply (existsb_false_forall _ _ H). apply in_seq. lia.
  - rewrite lit_at_beyond by lia. apply (existsb_false_forall _ _ H). apply in_seq. lia.
Qed.

(** When no word of any intent pattern occurs in the lowered message
    (compared through [Canonicalize], as the [i] flag does),
    [extractIntent] returns [general] with confidence 0.3 and no
    entities. *)
Theorem extractIntent_default (message : list N) :
  mentions_intent_word (js_toLowerCase message) = false ->
  extractIntent message = general_intent.
Proof.
  intros Hno. unfold extractIntent. apply foldl_invariant; [|done].
  intros acc [nm ps] Hin ->. apply foldl_invariant; [|done].
  intros b p Hp ->. unfold consider. rewrite bool_decide_eq_false_2; [done|].
  unfold intentPatterns in Hin. apply in_map_iff in Hin as [[n wss] [Heq Hin]].
  injection Heq as <- <-. apply in_map_iff in Hp as [ws [<- Hws]].
  rewrite alt_words_no_match; [by intros [? ?]|by eapply intentPatternWords_nonempty|].
  intros w x Hw. by eapply mentions_intent_word_false.
Qed.

(** C3: The highest confidence wins: for every pattern of every intent
    that matches the lowered message, its confidence is at most the one
    [extractIntent] returns. *)
Theorem extractIntent_max (message : list N) (nm : intent_name) (ps : list regex) (p : regex) :
  In (nm, ps) intentPatterns -> In p ps ->
  is_Some (regexp_exec true (js_toLowerCase message) p 0) ->
  (calculateConfidence (js_toLowerCase message) p <= confidence (extractIntent message))%Q.
Proof.
  intros Hin Hp Ht. unfold extractIntent.
  set (P := fun b : Intent => (calculateConfidence (js_toLowerCase message) p <= confidence b)%Q).
  assert (Hkeep : forall b q nm', P b -> P (consider message (js_toLowerCase message) b nm' q)).
  { intros b q nm' Hb. eapply Qle_trans; [apply Hb|apply consider_mono]. }
  apply (foldl_establish _ P _ _ (nm, ps)); [done| |].
  - intros acc. apply (foldl_establish _ P _ _ p); [done| |].
    + intros b. by apply consider_ge.
    + intros b q. apply Hkeep.
  - intros acc [nm' ps'] Hacc. apply foldl_invariant; [|done]. intros b q _. apply Hkeep.
Qed.

(** The exact-match bonus: a pattern matching the whole of a
    non-empty message with no surrounding white space scores 1, while any
    match that is not the trimmed message scores at most 0.9. *)
Theorem calculateConfidence_exact_match (p : regex) (s t : list N) (i e : nat) :
  s <> [] -> js_trim s = s -> regexp_exec true s p 0 = Some (0, length s) ->
  regexp_exec true t p 0 = Some (i, e) -> substring t i e <> js_trim t ->
  (calculateConfidence t p <= 9 # 10 < calculateConfidence s p)%Q.
Proof.
  intros Hs Htrim Hms Hmt Hne. split.
  - unfold calculateConfidence. rewrite Hmt. apply calculateConfidence_cov in Hmt as (_ & _ & Hc).
    unfold jsstring_eqb. rewrite bool_decide_eq_false_2 by done.
    eapply Qle_trans; [apply Q.le_min_l|]. lra.
  - unfold calculateConfidence. rewrite Hms.
    assert (Hsub : substring s 0 (length s) = s).
    { unfold substring. rewrite drop_0, Nat.sub_0_r. apply take_ge. lia. }
    rewrite Hsub. unfold jsstring_eqb. rewrite bool_decide_eq_true_2 by done.
    assert (Hcov := coverage_full (length s) ltac:(destruct s; [done|simpl; lia])).
    apply Q.min_glb_lt; [|reflexivity].
    rewrite Hcov. reflexivity.
Qed.

(** The exact-match bonus is computed on the trimmed message while
    the coverage divides by the untrimmed length, so white space around a
    message that is exactly a pattern word lowers its score below the one
    of a mere substring match: ["hours"] followed by forty spaces scores
    less than ["hours!"]. *)
Theorem calculateConfidence_padding_counterexample :
  let hours := alt_words ["hours"; "öffnungszeiten"; "time"; "zeit"; "open"; "geöffnet";
                          "close"; "geschlossen"]%string in
  In (Get_hours, [hours; alt_words ["when"; "wann"; "schedule"; "zeitplan"]%string]) intentPatterns /\
  (calculateConfidence (js "hours" ++ repeat 32%N 40) hours
     < calculateConfidence (js "hours!") hours)%Q.
Proof. split; [simpl; auto|vm_compute; reflexivity]. Qed.

(** ** Theorems about [extractEntities] *)

Lemma keywords_lowercase (bid : list N) (kws : list (list N)) (k : list N) :
  In (bid, kws) buildingKeywords -> In k kws -> js_toLowerCase k = k.
Proof.
  intros Hb Hk.
  assert (Hall : forallb (fun '(_, ks) => forallb (fun k => jsstring_eqb (js_toLowerCase k) k) ks)
                   buildingKeywords = true) by (vm_compute; reflexivity).
  rewrite forallb_forall in Hall. specialize (Hall _ Hb). cbv beta iota in Hall.
  rewrite forallb_forall in Hall. specialize (Hall _ Hk). unfold jsstring_eqb in Hall.
  by case_bool_decide.
Qed.

Lemma in_building_entities (lower : list N) (e : Entity) :
  In e (building_entities lower) <->
  exists bid kws k i, In (bid, kws) buildingKeywords /\ In k kws /\
    index_of lower k = Some i /\ e = mkEntity EBuilding bid i (i + length k).
Proof.
  unfold building_entities. rewrite in_flat_map. split.
  - intros [[bid kws] [Hb He]]. apply list_elem_of_In, list_elem_of_omap in He as [k [Hk He]].
    apply list_elem_of_In in Hk. rewrite (keywords_lowercase bid kws k) in He by done.
    destruct (index_of lower k) as [i|] eqn:Ei; [|discriminate].
    injection He as <-. by exists bid, kws, k, i.
  - intros (bid & kws & k & i & Hb & Hk & Hi & ->). exists (bid, kws). split; [done|].
    apply list_elem_of_In, list_elem_of_omap. exists k. split; [by apply list_elem_of_In|].
    by rewrite (keywords_lowercase bid kws k), Hi.
Qed.

Lemma regex_entities_type (t : entity_type) (r : regex) (message : list N) (e : Entity) :
  In e (regex_entities t r message) -> etype e = t.
Proof.
  unfold regex_entities. destruct (exec_loop _ _ _); [|done].
  intros [[i j] [<- _]]%in_map_iff. done.
Qed.

(** C4: Building keywords round trip: if a keyword [k] of building [b]
    occurs in the lowered message (its first occurrence at [i]),
    [extractEntities] reports a building entity [b] spanning [i] to
    [i + length k]; in particular a message that is just [k] yields
    [{type: building, value: b, start: 0, end: length k}]. *)
Theorem extractEntities_keyword (message bid k : list N) (kws : list (list N)) (i : nat) :
  In (bid, kws) buildingKeywords -> In k kws -> index_of (js_toLowerCase message) k = Some i ->
  In (mkEntity EBuilding bid i (i + length k)) (extractEntities message).
Proof.
  intros Hb Hk Hi. unfold extractEntities. apply in_or_app. left.
  apply in_building_entities. by exists bid, kws, k, i.
Qed.

(** C5: Every building entity names a building of [buildingKeywords] and
    spans one of its keywords in the lowered message. *)
Theorem extractEntities_building_spans (message : list N) (e : Entity) :
  In e (extractEntities message) -> etype e = EBuilding ->
  exists kws, In (value e, kws) buildingKeywords /\
    In (substring (js_toLowerCase message) (start e) (end_ e)) kws.
Proof.
  unfold extractEntities. intros [He|[He|He]%in_app_or]%in_app_or Ht.
  - apply in_building_entities in He as (bid & kws & k & i & Hb & Hk & Hi & ->).
    exists kws. simpl. split; [done|].
    apply index_of_spec in Hi as [t Ht']. by rewrite (substring_app _ _ t).
  - apply regex_entities_type in He. congruence.
  - apply regex_entities_type in He. congruence.
Qed.

Lemma chained_spans (t : entity_type) (message : list N) (w li : nat) (ms : list (nat * nat)) :
  (1 <= w)%nat -> chained message w li ms ->
  spans_in_order message li (map (fun '(i, e) => mkEntity t (substring message i e) i e) ms).
Proof.
  revert li; induction ms as [|[i e] ms IH]; intros li Hw Hc; simpl in *; [done|].
  destruct Hc as (Hi & He & Hc). split; [lia|]. split; [lia|]. split; [done|]. by apply IH.
Qed.

Lemma time_day_width : min_width timePattern = 1%nat /\ min_width dayPattern = 6%nat.
Proof. split; vm_compute; reflexivity. Qed.

(** C7: The [while (re.exec(message))] loops of [extractEntities]
    terminate on every message: the time and weekday patterns cannot
    match the empty string, so [S (length message)] iterations suffice
    and more change nothing. *)
Theorem extractEntities_loops_terminate (message : list N) :
  (exists ms, forall fuel, (S (length message) <= fuel)%nat ->
     exec_all true message fuel timePattern 0 = Some ms) /\
  (exists ms, forall fuel, (S (length message) <= fuel)%nat ->
     exec_all true message fuel dayPattern 0 = Some ms).
Proof.
  destruct time_day_width as [Ht Hd].
  split; (edestruct exec_all_stable as [ms Hms]; [|exists ms; intros fuel Hf; apply Hms; lia]);
    [rewrite Ht|rewrite Hd]; lia.
Qed.

(** C6: Time and weekday entities are reported left to right without
    overlap; each is non-empty, lies inside the message and its [value]
    is the text between [start] and [end]. *)
Theorem extractEntities_time_day_spans (message : list N) :
  spans_in_order message 0 (regex_entities ETime timePattern message) /\
  spans_in_order message 0 (regex_entities EDay dayPattern message).
Proof.
  destruct time_day_width as [Ht Hd].
  split; unfold regex_entities; destruct (exec_loop _ _ _) as [ms|] eqn:E; try done;
    apply exec_all_chain in E; (eapply chained_spans; [|exact E]); lia.
Qed.

Lemma length_omap {A B} (f : A -> option B) (l : list A) : (length (omap f l) <= length l)%nat.
Proof. induction l as [|x l IH]; [simpl; lia|]. cbn. destruct (f x); cbn; fold (omap f l); lia. Qed.

(** [indexOf] reports one occurrence per keyword, so a message
    yields at most one building entity per keyword of the table (37 in
    all), however often the keywords occur. *)
Theorem building_entities_bound (message : list N) :
  (length (building_entities (js_toLowerCase message))
     <= length (concat (map snd buildingKeywords)))%nat.
Proof.
  unfold building_entities. generalize buildingKeywords as tbl.
  induction tbl as [|[bid kws] tbl IH]; simpl; [lia|].
  rewrite !length_app. pose proof (length_omap
    (fun keyword => (fun index => mkEntity EBuilding bid index (index + length keyword))
                      <$> index_of (js_toLowerCase message) (js_toLowerCase keyword)) kws). lia.
Qed.

(** Only the first occurrence of a keyword counts: ["library
    library"] yields a single building entity, where the specification
    asks for one per occurrence. *)
Theorem extractEntities_first_occurrence_only :
  extractEntities (js "library library") = [mkEntity EBuilding (js "library") 0 7].
Proof. vm_compute. reflexivity. Qed.

(** The time pattern accepts a bare number of up to four digits
    ([\d{1,2}] then an optional [\d{2}] without the colon), so the year in
    ["Room 2024"] is reported as a time, beyond the [H] / [H:MM] shapes
    the specification describes. *)
Theorem extractEntities_time_four_digits :
  extractEntities (js "Room 2024") = [mkEntity ETime (js "2024") 5 9].
Proof. vm_compute. reflexivity. Qed.

(** Building offsets index the lowered message, which can be longer
    than the message: U+0130 lowers to two code units, so in
    ["İ library"] the entity spans 3 to 10 while ["library"] sits at 2 to
    9 of the message itself. *)
Theorem extractEntities_offsets_lowered :
  In (mkEntity EBuilding (js "library") 3 10) (extractEntities (js "İ library")) /\
  substring (js "İ library") 3 10 <> js "library" /\
  substring (js "İ library") 2 9 = js "library".
Proof. split; [vm_compute; auto|split; [vm_compute; congruence|vm_compute; reflexivity]]. Qed.

(** The spec's scenario ["contact info monday 14:00"]: one time and
    one weekday entity, but the time entity comes first, since all time
    matches precede all weekday matches whatever their positions. *)
Theorem extractEntities_contact_scenario :
  extractEntities (js "contact info monday 14:00") =
    [mkEntity ETime (js "14:00") 20 25; mkEntity EDay (js "monday") 13 19] /\
  name (extractIntent (js "contact info monday 14:00")) = Get_contact.
Proof. split; vm_compute; reflexivity. Qed.

(** Building entities carry a building identifier of the table. *)
Lemma extractEntities_building_ids (message : list N) (e : Entity) :
  In e (extractEntities message) -> etype e = EBuilding -> In (value e) (map fst buildingKeywords).
Proof.
  unfold extractEntities. intros [He|[He|He]%in_app_or]%in_app_or Ht.
  - apply in_building_entities in He as (bid & kws & k & i & Hb & Hk & Hi & ->).
    apply in_map_iff. by exists (bid, kws).
  - apply regex_entities_type in He. congruence.
  - apply regex_entities_type in He. congruence.
Qed.

(** ** Witnesses *)

Lemma extractIntent_max_witness :
  let m := js "Where is the library?" in
  let ps := snd (hd (General, []) intentPatterns) in
  let p := hd REmpty ps in
  In (Find_building, ps) intentPatterns /\ In p ps /\
  is_Some (regexp_exec true (js_toLowerCase m) p 0) /\
  (calculateConfidence (js_toLowerCase m) p <= confidence (extractIntent m))%Q.
Proof.
  intros m ps p.
  assert (H1 : In (Find_building, ps) intentPatterns) by (vm_compute; left; reflexivity).
  assert (H2 : In p ps) by (vm_compute; left; reflexivity).
  assert (H3 : is_Some (regexp_exec true (js_toLowerCase m) p 0)) by (vm_compute; eexists; reflexivity).
  split; [exact H1|split; [exact H2|split; [exact H3|]]].
  exact (extractIntent_max m Find_building ps p H1 H2 H3).
Defined.

Lemma extractIntent_default_witness :
  mentions_intent_word (js_toLowerCase (js "asdkjasd")) = false /\
  extractIntent (js "asdkjasd") = general_intent.
Proof.
  assert (H : mentions_intent_word (js_toLowerCase (js "asdkjasd")) = false) by (vm_compute; reflexivity).
  split; [exact H|exact (extractIntent_default _ H)].
Defined.

Lemma calculateConfidence_exact_match_witness :
  let p := hd REmpty (snd (hd (General, []) (tail intentPatterns))) in
  let s := js "hours" in
  let t := js "the hours" in
  s <> [] /\ js_trim s = s /\ regexp_exec true s p 0 = Some (0%nat, length s) /\
  regexp_exec true t p 0 = Some (4%nat, 9%nat) /\ substring t 4 9 <> js_trim t /\
  (calculateConfidence t p <= 9 # 10 < calculateConfidence s p)%Q.
Proof.
  intros p s t.
  assert (H1 : s <> []) by discriminate.
  assert (H2 : js_trim s = s) by (vm_compute; reflexivity).
  assert (H3 : regexp_exec true s p 0 = Some (0%nat, length s)) by (vm_compute; reflexivity).
  assert (H4 : regexp_exec true t p 0 = Some (4%nat, 9%nat)) by (vm_compute; reflexivity).
  assert (H5 : substring t 4 9 <> js_trim t) by (vm_compute; congruence).
  repeat (split; [assumption|]).
  exact (calculateConfidence_exact_match p s t 4 9 H1 H2 H3 H4 H5).
Defined.

Lemma extractEntities_keyword_witness :
  let m := js "Wo sind die Bücher?" in
  let row := hd ([], []) buildingKeywords in
  In row buildingKeywords /\ In (js "bücher") (snd row) /\
  index_of (js_toLowerCase m) (js "bücher") = Some 12%nat /\
  In (mkEntity EBuilding (js "library") 12 (12 + length (js "bücher"))) (extractEntities m).
Proof.
  intros m row.
  assert (H1 : In (fst row, snd row) buildingKeywords) by (vm_compute; left; reflexivity).
  assert (H2 : In (js "bücher") (snd row)) by (vm_compute; auto 10).
  assert (H3 : index_of (js_toLowerCase m) (js "bücher") = Some 12%nat) by (vm_compute; reflexivity).
  split; [exact H1|split; [exact H2|split; [exact H3|]]].
  exact (extractEntities_keyword m (fst row) (js "bücher") (snd row) 12 H1 H2 H3).
Defined.

Lemma extractEntities_building_spans_witness :
  let m := js "Where is the library?" in
  let e := mkEntity EBuilding (js "library") 13 20 in
  In e (extractEntities m) /\ etype e = EBuilding /\
  exists kws, In (value e, kws) buildingKeywords /\
    In (substring (js_toLowerCase m) (start e) (end_ e)) kws.
Proof.
  intros m e.
  assert (H1 : In e (extractEntities m)) by (vm_compute; left; reflexivity).
  split; [exact H1|split; [reflexivity|]].
  exact (extractEntities_building_spans m e H1 eq_refl).
Defined.
