(* ===== verification/ChatResponse.v ===== *)
(** * Response generation ([ChatNLP.generateContextualResponse])

    [generateContextualResponse] (chatNLP.ts, lines 139-182) dispatches on
    the intent name; for the five named intents it answers about the first
    building entity when there is one, through a helper that looks the
    building up in a per-language template table and falls back to the
    library's text ([responses[language][buildingId] ||
    responses[language].library]).  [EnhancedAIAssistant.tsx]
    ([generateEnhancedResponse], lines 75-78) composes [extractIntent],
    [extractEntities] and this function. *)

From Stdlib Require Import String Ascii NArith QArith List.
From stdpp Require Import base list options.
From S2P Require Import Prelude Regex ChatNLP.

(** ** Data *)

Record QuickAction := mkQuickAction {
  qa_id : string;
  qa_label : string;
  qa_buildingId : option (list N)
}.

Record Response := mkResponse {
  response : string;
  suggestions : list string;
  quickActions : list QuickAction
}.

#[local] Open Scope string_scope.

(** Lines of a multi-line template, joined with ["\n"]. *)
Definition nl : string := String (ascii_of_nat 10) EmptyString.

Fixpoint lines (ls : list string) : string :=
  match ls with
  | [] => EmptyString
  | [l] => l
  | l :: ls' => l ++ nl ++ lines ls'
  end.

(** A template table keyed by building identifier. *)
Definition template_table := list (list N * string).

Definition obj_get (tbl : template_table) (key : list N) : option string :=
  snd <$> find (fun '(k, _) => bool_decide (k = key)) tbl.

(** [tbl[buildingId] || tbl.library]: a missing or empty entry falls back
    to the library's text. *)
Definition lookup_or_library (tbl : template_table) (buildingId : list N) : string :=
  match obj_get tbl buildingId with
  | Some s => if String.eqb s EmptyString then default EmptyString (obj_get tbl (js "library")) else s
  | None => default EmptyString (obj_get tbl (js "library"))
  end.

Definition visit_action (language : language) (buildingId : list N) : QuickAction :=
  mkQuickAction "visit" (by_lang language "Visit Building" "Gebäude besuchen") (Some buildingId).

(** ** Building helpers (lines 184-296) *)

Definition directions_table (language : language) : template_table :=
  match language with
  | En => [
      (js "library", "The Central Library is located in the main campus area. I can show you the exact location!");
      (js "cafeteria", "The Cafeteria/Mensa is in the central dining area. Let me guide you there!");
      (js "student-center", "The Student Center is the heart of campus life. I'll show you the way!");
      (js "visa-services", "Visa Services are in the international student support building. Here's the location!");
      (js "administration", "The Administration Building handles all central services. I can direct you there!");
      (js "ude-portals", "UDE Portals are accessible online, but I can show you computer labs and help centers!")]
  | De => [
      (js "library", "Die Zentralbibliothek befindet sich im Hauptcampusbereich. Ich kann Ihnen den genauen Standort zeigen!");
      (js "cafeteria", "Die Cafeteria/Mensa befindet sich im zentralen Essensbereich. Lassen Sie mich Sie dorthin führen!");
      (js "student-center", "Das Studierendenzentrum ist das Herz des Campus-Lebens. Ich zeige Ihnen den Weg!");
      (js "visa-services", "Die Visa-Services befinden sich im Gebäude für internationale Studierendenbetreuung. Hier ist der Standort!");
      (js "administration", "Das Verwaltungsgebäude übernimmt alle zentralen Dienstleistungen. Ich kann Sie dorthin leiten!");
      (js "ude-portals", "UDE-Portale sind online zugänglich, aber ich kann Ihnen Computerlabore und Hilfezentren zeigen!")]
  end.

Definition getBuildingDirections (buildingId : list N) (language : language) : Response :=
  mkResponse (lookup_or_library (directions_table language) buildingId)
    (by_lang language ["Show on map"; "Get directions"; "Building hours"; "Contact info"]
                      ["Auf Karte zeigen"; "Wegbeschreibung"; "Öffnungszeiten"; "Kontakt-Info"])
    [visit_action language buildingId].

Definition hours_table (language : language) : template_table :=
  match language with
  | En => [
      (js "library", lines ["Library Hours:"; "📚 Monday-Friday: 8AM-10PM"; "📚 Saturday: 9AM-8PM"; "📚 Sunday: 10AM-6PM"]);
      (js "cafeteria", lines ["Cafeteria Hours:"; "🍽️ Monday-Friday: 11AM-3PM"; "🍽️ Saturday: 12PM-2PM"; "🍽️ Sunday: Closed"]);
      (js "student-center", lines ["Student Center Hours:"; "👥 Monday-Friday: 8AM-8PM"; "👥 Saturday: 10AM-4PM"; "👥 Sunday: Closed"]);
      (js "visa-services", lines ["Visa Services Hours:"; "📋 Monday-Friday: 9AM-4PM"; "📋 Weekends: Closed"]);
      (js "administration", lines ["Administration Hours:"; "🏢 Monday-Thursday: 8AM-4PM"; "🏢 Friday: 8AM-2PM"; "🏢 Weekends: Closed"]);
      (js "ude-portals", lines ["Digital Services:"; "💻 Available 24/7 online"; "💻 IT Support: Monday-Friday 8AM-6PM"])]
  | De => [
      (js "library", lines ["Bibliothekszeiten:"; "📚 Montag-Freitag: 8-22 Uhr"; "📚 Samstag: 9-20 Uhr"; "📚 Sonntag: 10-18 Uhr"]);
      (js "cafeteria", lines ["Cafeteria-Zeiten:"; "🍽️ Montag-Freitag: 11-15 Uhr"; "🍽️ Samstag: 12-14 Uhr"; "🍽️ Sonntag: Geschlossen"]);
      (js "student-center", lines ["Studierendenzentrum-Zeiten:"; "👥 Montag-Freitag: 8-20 Uhr"; "👥 Samstag: 10-16 Uhr"; "👥 Sonntag: Geschlossen"]);
      (js "visa-services", lines ["Visa-Services-Zeiten:"; "📋 Montag-Freitag: 9-16 Uhr"; "📋 Wochenenden: Geschlossen"]);
      (js "administration", lines ["Verwaltungszeiten:"; "🏢 Montag-Donnerstag: 8-16 Uhr"; "🏢 Freitag: 8-14 Uhr"; "🏢 Wochenenden: Geschlossen"]);
      (js "ude-portals", lines ["Digitale Services:"; "💻 24/7 online verfügbar"; "💻 IT-Support: Montag-Freitag 8-18 Uhr"])]
  end.

Definition getBuildingHours (buildingId : list N) (language : language) : Response :=
  mkResponse (lookup_or_library (hours_table language) buildingId)
    (by_lang language ["Visit building"; "Contact info"; "Services available"]
                      ["Gebäude besuchen"; "Kontakt-Info"; "Verfügbare Services"])
    [visit_action language buildingId].

Definition getBuildingContact (buildingId : list N) (language : language) : Response :=
  mkResponse
    (by_lang language
      "Contact information for this building is available. I can show you the specific contact details and help you get in touch with the right department."
      "Kontaktinformationen für dieses Gebäude sind verfügbar. Ich kann Ihnen die spezifischen Kontaktdaten zeigen und Ihnen helfen, mit der richtigen Abteilung in Kontakt zu treten.")
    (by_lang language ["Visit building"; "General contact"; "Emergency contact"]
                      ["Gebäude besuchen"; "Allgemeiner Kontakt"; "Notfallkontakt"])
    [visit_action language buildingId].

Definition getBuildingServices (buildingId : list N) (language : language) : Response :=
  mkResponse
    (by_lang language
      "This building offers various services to support your academic journey. I can show you detailed information about all available services and how to access them."
      "Dieses Gebäude bietet verschiedene Services zur Unterstützung Ihrer akademischen Laufbahn. Ich kann Ihnen detaillierte Informationen über alle verfügbaren Services und deren Zugang zeigen.")
    (by_lang language ["Visit building"; "Service hours"; "How to access"]
                      ["Gebäude besuchen"; "Service-Zeiten"; "Zugang"])
    [visit_action language buildingId].

Definition getBuildingInfo (buildingId : list N) (language : language) : Response :=
  mkResponse
    (by_lang language
      "I can provide comprehensive information about this building, including its services, hours, location, and how it can support your university experience."
      "Ich kann umfassende Informationen über dieses Gebäude bereitstellen, einschließlich seiner Services, Öffnungszeiten, Lage und wie es Ihre Universitätserfahrung unterstützen kann.")
    (by_lang language ["Visit building"; "Building hours"; "Available services"; "Contact info"]
                      ["Gebäude besuchen"; "Öffnungszeiten"; "Verfügbare Services"; "Kontakt-Info"])
    [visit_action language buildingId].

(** ** General helpers (lines 298-368) *)

Definition getGeneralDirections (language : language) : Response :=
  mkResponse
    (by_lang language
      "I can help you find any building on campus! Which specific building or service are you looking for?"
      "Ich kann Ihnen helfen, jedes Gebäude auf dem Campus zu finden! Welches spezifische Gebäude oder welchen Service suchen Sie?")
    (by_lang language ["Library"; "Cafeteria"; "Student Center"; "Administration"]
                      ["Bibliothek"; "Cafeteria"; "Studierendenzentrum"; "Verwaltung"])
    [].

Definition getGeneralHours (language : language) : Response :=
  mkResponse
    (by_lang language
      "I can provide operating hours for all campus buildings and services. Which specific building's hours would you like to know?"
      "Ich kann Öffnungszeiten für alle Campus-Gebäude und Services bereitstellen. Welche spezifischen Gebäude-Zeiten möchten Sie wissen?")
    (by_lang language ["Library hours"; "Cafeteria hours"; "Administration hours"; "All hours"]
                      ["Bibliothekszeiten"; "Cafeteria-Zeiten"; "Verwaltungszeiten"; "Alle Zeiten"])
    [].

Definition getGeneralContact (language : language) : Response :=
  mkResponse
    (by_lang language
      (lines ["Contact Information:"; EmptyString; "📞 Main Campus: +49 203 379-0";
              "📧 General Info: info@uni-due.de"; "🌐 Website: www.uni-due.de";
              "📍 Campus Essen: Universitätsstraße 2, 45141 Essen";
              "📍 Campus Duisburg: Forsthausweg 2, 47057 Duisburg"])
      (lines ["Kontaktinformationen:"; EmptyString; "📞 Hauptcampus: +49 203 379-0";
              "📧 Allgemeine Info: info@uni-due.de"; "🌐 Website: www.uni-due.de";
              "📍 Campus Essen: Universitätsstraße 2, 45141 Essen";
              "📍 Campus Duisburg: Forsthausweg 2, 47057 Duisburg"]))
    (by_lang language ["Emergency contact"; "Department contacts"; "IT support"]
                      ["Notfallkontakt"; "Abteilungskontakte"; "IT-Support"])
    [].

Definition getGeneralServices (language : language) : Response :=
  mkResponse
    (by_lang language
      "I can help you with information about all campus services including academic support, dining, student life, administrative services, and digital platforms. What specific service are you interested in?"
      "Ich kann Ihnen mit Informationen über alle Campus-Services helfen, einschließlich akademischer Unterstützung, Gastronomie, Studentenleben, Verwaltungsservices und digitaler Plattformen. Welcher spezifische Service interessiert Sie?")
    (by_lang language ["Academic services"; "Student support"; "Dining options"; "Digital services"]
                      ["Akademische Services"; "Studierendenunterstützung"; "Speisemöglichkeiten"; "Digitale Services"])
    [].

Definition getGeneralInfo (language : language) : Response :=
  mkResponse
    (by_lang language
      "I'm your UDE Campus Assistant! I can provide information about buildings, services, hours, contact details, and help you navigate campus life. What would you like to know about?"
      "Ich bin Ihr UDE Campus-Assistent! Ich kann Informationen über Gebäude, Services, Öffnungszeiten, Kontaktdaten bereitstellen und Ihnen helfen, sich im Campus-Leben zurechtzufinden. Was möchten Sie wissen?")
    (by_lang language ["Campus buildings"; "Student services"; "Operating hours"; "Contact information"]
                      ["Campus-Gebäude"; "Studierendenservices"; "Öffnungszeiten"; "Kontaktinformationen"])
    [].

Definition getDefaultResponse (language : language) : Response :=
  mkResponse
    (by_lang language
      "I'm here to help you navigate UDE campus! I can provide information about buildings, services, hours, and more. What would you like to know?"
      "Ich bin hier, um Ihnen bei der Navigation auf dem UDE-Campus zu helfen! Ich kann Informationen über Gebäude, Services, Öffnungszeiten und mehr bereitstellen. Was möchten Sie wissen?")
    (by_lang language ["Find buildings"; "Campus hours"; "Contact info"; "Student services"]
                      ["Gebäude finden"; "Campus-Zeiten"; "Kontakt-Info"; "Studierendenservices"])
    [].

#[local] Close Scope string_scope.

(** ** Dispatch (lines 139-182) and the assistant's pipeline *)

(** [entities.find(e => e.type === t)] *)
Definition find_entity (t : entity_type) (es : list Entity) : option Entity :=
  find (fun e => bool_decide (etype e = t)) es.

Definition generateContextualResponse (intent : Intent) (entities : list Entity)
    (language : language) : Response :=
  let buildingEntity := find_entity EBuilding entities in
  match name intent with
  | Find_building =>
      match buildingEntity with
      | Some b => getBuildingDirections (value b) language
      | None => getGeneralDirections language
      end
  | Get_hours =>
      match buildingEntity with
      | Some b => getBuildingHours (value b) language
      | None => getGeneralHours language
      end
  | Get_contact =>
      match buildingEntity with
      | Some b => getBuildingContact (value b) language
      | None => getGeneralContact language
      end
  | Get_services =>
      match buildingEntity with
      | Some b => getBuildingServices (value b) language
      | None => getGeneralServices language
      end
  | Get_info =>
      match buildingEntity with
      | Some b => getBuildingInfo (value b) language
      | None => getGeneralInfo language
      end
  | General => getDefaultResponse language
  end.

(** [EnhancedAIAssistant.generateEnhancedResponse]: the answer to one
    user message. *)
Definition generateEnhancedResponse (userMessage : list N) (language : language) : Response :=
  let intent := extractIntent userMessage in
  let entities := extractEntities userMessage in
  generateContextualResponse intent entities language.

(** ** Theorems *)

Lemma find_entity_some (t : entity_type) (es : list Entity) (e : Entity) :
  find_entity t es = Some e -> In e es /\ etype e = t.
Proof.
  unfold find_entity. intros H. split; [by eapply find_some|].
  apply find_some in H as [_ H]. by case_bool_decide.
Qed.

Lemma gcr_quickActions (intent : Intent) (es : list Entity) (lang : language) :
  quickActions (generateContextualResponse intent es lang) =
    match name intent, find_entity EBuilding es with
    | General, _ => []
    | _, Some b => [visit_action lang (value b)]
    | _, None => []
    end.
Proof. unfold generateContextualResponse. by destruct (name intent), (find_entity EBuilding es). Qed.

(** Quick actions on every branch: the default branch ([general] or
    any other name) offers none; each of the five named intents offers
    exactly one ["visit"] action for the first building entity when there
    is one, and none otherwise. *)
Theorem generateContextualResponse_quickActions (intent : Intent) (es : list Entity) (lang : language) :
  quickActions (generateContextualResponse intent es lang) =
    match name intent, find_entity EBuilding es with
    | General, _ => []
    | _, Some b => [visit_action lang (value b)]
    | _, None => []
    end.
Proof. apply gcr_quickActions. Qed.

(** Only the first building entity matters: two entity lists with
    the same first building entity get the same response, whatever their
    time and weekday entities. *)
Theorem generateContextualResponse_first_building (intent : Intent) (es1 es2 : list Entity)
    (lang : language) :
  find_entity EBuilding es1 = find_entity EBuilding es2 ->
  generateContextualResponse intent es1 lang = generateContextualResponse intent es2 lang.
Proof. intros H. unfold generateContextualResponse. by rewrite H. Qed.

Lemma obj_get_none (tbl : template_table) (key : list N) :
  key ∉ map fst tbl -> obj_get tbl key = None.
Proof.
  intros Hk. unfold obj_get. destruct (find _ tbl) as [[k v]|] eqn:E; [|done].
  apply find_some in E as [Hin Heq]. case_bool_decide; [|done]. subst k.
  exfalso. apply Hk. apply list_elem_of_In, in_map_iff. by exists (key, v).
Qed.

Lemma building_keys (lang : language) :
  map fst (directions_table lang) = map fst buildingKeywords /\
  map fst (hours_table lang) = map fst buildingKeywords.
Proof. destruct lang; split; vm_compute; reflexivity. Qed.

(** An identifier that is not a building of the tables gets the
    library's directions and hours texts, as the [|| responses[language]
    .library] fallback says, while keeping its own identifier in the
    quick action. *)
Theorem building_template_fallback (bid : list N) (lang : language) :
  bid ∉ map fst buildingKeywords ->
  response (getBuildingDirections bid lang) = response (getBuildingDirections (js "library") lang) /\
  response (getBuildingHours bid lang) = response (getBuildingHours (js "library") lang) /\
  quickActions (getBuildingDirections bid lang) = [visit_action lang bid].
Proof.
  intros Hb. destruct (building_keys lang) as [Hd Hh].
  unfold getBuildingDirections, getBuildingHours, lookup_or_library; simpl.
  rewrite (obj_get_none (directions_table lang) bid) by (rewrite Hd; done).
  rewrite (obj_get_none (hours_table lang) bid) by (rewrite Hh; done).
  split; [|split; [|done]]; destruct lang; reflexivity.
Qed.

(** The quick actions of the pipeline name buildings of the keyword
    table: they come from [extractEntities]' building entities. *)
Lemma enhanced_quickAction_keyword (m : list N) (lang : language) (qa : QuickAction) (bid : list N) :
  In qa (quickActions (generateEnhancedResponse m lang)) -> qa_buildingId qa = Some bid ->
  In bid (map fst buildingKeywords).
Proof.
  unfold generateEnhancedResponse. rewrite gcr_quickActions. intros Hin Hq.
  destruct (find_entity EBuilding (extractEntities m)) as [b|] eqn:Eb;
    [|destruct (name (extractIntent m)); destruct Hin].
  apply find_entity_some in Eb as [Hbin Hbt].
  assert (Hid : qa = visit_action lang (value b))
    by (destruct (name (extractIntent m)); simpl in Hin; intuition congruence).
  subst qa. injection Hq as <-. exact (extractEntities_building_ids m b Hbin Hbt).
Qed.

(** In the assistant's pipeline every quick action names a building
    of [buildingKeywords], whose directions and hours templates exist in
    both languages: the library fallback is never taken there. *)
Theorem generateEnhancedResponse_known_building (m : list N) (lang : language)
    (qa : QuickAction) (bid : list N) :
  In qa (quickActions (generateEnhancedResponse m lang)) -> qa_buildingId qa = Some bid ->
  In bid (map fst buildingKeywords) /\
  is_Some (obj_get (directions_table lang) bid) /\ is_Some (obj_get (hours_table lang) bid).
Proof.
  intros Hin Hq. pose proof (enhanced_quickAction_keyword m lang qa bid Hin Hq) as Hk.
  split; [done|]. destruct (building_keys lang) as [Hd Hh].
  assert (Hget : forall tbl, map fst tbl = map fst buildingKeywords -> is_Some (obj_get tbl bid)).
  { intros tbl Htbl. rewrite <- Htbl in Hk. apply in_map_iff in Hk as [[k v] [Hkv Hkin]].
    simpl in Hkv. subst k. unfold obj_get.
    destruct (find (fun '(k, _) => bool_decide (k = bid)) tbl) as [[k' v']|] eqn:E; [by eexists|].
    exfalso. eapply find_none in E; [|exact Hkin]. simpl in E. by rewrite bool_decide_eq_true_2 in E. }
  split; by apply Hget.
Qed.

(** The spec's scenario ["Where is the library?"] in English: intent
    [find_building], first building entity [library], the English
    library directions and one quick action visiting [library]. *)
Theorem scenario_where_is_the_library :
  name (extractIntent (js "Where is the library?")) = Find_building /\
  find_entity EBuilding (extractEntities (js "Where is the library?")) =
    Some (mkEntity EBuilding (js "library") 13 20) /\
  response (generateEnhancedResponse (js "Where is the library?") En) =
    "The Central Library is located in the main campus area. I can show you the exact location!"%string /\
  quickActions (generateEnhancedResponse (js "Where is the library?") En) = [visit_action En (js "library")].
Proof. vm_compute. repeat split; reflexivity. Qed.

(** The spec's scenario ["Wann hat die Mensa geöffnet?"] in German:
    intent [get_hours], building entity [cafeteria], and the German
    cafeteria hours. *)
Theorem scenario_wann_hat_die_mensa :
  name (extractIntent (js "Wann hat die Mensa geöffnet?")) = Get_hours /\
  find_entity EBuilding (extractEntities (js "Wann hat die Mensa geöffnet?")) =
    Some (mkEntity EBuilding (js "cafeteria") 13 18) /\
  response (generateEnhancedResponse (js "Wann hat die Mensa geöffnet?") De) =
    lines ["Cafeteria-Zeiten:"; "🍽️ Montag-Freitag: 11-15 Uhr"; "🍽️ Samstag: 12-14 Uhr";
           "🍽️ Sonntag: Geschlossen"]%string.
Proof. vm_compute. repeat split; reflexivity. Qed.

(** The spec's scenario ["asdkjasd"]: the [general] intent and the
    English default response with no quick actions. *)
Theorem scenario_unrecognised :
  extractIntent (js "asdkjasd") = general_intent /\
  generateEnhancedResponse (js "asdkjasd") En = getDefaultResponse En /\
  quickActions (generateEnhancedResponse (js "asdkjasd") En) = [].
Proof. vm_compute. repeat split; reflexivity. Qed.

(** ** Witnesses *)

Lemma generateContextualResponse_first_building_witness :
  let cafe := mkEntity EBuilding (js "cafeteria") 4 9 in
  let es1 := [cafe; mkEntity ETime (js "12:00") 13 18] in
  let es2 := [mkEntity EDay (js "monday") 0 6; cafe] in
  find_entity EBuilding es1 = find_entity EBuilding es2 /\
  generateContextualResponse (mkIntent Get_hours (7 # 10) []) es1 De =
  generateContextualResponse (mkIntent Get_hours (7 # 10) []) es2 De.
Proof.
  intros cafe es1 es2.
  assert (H : find_entity EBuilding es1 = find_entity EBuilding es2) by reflexivity.
  split; [exact H|exact (generateContextualResponse_first_building _ es1 es2 De H)].
Defined.

Lemma building_template_fallback_witness :
  ((js "gym") ∉ map fst buildingKeywords) /\
  response (getBuildingDirections (js "gym") En) = response (getBuildingDirections (js "library") En) /\
  response (getBuildingHours (js "gym") En) = response (getBuildingHours (js "library") En) /\
  quickActions (getBuildingDirections (js "gym") En) = [visit_action En (js "gym")].
Proof.
  assert (H : (js "gym") ∉ map fst buildingKeywords) by (apply (bool_decide_unpack _); vm_compute; reflexivity).
  split; [exact H|exact (building_template_fallback _ En H)].
Defined.

Lemma generateEnhancedResponse_known_building_witness :
  let m := js "Where is the library?" in
  let qa := visit_action En (js "library") in
  In qa (quickActions (generateEnhancedResponse m En)) /\ qa_buildingId qa = Some (js "library") /\
  In (js "library") (map fst buildingKeywords) /\
  is_Some (obj_get (directions_table En) (js "library")) /\ is_Some (obj_get (hours_table En) (js "library")).
Proof.
  intros m qa.
  assert (H1 : In qa (quickActions (generateEnhancedResponse m En))) by (vm_compute; left; reflexivity).
  split; [exact H1|split; [reflexivity|]].
  exact (generateEnhancedResponse_known_building m En qa (js "library") H1 eq_refl).
Defined.
