(* ===== verification/AuthService.v ===== *)
(** * AuthService: the account store of [services/authService.ts]

    The class [AuthService] keeps a JavaScript [Map] from e-mail address to
    the stored account [{email, password, profile}], loaded from
    [localStorage['ude-users']] by the constructor, extended with the demo
    account, and written back by [saveUsers].  In demo mode (no Supabase
    environment) every operation works on that map; otherwise each one
    calls the Supabase client, whose calls are the operations of the
    interface [SupabaseApi] below.

    - [AuthState] is the instance's state: the map [users] and the part of
      [localStorage] the class writes;
    - [constructor], [saveUsers], [signUp], [signIn], [signOut],
      [getCurrentUser], [getUserProfile], [updateUserProfile] are the
      methods, each returning its result record and the next state;
    - [auth_step] is the step relation of a sequence of calls and page
      reloads, with the invariants of its reachable states. *)

From Stdlib Require Import String NArith ZArith DecimalString List Lia.
From stdpp Require Import base list options sets.
From S2P Require Import Prelude.

#[local] Open Scope string_scope.

(** ** Data of [types/User.ts] and [authService.ts] *)

(** [campus?: 'duisburg' | 'essen'] *)
Inductive campus := Duisburg | Essen.

(** [notifications?: {events, weather, academic, social}] *)
Record Notifications := mkNotifications {
  n_events : bool; n_weather : bool; n_academic : bool; n_social : bool }.

(** [accessibility?: {screenReader, highContrast, largeText}] *)
Record Accessibility := mkAccessibility {
  screenReader : bool; highContrast : bool; largeText : bool }.

(** [interface UserProfile]; an optional field [f?: T] is an [option T]
    ([None] for [undefined]).  The fields carry the prefix [up_] because
    [id], [name] and [language] already name a function and a type. *)
Record UserProfile := mkProfile {
  up_id : string;
  up_name : string;
  up_email : string;
  up_studentId : option string;
  up_program : option string;
  up_year : option Z;
  up_campus : option campus;
  up_interests : option (list string);
  up_favoriteBuildings : option (list string);
  up_bio : option string;
  up_isInternational : option bool;
  up_language : option language;
  up_profilePhoto : option string;
  up_notifications : option Notifications;
  up_accessibility : option Accessibility }.

(** [Partial<UserProfile>]: every field may be absent ([None]); an optional
    field may also be present with the value [undefined] ([Some None]),
    which the object spread copies like any other value. *)
Record ProfileUpdate := mkUpdate {
  pu_id : option string;
  pu_name : option string;
  pu_email : option string;
  pu_studentId : option (option string);
  pu_program : option (option string);
  pu_year : option (option Z);
  pu_campus : option (option campus);
  pu_interests : option (option (list string));
  pu_favoriteBuildings : option (option (list string));
  pu_bio : option (option string);
  pu_isInternational : option (option bool);
  pu_language : option (option language);
  pu_profilePhoto : option (option string);
  pu_notifications : option (option Notifications);
  pu_accessibility : option (option Accessibility) }.

(** The value type of [users: Map<string, {email, password, profile}>]. *)
Record StoredUser := mkStored {
  su_email : string; su_password : string; su_profile : UserProfile }.

(** [interface AuthUser] *)
Record AuthUser := mkAuthUser { au_id : string; au_email : string; au_name : string }.

(** [interface SignUpData] *)
Record SignUpData := mkSignUp {
  sd_email : string; sd_password : string; sd_name : string;
  sd_studentId : option string; sd_program : option string; sd_year : option Z;
  sd_campus : option campus; sd_profilePhoto : option string }.

(** [{ user: AuthUser | null; error: string | null }] *)
Record AuthResult := mkAuthResult { ar_user : option AuthUser; ar_error : option string }.

(** [{ profile: UserProfile | null; error: string | null }] *)
Record ProfileResult := mkProfileResult { pr_profile : option UserProfile; pr_error : option string }.

(** An element of the array [JSON.parse] returns: a stored account, or a
    value ([null], a number) whose [.email] throws or is not a string. *)
Inductive saved_entry := SEUser (u : StoredUser) | SEInvalid.

(** The item [localStorage['ude-users']]: a JSON array, or text that
    [JSON.parse] rejects or that is not an array ([forEach] throws). *)
Inductive saved := SavedArray (es : list saved_entry) | SavedUnreadable.

(** What the class reads and writes of [localStorage]: the item
    ['ude-users'] and the string items (the profile photos). *)
Record Storage := mkStorage {
  ls_users : option saved; ls_items : list (string * string) }.

(** The instance state: the [users] map and the storage. *)
Record AuthState := mkAuthState {
  users : list (string * StoredUser); store : Storage }.

(** ** The constructor and [saveUsers] *)

(** [usersArray.forEach(u => this.users.set(u.email, u))]; an invalid
    element throws, the [catch] keeps what was set before it. *)
Fixpoint load_entries (es : list saved_entry) (m : list (string * StoredUser))
    : list (string * StoredUser) :=
  match es with
  | [] => m
  | SEUser u :: es' => load_entries es' (map_set (su_email u) u m)
  | SEInvalid :: _ => m
  end.

(** [if (savedUsers) { try { JSON.parse ... } catch ... }] *)
Definition load_users (o : option saved) : list (string * StoredUser) :=
  match o with
  | Some (SavedArray es) => load_entries es []
  | _ => []
  end.

Definition demo_email : string := "demo@uni-due.de".

(** The demo account the constructor adds. *)
Definition demo_profile : UserProfile := {|
  up_id := "demo-user-1"; up_name := "Demo Student"; up_email := demo_email;
  up_studentId := Some "UDE2024001"; up_program := Some "Computer Science";
  up_year := Some 2%Z; up_campus := Some Essen;
  up_interests := Some ["Technology"; "Research"; "International Exchange"];
  up_favoriteBuildings := Some ["library"; "student-center"];
  up_bio := Some "Demo user for UDE Campus Navigator.";
  up_isInternational := Some true; up_language := Some En; up_profilePhoto := None;
  up_notifications := Some (mkNotifications true true true false);
  up_accessibility := Some (mkAccessibility false false false) |}.

Definition demo_user : StoredUser := mkStored demo_email "password123" demo_profile.

(** [constructor()]: load the saved users, then [set] the demo account. *)
Definition constructor (s : Storage) : AuthState :=
  mkAuthState (map_set demo_email demo_user (load_users (ls_users s))) s.

(** [JSON.stringify(Array.from(this.users.values()))] *)
Definition users_json (m : list (string * StoredUser)) : saved :=
  SavedArray (map (fun kv => SEUser (snd kv)) m).

(** [saveUsers()] *)
Definition saveUsers (st : AuthState) : AuthState :=
  mkAuthState (users st) (mkStorage (Some (users_json (users st))) (ls_items (store st))).

(** ** Demo-mode methods *)

(** [String(n)] for the integer [Date.now()] returns. *)
Definition string_of_N (n : N) : string := NilEmpty.string_of_uint (N.to_uint n).

(** JavaScript truthiness of an optional string: [undefined] and [''] are
    false. *)
Definition truthy (o : option string) : bool :=
  match o with Some s => negb (String.eqb s EmptyString) | None => false end.

(** [localStorage.setItem(key, value)] for a string item. *)
Definition setItem (k v : string) (st : AuthState) : AuthState :=
  mkAuthState (users st) (mkStorage (ls_users (store st)) (map_set k v (ls_items (store st)))).

(** The profile [signUp] builds for a new account with id [userId]. *)
Definition new_profile (userId : string) (data : SignUpData) : UserProfile := {|
  up_id := userId; up_name := sd_name data; up_email := sd_email data;
  up_studentId := sd_studentId data; up_program := sd_program data;
  up_year := sd_year data; up_campus := Some (default Essen (sd_campus data));
  up_profilePhoto := sd_profilePhoto data;
  up_interests := Some []; up_favoriteBuildings := Some [];
  up_bio := Some EmptyString; up_isInternational := Some false; up_language := Some En;
  up_notifications := Some (mkNotifications true true true false);
  up_accessibility := Some (mkAccessibility false false false) |}.

(** [signUp] in demo mode; [now] is the value of [Date.now()]. *)
Definition signUp_demo (now : N) (data : SignUpData) (st : AuthState) : AuthResult * AuthState :=
  if map_has (sd_email data) (users st) then
    (mkAuthResult None (Some "User already exists with this email"), st)
  else
    let userId := "user-" ++ string_of_N now in
    let st1 := saveUsers (mkAuthState
                 (map_set (sd_email data)
                    (mkStored (sd_email data) (sd_password data) (new_profile userId data))
                    (users st)) (store st)) in
    let st2 := if truthy (sd_profilePhoto data)
               then setItem ("ude-profile-photo-" ++ userId) (default EmptyString (sd_profilePhoto data)) st1
               else st1 in
    (mkAuthResult (Some (mkAuthUser userId (sd_email data) (sd_name data))) None, st2).

(** [signIn] in demo mode: it does not change the state. *)
Definition signIn_demo (email password : string) (st : AuthState) : AuthResult :=
  match map_get email (users st) with
  | Some u =>
      if String.eqb (su_password u) password
      then mkAuthResult (Some (mkAuthUser (up_id (su_profile u)) (su_email u) (up_name (su_profile u)))) None
      else mkAuthResult None (Some "Invalid email or password")
  | None => mkAuthResult None (Some "Invalid email or password")
  end.

(** [signOut] and [getCurrentUser] in demo mode: no session is kept. *)
Definition signOut_demo : option string := None.

Definition getCurrentUser_demo : AuthResult := mkAuthResult None None.

(** The first entry, in the map's order, whose profile has id [userId]
    ([for (const ... of this.users.values()/entries())]). *)
Definition find_by_id (userId : string) (m : list (string * StoredUser))
    : option (string * StoredUser) :=
  find (fun kv => String.eqb (up_id (su_profile (snd kv))) userId) m.

(** [getUserProfile] in demo mode. *)
Definition getUserProfile_demo (userId : string) (st : AuthState) : ProfileResult :=
  match find_by_id userId (users st) with
  | Some (_, u) => mkProfileResult (Some (su_profile u)) None
  | None => mkProfileResult None (Some "Profile not found")
  end.

(** [{ ...profile, ...updates }]: a field present in [updates] wins. *)
Definition apply_updates (p : UserProfile) (u : ProfileUpdate) : UserProfile := {|
  up_id := default (up_id p) (pu_id u);
  up_name := default (up_name p) (pu_name u);
  up_email := default (up_email p) (pu_email u);
  up_studentId := default (up_studentId p) (pu_studentId u);
  up_program := default (up_program p) (pu_program u);
  up_year := default (up_year p) (pu_year u);
  up_campus := default (up_campus p) (pu_campus u);
  up_interests := default (up_interests p) (pu_interests u);
  up_favoriteBuildings := default (up_favoriteBuildings p) (pu_favoriteBuildings u);
  up_bio := default (up_bio p) (pu_bio u);
  up_isInternational := default (up_isInternational p) (pu_isInternational u);
  up_language := default (up_language p) (pu_language u);
  up_profilePhoto := default (up_profilePhoto p) (pu_profilePhoto u);
  up_notifications := default (up_notifications p) (pu_notifications u);
  up_accessibility := default (up_accessibility p) (pu_accessibility u) |}.

(** [updateUserProfile] in demo mode: the first account with that id gets
    the merged profile, under its own key, and the map is saved. *)
Definition updateUserProfile_demo (userId : string) (updates : ProfileUpdate) (st : AuthState)
    : ProfileResult * AuthState :=
  match find_by_id userId (users st) with
  | Some (email, u) =>
      let u' := mkStored (su_email u) (su_password u) (apply_updates (su_profile u) updates) in
      (mkProfileResult (Some (su_profile u')) None,
       saveUsers (mkAuthState (map_set email u' (users st)) (store st)))
  | None => (mkProfileResult None (Some "Profile not found"), st)
  end.

(** ** The Supabase client, as an interface *)

(** [supabase] of [lib/supabase.ts] is the [createClient] object of the
    library; the service only calls it.  A call runs on the backend state
    [S] and either returns ([Some]) or throws ([None]); what it did to the
    backend before throwing stays done. *)
Definition sb (S A : Type) : Type := S -> S * option A.

Definition sb_ret {S A} (a : A) : sb S A := fun s => (s, Some a).

Definition sb_bind {S A B} (m : sb S A) (k : A -> sb S B) : sb S B :=
  fun s => match m s with (s', Some a) => k a s' | (s', None) => (s', None) end.

Declare Scope sb_scope.
Delimit Scope sb_scope with sb.
Notation "x <- m ;; k" := (sb_bind m (fun x => k))
  (at level 100, m at next level, right associativity) : sb_scope.

(** [try { ... } catch { return fallback }] *)
Definition sb_catch {S A} (m : sb S A) (fallback : A) : S -> S * A :=
  fun s => let '(s', r) := m s in (s', default fallback r).

(** [data.user] of an auth response: its [id] and its [email?]. *)
Record SbUser := mkSbUser { sbu_id : string; sbu_email : option string }.

(** The calls the service makes.  An [error] is its [message] ([Some]) or
    [null]; [select('name') ... .single()] returns [profile?.name] (with a
    missing row and a [null] name both [None]). *)
Class SupabaseApi (S : Type) := {
  auth_signUp : string -> string -> SignUpData -> sb S (option SbUser * option string);
  auth_signInWithPassword : string -> string -> sb S (option SbUser * option string);
  auth_signOut : sb S (option string);
  auth_getUser : sb S (option SbUser * option string);
  profiles_insert : string -> SignUpData -> sb S (option string);
  profiles_select_name : string -> sb S (option string);
  profiles_select_all : string -> sb S (option UserProfile * option string);
  profiles_update : string -> ProfileUpdate -> sb S (option UserProfile * option string);
  storage_upload : string -> string -> sb S (option string)
}.

Definition unexpected : string := "An unexpected error occurred".

(** [x || 'default'] on an optional string. *)
Definition or_default (o : option string) (d : string) : string :=
  if truthy o then default d o else d.

(** [error?.message || null] *)
Definition message_or_null (o : option string) : option string :=
  if truthy o then o else None.

Section Remote.
Context {S : Type} `{!SupabaseApi S}.
#[local] Open Scope sb_scope.

(** The [try] block of [signUp] outside demo mode.  The errors of the
    profile insert and of the photo upload are only logged. *)
Definition signUp_remote (data : SignUpData) : sb S AuthResult :=
  r <- auth_signUp (sd_email data) (sd_password data) data ;;
  match r with
  | (_, Some msg) => sb_ret (mkAuthResult None (Some msg))
  | (Some u, None) =>
      _ <- profiles_insert (sbu_id u) data ;;
      _ <- (if truthy (sd_profilePhoto data)
            then storage_upload (sbu_id u ++ ".jpg") (default EmptyString (sd_profilePhoto data))
            else sb_ret None) ;;
      sb_ret (mkAuthResult (Some (mkAuthUser (sbu_id u) (sd_email data) (sd_name data))) None)
  | (None, None) => sb_ret (mkAuthResult None (Some "Failed to create user"))
  end.

(** The session user with the name of its profile row, ['Student'] when
    there is none (shared by [signIn] and [getCurrentUser]). *)
Definition user_with_profile (u : SbUser) : sb S AuthUser :=
  nm <- profiles_select_name (sbu_id u) ;;
  sb_ret (mkAuthUser (sbu_id u) (or_default (sbu_email u) EmptyString) (or_default nm "Student")).

Definition signIn_remote (email password : string) : sb S AuthResult :=
  r <- auth_signInWithPassword email password ;;
  match r with
  | (_, Some msg) => sb_ret (mkAuthResult None (Some msg))
  | (Some u, None) => au <- user_with_profile u ;; sb_ret (mkAuthResult (Some au) None)
  | (None, None) => sb_ret (mkAuthResult None (Some "Failed to sign in"))
  end.

Definition signOut_remote : sb S (option string) :=
  e <- auth_signOut ;; sb_ret (message_or_null e).

Definition getCurrentUser_remote : sb S AuthResult :=
  r <- auth_getUser ;;
  match r with
  | (_, Some msg) => sb_ret (mkAuthResult None (Some msg))
  | (Some u, None) => au <- user_with_profile u ;; sb_ret (mkAuthResult (Some au) None)
  | (None, None) => sb_ret (mkAuthResult None None)
  end.

Definition getUserProfile_remote (userId : string) : sb S ProfileResult :=
  r <- profiles_select_all userId ;;
  match r with
  | (_, Some msg) => sb_ret (mkProfileResult None (Some msg))
  | (p, None) => sb_ret (mkProfileResult p None)
  end.

Definition updateUserProfile_remote (userId : string) (updates : ProfileUpdate) : sb S ProfileResult :=
  r <- profiles_update userId updates ;;
  match r with
  | (_, Some msg) => sb_ret (mkProfileResult None (Some msg))
  | (p, None) => sb_ret (mkProfileResult p None)
  end.

End Remote.

(** ** The methods: demo mode or Supabase *)

Section Service.
Context {S : Type} `{!SupabaseApi S}.
(** [isDemoMode] of [lib/supabase.ts]: no [VITE_SUPABASE_URL] or no
    [VITE_SUPABASE_ANON_KEY] in the environment. *)
Variable isDemoMode : bool.

(** The world a method runs in: the instance and the backend. *)
Definition World : Type := AuthState * S.

Definition run_remote {A} (m : sb S A) (fallback : A) (w : World) : A * World :=
  let '(b', r) := sb_catch m fallback (snd w) in (r, (fst w, b')).

Definition signUp (now : N) (data : SignUpData) (w : World) : AuthResult * World :=
  if isDemoMode then let '(r, st') := signUp_demo now data (fst w) in (r, (st', snd w))
  else run_remote (signUp_remote data) (mkAuthResult None (Some unexpected)) w.

Definition signIn (email password : string) (w : World) : AuthResult * World :=
  if isDemoMode then (signIn_demo email password (fst w), w)
  else run_remote (signIn_remote email password) (mkAuthResult None (Some unexpected)) w.

Definition signOut (w : World) : option string * World :=
  if isDemoMode then (signOut_demo, w)
  else run_remote signOut_remote (Some unexpected) w.

Definition getCurrentUser (w : World) : AuthResult * World :=
  if isDemoMode then (getCurrentUser_demo, w)
  else run_remote getCurrentUser_remote (mkAuthResult None (Some unexpected)) w.

Definition getUserProfile (userId : string) (w : World) : ProfileResult * World :=
  if isDemoMode then (getUserProfile_demo userId (fst w), w)
  else run_remote (getUserProfile_remote userId) (mkProfileResult None (Some unexpected)) w.

Definition updateUserProfile (userId : string) (updates : ProfileUpdate) (w : World)
    : ProfileResult * World :=
  if isDemoMode then let '(r, st') := updateUserProfile_demo userId updates (fst w) in (r, (st', snd w))
  else run_remote (updateUserProfile_remote userId updates) (mkProfileResult None (Some unexpected)) w.

End Service.

(** ** Sequences of demo-mode calls *)

(** One call that changes the instance, or a page reload, which builds a
    new instance from what [localStorage] holds.  [signIn], [signOut],
    [getCurrentUser] and [getUserProfile] leave the state as it is. *)
Inductive demo_step : AuthState -> AuthState -> Prop :=
  | step_signUp now data st : demo_step st (snd (signUp_demo now data st))
  | step_update userId updates st : demo_step st (snd (updateUserProfile_demo userId updates st))
  | step_reload st : demo_step st (constructor (store st)).

(** The states a tab reaches from any content of [localStorage]. *)
Inductive reachable : AuthState -> Prop :=
  | reach_init s : reachable (constructor s)
  | reach_step st st' : reachable st -> demo_step st st' -> reachable st'.

(** The invariant of the reachable states: each key is its account's
    e-mail, the keys are distinct, the demo account keeps its password,
    and a reload restores the map but for the demo account. *)
Definition keys_match (m : list (string * StoredUser)) : Prop :=
  Forall (fun kv => fst kv = su_email (snd kv)) m.

Definition auth_inv (st : AuthState) : Prop :=
  keys_match (users st) /\ NoDup (map fst (users st)) /\
  (exists p, map_get demo_email (users st) = Some (mkStored demo_email "password123" p)) /\
  map_set demo_email demo_user (load_users (ls_users (store st))) = map_set demo_email demo_user (users st).

(** ** An in-memory Supabase backend

    A test double for [SupabaseApi]: accounts by e-mail with their password
    and id, the [name] column of the [profiles] rows, a switch that makes
    the profile insert fail (a row-level security policy), and one that
    makes every call throw (no network). *)
Record MockBackend := mkMock {
  mb_accounts : list (string * (string * string));
  mb_names : list (string * string);
  mb_insert_denied : bool;
  mb_offline : bool }.

Definition mock_call {A} (f : MockBackend -> MockBackend * A) : sb MockBackend A :=
  fun b => if mb_offline b then (b, None) else let '(b', a) := f b in (b', Some a).

#[export] Instance mock_api : SupabaseApi MockBackend := {|
  auth_signUp e p d := mock_call (fun b =>
    if map_has e (mb_accounts b) then (b, (None, Some "User already registered"))
    else (mkMock (map_set e (p, "uid-" ++ e) (mb_accounts b)) (mb_names b)
            (mb_insert_denied b) (mb_offline b),
          (Some (mkSbUser ("uid-" ++ e) (Some e)), None)));
  auth_signInWithPassword e p := mock_call (fun b =>
    match map_get e (mb_accounts b) with
    | Some (p', i) => if String.eqb p' p then (b, (Some (mkSbUser i (Some e)), None))
                      else (b, (None, Some "Invalid login credentials"))
    | None => (b, (None, Some "Invalid login credentials"))
    end);
  auth_signOut := mock_call (fun b => (b, None));
  auth_getUser := mock_call (fun b => (b, (None, None)));
  profiles_insert i d := mock_call (fun b =>
    if mb_insert_denied b then (b, Some "new row violates row-level security policy")
    else (mkMock (mb_accounts b) (map_set i (sd_name d) (mb_names b)) false (mb_offline b), None));
  profiles_select_name i := mock_call (fun b => (b, map_get i (mb_names b)));
  profiles_select_all i := mock_call (fun b => (b, (None, Some "not found")));
  profiles_update i u := mock_call (fun b => (b, (None, Some "not found")));
  storage_upload path file := mock_call (fun b => (b, None))
|}.

(** ** The store: lemmas *)

#[local] Close Scope string_scope.

Lemma load_entries_json (m acc : list (string * StoredUser)) :
  keys_match m -> NoDup (map fst m) -> (forall k, k ∈ map fst m -> k ∉ map fst acc) ->
  load_entries (map (fun kv => SEUser (snd kv)) m) acc = acc ++ m.
Proof.
  revert acc. induction m as [|[k u] m IH]; intros acc Hk Hnd Hdis; simpl; [by rewrite app_nil_r|].
  inversion Hk as [|? ? Hku Hk']; inversion Hnd as [|? ? Hn Hnd']; subst; simpl in *.
  rewrite <- Hku, map_set_fresh by (apply Hdis; set_solver).
  rewrite IH by (done || (intros k' Hk'1; rewrite map_app; simpl; specialize (Hdis k'); set_solver)).
  by rewrite <- app_assoc.
Qed.

(** What [saveUsers] writes, the constructor reads back. *)
Lemma load_users_json (m : list (string * StoredUser)) :
  keys_match m -> NoDup (map fst m) -> load_users (Some (users_json m)) = m.
Proof. intros. unfold load_users, users_json. rewrite load_entries_json; set_solver. Qed.

Lemma load_entries_keys (es : list saved_entry) (acc : list (string * StoredUser)) :
  keys_match acc -> NoDup (map fst acc) ->
  keys_match (load_entries es acc) /\ NoDup (map fst (load_entries es acc)).
Proof.
  revert acc. induction es as [|[u|] es IH]; intros acc Hk Hnd; simpl; [done| |done].
  apply IH; [by apply map_set_Forall|by apply map_set_nodup].
Qed.

Lemma load_users_keys (o : option saved) :
  keys_match (load_users o) /\ NoDup (map fst (load_users o)).
Proof.
  destruct o as [[es|]|]; simpl; try (split; constructor).
  apply load_entries_keys; constructor.
Qed.

Lemma find_by_id_elem (userId email : string) (u : StoredUser) m :
  find_by_id userId m = Some (email, u) -> (email, u) ∈ m /\ up_id (su_profile u) = userId.
Proof.
  unfold find_by_id. intros E. apply find_some in E as [Hin Hid].
  split; [by apply list_elem_of_In|by apply String.eqb_eq].
Qed.

Lemma keys_match_elem (k : string) (u : StoredUser) m : keys_match m -> (k, u) ∈ m -> k = su_email u.
Proof. intros Hk Hin. unfold keys_match in Hk. rewrite Forall_forall in Hk. by apply (Hk (k, u)). Qed.

(** A state whose storage holds its own map satisfies the invariant as
    soon as its map does. *)
Lemma auth_inv_saved (m : list (string * StoredUser)) items :
  keys_match m -> NoDup (map fst m) ->
  (exists p, map_get demo_email m = Some (mkStored demo_email "password123"%string p)) ->
  auth_inv (mkAuthState m (mkStorage (Some (users_json m)) items)).
Proof. intros Hk Hnd Hd. repeat split; try done. cbn [users store ls_users]. by rewrite load_users_json. Qed.

Lemma auth_inv_setItem k v st : auth_inv st -> auth_inv (setItem k v st).
Proof. done. Qed.

Lemma auth_inv_constructor s : auth_inv (constructor s).
Proof.
  destruct (load_users_keys (ls_users s)) as [Hk Hnd].
  repeat split; simpl.
  - by apply map_set_Forall.
  - by apply map_set_nodup.
  - exists demo_profile. by rewrite map_get_set_eq.
  - by rewrite map_set_set.
Qed.

Lemma auth_inv_signUp now data st : auth_inv st -> auth_inv (snd (signUp_demo now data st)).
Proof.
  intros Hinv. destruct (Hinv) as (Hk & Hnd & [p Hd] & _). unfold signUp_demo.
  destruct (map_has (sd_email data) (users st)) eqn:Hhas; [done|].
  assert (Hne : sd_email data <> demo_email).
  { intros Heq. rewrite Heq in Hhas.
    assert (map_has demo_email (users st) = true) by (apply map_get_has; eauto). congruence. }
  destruct (truthy (sd_profilePhoto data)); [apply auth_inv_setItem|];
    apply auth_inv_saved; cbn [users];
    solve [by apply map_set_Forall | by apply map_set_nodup | exists p; by rewrite map_get_set_ne].
Qed.

Lemma auth_inv_update userId updates st :
  auth_inv st -> auth_inv (snd (updateUserProfile_demo userId updates st)).
Proof.
  intros Hinv. destruct (Hinv) as (Hk & Hnd & [p Hd] & _). unfold updateUserProfile_demo.
  destruct (find_by_id userId (users st)) as [[email u]|] eqn:E; [|done].
  destruct (find_by_id_elem _ _ _ _ E) as [Hin _].
  pose proof (keys_match_elem _ _ _ Hk Hin) as Hem.
  cbn [snd saveUsers users store]. apply auth_inv_saved; [by apply map_set_Forall|by apply map_set_nodup|].
  destruct (String.eqb_spec email demo_email) as [->|Hne].
  - rewrite (map_get_nodup_elem _ _ _ Hnd Hin) in Hd. injection Hd as ->.
    cbn [users]. rewrite map_get_set_eq. eauto.
  - exists p. cbn [users]. by rewrite map_get_set_ne.
Qed.

Lemma reachable_inv st : reachable st -> auth_inv st.
Proof.
  induction 1 as [s|st st' _ IH Hstep]; [apply auth_inv_constructor|].
  destruct Hstep; [by apply auth_inv_signUp|by apply auth_inv_update|apply auth_inv_constructor].
Qed.

(** A demo-mode [signUp] that returns a user made that user's account. *)
Lemma signUp_demo_signIn now data st au :
  ar_user (fst (signUp_demo now data st)) = Some au ->
  signIn_demo (sd_email data) (sd_password data) (snd (signUp_demo now data st)) = mkAuthResult (Some au) None.
Proof.
  unfold signUp_demo. destruct (map_has (sd_email data) (users st)); [discriminate|].
  intros [= <-].
  destruct (truthy (sd_profilePhoto data)); unfold signIn_demo; cbn [snd setItem saveUsers users];
    rewrite map_get_set_eq; simpl; by rewrite String.eqb_refl.
Qed.

(** ** Properties of the account store *)

(** C8: In every reachable state, a reload (a new [AuthService] built
    from [localStorage]) gives back the same map of accounts, in the same
    order, except that the demo account is reset to its initial value. *)
Theorem reload_restores_accounts st :
  reachable st -> users (constructor (store st)) = map_set demo_email demo_user (users st).
Proof. intros Hr. destruct (reachable_inv st Hr) as (_ & _ & _ & Hl). exact Hl. Qed.

(** In every reachable state, the demo account signs in with
    [demo@uni-due.de] / [password123]: no call changes its password and
    [signUp] cannot replace it. *)
Theorem demo_account_signs_in st :
  reachable st ->
  exists au, signIn_demo demo_email "password123"%string st = mkAuthResult (Some au) None /\
             au_email au = demo_email.
Proof.
  intros Hr. destruct (reachable_inv st Hr) as (_ & _ & [p Hd] & _).
  unfold signIn_demo. rewrite Hd. simpl. eexists. split; reflexivity.
Qed.

(** After a demo-mode [signUp] with a new e-mail, [signIn] with the
    same e-mail and password returns the new account, whose id is
    ["user-" + Date.now()]. *)
Theorem signUp_then_signIn now data st :
  map_has (sd_email data) (users st) = false ->
  signIn_demo (sd_email data) (sd_password data) (snd (signUp_demo now data st)) =
  mkAuthResult (Some (mkAuthUser ("user-" ++ string_of_N now)%string (sd_email data) (sd_name data))) None.
Proof.
  intros Hnew. apply signUp_demo_signIn.
  unfold signUp_demo. rewrite Hnew. by destruct (truthy (sd_profilePhoto data)).
Qed.

(** C9: A demo-mode [signUp] with an e-mail already in the map returns
    the error 'User already exists with this email' and changes nothing. *)
Theorem signUp_duplicate_rejected now data st :
  map_has (sd_email data) (users st) = true ->
  signUp_demo now data st = (mkAuthResult None (Some "User already exists with this email"%string), st).
Proof. intros Hhas. unfold signUp_demo. by rewrite Hhas. Qed.

(** In a reachable state, [updateUserProfile] changes no account's
    e-mail or password: it only replaces a profile. *)
Theorem updateUserProfile_keeps_credentials st userId updates k :
  reachable st ->
  option_map (fun u => (su_email u, su_password u))
    (map_get k (users (snd (updateUserProfile_demo userId updates st)))) =
  option_map (fun u => (su_email u, su_password u)) (map_get k (users st)).
Proof.
  intros Hr. destruct (reachable_inv st Hr) as (_ & Hnd & _ & _).
  unfold updateUserProfile_demo.
  destruct (find_by_id userId (users st)) as [[email u]|] eqn:E; [|done].
  destruct (find_by_id_elem _ _ _ _ E) as [Hin _]. cbn [snd saveUsers users].
  destruct (String.eqb_spec email k) as [<-|Hne].
  - by rewrite map_get_set_eq, (map_get_nodup_elem _ _ _ Hnd Hin).
  - by rewrite map_get_set_ne.
Qed.

(** Two demo-mode sign-ups in the same millisecond get the same id
    ["user-" + Date.now()]; [getUserProfile] with that id then returns the
    first account's profile, so the second account's own id fetches
    another user's profile. *)
Example signUp_same_millisecond_ids :
  let st0 := constructor (mkStorage None []) in
  let anna := mkSignUp "anna@uni-due.de" "secret-1" "Anna" None None None None None in
  let ben := mkSignUp "ben@uni-due.de" "secret-2" "Ben" None None None None None in
  let '(r1, st1) := signUp_demo 1735689600000 anna st0 in
  let '(r2, st2) := signUp_demo 1735689600000 ben st1 in
  option_map au_id (ar_user r1) = option_map au_id (ar_user r2) /\
  option_map au_id (ar_user r2) = Some "user-1735689600000"%string /\
  option_map up_email (pr_profile (getUserProfile_demo "user-1735689600000" st2)) =
    Some "anna@uni-due.de"%string.
Proof. vm_compute. repeat split. Qed.

(** an update of the demo account's profile is reported as saved
    and written to [localStorage], but after a reload the constructor's
    [set] of the demo account replaces it with the initial profile. *)
Example demo_profile_update_lost_on_reload :
  let st0 := constructor (mkStorage None []) in
  let upd := mkUpdate None None None None None None None None None
               (Some (Some "Exchange student from Lyon"%string)) None None None None None in
  let '(r, st1) := updateUserProfile_demo "demo-user-1" upd st0 in
  option_map up_bio (pr_profile r) = Some (Some "Exchange student from Lyon"%string) /\
  option_map up_bio (pr_profile (getUserProfile_demo "demo-user-1" st1)) =
    Some (Some "Exchange student from Lyon"%string) /\
  pr_profile (getUserProfile_demo "demo-user-1" (constructor (store st1))) = Some demo_profile.
Proof. vm_compute. repeat split. Qed.

(** outside demo mode, [signUp] reports success when Supabase
    creates the auth user even if inserting the [profiles] row fails: the
    error is only logged, and the account is left without a profile. *)
Theorem signUp_profile_error_ignored {S} `{!SupabaseApi S} now data st (b b1 b2 : S) u msg :
  auth_signUp (sd_email data) (sd_password data) data b = (b1, Some (Some u, None)) ->
  profiles_insert (sbu_id u) data b1 = (b2, Some (Some msg)) ->
  truthy (sd_profilePhoto data) = false ->
  signUp false now data (st, b) =
  (mkAuthResult (Some (mkAuthUser (sbu_id u) (sd_email data) (sd_name data))) None, (st, b2)).
Proof.
  intros H1 H2 H3. unfold signUp, run_remote, sb_catch, signUp_remote, sb_bind. simpl.
  rewrite H1, H2, H3. reflexivity.
Qed.

(** outside demo mode, a successful [signIn] whose user has no
    [profiles] row (or a row with an empty name) gets the name 'Student',
    and a user without e-mail the e-mail ''. *)
Theorem signIn_name_fallback {S} `{!SupabaseApi S} email password st (b b1 b2 : S) u :
  auth_signInWithPassword email password b = (b1, Some (Some u, None)) ->
  profiles_select_name (sbu_id u) b1 = (b2, Some None) ->
  signIn false email password (st, b) =
  (mkAuthResult (Some (mkAuthUser (sbu_id u) (or_default (sbu_email u) EmptyString) "Student")) None, (st, b2)).
Proof.
  intros H1 H2. unfold signIn, run_remote, sb_catch, signIn_remote, user_with_profile, sb_bind. simpl.
  rewrite H1. simpl. rewrite H2. reflexivity.
Qed.

(** ** Witnesses *)

#[local] Open Scope string_scope.

(** A reachable state: a fresh tab whose user changed the demo profile,
    then signed up a second account. *)
Lemma sample_reachable :
  reachable (snd (signUp_demo 1735689600000
    (mkSignUp "anna@uni-due.de" "secret-1" "Anna" (Some "UDE2025017") None (Some 1%Z) None None)
    (snd (updateUserProfile_demo "demo-user-1"
       (mkUpdate None (Some "Demo"%string) None None None None None None None None None None None None None)
       (constructor (mkStorage None [])))))).
Proof. eapply reach_step; [eapply reach_step; [apply reach_init|apply step_update]|apply step_signUp]. Defined.

Lemma reload_restores_accounts_witness :
  let st := snd (signUp_demo 1735689600000
    (mkSignUp "anna@uni-due.de" "secret-1" "Anna" (Some "UDE2025017") None (Some 1%Z) None None)
    (snd (updateUserProfile_demo "demo-user-1"
       (mkUpdate None (Some "Demo"%string) None None None None None None None None None None None None None)
       (constructor (mkStorage None []))))) in
  reachable st /\ users (constructor (store st)) = map_set demo_email demo_user (users st).
Proof. split; [apply sample_reachable|apply reload_restores_accounts, sample_reachable]. Defined.

Lemma demo_account_signs_in_witness :
  let st := snd (signUp_demo 1735689600000
    (mkSignUp "anna@uni-due.de" "secret-1" "Anna" (Some "UDE2025017") None (Some 1%Z) None None)
    (snd (updateUserProfile_demo "demo-user-1"
       (mkUpdate None (Some "Demo"%string) None None None None None None None None None None None None None)
       (constructor (mkStorage None []))))) in
  reachable st /\
  exists au, signIn_demo demo_email "password123"%string st = mkAuthResult (Some au) None /\
             au_email au = demo_email.
Proof. split; [apply sample_reachable|apply demo_account_signs_in, sample_reachable]. Defined.

Lemma updateUserProfile_keeps_credentials_witness :
  let st := snd (signUp_demo 1735689600000
    (mkSignUp "anna@uni-due.de" "secret-1" "Anna" (Some "UDE2025017") None (Some 1%Z) None None)
    (snd (updateUserProfile_demo "demo-user-1"
       (mkUpdate None (Some "Demo"%string) None None None None None None None None None None None None None)
       (constructor (mkStorage None []))))) in
  let upd := mkUpdate (Some "x"%string) None (Some "x@y"%string) None None None None None None None None None None None None in
  reachable st /\
  option_map (fun u => (su_email u, su_password u))
    (map_get "anna@uni-due.de" (users (snd (updateUserProfile_demo "user-1735689600000" upd st)))) =
  option_map (fun u => (su_email u, su_password u)) (map_get "anna@uni-due.de" (users st)).
Proof. split; [apply sample_reachable|apply updateUserProfile_keeps_credentials, sample_reachable]. Defined.

Lemma signUp_then_signIn_witness :
  let data := mkSignUp "ben@uni-due.de" "secret-2" "Ben" None None None (Some Duisburg) (Some "data:image/png") in
  let st := constructor (mkStorage None []) in
  map_has (sd_email data) (users st) = false /\
  signIn_demo (sd_email data) (sd_password data) (snd (signUp_demo 1735689600000 data st)) =
  mkAuthResult (Some (mkAuthUser ("user-" ++ string_of_N 1735689600000)%string (sd_email data) (sd_name data))) None.
Proof. split; [reflexivity|apply signUp_then_signIn; reflexivity]. Defined.

Lemma signUp_duplicate_rejected_witness :
  let data := mkSignUp demo_email "other" "Eve" None None None None None in
  let st := constructor (mkStorage None []) in
  map_has (sd_email data) (users st) = true /\
  signUp_demo 1735689600000 data st = (mkAuthResult None (Some "User already exists with this email"%string), st).
Proof. split; [reflexivity|apply signUp_duplicate_rejected; reflexivity]. Defined.

Lemma signUp_profile_error_ignored_witness :
  let data := mkSignUp "anna@uni-due.de" "secret-1" "Anna" None None None None None in
  let b := mkMock [] [] true false in
  let b1 := mkMock [("anna@uni-due.de", ("secret-1", "uid-anna@uni-due.de"))]%string [] true false in
  let u := mkSbUser "uid-anna@uni-due.de" (Some "anna@uni-due.de"%string) in
  auth_signUp (sd_email data) (sd_password data) data b = (b1, Some (Some u, None)) /\
  profiles_insert (sbu_id u) data b1 = (b1, Some (Some "new row violates row-level security policy"%string)) /\
  truthy (sd_profilePhoto data) = false /\
  signUp false 1735689600000 data (constructor (mkStorage None []), b) =
  (mkAuthResult (Some (mkAuthUser (sbu_id u) (sd_email data) (sd_name data))) None,
   (constructor (mkStorage None []), b1)).
Proof.
  split; [reflexivity|split; [reflexivity|split; [reflexivity|]]].
  eapply signUp_profile_error_ignored; reflexivity.
Defined.

(** The account of the previous witness then signs in as 'Student'. *)
Lemma signIn_name_fallback_witness :
  let b1 := mkMock [("anna@uni-due.de", ("secret-1", "uid-anna@uni-due.de"))]%string [] true false in
  let u := mkSbUser "uid-anna@uni-due.de" (Some "anna@uni-due.de"%string) in
  auth_signInWithPassword "anna@uni-due.de" "secret-1" b1 = (b1, Some (Some u, None)) /\
  profiles_select_name (sbu_id u) b1 = (b1, Some None) /\
  signIn false "anna@uni-due.de" "secret-1" (constructor (mkStorage None []), b1) =
  (mkAuthResult (Some (mkAuthUser (sbu_id u) "anna@uni-due.de" "Student")) None,
   (constructor (mkStorage None []), b1)).
Proof. split; [reflexivity|split; [reflexivity|]]. eapply signIn_name_fallback; reflexivity. Defined.
