(* ===== verification/AuthContext.v ===== *)
(** * AuthContext: the React provider of [contexts/AuthContext.tsx]

    [AuthProvider] holds [user] and [loading] and calls the service
    through four methods.  The service is the interface [AuthApi], with
    the laws [AuthApiLaws] a client relies on; [authService] in demo mode
    is an instance of both.

    An [async] function of the provider runs in two events: its call (the
    synchronous part: [setLoading(true)] and the service call) and its
    resumption when the promise settles ([setUser], [finally
    setLoading(false)]).  Promises settle in any order, so [provider_step]
    resumes any pending call, and the provider's behaviour is a property
    of every interleaving. *)

From Stdlib Require Import String NArith List Lia.
From stdpp Require Import base list options sets.
From S2P Require Import Prelude AuthService.

(** ** The service, as the provider sees it *)

(** The four methods of [authService] that [AuthContext.tsx] calls; [now]
    is the [Date.now()] of a sign-up. *)
Class AuthApi (W : Type) := {
  api_getCurrentUser : W -> AuthResult * W;
  api_signIn : string -> string -> W -> AuthResult * W;
  api_signUp : N -> SignUpData -> W -> AuthResult * W;
  api_signOut : W -> option string * W
}.

(** What the provider needs of the service: a new account can sign in,
    and signing out does not change who can. *)
Class AuthApiLaws (W : Type) `{!AuthApi W} := {
  law_signIn_after_signUp now d w au :
    ar_user (fst (api_signUp now d w)) = Some au ->
    fst (api_signIn (sd_email d) (sd_password d) (snd (api_signUp now d w))) = mkAuthResult (Some au) None;
  law_signOut_signIn w e p :
    fst (api_signIn e p (snd (api_signOut w))) = fst (api_signIn e p w)
}.

(** [authService] on the world of [AuthService]. *)
Definition auth_api_of {S} `{!SupabaseApi S} (isDemoMode : bool) : AuthApi (World (S:=S)) := {|
  api_getCurrentUser := getCurrentUser isDemoMode;
  api_signIn := signIn isDemoMode;
  api_signUp := signUp isDemoMode;
  api_signOut := signOut isDemoMode
|}.

(** In demo mode. *)
#[export] Instance demo_auth_api {S} `{!SupabaseApi S} : AuthApi (World (S:=S)) := auth_api_of true.

(** ** The provider *)

(** The state of [useState]: [user] and [loading]. *)
Record AuthCtx := mkCtx { ctx_user : option AuthUser; ctx_loading : bool }.

(** [{ success: boolean; error?: string }] *)
Record Outcome := mkOutcome { success : bool; out_error : option string }.

(** A call whose promise has not settled, with the service's answer. *)
Inductive pending :=
  | PCheck (r : AuthResult)
  | PLogin (r : AuthResult)
  | PSignup (r : AuthResult)
  | PLogout.

Record Provider (W : Type) := mkProvider {
  ctx : AuthCtx; world : W; inflight : list pending }.
Arguments mkProvider {W}.
Arguments ctx {W}.
Arguments world {W}.
Arguments inflight {W}.

Section Provider.
Context {W : Type} `{!AuthApi W}.

(** The mount: [useState(null)], [useState(true)], and [checkUser()]. *)
Definition mount (w : W) : Provider W :=
  let '(r, w') := api_getCurrentUser w in mkProvider (mkCtx None true) w' [PCheck r].

(** The body of [login] and [signup] after the [await]: an [error] that is
    truthy fails, a user is set, anything else fails with [fallback]. *)
Definition settle (fallback : string) (r : AuthResult) (c : AuthCtx) : AuthCtx * Outcome :=
  if truthy (ar_error r) then (mkCtx (ctx_user c) false, mkOutcome false (ar_error r))
  else match ar_user r with
       | Some u => (mkCtx (Some u) false, mkOutcome true None)
       | None => (mkCtx (ctx_user c) false, mkOutcome false (Some fallback))
       end.

(** The resumption of a pending call; [login] and [signup] return their
    outcome. *)
Definition resume_one (p : pending) (c : AuthCtx) : AuthCtx * option Outcome :=
  match p with
  | PCheck r => (mkCtx (ar_user r) false, None)
  | PLogin r => let '(c', o) := settle "Login failed" r c in (c', Some o)
  | PSignup r => let '(c', o) := settle "Signup failed" r c in (c', Some o)
  | PLogout => (mkCtx None (ctx_loading c), None)
  end.

(** The events of the provider. *)
Definition call_login (email password : string) (st : Provider W) : Provider W :=
  let '(r, w') := api_signIn email password (world st) in
  mkProvider (mkCtx (ctx_user (ctx st)) true) w' (inflight st ++ [PLogin r]).

Definition call_signup (now : N) (data : SignUpData) (st : Provider W) : Provider W :=
  let '(r, w') := api_signUp now data (world st) in
  mkProvider (mkCtx (ctx_user (ctx st)) true) w' (inflight st ++ [PSignup r]).

Definition call_logout (st : Provider W) : Provider W :=
  let '(_, w') := api_signOut (world st) in mkProvider (ctx st) w' (inflight st ++ [PLogout]).

(** The promise of the [i]-th pending call settles. *)
Definition resume (i : nat) (st : Provider W) : option (Provider W * option Outcome) :=
  match inflight st !! i with
  | Some p => let '(c', o) := resume_one p (ctx st) in
              Some (mkProvider c' (world st) (delete i (inflight st)), o)
  | None => None
  end.

(** One event: a call from the UI, or a promise that settles. *)
Inductive provider_step : Provider W -> Provider W -> Prop :=
  | ev_login e p st : provider_step st (call_login e p st)
  | ev_signup now d st : provider_step st (call_signup now d st)
  | ev_logout st : provider_step st (call_logout st)
  | ev_resume i st st' o : resume i st = Some (st', o) -> provider_step st st'.

Inductive provider_reachable : Provider W -> Prop :=
  | preach_mount w : provider_reachable (mount w)
  | preach_step st st' : provider_reachable st -> provider_step st st' -> provider_reachable st'.

(** A call, awaited before anything else happens. *)
Definition login (email password : string) (st : Provider W) : option (Provider W * option Outcome) :=
  let st' := call_login email password st in resume (length (inflight st)) st'.

Definition signup (now : N) (data : SignUpData) (st : Provider W) : option (Provider W * option Outcome) :=
  let st' := call_signup now data st in resume (length (inflight st)) st'.

Definition logout (st : Provider W) : option (Provider W * option Outcome) :=
  let st' := call_logout st in resume (length (inflight st)) st'.

End Provider.

(** ** The demo service satisfies the laws *)

#[export] Instance demo_auth_laws {S} `{!SupabaseApi S} : AuthApiLaws (World (S:=S)).
Proof.
  split.
  - intros now d [st b] au. cbn [api_signUp api_signIn demo_auth_api auth_api_of signUp signIn].
    cbn [fst snd] in *. intros Hu. pose proof (signUp_demo_signIn now d st au) as H.
    destruct (signUp_demo now d st) as [r st']. simpl in *. by apply H.
  - done.
Qed.

(** ** Lemmas *)

Section ProviderLemmas.
Context {W : Type} `{!AuthApi W}.

Lemma settle_success fallback r c c' :
  settle fallback r c = (c', mkOutcome true None) ->
  truthy (ar_error r) = false /\ exists u, ar_user r = Some u /\ c' = mkCtx (Some u) false.
Proof.
  unfold settle. destruct (truthy (ar_error r)); [by inversion 1|].
  destruct (ar_user r); [intros [= <-]; eauto|by inversion 1].
Qed.

(** Awaiting the call just made resumes it and nothing else. *)
Lemma resume_last (p : pending) (c : AuthCtx) (w : W) (l : list pending) :
  resume (length l) (mkProvider c w (l ++ [p])) =
  let '(c', o) := resume_one p c in Some (mkProvider c' w l, o).
Proof.
  unfold resume. cbn [inflight ctx world].
  rewrite lookup_app_r, Nat.sub_diag by lia. simpl.
  destruct (resume_one p c). by rewrite delete_middle, app_nil_r.
Qed.

End ProviderLemmas.

(** ** Properties of the provider *)

Section ProviderProperties.
Context {W : Type} `{!AuthApi W}.

(** C10: In every interleaving of calls and settling promises, [loading]
    is true only while a [checkUser], [login] or [signup] call is still
    pending: once they have all settled the spinner is off. *)
Theorem loading_only_while_pending (st : Provider W) :
  provider_reachable st -> ctx_loading (ctx st) = true ->
  exists p, p ∈ inflight st /\ p <> PLogout.
Proof.
  induction 1 as [w|st st' _ IH Hstep].
  - unfold mount. destruct (api_getCurrentUser w). intros _. exists (PCheck a). split; [set_solver|done].
  - destruct Hstep as [e p st|now d st|st|i st st' o Hres].
    + unfold call_login. destruct (api_signIn e p (world st)) as [r w']. intros _.
      exists (PLogin r). split; [set_solver|done].
    + unfold call_signup. destruct (api_signUp now d (world st)) as [r w']. intros _.
      exists (PSignup r). split; [set_solver|done].
    + unfold call_logout. destruct (api_signOut (world st)). cbn [ctx inflight].
      intros Hl. destruct (IH Hl) as (q & Hq & Hne). exists q. split; [set_solver|done].
    + revert Hres. unfold resume. destruct (inflight st !! i) as [p|] eqn:Hi; [|discriminate].
      destruct p as [r|r|r|]; cbn [resume_one];
        [|destruct (settle _ r (ctx st)) as [c' o'] eqn:Hs..|];
        intros [= <- _]; cbn [ctx inflight];
        try (revert Hs; unfold settle; destruct (truthy _), (ar_user r); intros [= <- _]; discriminate).
      * discriminate.
      * intros Hl. destruct (IH Hl) as (q & Hq & Hne). exists q. split; [|done].
        by apply (elem_of_delete_ne _ PLogout).
Qed.

End ProviderProperties.

Section ProviderRefinement.
Context {W : Type} `{!AuthApi W} {Hlaws : AuthApiLaws W}.

(** C11: Against any service with the laws of [AuthApiLaws]: a [signup]
    that reports success, then [logout], then [login] with the same
    e-mail and password, all awaited in turn, reports success and puts
    back the user the sign-up set. *)
Theorem signup_logout_login now d (st st1 st2 st3 : Provider W) o2 o3 :
  signup now d st = Some (st1, Some (mkOutcome true None)) ->
  logout st1 = Some (st2, o2) ->
  login (sd_email d) (sd_password d) st2 = Some (st3, o3) ->
  o3 = Some (mkOutcome true None) /\ ctx_user (ctx st3) = ctx_user (ctx st1) /\ ctx_user (ctx st1) <> None.
Proof using Hlaws.
  unfold signup, logout, login, call_signup, call_logout, call_login.
  destruct (api_signUp now d (world st)) as [r w1] eqn:E1. rewrite resume_last. cbn [resume_one].
  destruct (settle "Signup failed" r _) as [c1 o1] eqn:Hs. intros [= <- ->].
  destruct (settle_success _ _ _ _ Hs) as (_ & u & Hu & ->). cbn [world inflight ctx].
  destruct (api_signOut w1) as [e w2] eqn:E2. rewrite resume_last. intros [= <- _]. cbn [world inflight ctx].
  pose proof (law_signIn_after_signUp now d (world st) u) as L1. rewrite E1 in L1. specialize (L1 Hu).
  pose proof (law_signOut_signIn w1 (sd_email d) (sd_password d)) as L2. rewrite E2 in L2. simpl in L2, L1.
  destruct (api_signIn (sd_email d) (sd_password d) w2) as [r3 w3]. simpl in L2. subst r3.
  rewrite L1, resume_last. intros [= <- <-]. simpl. done.
Qed.

End ProviderRefinement.

(** Outside demo mode, the session check of the mount and a login
    can settle in either order.  When the user logs in before
    [getCurrentUser] has answered (here: with no session), the login
    reports success and then [setUser(currentUser)] of the late check
    logs the user out again. *)
Example session_check_overwrites_login :
  let api := auth_api_of (S:=MockBackend) false in
  let b := mkMock [("anna@uni-due.de", ("secret-1", "uid-anna"))]%string
                  [("uid-anna", "Anna")]%string false false in
  let st0 := @mount _ api (constructor (mkStorage None []), b) in
  match @login _ api "anna@uni-due.de" "secret-1" st0 with
  | Some (st1, o) =>
      o = Some (mkOutcome true None) /\
      ctx_user (ctx st1) = Some (mkAuthUser "uid-anna" "anna@uni-due.de" "Anna") /\
      match resume 0 st1 with
      | Some (st2, _) => ctx_user (ctx st2) = None /\ inflight st2 = []
      | None => False
      end
  | None => False
  end.
Proof. vm_compute. repeat split. Qed.

(** ** Witnesses *)

Lemma loading_only_while_pending_witness :
  let st := @mount _ demo_auth_api (constructor (mkStorage None []), mkMock [] [] false false) in
  provider_reachable st /\ ctx_loading (ctx st) = true /\
  exists p, p ∈ inflight st /\ p <> PLogout.
Proof.
  split; [apply preach_mount|split; [reflexivity|]].
  apply loading_only_while_pending; [apply preach_mount|reflexivity].
Defined.

Lemma signup_logout_login_witness :
  let d := mkSignUp "ben@uni-due.de" "secret-2" "Ben" None None None None None in
  let st := @mount _ demo_auth_api (constructor (mkStorage None []), mkMock [] [] false false) in
  exists st1 st2 st3 o2 o3,
    signup 1735689600000 d st = Some (st1, Some (mkOutcome true None)) /\
    logout st1 = Some (st2, o2) /\
    login (sd_email d) (sd_password d) st2 = Some (st3, o3) /\
    (o3 = Some (mkOutcome true None) /\ ctx_user (ctx st3) = ctx_user (ctx st1) /\ ctx_user (ctx st1) <> None).
Proof.
  intros d st. do 5 eexists. split; [reflexivity|]. split; [reflexivity|]. split; [reflexivity|].
  eapply (signup_logout_login 1735689600000 d st); reflexivity.
Defined.
