(* ===== verification/Events.v ===== *)
(** * Events: the mock event service and the calendar's filters

    [services/eventsService.ts] keeps a module-level array [mockEvents];
    every query first sorts it {e in place} by date
    ([mockEvents.sort((a, b) => a.date.getTime() - b.date.getTime())]) and
    returns the array itself, and [registerForEvent] increments
    [currentParticipants] of the shared event object.  The array is the
    state [store] here; each query returns the new store with its result.
    [types/Events.ts] gives the data types; [EventsCalendar.tsx] filters
    the loaded events by category and by day.

    A [Date] is its time value in milliseconds ([Z]); [new Date(y, m, d)]
    is ECMA-262's [MakeDay]/[MakeDate] (§21.4.1) on the local time line,
    the offset of the time zone being the same for every date compared. *)

From Stdlib Require Import String NArith ZArith QArith List Sorted Permutation Lia.
From stdpp Require Import base list options sets.
From S2P Require Import Prelude.

(** ** Dates (ECMA-262 §21.4.1) *)

Definition msPerDay : Z := 86400000.

(** [DayFromYear(y)] *)
Definition DayFromYear (y : Z) : Z :=
  365 * (y - 1970) + (y - 1969) / 4 - (y - 1901) / 100 + (y - 1601) / 400.

(** [InLeapYear] for a year number. *)
Definition leap_year (y : Z) : bool :=
  (Z.eqb (y mod 4) 0 && negb (Z.eqb (y mod 100) 0)) || Z.eqb (y mod 400) 0.

(** The day of the year on which month [m] (0-11) starts. *)
Definition month_start (leap : bool) (m : Z) : Z :=
  let l := if leap then 1%Z else 0%Z in
  nth (Z.to_nat m) [0; 31; 59 + l; 90 + l; 120 + l; 151 + l; 181 + l; 212 + l;
                    243 + l; 273 + l; 304 + l; 334 + l]%Z 0%Z.

(** [MakeDay(year, month, date)]: the month may be outside 0-11. *)
Definition MakeDay (y m d : Z) : Z :=
  let ym := (y + m / 12)%Z in
  let mn := (m mod 12)%Z in
  (DayFromYear ym + month_start (leap_year ym) mn + d - 1)%Z.

(** [new Date(y, m, d)]: local midnight. *)
Definition new_Date (y m d : Z) : Z := (MakeDay y m d * msPerDay)%Z.

(** [Day(t)] and date-fns' [isSameDay] on the local time line. *)
Definition Day (t : Z) : Z := (t / msPerDay)%Z.

Definition isSameDay (t u : Z) : bool := Z.eqb (Day t) (Day u).

(** ** Types of [types/Events.ts] *)

Inductive category := Academic | International | Social | Cultural | Sports.

#[export] Instance category_eq_dec : EqDecision category.
Proof. solve_decision. Defined.

(** The string the code compares ([event.category === category]). *)
Definition category_id (c : category) : list N :=
  match c with
  | Academic => js "academic" | International => js "international"
  | Social => js "social" | Cultural => js "cultural" | Sports => js "sports"
  end.

(** [language?: 'en' | 'de' | 'both'] *)
Inductive event_language := LangEn | LangDe | LangBoth.

Inductive recurrence_type := Daily | Weekly | Monthly.

Record Cost := mkCost { amount : Q; currency : list N; studentDiscount : option Q }.

Record Recurrence := mkRecurrence {
  rec_type : recurrence_type; endDate : option Z; exceptions : option (list Z) }.

(** [interface CampusEvent]; [ev_id] and [ev_language] for [id] and
    [language], names taken by a function and a type. *)
Record CampusEvent := mkEvent {
  ev_id : list N;
  title : list N;
  description : list N;
  date : Z;
  time : list N;
  location : list N;
  ev_category : category;
  organizer : list N;
  registrationRequired : bool;
  registrationUrl : option (list N);
  isOnline : bool;
  maxParticipants : option Z;
  currentParticipants : option Z;
  tags : option (list (list N));
  imageUrl : option (list N);
  contactEmail : option (list N);
  contactPhone : option (list N);
  prerequisites : option (list (list N));
  targetAudience : option (list (list N));
  ev_language : option event_language;
  cost : option Cost;
  recurrence : option Recurrence }.

(** [interface EventFilter] and [interface EventRegistration]. *)
Record EventFilter := mkFilter {
  f_category : option (list N);
  f_dateRange : option (Z * Z);
  f_location : option (list N);
  f_registrationRequired : option bool;
  f_isOnline : option bool;
  f_searchQuery : option (list N) }.

Inductive registration_status := Registered | Waitlist | Cancelled.

Record EventRegistration := mkRegistration {
  eventId : list N; userId : list N; registrationDate : Z;
  status : registration_status; notes : option (list N) }.

(** ** The data: [mockEvents] *)

#[local] Open Scope js_scope.

(** An event literal of [mockEvents]; the fields none of them sets
    ([imageUrl], [contactEmail], [contactPhone], [prerequisites], [cost])
    are [undefined]. *)
Definition mock_event (id title description : list N) (date : Z) (time location : list N)
    (c : category) (organizer : list N) (registrationRequired : bool)
    (registrationUrl : option (list N)) (isOnline : bool) (maxParticipants currentParticipants : option Z)
    (tags targetAudience : list (list N)) (lang : event_language) (recurrence : option Recurrence)
    : CampusEvent :=
  mkEvent id title description date time location c organizer registrationRequired registrationUrl
    isOnline maxParticipants currentParticipants (Some tags) None None None None (Some targetAudience)
    (Some lang) None recurrence.

Definition event_1 : CampusEvent :=
  mock_event ‹"1"› ‹"International Student Welcome Day"›
    ‹"Join us for a warm welcome to UDE! Meet fellow international students, learn about campus resources, and enjoy cultural activities."›
    (new_Date 2025 0 25) ‹"14:00 - 18:00"› ‹"Student Center, Main Hall"› International ‹"International Office"›
    true (Some ‹"https://www.uni-due.de/international/registration"›) false (Some 200%Z) (Some 145%Z)
    [‹"welcome"›; ‹"networking"›; ‹"cultural"›] [‹"international students"›; ‹"new students"›] LangBoth None.

Definition event_2 : CampusEvent :=
  mock_event ‹"2"› ‹"Digital Library Workshop"›
    ‹"Learn how to effectively use our digital library resources, databases, and research tools."›
    (new_Date 2025 0 28) ‹"10:00 - 12:00"› ‹"Central Library, Computer Lab"› Academic ‹"Library Services"›
    true None false (Some 30%Z) (Some 18%Z)
    [‹"research"›; ‹"digital literacy"›; ‹"academic skills"›] [‹"all students"›; ‹"researchers"›] LangEn None.

Definition event_3 : CampusEvent :=
  mock_event ‹"3"› ‹"Campus Food Festival"›
    ‹"Taste international cuisines from around the world! Student organizations present their traditional foods."›
    (new_Date 2025 0 30) ‹"11:00 - 16:00"› ‹"Cafeteria Outdoor Area"› Cultural ‹"Student Organizations"›
    false None false None None
    [‹"food"›; ‹"culture"›; ‹"international"›; ‹"community"›] [‹"all students"›; ‹"staff"›; ‹"visitors"›] LangBoth None.

Definition event_4 : CampusEvent :=
  mock_event ‹"4"› ‹"Career Fair 2025"›
    ‹"Meet potential employers, learn about internship opportunities, and network with industry professionals."›
    (new_Date 2025 1 5) ‹"09:00 - 17:00"› ‹"Student Center, Exhibition Hall"› Academic ‹"Career Services"›
    true (Some ‹"https://www.uni-due.de/career/fair2025"›) false (Some 500%Z) (Some 320%Z)
    [‹"career"›; ‹"networking"›; ‹"jobs"›; ‹"internships"›] [‹"students"›; ‹"graduates"›] LangBoth None.

Definition event_5 : CampusEvent :=
  mock_event ‹"5"› ‹"Virtual Study Abroad Information Session"›
    ‹"Learn about exchange programs, application processes, and hear from students who studied abroad."›
    (new_Date 2025 1 8) ‹"15:00 - 16:30"› ‹"Online via Zoom"› International ‹"International Office"›
    true None true (Some 100%Z) (Some 67%Z)
    [‹"study abroad"›; ‹"exchange"›; ‹"international"›] [‹"undergraduate students"›; ‹"graduate students"›] LangEn None.

Definition event_6 : CampusEvent :=
  mock_event ‹"6"› ‹"Campus Sports Tournament"›
    ‹"Join the inter-faculty sports competition! Football, basketball, volleyball, and more."›
    (new_Date 2025 1 12) ‹"13:00 - 18:00"› ‹"Sports Complex"› Sports ‹"Sports Department"›
    true None false (Some 150%Z) (Some 89%Z)
    [‹"sports"›; ‹"competition"›; ‹"team building"›] [‹"all students"›] LangBoth None.

Definition event_7 : CampusEvent :=
  mock_event ‹"7"› ‹"Research Methodology Seminar"›
    ‹"Advanced seminar on quantitative and qualitative research methods for graduate students."›
    (new_Date 2025 1 15) ‹"14:00 - 17:00"› ‹"Academic Building, Room 301"› Academic ‹"Graduate School"›
    true None false (Some 25%Z) (Some 12%Z)
    [‹"research"›; ‹"methodology"›; ‹"graduate"›] [‹"graduate students"›; ‹"PhD candidates"›] LangEn None.

Definition event_8 : CampusEvent :=
  mock_event ‹"8"› ‹"International Coffee Hour"›
    ‹"Weekly meetup for international and local students to practice languages and make friends."›
    (new_Date 2025 1 18) ‹"16:00 - 18:00"› ‹"Student Center, Lounge"› Social ‹"International Student Association"›
    false None false None None
    [‹"social"›; ‹"language exchange"›; ‹"networking"›] [‹"international students"›; ‹"local students"›] LangBoth
    (Some (mkRecurrence Weekly (Some (new_Date 2025 5 30)) None)).

Definition event_9 : CampusEvent :=
  mock_event ‹"9"› (‹"Art Exhibition Opening: "› ++ dquote ++ ‹"Perspectives"› ++ dquote)
    ‹"Opening ceremony for the student art exhibition featuring works from various cultural backgrounds."›
    (new_Date 2025 1 20) ‹"18:00 - 21:00"› ‹"Cultural Center, Gallery"› Cultural ‹"Art Department"›
    false None false None None
    [‹"art"›; ‹"exhibition"›; ‹"culture"›; ‹"creativity"›] [‹"all students"›; ‹"staff"›; ‹"public"›] LangBoth None.

Definition event_10 : CampusEvent :=
  mock_event ‹"10"› ‹"Entrepreneurship Workshop"›
    ‹"Learn the basics of starting your own business, from idea validation to funding strategies."›
    (new_Date 2025 1 22) ‹"10:00 - 15:00"› ‹"Innovation Hub, Workshop Room"› Academic ‹"Entrepreneurship Center"›
    true (Some ‹"https://www.uni-due.de/entrepreneurship/workshop"›) false (Some 40%Z) (Some 28%Z)
    [‹"entrepreneurship"›; ‹"business"›; ‹"startup"›] [‹"all students"›; ‹"alumni"›] LangEn None.

(** [const mockEvents: CampusEvent[]] *)
Definition mockEvents : list CampusEvent :=
  [event_1; event_2; event_3; event_4; event_5; event_6; event_7; event_8; event_9; event_10].

#[local] Close Scope js_scope.

(** ** The service *)

(** [Array.prototype.sort] with the comparator [a.date - b.date]: the sort
    is stable (ECMA-262 since 2019), so the result is the stable sorted
    permutation, computed here by insertion. *)
Fixpoint insert_by_date (e : CampusEvent) (l : list CampusEvent) : list CampusEvent :=
  match l with
  | [] => [e]
  | x :: l' => if Z.leb (date e) (date x) then e :: l else x :: insert_by_date e l'
  end.

Fixpoint sort_by_date (l : list CampusEvent) : list CampusEvent :=
  match l with
  | [] => []
  | x :: l' => insert_by_date x (sort_by_date l')
  end.

(** [getCampusEvents()]: sorts the shared array in place and returns it;
    the first component is the result, the second the new store. *)
Definition getCampusEvents (store : list CampusEvent) : list CampusEvent * list CampusEvent :=
  let s := sort_by_date store in (s, s).

Definition getEventsByCategory (c : list N) (store : list CampusEvent)
    : list CampusEvent * list CampusEvent :=
  let '(events, store') := getCampusEvents store in
  (List.filter (fun e => jsstring_eqb (category_id (ev_category e)) c) events, store').

(** [arr.slice(0, end)] for an integer [end]: a negative end counts from
    the end of the array. *)
Definition slice0 {A} (l : list A) (e : Z) : list A :=
  let len := Z.of_nat (length l) in
  take (Z.to_nat (if Z.ltb e 0 then Z.max (len + e) 0 else Z.min e len)) l.

(** [getUpcomingEvents(limit = 5)]; [now] is [new Date()]. *)
Definition getUpcomingEvents (now limit : Z) (store : list CampusEvent)
    : list CampusEvent * list CampusEvent :=
  let '(events, store') := getCampusEvents store in
  (slice0 (List.filter (fun e => Z.leb now (date e)) events) limit, store').

(** [events.find(event => event.id === id) || null] *)
Definition getEventById (id : list N) (store : list CampusEvent)
    : option CampusEvent * list CampusEvent :=
  let '(events, store') := getCampusEvents store in
  (find (fun e => jsstring_eqb (ev_id e) id) events, store').

(** The predicate of [searchEvents]; [tags?.some] is [undefined] (false)
    when there are no tags. *)
Definition matches_query (lowerQuery : list N) (e : CampusEvent) : bool :=
  includes (js_toLowerCase (title e)) lowerQuery ||
  includes (js_toLowerCase (description e)) lowerQuery ||
  includes (js_toLowerCase (location e)) lowerQuery ||
  includes (js_toLowerCase (organizer e)) lowerQuery ||
  match tags e with
  | Some ts => existsb (fun tag => includes (js_toLowerCase tag) lowerQuery) ts
  | None => false
  end.

Definition searchEvents (query : list N) (store : list CampusEvent)
    : list CampusEvent * list CampusEvent :=
  let '(events, store') := getCampusEvents store in
  (List.filter (matches_query (js_toLowerCase query)) events, store').

Definition getEventsByDateRange (startDate endDate : Z) (store : list CampusEvent)
    : list CampusEvent * list CampusEvent :=
  let '(events, store') := getCampusEvents store in
  (List.filter (fun e => Z.leb startDate (date e) && Z.leb (date e) endDate) events, store').

(** [{ success: boolean; message: string }] *)
Record RegisterResult := mkRegisterResult { reg_success : bool; reg_message : list N }.

(** JavaScript truthiness of an optional number: [undefined] and [0] are
    false. *)
Definition truthy_num (o : option Z) : bool :=
  match o with Some n => negb (Z.eqb n 0) | None => false end.

(** [event.maxParticipants && event.currentParticipants &&
    event.currentParticipants >= event.maxParticipants] *)
Definition is_full (e : CampusEvent) : bool :=
  match maxParticipants e, currentParticipants e with
  | Some m, Some c => truthy_num (Some m) && truthy_num (Some c) && Z.leb m c
  | _, _ => false
  end.

(** [if (event.currentParticipants !== undefined) event.currentParticipants += 1] *)
Definition add_participant (e : CampusEvent) : CampusEvent :=
  match currentParticipants e with
  | Some c =>
      mkEvent (ev_id e) (title e) (description e) (date e) (time e) (location e) (ev_category e)
        (organizer e) (registrationRequired e) (registrationUrl e) (isOnline e) (maxParticipants e)
        (Some (c + 1)%Z) (tags e) (imageUrl e) (contactEmail e) (contactPhone e) (prerequisites e)
        (targetAudience e) (ev_language e) (cost e) (recurrence e)
  | None => e
  end.

(** [registerForEvent(eventId, userId)]: the event found is the shared
    object of the store, so the increment is an update of the store at
    its index.  [userId] is not used. *)
Definition registerForEvent (eventId userId : list N) (store : list CampusEvent)
    : RegisterResult * list CampusEvent :=
  let store' := sort_by_date store in
  match list_find (fun e => ev_id e = eventId) store' with
  | None => (mkRegisterResult false (js "Event not found"), store')
  | Some (i, e) =>
      if negb (registrationRequired e) then
        (mkRegisterResult false (js "Registration not required for this event"), store')
      else if is_full e then (mkRegisterResult false (js "Event is full"), store')
      else (mkRegisterResult true (js "Successfully registered for event"), <[i := add_participant e]> store')
  end.

(** ** [EventsCalendar.tsx] *)

(** [filteredEvents] for the selected category id. *)
Definition filteredEvents (selectedCategory : list N) (events : list CampusEvent) : list CampusEvent :=
  if jsstring_eqb selectedCategory (js "all") then events
  else List.filter (fun e => jsstring_eqb (category_id (ev_category e)) selectedCategory) events.

(** [getEventsForDate(date)] *)
Definition getEventsForDate (selectedCategory : list N) (events : list CampusEvent) (d : Z)
    : list CampusEvent :=
  List.filter (fun e => isSameDay (date e) d) (filteredEvents selectedCategory events).

(** [getCategoryColor(category)] *)
Definition getCategoryColor (c : list N) : list N :=
  if jsstring_eqb c (js "academic") then js "bg-blue-500"
  else if jsstring_eqb c (js "international") then js "bg-green-500"
  else if jsstring_eqb c (js "social") then js "bg-pink-500"
  else if jsstring_eqb c (js "cultural") then js "bg-purple-500"
  else if jsstring_eqb c (js "sports") then js "bg-orange-500"
  else js "bg-gray-500".

(** [loadEvents()]: [Promise.all] of the search (or the full list) and
    [getUpcomingEvents(5)], both of which sort the shared array; the
    [first] flag says which of the two reaches the array first. *)
Definition loadEvents (searchQuery : list N) (now : Z) (searchFirst : bool) (store : list CampusEvent)
    : list CampusEvent * list CampusEvent :=
  let query st := if negb (bool_decide (searchQuery = [])) then searchEvents searchQuery st
                  else getCampusEvents st in
  if searchFirst then
    let '(allEvents, st1) := query store in
    let '(_, st2) := getUpcomingEvents now 5 st1 in (allEvents, st2)
  else
    let '(_, st1) := getUpcomingEvents now 5 store in
    let '(allEvents, st2) := query st1 in (allEvents, st2).

(** ** The sort *)

Definition date_le (a b : CampusEvent) : Prop := (date a <= date b)%Z.

(** An event never has more participants than places: a positive
    [maxParticipants] bounds [currentParticipants]. *)
Definition within_capacity (e : CampusEvent) : Prop :=
  forall m c, maxParticipants e = Some m -> currentParticipants e = Some c -> (0 < m)%Z -> (c <= m)%Z.

Lemma insert_by_date_perm e l : Permutation (insert_by_date e l) (e :: l).
Proof.
  induction l as [|x l IH]; simpl; [done|].
  destruct (Z.leb (date e) (date x)); [done|].
  rewrite IH. apply perm_swap.
Qed.

Lemma sort_by_date_perm l : Permutation (sort_by_date l) l.
Proof.
  induction l as [|x l IH]; simpl; [done|].
  by rewrite insert_by_date_perm, IH.
Qed.

Lemma insert_by_date_sorted e l : Sorted date_le l -> Sorted date_le (insert_by_date e l).
Proof.
  unfold date_le. induction 1 as [|x l Hs IH Hhd]; simpl; [by repeat constructor|].
  destruct (Z.leb_spec (date e) (date x)).
  - constructor; [by constructor|by constructor].
  - constructor; [done|]. inversion Hhd as [|y l' Hxy]; subst; simpl.
    + constructor. lia.
    + destruct (Z.leb (date e) (date y)); constructor; [lia|done].
Qed.

Lemma sort_by_date_sorted l : Sorted date_le (sort_by_date l).
Proof. induction l; simpl; [constructor|by apply insert_by_date_sorted]. Qed.

(** The events of one date keep their order. *)
Lemma insert_by_date_filter e l (k : Z) :
  List.filter (fun x => Z.eqb (date x) k) (insert_by_date e l) =
  List.filter (fun x => Z.eqb (date x) k) (e :: l).
Proof.
  induction l as [|x l IH]; simpl; [done|].
  destruct (Z.leb_spec (date e) (date x)); [done|]. simpl. rewrite IH. simpl.
  destruct (Z.eqb_spec (date e) k), (Z.eqb_spec (date x) k); try done; lia.
Qed.

Lemma sort_by_date_stable l (k : Z) :
  List.filter (fun x => Z.eqb (date x) k) (sort_by_date l) = List.filter (fun x => Z.eqb (date x) k) l.
Proof.
  induction l as [|x l IH]; simpl; [done|].
  rewrite insert_by_date_filter. simpl. by rewrite IH.
Qed.

Lemma sort_by_date_sorted_id l : Sorted date_le l -> sort_by_date l = l.
Proof.
  induction 1 as [|x l Hs IH Hhd]; simpl; [done|]. rewrite IH.
  destruct Hhd as [|y l' Hxy]; simpl; [done|]. unfold date_le in Hxy.
  by destruct (Z.leb_spec (date x) (date y)); [|lia].
Qed.

Lemma date_le_trans : Transitive date_le.
Proof. unfold date_le. intros a b c; lia. Qed.

(** Every event of a sorted list is at or after its head. *)
Lemma sorted_head_min x l z : Sorted date_le (x :: l) -> In z (x :: l) -> date_le x z.
Proof.
  intros Hs Hz. apply Sorted_StronglySorted in Hs; [|exact date_le_trans].
  inversion Hs as [|? ? _ Hall]; subst. destruct Hz as [<-|Hz]; [unfold date_le; lia|].
  rewrite List.Forall_forall in Hall. by apply Hall.
Qed.

(** Two sorted lists with the same events of each date, in the same
    order, are equal: a stable sort by date has one result. *)
Lemma sorted_stable_unique l1 l2 :
  Sorted date_le l1 -> Sorted date_le l2 ->
  (forall k, List.filter (fun x => Z.eqb (date x) k) l1 = List.filter (fun x => Z.eqb (date x) k) l2) ->
  l1 = l2.
Proof.
  revert l2. induction l1 as [|x l1 IH]; intros [|y l2] Hs1 Hs2 Hf; try done.
  - specialize (Hf (date y)). simpl in Hf. by rewrite Z.eqb_refl in Hf.
  - specialize (Hf (date x)). simpl in Hf. by rewrite Z.eqb_refl in Hf.
  - assert (Hxy : date x = date y).
    { assert (H1 : In y (List.filter (fun z => Z.eqb (date z) (date y)) (x :: l1))).
      { rewrite Hf. simpl. rewrite Z.eqb_refl. by left. }
      assert (H2 : In x (List.filter (fun z => Z.eqb (date z) (date x)) (y :: l2))).
      { rewrite <- Hf. simpl. rewrite Z.eqb_refl. by left. }
      apply filter_In in H1 as [H1 _], H2 as [H2 _].
      pose proof (sorted_head_min _ _ _ Hs1 H1). pose proof (sorted_head_min _ _ _ Hs2 H2).
      unfold date_le in *. lia. }
    pose proof (Hf (date x)) as Hx. simpl in Hx. rewrite Hxy, Z.eqb_refl in Hx. simpl in Hx.
    rewrite <- Hxy in Hx. injection Hx as <- Hx. f_equal.
    apply IH; [by inversion Hs1|by inversion Hs2|]. intros k.
    specialize (Hf k). simpl in Hf.
    destruct (Z.eqb (date x) k); [by injection Hf|done].
Qed.

(** ** Registration *)

Lemma add_participant_capacity e :
  within_capacity e -> is_full e = false -> within_capacity (add_participant e).
Proof.
  intros Hcap Hfull m c' Hm Hc Hpos. unfold add_participant in *.
  destruct (currentParticipants e) as [c|] eqn:Ec; [|by apply (Hcap m c')].
  simpl in Hm, Hc. injection Hc as <-. specialize (Hcap m c Hm Ec Hpos).
  unfold is_full, truthy_num in Hfull. rewrite Hm, Ec in Hfull.
  destruct (Z.eqb_spec m 0), (Z.eqb_spec c 0), (Z.leb_spec m c); simpl in Hfull; try discriminate; lia.
Qed.

(** The mock table is already in date order. *)
Lemma mockEvents_sorted : Sorted date_le mockEvents.
Proof. repeat constructor; unfold date_le; vm_compute; discriminate. Qed.

(** [Promise.all] in [loadEvents]: both calls sort the same array, and
    sorting a sorted array changes nothing. *)
Lemma sort_by_date_idem l : sort_by_date (sort_by_date l) = sort_by_date l.
Proof. apply sort_by_date_sorted_id, sort_by_date_sorted. Qed.

(** ** Properties of the event service *)

(** C12: [Array.prototype.sort] is stable, so any array that is in date
    order and keeps the order of each date's events is the result of the
    sort: [sort_by_date] is the one result the code can have. *)
Theorem stable_sort_unique (l l' : list CampusEvent) :
  Sorted date_le l' ->
  (forall k, List.filter (fun x => Z.eqb (date x) k) l' = List.filter (fun x => Z.eqb (date x) k) l) ->
  l' = sort_by_date l.
Proof.
  intros Hs Hf. apply sorted_stable_unique; [done|apply sort_by_date_sorted|].
  intros k. by rewrite Hf, sort_by_date_stable.
Qed.

(** C13: [registerForEvent] never takes an event with a positive
    [maxParticipants] beyond it: the bound is an invariant of the store. *)
Theorem registerForEvent_within_capacity eventId uid store :
  Forall within_capacity store -> Forall within_capacity (snd (registerForEvent eventId uid store)).
Proof.
  intros Hs. assert (Hs' : Forall within_capacity (sort_by_date store)).
  { eapply Permutation_Forall; [symmetry; apply sort_by_date_perm|done]. }
  unfold registerForEvent.
  destruct (list_find _ (sort_by_date store)) as [[i e]|] eqn:Ef; [|done].
  apply list_find_Some in Ef as (Hi & _ & _).
  destruct (negb (registrationRequired e)); [done|].
  destruct (is_full e) eqn:Hfull; [done|]. simpl.
  apply Forall_insert; [done|]. apply add_participant_capacity; [|done].
  by eapply Forall_lookup_1.
Qed.

(** Loading the calendar runs the search and [getUpcomingEvents(5)]
    concurrently, and both sort the shared array: the events shown and
    the array after both calls do not depend on which sorts first. *)
Theorem loadEvents_order_irrelevant searchQuery now store :
  loadEvents searchQuery now true store = loadEvents searchQuery now false store.
Proof.
  unfold loadEvents, searchEvents, getUpcomingEvents, getCampusEvents.
  destruct (negb _); by rewrite !sort_by_date_idem.
Qed.

(** [registerForEvent] ignores its [userId]: the same user registers
    twice for the Research Methodology Seminar and takes two places. *)
Example registerForEvent_same_user_twice :
  let '(r1, st1) := registerForEvent (js "7") (js "user-42") mockEvents in
  let '(r2, st2) := registerForEvent (js "7") (js "user-42") st1 in
  reg_success r1 = true /\ reg_success r2 = true /\
  option_map currentParticipants (find (fun e => jsstring_eqb (ev_id e) (js "7")) st2) = Some (Some 14%Z).
Proof. vm_compute. repeat split. Qed.

(** the capacity check relies on JavaScript truthiness: an event
    whose [maxParticipants] is 0 accepts registrations and goes over it,
    and one whose [currentParticipants] is [undefined] accepts any number
    of them without counting. *)
Example registerForEvent_truthiness :
  let closed := mock_event (js "11") (js "Closed Session") [] (new_Date 2025 2 1) [] [] Academic []
                  true None false (Some 0%Z) (Some 0%Z) [] [] LangEn None in
  let uncounted := mock_event (js "12") (js "Open Lab") [] (new_Date 2025 2 2) [] [] Academic []
                  true None false (Some 1%Z) None [] [] LangEn None in
  let '(r1, st1) := registerForEvent (js "11") (js "a") [closed; uncounted] in
  let '(r2, st2) := registerForEvent (js "12") (js "b") st1 in
  let '(r3, st3) := registerForEvent (js "12") (js "c") st2 in
  reg_success r1 = true /\ reg_success r2 = true /\ reg_success r3 = true /\
  map currentParticipants st3 = [Some 1%Z; None] /\ map maxParticipants st3 = [Some 0%Z; Some 1%Z].
Proof. vm_compute. repeat split. Qed.

(** [getUpcomingEvents] compares the event's date, local midnight,
    with the current instant: at 9:00 on 15 February 2025 the seminar at
    14:00 that day is no longer listed as upcoming. *)
Example getUpcomingEvents_drops_today :
  let now := (new_Date 2025 1 15 + 9 * 3600000)%Z in
  isSameDay (date event_7) now = true /\
  ~ In event_7 (fst (getUpcomingEvents now 5 mockEvents)) /\
  map ev_id (fst (getUpcomingEvents now 5 mockEvents)) = [js "8"; js "9"; js "10"].
Proof.
  split; [reflexivity|split; [|reflexivity]].
  vm_compute. intros [H|[H|[H|[]]]]; discriminate.
Qed.

(** ** Witnesses *)

Lemma stable_sort_unique_witness :
  Sorted date_le mockEvents /\
  (forall k, List.filter (fun x => Z.eqb (date x) k) mockEvents = List.filter (fun x => Z.eqb (date x) k) mockEvents) /\
  mockEvents = sort_by_date mockEvents.
Proof.
  split; [apply mockEvents_sorted|split; [reflexivity|]].
  apply stable_sort_unique; [apply mockEvents_sorted|reflexivity].
Defined.

Lemma mockEvents_within_capacity : Forall within_capacity mockEvents.
Proof.
  repeat constructor; intros m c Hm Hc _; vm_compute in Hm, Hc; try discriminate;
    injection Hm as <-; injection Hc as <-; lia.
Qed.

Lemma registerForEvent_within_capacity_witness :
  Forall within_capacity mockEvents /\
  Forall within_capacity (snd (registerForEvent (js "7") (js "user-42") mockEvents)).
Proof.
  split; [apply mockEvents_within_capacity|].
  apply registerForEvent_within_capacity, mockEvents_within_capacity.
Defined.
