(* ===== verification/Language.v ===== *)
(** * Language: the translation context of [contexts/LanguageContext.tsx]

    [LanguageProvider] keeps the current language, initialised from
    [localStorage['ude-language']] ([(saved as Language) || 'en']: the
    stored text is taken as it is, only an empty or missing item gives
    ['en']), and [t(key)] reads [translations[language][key] || key].
    [translations_en] and [translations_de] are the two tables, entry for
    entry (lines 23-113 and 116-206).  Strings are Rocq strings here: the
    only operations on them are comparison and concatenation.

    A JavaScript property read [obj[k]] finds an own property, else a
    member of [Object.prototype] ([constructor], [toString], ...), else
    [undefined]; reading a property of [undefined] throws a [TypeError].
    [t_result] records the three outcomes of [t]. *)

From Stdlib Require Import String List.
From stdpp Require Import base list options sets.
From S2P Require Import Prelude.

#[local] Open Scope string_scope.

(** ** The tables *)

Definition translations_en : list (string * string) := [
  ("header.title", "UDE Campus Navigator");
  ("header.welcome", "Welcome");
  ("header.logout", "Logout");
  ("header.back", "Back");
  ("login.title", "UDE Campus Navigator");
  ("login.university", "University of Duisburg-Essen");
  ("login.subtitle", "Your Campus Navigation Guide");
  ("login.welcomeBack", "Welcome Back");
  ("login.signInDesc", "Sign in to access your campus guide");
  ("login.createAccount", "Create Account");
  ("login.joinDesc", "Join the UDE community today");
  ("login.email", "Email Address");
  ("login.password", "Password");
  ("login.signIn", "Sign In");
  ("login.signUp", "Sign Up");
  ("login.noAccount", "Don't have an account?");
  ("login.hasAccount", "Already have an account?");
  ("login.demoTitle", "Demo Credentials");
  ("login.demoEmail", "Email: student@uni-due.de");
  ("login.demoPassword", "Password: password123");
  ("login.copyright", "© 2024 University of Duisburg-Essen");
  ("building.library", "Central Library");
  ("building.library.category", "Academic Resources");
  ("building.student-center", "Student Center");
  ("building.student-center.category", "Student Life");
  ("building.cafeteria", "Cafeteria/Mensa");
  ("building.cafeteria.category", "Dining");
  ("building.visa-services", "Visa Services");
  ("building.visa-services.category", "International Support");
  ("building.administration", "Administration");
  ("building.administration.category", "Administrative Services");
  ("building.ude-portals", "UDE Portals");
  ("building.ude-portals.category", "Digital Services");
  ("page.availableServices", "Available Services");
  ("page.quickLinks", "Quick Links");
  ("page.campusMaps", "Campus Maps");
  ("search.placeholder", "Search buildings or services...");
  ("search.noResults", "No results found");
  ("sidebar.exploreBuildings", "Explore Buildings");
  ("sidebar.quickAccess", "Quick Access");
  ("updates.title", "Live Updates");
  ("updates.noUpdates", "No updates available");
  ("priority.low", "Low");
  ("priority.medium", "Medium");
  ("priority.high", "High");
  ("settings.title", "Settings");
  ("settings.general", "General");
  ("settings.notifications", "Notifications");
  ("settings.display", "Display");
  ("settings.campus", "Campus");
  ("settings.accessibility", "Accessibility");
  ("settings.privacy", "Privacy");
  ("settings.profile", "Profile");
  ("settings.language", "Language");
  ("settings.enableNotifications", "Enable Notifications");
  ("settings.notificationsDesc", "Receive updates about campus events and services");
  ("settings.soundNotifications", "Sound Notifications");
  ("settings.soundDesc", "Play sound for new notifications");
  ("settings.liveUpdates", "Live Updates");
  ("settings.updatesDesc", "Real-time campus information and alerts");
  ("settings.eventNotifications", "Event Notifications");
  ("settings.eventsDesc", "Notifications about upcoming campus events");
  ("settings.theme", "Theme");
  ("settings.light", "Light");
  ("settings.dark", "Dark");
  ("settings.auto", "Auto");
  ("settings.fontSize", "Font Size");
  ("settings.small", "Small");
  ("settings.medium", "Medium");
  ("settings.large", "Large");
  ("settings.animations", "Animations");
  ("settings.animationsDesc", "Enable smooth animations and transitions");
  ("settings.compactMode", "Compact Mode");
  ("settings.compactDesc", "Reduce spacing for more content on screen");
  ("settings.showBuildingLabels", "Show Building Labels");
  ("settings.labelsDesc", "Display building names on the campus map");
  ("settings.autoZoom", "Auto Zoom");
  ("settings.zoomDesc", "Automatically zoom to selected buildings");
  ("settings.highContrast", "High Contrast");
  ("settings.contrastDesc", "Increase contrast for better visibility");
  ("settings.reduceMotion", "Reduce Motion");
  ("settings.motionDesc", "Minimize animations for motion sensitivity");
  ("settings.keyboardNav", "Keyboard Navigation");
  ("settings.keyboardDesc", "Enhanced keyboard navigation support");
  ("settings.analytics", "Analytics");
  ("settings.analyticsDesc", "Help improve the app by sharing usage data");
  ("settings.personalizedContent", "Personalized Content");
  ("settings.personalizedDesc", "Show content based on your preferences");
  ("settings.reset", "Reset to Defaults");
  ("settings.cancel", "Cancel");
  ("settings.save", "Save Changes")
].

Definition translations_de : list (string * string) := [
  ("header.title", "UDE Campus Navigator");
  ("header.welcome", "Willkommen");
  ("header.logout", "Abmelden");
  ("header.back", "Zurück");
  ("login.title", "UDE Campus Navigator");
  ("login.university", "Universität Duisburg-Essen");
  ("login.subtitle", "Ihr Campus-Navigationsführer");
  ("login.welcomeBack", "Willkommen zurück");
  ("login.signInDesc", "Melden Sie sich an, um auf Ihren Campus-Guide zuzugreifen");
  ("login.createAccount", "Konto erstellen");
  ("login.joinDesc", "Treten Sie noch heute der UDE-Gemeinschaft bei");
  ("login.email", "E-Mail-Adresse");
  ("login.password", "Passwort");
  ("login.signIn", "Anmelden");
  ("login.signUp", "Registrieren");
  ("login.noAccount", "Noch kein Konto?");
  ("login.hasAccount", "Bereits ein Konto?");
  ("login.demoTitle", "Demo-Zugangsdaten");
  ("login.demoEmail", "E-Mail: student@uni-due.de");
  ("login.demoPassword", "Passwort: password123");
  ("login.copyright", "© 2024 Universität Duisburg-Essen");
  ("building.library", "Zentralbibliothek");
  ("building.library.category", "Akademische Ressourcen");
  ("building.student-center", "Studierendenzentrum");
  ("building.student-center.category", "Studentenleben");
  ("building.cafeteria", "Cafeteria/Mensa");
  ("building.cafeteria.category", "Gastronomie");
  ("building.visa-services", "Visa-Services");
  ("building.visa-services.category", "Internationale Unterstützung");
  ("building.administration", "Verwaltung");
  ("building.administration.category", "Verwaltungsdienstleistungen");
  ("building.ude-portals", "UDE-Portale");
  ("building.ude-portals.category", "Digitale Dienste");
  ("page.availableServices", "Verfügbare Dienste");
  ("page.quickLinks", "Schnellzugriff");
  ("page.campusMaps", "Campus-Karten");
  ("search.placeholder", "Gebäude oder Dienste suchen...");
  ("search.noResults", "Keine Ergebnisse gefunden");
  ("sidebar.exploreBuildings", "Gebäude erkunden");
  ("sidebar.quickAccess", "Schnellzugriff");
  ("updates.title", "Live-Updates");
  ("updates.noUpdates", "Keine Updates verfügbar");
  ("priority.low", "Niedrig");
  ("priority.medium", "Mittel");
  ("priority.high", "Hoch");
  ("settings.title", "Einstellungen");
  ("settings.general", "Allgemein");
  ("settings.notifications", "Benachrichtigungen");
  ("settings.display", "Anzeige");
  ("settings.campus", "Campus");
  ("settings.accessibility", "Barrierefreiheit");
  ("settings.privacy", "Datenschutz");
  ("settings.profile", "Profil");
  ("settings.language", "Sprache");
  ("settings.enableNotifications", "Benachrichtigungen aktivieren");
  ("settings.notificationsDesc", "Updates über Campus-Events und Services erhalten");
  ("settings.soundNotifications", "Ton-Benachrichtigungen");
  ("settings.soundDesc", "Ton für neue Benachrichtigungen abspielen");
  ("settings.liveUpdates", "Live-Updates");
  ("settings.updatesDesc", "Echtzeit-Campus-Informationen und Warnungen");
  ("settings.eventNotifications", "Event-Benachrichtigungen");
  ("settings.eventsDesc", "Benachrichtigungen über bevorstehende Campus-Events");
  ("settings.theme", "Design");
  ("settings.light", "Hell");
  ("settings.dark", "Dunkel");
  ("settings.auto", "Automatisch");
  ("settings.fontSize", "Schriftgröße");
  ("settings.small", "Klein");
  ("settings.medium", "Mittel");
  ("settings.large", "Groß");
  ("settings.animations", "Animationen");
  ("settings.animationsDesc", "Sanfte Animationen und Übergänge aktivieren");
  ("settings.compactMode", "Kompakter Modus");
  ("settings.compactDesc", "Abstände reduzieren für mehr Inhalt auf dem Bildschirm");
  ("settings.showBuildingLabels", "Gebäude-Labels anzeigen");
  ("settings.labelsDesc", "Gebäudenamen auf der Campus-Karte anzeigen");
  ("settings.autoZoom", "Auto-Zoom");
  ("settings.zoomDesc", "Automatisch zu ausgewählten Gebäuden zoomen");
  ("settings.highContrast", "Hoher Kontrast");
  ("settings.contrastDesc", "Kontrast für bessere Sichtbarkeit erhöhen");
  ("settings.reduceMotion", "Bewegung reduzieren");
  ("settings.motionDesc", "Animationen für Bewegungsempfindlichkeit minimieren");
  ("settings.keyboardNav", "Tastatur-Navigation");
  ("settings.keyboardDesc", "Erweiterte Tastatur-Navigationsunterstützung");
  ("settings.analytics", "Analytik");
  ("settings.analyticsDesc", "Helfen Sie bei der Verbesserung der App durch Teilen von Nutzungsdaten");
  ("settings.personalizedContent", "Personalisierte Inhalte");
  ("settings.personalizedDesc", "Inhalte basierend auf Ihren Präferenzen anzeigen");
  ("settings.reset", "Auf Standard zurücksetzen");
  ("settings.cancel", "Abbrechen");
  ("settings.save", "Änderungen speichern")
].

(** The names [Object.prototype] provides to every object literal. *)
Definition proto_members : list string :=
  ["constructor"; "__proto__"; "toString"; "toLocaleString"; "valueOf"; "hasOwnProperty";
   "isPrototypeOf"; "propertyIsEnumerable"; "__defineGetter__"; "__defineSetter__";
   "__lookupGetter__"; "__lookupSetter__"].

Definition is_proto_member (k : string) : bool := existsb (String.eqb k) proto_members.

(** ** The provider *)

(** [type Language = 'en' | 'de'] as the text the code stores. *)
Definition language_code (l : language) : string :=
  match l with En => "en" | De => "de" end.

(** [useState(() => (localStorage.getItem('ude-language') as Language) || 'en')] *)
Definition initial_language (saved : option string) : string :=
  match saved with
  | Some s => if String.eqb s EmptyString then "en" else s
  | None => "en"
  end.

(** [handleSetLanguage(lang)]: the new state and [localStorage]. *)
Definition handleSetLanguage (lang : language) (items : list (string * string))
    : string * list (string * string) :=
  (language_code lang, map_set "ude-language" (language_code lang) items).

(** The outcome of [t(key)]: a text, a member of [Object.prototype] (a
    function, truthy), or the [TypeError] of reading a property of
    [undefined]. *)
Inductive t_result := Text (s : string) | ProtoMember (k : string) | TypeError.

(** [translations[language]]: an own table, an [Object.prototype] member
    (whose property [key] is [undefined] but for the names of
    [Object.prototype]; the own properties of functions, [name], [length]
    and [prototype], are not modelled), or [undefined]. *)
Inductive table_ref := Table (rows : list (string * string)) | ProtoTable | NoTable.

Definition translations (language : string) : table_ref :=
  if String.eqb language "en" then Table translations_en
  else if String.eqb language "de" then Table translations_de
  else if is_proto_member language then ProtoTable
  else NoTable.

(** [t(key)] *)
Definition t (language key : string) : t_result :=
  match translations language with
  | Table rows =>
      match map_get key rows with
      | Some v => if String.eqb v EmptyString then Text key else Text v
      | None => if is_proto_member key then ProtoMember key else Text key
      end
  | ProtoTable => if is_proto_member key then ProtoMember key else Text key
  | NoTable => TypeError
  end.

(** [t(`building.${id}`) || fallback] of [DesktopCampusView],
    [MobileCampusView] and [BuildingPage]. *)
Definition label_or (r : t_result) (fallback : string) : t_result :=
  match r with
  | Text s => if String.eqb s EmptyString then Text fallback else Text s
  | _ => r
  end.

Definition building_label (language id name : string) : t_result :=
  label_or (t language ("building." ++ id)) name.

Definition building_category_label (language id category : string) : t_result :=
  label_or (t language ("building." ++ id ++ ".category")) category.

(** ** Properties *)

(** The two tables translate the same keys, in the same order. *)
Lemma translations_same_keys : map fst translations_en = map fst translations_de.
Proof. reflexivity. Qed.

Lemma translations_nonempty :
  Forall (fun kv => snd kv <> EmptyString) (translations_en ++ translations_de).
Proof. repeat constructor; discriminate. Qed.

(** With the language ['en'] or ['de'], [t] never throws: a key of
    the table gives its translation, any other key (but the names of
    [Object.prototype]) gives the key itself. *)
Theorem t_valid_language (lang : language) (key : string) :
  is_proto_member key = false ->
  t (language_code lang) key =
  Text (default key (map_get key (if lang is En then translations_en else translations_de))).
Proof.
  intros Hk. unfold t.
  replace (translations (language_code lang))
    with (Table (if lang is En then translations_en else translations_de)) by (by destruct lang).
  destruct (map_get key _) as [v|] eqn:E; simpl; [|by rewrite Hk].
  assert (Hv : v <> EmptyString).
  { apply map_get_elem in E. pose proof translations_nonempty as Hne. rewrite Forall_forall in Hne.
    apply (Hne (key, v)). apply elem_of_app. destruct lang; [left|right]; exact E. }
  by destruct (String.eqb_spec v EmptyString).
Qed.

(** A language read back from [localStorage] is not checked: after
    [localStorage['ude-language'] = 'fr'] the provider starts in 'fr' and
    every [t(key)] throws a [TypeError], which breaks every component
    that translates a text. *)
Theorem t_unknown_language_throws (saved key : string) :
  saved <> EmptyString -> saved <> "en" -> saved <> "de" -> is_proto_member saved = false ->
  t (initial_language (Some saved)) key = TypeError.
Proof.
  intros H0 H1 H2 H3. unfold initial_language, t, translations.
  rewrite (proj2 (String.eqb_neq _ _) H0), (proj2 (String.eqb_neq _ _) H1), (proj2 (String.eqb_neq _ _) H2), H3.
  reflexivity.
Qed.

(** the language chosen with [setLanguage] is the one a reload starts
    with. *)
Theorem setLanguage_reload (lang : language) (items : list (string * string)) :
  initial_language (map_get "ude-language" (snd (handleSetLanguage lang items))) = language_code lang.
Proof. simpl. rewrite map_get_set_eq. by destruct lang. Qed.

(** every key the components build at run time, [`building.${id}`]
    and [`building.${id}.category`] for the six buildings,
    [`priority.${p}`] of the live updates and [`settings.${theme}`] and
    [`settings.${size}`] of the settings, has a translation in both
    languages, so [t] never shows such a key raw (and the fallback of
    [t(...) || building.name], dead since [t] returns the key, is never
    needed). *)
Example dynamic_keys_translated :
  Forall (fun k => forall lang, t (language_code lang) k <> Text k)
    (map (fun id => "building." ++ id) ["library"; "student-center"; "cafeteria"; "visa-services"; "administration"; "ude-portals"] ++
     map (fun id => "building." ++ id ++ ".category") ["library"; "student-center"; "cafeteria"; "visa-services"; "administration"; "ude-portals"] ++
     map (fun p => "priority." ++ p) ["low"; "medium"; "high"] ++
     map (fun v => "settings." ++ v) ["light"; "dark"; "auto"; "small"; "medium"; "large"]).
Proof. repeat constructor; intros []; vm_compute; discriminate. Qed.

(** ** Witnesses *)

Lemma t_valid_language_witness :
  is_proto_member "login.title" = false /\
  t (language_code De) "login.title" = Text "UDE Campus Navigator".
Proof.
  split; [reflexivity|]. rewrite (t_valid_language De "login.title"); reflexivity.
Defined.

Lemma t_unknown_language_throws_witness :
  "fr" <> EmptyString /\ "fr" <> "en" /\ "fr" <> "de" /\ is_proto_member "fr" = false /\
  t (initial_language (Some "fr")) "header.title" = TypeError.
Proof.
  split; [discriminate|split; [discriminate|split; [discriminate|split; [reflexivity|]]]].
  apply t_unknown_language_throws; [discriminate..|reflexivity].
Defined.
