(* ===== verification/Weather.v ===== *)
(** * Weather: [services/weatherService.ts] and the widget's fetch logic

    [WeatherService] turns an OpenWeatherMap answer into a [WeatherData]:
    [mapWeatherCondition] classifies the condition id (falling back on the
    lower-cased [main] text), [Math.round] rounds the temperatures, the
    wind speed converted to km/h and the visibility in km.  The request URL
    encodes the city with [encodeURIComponent] (ECMA-262 §19.2.6.5,
    including its [URIError] on a lone surrogate).  [fetch] is an input:
    its answer for the URL ([fetch_result]).  Numbers of the JSON answer
    are rationals ([Q]); [Math.round(x)] is [floor(x + 1/2)].

    [WeatherWidget.tsx] shows the service's data, or simulated data drawn
    with [Math.random()] when no API key is configured, or fixed fallback
    data after an error; [fetchDefaultCityWeather] is modelled with the
    random numbers it draws as inputs. *)

From Stdlib Require Import String DecimalString NArith ZArith QArith Qround List Lia Lqa.
From stdpp Require Import base list options.
From S2P Require Import Prelude.

(** ** Data *)

(** [condition: 'sunny' | 'cloudy' | 'rainy' | 'windy' | 'snow' |
    'thunderstorm' | 'mist'] *)
Inductive condition := Sunny | Cloudy | Rainy | Windy | Snow | Thunderstorm | Mist.

#[export] Instance condition_eq_dec : EqDecision condition.
Proof. solve_decision. Defined.

(** [interface WeatherData] *)
Record WeatherData := mkWeather {
  temperature : Q; w_condition : condition; humidity : Q; windSpeed : Q; visibility : Q;
  w_location : list N; w_description : list N; feelsLike : Q; pressure : Q }.

(** [interface OpenWeatherResponse]: [weather] is an array, possibly
    empty. *)
Record WeatherEntry := mkWeatherEntry {
  we_id : Q; we_main : list N; we_description : list N; we_icon : list N }.

Record OpenWeatherResponse := mkOWResponse {
  main_temp : Q; main_feels_like : Q; main_humidity : Q; main_pressure : Q;
  weather : list WeatherEntry; wind_speed : Q; ow_visibility : Q; ow_name : list N;
  sys_country : list N }.

(** ** [mapWeatherCondition] *)

Definition mapWeatherCondition (weatherId : Q) (main : list N) : condition :=
  if Qle_bool 200 weatherId && negb (Qle_bool 300 weatherId) then Thunderstorm
  else if Qle_bool 300 weatherId && negb (Qle_bool 400 weatherId) then Rainy
  else if Qle_bool 500 weatherId && negb (Qle_bool 600 weatherId) then Rainy
  else if Qle_bool 600 weatherId && negb (Qle_bool 700 weatherId) then Snow
  else if Qle_bool 700 weatherId && negb (Qle_bool 800 weatherId) then Mist
  else if Qeq_bool weatherId 800 then Sunny
  else if negb (Qle_bool weatherId 800) then Cloudy
  else
    let m := js_toLowerCase main in
    if jsstring_eqb m (js "clear") then Sunny
    else if jsstring_eqb m (js "clouds") then Cloudy
    else if jsstring_eqb m (js "rain") then Rainy
    else if jsstring_eqb m (js "drizzle") then Rainy
    else if jsstring_eqb m (js "thunderstorm") then Thunderstorm
    else if jsstring_eqb m (js "snow") then Snow
    else if jsstring_eqb m (js "mist") || jsstring_eqb m (js "fog") || jsstring_eqb m (js "haze") then Mist
    else Cloudy.

(** ** [encodeURIComponent] *)

(** [uriUnreserved]: letters, digits and [- _ . ! ~ * ' ( )]. *)
Definition uri_unreserved (c : N) : bool :=
  in_range 65 90 c || in_range 97 122 c || in_range 48 57 c ||
  existsb (N.eqb c) [45; 95; 46; 33; 126; 42; 39; 40; 41]%N.

(** An upper-case hexadecimal digit. *)
Definition hex_digit (d : N) : N := if (d <? 10)%N then (48 + d)%N else (55 + d)%N.

(** ["%" + the two hexadecimal digits of an octet] *)
Definition percent (o : N) : list N := [37%N; hex_digit (o / 16); hex_digit (o mod 16)].

(** [Encode(string, extraUnescaped = "")]; [None] is the [URIError]. *)
Fixpoint encodeURIComponent (s : list N) : option (list N) :=
  match s with
  | [] => Some []
  | c :: rest =>
      if uri_unreserved c then (c ::.) <$> encodeURIComponent rest
      else if is_low_surrogate c then None
      else if is_high_surrogate c then
        match rest with
        | c2 :: rest' =>
            if is_low_surrogate c2 then
              let cp := (65536 + (c - 55296) * 1024 + (c2 - 56320))%N in
              (flat_map percent (utf8_octets cp) ++.) <$> encodeURIComponent rest'
            else None
        | [] => None
        end
      else (flat_map percent (utf8_octets c) ++.) <$> encodeURIComponent rest
  end.

(** ** The service *)

(** [Math.round(x)] *)
Definition js_round (x : Q) : Z := Qfloor (x + (1 # 2)).

(** The errors [getCurrentWeather] and [getWeatherByCoordinates] throw; a
    network failure of [fetch] and a body that is not an
    [OpenWeatherResponse] carry the engine's message. *)
Inductive weather_error :=
  | NotConfigured
  | InvalidApiKey
  | CityNotFound
  | ApiError (status : N)
  | NetworkFailure (msg : list N)
  | BadResponse (msg : list N)
  | URIMalformed.

(** [error.message] *)
Definition error_message (e : weather_error) : list N :=
  match e with
  | NotConfigured => js "OpenWeatherMap API key not configured"
  | InvalidApiKey => js "Invalid API key. Please check your OpenWeatherMap API key."
  | CityNotFound => js "City not found. Please check the city name."
  | ApiError s => js "Weather API error: " ++ decimal s
  | NetworkFailure m => m
  | BadResponse m => m
  | URIMalformed => js "URI malformed"
  end.

(** What [fetch] and [response.json()] give: a rejected promise, or a
    response with [ok], [status] and a body that parses as an
    [OpenWeatherResponse] ([inr]) or throws with a message ([inl]). *)
Inductive fetch_result :=
  | FetchRejected (msg : list N)
  | FetchResponse (ok : bool) (status : N) (body : list N + OpenWeatherResponse).

(** A request: the URL of the city query, or the coordinates query (the
    conversion of [lat] and [lon] to text is not modelled). *)
Inductive request := UrlRequest (url : list N) | CoordsRequest (lat lon : Q) (apiKey : list N).

Record WeatherService := mkWeatherService { apiKey : list N }.

Definition baseUrl : list N := js "https://api.openweathermap.org/data/2.5/weather".
Definition defaultCity : list N := js "Essen,DE".

(** [constructor()]: [import.meta.env.VITE_OPENWEATHER_API_KEY || ''] *)
Definition new_WeatherService (env_key : option (list N)) : WeatherService :=
  mkWeatherService (default [] env_key).

(** [isConfigured()]: [!!this.apiKey] *)
Definition isConfigured (svc : WeatherService) : bool := negb (bool_decide (apiKey svc = [])).

(** The [WeatherData] literal built from the answer; reading
    [data.weather[0].id] throws when the array is empty. *)
Definition to_weather_data (data : OpenWeatherResponse) : list N + WeatherData :=
  match weather data with
  | w0 :: _ =>
      inr (mkWeather (inject_Z (js_round (main_temp data))) (mapWeatherCondition (we_id w0) (we_main w0))
             (main_humidity data) (inject_Z (js_round (wind_speed data * (36 # 10))))
             (inject_Z (js_round (ow_visibility data / 1000)))
             (ow_name data ++ js ", " ++ sys_country data) (we_description w0)
             (inject_Z (js_round (main_feels_like data))) (main_pressure data))
  | [] => inl (js "Cannot read properties of undefined (reading 'id')")
  end.

(** The [try] block of both methods after the URL: [statusError] gives
    the error of a response that is not [ok]. *)
Definition handle_response (statusError : N -> weather_error) (r : fetch_result)
    : weather_error + WeatherData :=
  match r with
  | FetchRejected m => inl (NetworkFailure m)
  | FetchResponse false status _ => inl (statusError status)
  | FetchResponse true _ (inl m) => inl (BadResponse m)
  | FetchResponse true _ (inr data) =>
      match to_weather_data data with inl m => inl (BadResponse m) | inr d => inr d end
  end.

(** [getCurrentWeather(city?)] *)
Definition getCurrentWeather (svc : WeatherService) (city : option (list N))
    (fetch : request -> fetch_result) : weather_error + WeatherData :=
  if negb (isConfigured svc) then inl NotConfigured
  else
    let cityQuery := match city with Some (_ :: _ as c) => c | _ => defaultCity end in
    match encodeURIComponent cityQuery with
    | None => inl URIMalformed
    | Some enc =>
        let url := baseUrl ++ js "?q=" ++ enc ++ js "&appid=" ++ apiKey svc ++ js "&units=metric" in
        handle_response
          (fun status => if (status =? 401)%N then InvalidApiKey
                         else if (status =? 404)%N then CityNotFound else ApiError status)
          (fetch (UrlRequest url))
    end.

(** [getWeatherByCoordinates(lat, lon)] *)
Definition getWeatherByCoordinates (svc : WeatherService) (lat lon : Q)
    (fetch : request -> fetch_result) : weather_error + WeatherData :=
  if negb (isConfigured svc) then inl NotConfigured
  else handle_response ApiError (fetch (CoordsRequest lat lon (apiKey svc))).

(** ** [WeatherWidget.tsx] *)

(** A value of [Math.random()]: a number in [[0, 1)]. *)
Record unit_random := mkRandom { rv : Q; rv_range : (0 <= rv /\ rv < 1)%Q }.

Definition essen_germany : list N := js "Essen, Germany".

(** The simulated data of [fetchDefaultCityWeather] when no key is
    configured; the seven random numbers in the order the object literal
    draws them. *)
Definition simulated_weather (r1 r2 r3 r4 r5 r6 r7 : unit_random) : WeatherData :=
  mkWeather (inject_Z (js_round (15 + rv r1 * 15)))
    (nth (Z.to_nat (Qfloor (rv r2 * 4))) [Sunny; Cloudy; Rainy; Windy] Sunny)
    (inject_Z (js_round (40 + rv r3 * 40))) (inject_Z (js_round (5 + rv r4 * 20)))
    (inject_Z (js_round (8 + rv r5 * 7))) essen_germany (js "Simulated weather data")
    (inject_Z (js_round (17 + rv r6 * 15))) (inject_Z (js_round (1000 + rv r7 * 50))).

(** The fixed data of the [catch] branch. *)
Definition fallback_weather : WeatherData :=
  mkWeather 20 Cloudy 65 12 10 essen_germany (js "Fallback weather data") 22 1013.

(** The widget's state: [weather], [loading], [error], [lastUpdated] (a
    time value) and [showSetupHelp]. *)
Record WidgetState := mkWidget {
  ws_weather : option WeatherData; ws_loading : bool; ws_error : option (list N);
  ws_lastUpdated : option Z; ws_showSetupHelp : bool }.

Definition initial_widget : WidgetState := mkWidget None true None None false.

(** What the environment answers during one fetch: the service, [fetch],
    the seven random numbers, the clock, whether [navigator.geolocation]
    exists, and the position it reports ([None]: the error callback). *)
Record FetchEnv := mkFetchEnv {
  fe_service : WeatherService;
  fe_fetch : request -> fetch_result;
  fe_r1 : unit_random; fe_r2 : unit_random; fe_r3 : unit_random; fe_r4 : unit_random;
  fe_r5 : unit_random; fe_r6 : unit_random; fe_r7 : unit_random;
  fe_now : Z;
  fe_geolocation : bool;
  fe_position : option (Q * Q) }.

(** [fetchDefaultCityWeather()] *)
Definition fetchDefaultCityWeather (env : FetchEnv) (st : WidgetState) : WidgetState :=
  if negb (isConfigured (fe_service env)) then
    mkWidget (Some (simulated_weather (fe_r1 env) (fe_r2 env) (fe_r3 env) (fe_r4 env) (fe_r5 env)
                      (fe_r6 env) (fe_r7 env)))
      false (Some (js "API key not configured")) (ws_lastUpdated st) (ws_showSetupHelp st)
  else
    match getCurrentWeather (fe_service env) None (fe_fetch env) with
    | inr d => mkWidget (Some d) false (ws_error st) (Some (fe_now env)) (ws_showSetupHelp st)
    | inl e => mkWidget (Some fallback_weather) false (Some (error_message e)) (ws_lastUpdated st)
                 (ws_showSetupHelp st)
    end.

(** [fetchWeather()], run to the end of its callbacks. *)
Definition fetchWeather (env : FetchEnv) (st : WidgetState) : WidgetState :=
  let st0 := mkWidget (ws_weather st) true None (ws_lastUpdated st) (ws_showSetupHelp st) in
  if fe_geolocation env && isConfigured (fe_service env) then
    match fe_position env with
    | Some (lat, lon) =>
        match getWeatherByCoordinates (fe_service env) lat lon (fe_fetch env) with
        | inr d => mkWidget (Some d) false (ws_error st0) (Some (fe_now env)) (ws_showSetupHelp st0)
        | inl _ => let st1 := fetchDefaultCityWeather env st0 in
                   mkWidget (ws_weather st1) false (ws_error st1) (ws_lastUpdated st1) (ws_showSetupHelp st1)
        end
    | None => fetchDefaultCityWeather env st0
    end
  else fetchDefaultCityWeather env st0.

(** [getConditionText], [getBackgroundGradient] and [getWeatherTip]; their
    [default] branches ('Clear', the blue gradient, 'Have a great day!')
    are not reachable from a [condition]. *)
Definition getConditionText (c : condition) : list N :=
  match c with
  | Sunny => js "Sunny" | Cloudy => js "Cloudy" | Rainy => js "Rainy" | Windy => js "Windy"
  | Snow => js "Snow" | Thunderstorm => js "Thunderstorm" | Mist => js "Misty"
  end.

Definition getBackgroundGradient (c : condition) : list N :=
  match c with
  | Sunny => js "from-yellow-400 to-orange-500" | Cloudy => js "from-gray-400 to-gray-600"
  | Rainy => js "from-blue-400 to-blue-600" | Windy => js "from-gray-500 to-gray-700"
  | Snow => js "from-blue-300 to-blue-500" | Thunderstorm => js "from-gray-700 to-gray-900"
  | Mist => js "from-gray-300 to-gray-500"
  end.

Definition getWeatherTip (c : condition) (temperature : Q) : list N :=
  match c with
  | Rainy => js "☂️ Don't forget your umbrella!"
  | Sunny => if Qle_bool temperature 25 then js "🌤️ Great day to be outside!"
             else js "☀️ Perfect weather for campus walks!"
  | Cloudy => js "☁️ Comfortable weather for outdoor activities."
  | Windy => js "💨 A bit breezy today, dress accordingly."
  | Snow => js "❄️ Bundle up! It's snowing outside."
  | Thunderstorm => js "⛈️ Stay indoors during the storm."
  | Mist => js "🌫️ Visibility might be reduced."
  end.

(** ** Lemmas *)

#[local] Open Scope Q_scope.

Lemma floor_range (x : Q) (lo hi : Z) :
  inject_Z lo <= x -> x < inject_Z (hi + 1) -> (lo <= Qfloor x <= hi)%Z.
Proof.
  intros Hlo Hhi. split.
  - rewrite <- (Qfloor_Z lo). by apply Qfloor_resp_le.
  - assert (H : inject_Z (Qfloor x) < inject_Z (hi + 1)) by (eapply Qle_lt_trans; [apply Qfloor_le|done]).
    rewrite <- Zlt_Qlt in H. lia.
Qed.

(** [Math.round] of a number in [[lo, hi]] lies in [[lo, hi]]. *)
Lemma js_round_range (x : Q) (lo hi : Z) :
  inject_Z lo <= x -> x <= inject_Z hi -> (lo <= js_round x <= hi)%Z.
Proof.
  intros Hlo Hhi. apply floor_range; [lra|]. rewrite inject_Z_plus. change (inject_Z 1) with 1. lra.
Qed.

Lemma js_round_lo (x : Q) (lo : Z) : inject_Z lo <= x -> inject_Z lo <= inject_Z (js_round x).
Proof.
  intros Hlo. rewrite <- Zle_Qle. apply (js_round_range x lo (Qceiling x)); [done|].
  apply Qle_ceiling.
Qed.

Lemma js_round_hi (x : Q) (hi : Z) : x <= inject_Z hi -> inject_Z (js_round x) <= inject_Z hi.
Proof.
  intros Hhi. rewrite <- Zle_Qle. apply (js_round_range x (Qfloor x) hi); [apply Qfloor_le|done].
Qed.

Lemma rv_bounds (r : unit_random) : 0 <= rv r /\ rv r < 1.
Proof. apply rv_range. Qed.

(** ** Properties *)

(** The simulated data stays in the ranges the code draws from:
    15-30 °C, humidity 40-80 %, wind 5-25 km/h, visibility 8-15 km, felt
    temperature 17-32 °C, pressure 1000-1050 hPa, and the index into the
    four conditions is 0-3, so the condition is never [undefined]. *)
Theorem simulated_weather_bounds r1 r2 r3 r4 r5 r6 r7 :
  let w := simulated_weather r1 r2 r3 r4 r5 r6 r7 in
  15 <= temperature w <= 30 /\ 40 <= humidity w <= 80 /\ 5 <= windSpeed w <= 25 /\
  8 <= visibility w <= 15 /\ 17 <= feelsLike w <= 32 /\ 1000 <= pressure w <= 1050 /\
  (0 <= Qfloor (rv r2 * 4) <= 3)%Z.
Proof.
  pose proof (rv_bounds r1); pose proof (rv_bounds r2); pose proof (rv_bounds r3);
  pose proof (rv_bounds r4); pose proof (rv_bounds r5); pose proof (rv_bounds r6);
  pose proof (rv_bounds r7).
  cbn zeta. unfold simulated_weather; cbn [temperature humidity windSpeed visibility feelsLike pressure].
  assert (Hf : (0 <= Qfloor (rv r2 * 4) <= 3)%Z)
    by (apply floor_range; [unfold inject_Z; lra|change (inject_Z (3 + 1)) with 4; lra]).
  repeat split; try lia; first [apply js_round_lo | apply js_round_hi]; unfold inject_Z; lra.
Qed.

(** C39: Whatever the environment answers (no key, no geolocation, a
    refused position, a failing or malformed response), [fetchWeather]
    ends with [loading] false and some weather data to show. *)
Theorem fetchWeather_shows_weather (env : FetchEnv) (st : WidgetState) :
  ws_loading (fetchWeather env st) = false /\ is_Some (ws_weather (fetchWeather env st)).
Proof.
  unfold fetchWeather, fetchDefaultCityWeather.
  repeat (case_match; simpl); split; eauto.
Qed.

(** ** [encodeURIComponent] keeps the query intact *)

(** A JavaScript string: code units below 65536. *)
Lemma hex_digit_unreserved (d : N) : (d < 16)%N -> uri_unreserved (hex_digit d) = true.
Proof.
  intros Hd. assert (Hc : (d = 0 \/ d = 1 \/ d = 2 \/ d = 3 \/ d = 4 \/ d = 5 \/ d = 6 \/ d = 7 \/
    d = 8 \/ d = 9 \/ d = 10 \/ d = 11 \/ d = 12 \/ d = 13 \/ d = 14 \/ d = 15)%N) by lia.
  repeat destruct Hc as [->|Hc]; try reflexivity. subst. reflexivity.
Qed.

Lemma percent_chars (o : N) :
  (o < 256)%N -> Forall (fun c => uri_unreserved c = true \/ c = 37%N) (percent o).
Proof.
  intros Ho. unfold percent. constructor; [by right|].
  constructor; [left; apply hex_digit_unreserved; apply N.Div0.div_lt_upper_bound; lia|].
  constructor; [left; apply hex_digit_unreserved; apply N.mod_lt; lia|constructor].
Qed.

Lemma encoded_chars_app (cp : N) (e : list N) :
  (cp < 1114112)%N -> Forall (fun c => uri_unreserved c = true \/ c = 37%N) e ->
  Forall (fun c => uri_unreserved c = true \/ c = 37%N) (flat_map percent (utf8_octets cp) ++ e).
Proof.
  intros Hcp He. apply Forall_app; split; [|done].
  apply Forall_flat_map. eapply Forall_impl; [by apply utf8_octets_bound|]. apply percent_chars.
Qed.

(** [encodeURIComponent] of a string, when it does not throw, is
    made of unreserved characters and [%] escapes only: the city of
    [getCurrentWeather] cannot add [&], [=] or [#] to the query. *)
Theorem encodeURIComponent_chars (s e : list N) :
  valid_units s -> encodeURIComponent s = Some e ->
  Forall (fun c => uri_unreserved c = true \/ c = 37%N) e.
Proof.
  revert e. induction s as [s IH] using (induction_ltof1 _ (@length N)). unfold ltof in IH.
  intros e Hv He. destruct s as [|c rest]; simpl in He; [by injection He as <-|].
  inversion Hv as [|? ? Hc Hrest]; subst.
  destruct (uri_unreserved c) eqn:U.
  { destruct (encodeURIComponent rest) as [e'|] eqn:E; simplify_eq/=.
    constructor; [by left|]. apply (IH rest); simpl; auto. }
  destruct (is_low_surrogate c); [done|]. destruct (is_high_surrogate c) eqn:Hh.
  - destruct rest as [|c2 rest']; [done|].
    inversion Hrest as [|? ? Hc2 Hrest']; subst.
    destruct (is_low_surrogate c2) eqn:Hl; [|done].
    destruct (encodeURIComponent rest') as [e'|] eqn:E; simplify_eq/=.
    unfold is_high_surrogate, is_low_surrogate, in_range in Hh, Hl.
    apply andb_prop in Hh as [Hh1 Hh2], Hl as [Hl1 Hl2].
    apply N.leb_le in Hh1, Hh2, Hl1, Hl2.
    apply encoded_chars_app; [lia|]. apply (IH rest'); simpl; auto.
  - destruct (encodeURIComponent rest) as [e'|] eqn:E; simplify_eq/=.
    apply encoded_chars_app; [lia|]. apply (IH rest); simpl; auto.
Qed.

(** The condition id decides the condition in the groups 2xx-3xx and from
    500 on; the [main] text is read only below 200 and in 400-499. *)
Lemma Qle_bool_true_of (a b : Q) : a <= b -> Qle_bool a b = true.
Proof. apply Qle_bool_iff. Qed.

Lemma Qle_bool_false_of (a b : Q) : b < a -> Qle_bool a b = false.
Proof. intros H. destruct (Qle_bool a b) eqn:E; [apply Qle_bool_iff in E; lra|done]. Qed.

Lemma Qeq_bool_false_of (a b : Q) : a < b \/ b < a -> Qeq_bool a b = false.
Proof. intros H. destruct (Qeq_bool a b) eqn:E; [apply Qeq_bool_iff in E; lra|done]. Qed.

(** Evaluates the comparisons of a goal whose operands [lra] orders. *)
Ltac eval_Q_tests :=
  repeat match goal with
  | |- context [Qle_bool ?a ?b] =>
      first [rewrite (Qle_bool_true_of a b) by lra | rewrite (Qle_bool_false_of a b) by lra]
  | |- context [Qeq_bool ?a ?b] =>
      first [rewrite (proj2 (Qeq_bool_iff a b)) by lra | rewrite (Qeq_bool_false_of a b) by lra]
  end.

(** The condition id decides the condition in the groups 2xx-3xx and from
    500 on; the [main] text is read only below 200 and in 400-499. *)
Lemma mapWeatherCondition_by_id (weatherId : Q) (m m' : list N) :
  (200 <= weatherId < 400 \/ 500 <= weatherId) ->
  mapWeatherCondition weatherId m = mapWeatherCondition weatherId m'.
Proof.
  intros Hid. unfold mapWeatherCondition.
  assert (C : 200 <= weatherId < 300 \/ 300 <= weatherId < 400 \/ 500 <= weatherId < 600 \/
              600 <= weatherId < 700 \/ 700 <= weatherId < 800 \/ weatherId == 800 \/ 800 < weatherId).
  { destruct (Qlt_le_dec weatherId 300); [left; lra|right].
    destruct (Qlt_le_dec weatherId 400); [left; lra|right].
    destruct (Qlt_le_dec weatherId 600); [left; lra|right].
    destruct (Qlt_le_dec weatherId 700); [left; lra|right].
    destruct (Qlt_le_dec weatherId 800); [left; lra|right].
    destruct (Qlt_le_dec 800 weatherId); [right; lra|left; lra]. }
  repeat destruct C as [C|C]; eval_Q_tests; reflexivity.
Qed.

(** The API mapping never yields 'windy': that condition only comes from
    the simulated data. *)
Lemma mapWeatherCondition_not_windy (weatherId : Q) (m : list N) :
  mapWeatherCondition weatherId m <> Windy.
Proof. unfold mapWeatherCondition. repeat case_match; discriminate. Qed.

(** ** Witnesses *)

Lemma encodeURIComponent_chars_witness :
  let s := js "Mülheim an der Ruhr" in
  valid_units s /\ encodeURIComponent s = Some (js "M%C3%BClheim%20an%20der%20Ruhr") /\
  Forall (fun c => uri_unreserved c = true \/ c = 37%N) (js "M%C3%BClheim%20an%20der%20Ruhr").
Proof.
  assert (Hv : valid_units (js "Mülheim an der Ruhr")) by (apply valid_units_check; vm_compute; reflexivity).
  assert (He : encodeURIComponent (js "Mülheim an der Ruhr") = Some (js "M%C3%BClheim%20an%20der%20Ruhr"))
    by (vm_compute; reflexivity).
  split; [exact Hv|split; [exact He|]].
  exact (encodeURIComponent_chars _ _ Hv He).
Defined.
