(* ===== verification/Speech.v ===== *)
(** * Speech: [services/speechService.ts] and [VoiceAssistant.tsx]

    [SpeechService] wraps the browser's [SpeechRecognition] and
    [speechSynthesis].  The recognizer is a small state machine of the
    browser ([rec_phase]): [start()] on an active recognizer throws an
    [InvalidStateError]; it fires [result] or [error] and then [end].  The
    service keeps its own [isListening] flag, set and cleared by its
    methods and its event handlers; [speech_step] interleaves the
    service's methods with the recognizer's events.  A call of a callback
    given to [startListening] is an output ([callback]).

    [VoiceAssistant] keeps a second [isListening] flag and updates it
    around the service calls; its handlers are modelled with the state
    updates in the order React applies them. *)

From Stdlib Require Import String NArith QArith List Lia.
From stdpp Require Import base list options.
From S2P Require Import Prelude.

(** ** The browser's recognizer and synthesizer *)

Inductive rec_phase := RecIdle | RecActive.

(** The events the recognizer fires while active. *)
Inductive rec_event := EvResult (transcript : list N) | EvError (error : list N) | EvEnd.

(** A voice of [speechSynthesis.getVoices()]. *)
Record Voice := mkVoice { voice_name : list N; voice_lang : list N }.

(** A [SpeechSynthesisUtterance] as [speak] configures it. *)
Record Utterance := mkUtterance {
  u_text : list N; u_lang : list N; u_rate : Q; u_pitch : Q; u_volume : Q; u_voice : option Voice }.

(** ** The service *)

(** A call of the [onResult] or [onError] callback of the latest
    [startListening]. *)
Inductive callback := OnResult (transcript : list N) | OnError (msg : list N).

(** The instance: whether a recognizer was created, its [lang], the
    service's [isListening], the own property [isSupported] (a boolean
    that shadows the method of the same name), whether [speechSynthesis]
    exists, the recognizer's phase and the synthesizer's queue. *)
Record SpeechState := mkSpeech {
  recognition : bool;
  rec_lang : list N;
  isListening : bool;
  isSupported_field : bool;
  synthesis : bool;
  phase : rec_phase;
  queue : list Utterance }.

(** [new SpeechService()] in a browser that has (or not) a recognition
    constructor and [speechSynthesis]. *)
Definition new_SpeechService (hasRecognition hasSynthesis : bool) : SpeechState :=
  mkSpeech hasRecognition (js "en-US") false (hasRecognition && hasSynthesis) hasSynthesis RecIdle [].

Definition lang_tag (l : language) : list N :=
  match l with De => js "de-DE" | En => js "en-US" end.

(** [stopListening()]: [recognition.stop()] lets the recognizer finish
    with its [end] event. *)
Definition stopListening (st : SpeechState) : SpeechState :=
  if recognition st && isListening st
  then mkSpeech (recognition st) (rec_lang st) false (isSupported_field st) (synthesis st) (phase st) (queue st)
  else st.

(** [startListening(onResult, onError, language)] *)
Definition startListening (l : language) (st : SpeechState) : SpeechState * list callback :=
  if negb (recognition st) then (st, [OnError (js "Speech recognition not supported in this browser")])
  else if isListening st then (stopListening st, [])
  else
    match phase st with
    | RecActive =>
        (mkSpeech (recognition st) (lang_tag l) (isListening st) (isSupported_field st) (synthesis st)
           RecActive (queue st), [OnError (js "Failed to start speech recognition")])
    | RecIdle =>
        (mkSpeech (recognition st) (lang_tag l) true (isSupported_field st) (synthesis st) RecActive (queue st), [])
    end.

(** The handlers [onresult], [onerror] and [onend] on an event of the
    active recognizer. *)
Definition on_event (ev : rec_event) (st : SpeechState) : SpeechState * list callback :=
  match ev with
  | EvResult t =>
      (mkSpeech (recognition st) (rec_lang st) false (isSupported_field st) (synthesis st) (phase st) (queue st),
       [OnResult t])
  | EvError e =>
      (mkSpeech (recognition st) (rec_lang st) false (isSupported_field st) (synthesis st) (phase st) (queue st),
       [OnError (js "Speech recognition error: " ++ e)])
  | EvEnd =>
      (mkSpeech (recognition st) (rec_lang st) false (isSupported_field st) (synthesis st) RecIdle (queue st), [])
  end.

(** [speak(text, language)]: cancel, then queue one utterance with the
    first voice whose [lang] starts with the language code. *)
Definition speak (voices : list Voice) (text : list N) (l : language) (st : SpeechState) : SpeechState :=
  if negb (synthesis st) then st
  else
    let prefix := match l with De => js "de" | En => js "en" end in
    let voice := find (fun v => is_prefix prefix (voice_lang v)) voices in
    mkSpeech (recognition st) (rec_lang st) (isListening st) (isSupported_field st) (synthesis st) (phase st)
      [mkUtterance text (lang_tag l) (9 # 10) 1 (8 # 10) voice].

(** [stopSpeaking()] *)
Definition stopSpeaking (st : SpeechState) : SpeechState :=
  if synthesis st
  then mkSpeech (recognition st) (rec_lang st) (isListening st) (isSupported_field st) (synthesis st) (phase st) []
  else st.

(** What a property read [speechService.isSupported] finds: an own
    property of the instance before a method of the class. *)
Inductive member := OwnValue (b : bool) | ClassMethod.

(** The class field [private isSupported = false] creates an own property
    in every instance, which hides the method [isSupported()]. *)
Definition lookup_isSupported (st : SpeechState) : member := OwnValue (isSupported_field st).

(** [speechService.isSupported()]: calling a boolean throws a [TypeError]
    ([None]). *)
Definition call_isSupported (st : SpeechState) : option bool :=
  match lookup_isSupported st with
  | OwnValue _ => None
  | ClassMethod => Some (isSupported_field st)
  end.

Definition isSpeechRecognitionSupported (st : SpeechState) : bool := recognition st.
Definition isSpeechSynthesisSupported (st : SpeechState) : bool := synthesis st.
Definition getIsListening (st : SpeechState) : bool := isListening st.

(** One step: a method call of the app, or an event of the active
    recognizer. *)
Inductive speech_step : SpeechState -> SpeechState -> Prop :=
  | sp_start l st : speech_step st (fst (startListening l st))
  | sp_stop st : speech_step st (stopListening st)
  | sp_event ev st : phase st = RecActive -> speech_step st (fst (on_event ev st))
  | sp_speak voices text l st : speech_step st (speak voices text l st)
  | sp_stop_speaking st : speech_step st (stopSpeaking st).

Inductive speech_reachable : SpeechState -> Prop :=
  | sr_init r s : speech_reachable (new_SpeechService r s)
  | sr_step st st' : speech_reachable st -> speech_step st st' -> speech_reachable st'.

(** ** [VoiceAssistant.tsx] *)

Record VAState := mkVA {
  va_isListening : bool; isSpeaking : bool; va_isSupported : bool;
  transcript : list N; va_error : list N }.

Definition va_initial : VAState := mkVA false false false [] [].

(** The callbacks the component passes to [startListening]. *)
Definition va_callback (c : callback) (va : VAState) : VAState :=
  match c with
  | OnResult r => mkVA false (isSpeaking va) (va_isSupported va) r (va_error va)
  | OnError m => mkVA false (isSpeaking va) (va_isSupported va) (transcript va) m
  end.

Definition va_callbacks (cs : list callback) (va : VAState) : VAState :=
  fold_left (fun v c => va_callback c v) cs va.

(** [useEffect(() => setIsSupported(speechService.isSupported()), [])]:
    [None] is the exception thrown in the effect. *)
Definition va_mount (sp : SpeechState) (va : VAState) : option VAState :=
  (fun b => mkVA (va_isListening va) (isSpeaking va) b (transcript va) (va_error va)) <$> call_isSupported sp.

(** [startListening()] of the component: the service may call a callback
    synchronously, and [setIsListening(true)] comes after it. *)
Definition va_startListening (l : language) (va : VAState) (sp : SpeechState) : VAState * SpeechState :=
  if negb (isSpeechRecognitionSupported sp) then
    (mkVA (va_isListening va) (isSpeaking va) (va_isSupported va) (transcript va)
       (js "Speech recognition not supported in this browser"), sp)
  else
    let va0 := mkVA (va_isListening va) (isSpeaking va) (va_isSupported va) [] [] in
    let '(sp', cs) := startListening l sp in
    let va1 := va_callbacks cs va0 in
    (mkVA true (isSpeaking va1) (va_isSupported va1) (transcript va1) (va_error va1), sp').

(** [stopListening()] of the component. *)
Definition va_stopListening (va : VAState) (sp : SpeechState) : VAState * SpeechState :=
  (mkVA false (isSpeaking va) (va_isSupported va) (transcript va) (va_error va), stopListening sp).

(** An event of the recognizer, through the service's handlers to the
    component's callbacks. *)
Definition va_event (ev : rec_event) (va : VAState) (sp : SpeechState) : VAState * SpeechState :=
  let '(sp', cs) := on_event ev sp in (va_callbacks cs va, sp').

(** [speakText(text)]; the timer of [text.length * 50] ms that resets
    [isSpeaking] is the separate event [va_speak_done]. *)
Definition va_speakText (voices : list Voice) (text : list N) (l : language) (va : VAState) (sp : SpeechState)
    : VAState * SpeechState :=
  if negb (isSpeechSynthesisSupported sp) then
    (mkVA (va_isListening va) (isSpeaking va) (va_isSupported va) (transcript va)
       (js "Speech synthesis not supported in this browser"), sp)
  else (mkVA (va_isListening va) true (va_isSupported va) (transcript va) (va_error va), speak voices text l sp).

Definition va_speak_done (va : VAState) : VAState :=
  mkVA (va_isListening va) false (va_isSupported va) (transcript va) (va_error va).

(** ** Properties *)

(** C38: In every interleaving of the service's methods and the
    recognizer's events, the service believes it is listening only while
    the recognizer is active. *)
Theorem listening_implies_active (st : SpeechState) :
  speech_reachable st -> isListening st = true -> phase st = RecActive.
Proof.
  induction 1 as [r s|st st' _ IH Hstep]; [done|]. intros Hl.
  destruct Hstep as [l st|st|ev st Hact|voices text l st|st]; revert Hl.
  - unfold startListening. destruct (recognition st) eqn:Hr; simpl; [|auto].
    destruct (isListening st) eqn:Hi; simpl.
    + unfold stopListening. rewrite Hr, Hi. simpl. discriminate.
    + destruct (phase st); simpl; auto.
  - unfold stopListening. destruct (recognition st && isListening st); simpl; [discriminate|auto].
  - destruct ev; simpl; discriminate.
  - unfold speak. destruct (synthesis st); simpl; auto.
  - unfold stopSpeaking. destruct (synthesis st); simpl; auto.
Qed.

(** The converse fails, and the component does not notice: after a
    result the recognizer is still active until its [end] event; a click
    on the microphone in between makes [start()] throw, the service
    reports 'Failed to start speech recognition' through [onError], and
    the component then sets [isListening] to true anyway, showing a
    listening microphone while nothing listens. *)
Example voice_restart_before_end :
  let sp0 := new_SpeechService true true in
  let '(va1, sp1) := va_startListening En va_initial sp0 in
  let '(va2, sp2) := va_event (EvResult (js "where is the library")) va1 sp1 in
  let '(va3, sp3) := va_startListening En va2 sp2 in
  transcript va2 = js "where is the library" /\
  va_isListening va3 = true /\ va_error va3 = js "Failed to start speech recognition" /\
  isListening sp3 = false /\ phase sp3 = RecActive.
Proof. vm_compute. repeat split. Qed.

(** The field [isSupported] hides the method: the component's mount
    effect throws in every state of the service. *)
Lemma va_mount_throws (sp : SpeechState) (va : VAState) : va_mount sp va = None.
Proof. reflexivity. Qed.

(** [speak] leaves exactly the new utterance queued, with a voice of the
    requested language when there is one. *)
Lemma speak_queue voices text l st :
  synthesis st = true ->
  exists u, queue (speak voices text l st) = [u] /\ u_text u = text /\
    forall v, u_voice u = Some v -> is_prefix (match l with De => js "de" | En => js "en" end) (voice_lang v) = true.
Proof.
  intros Hs. unfold speak. rewrite Hs. simpl. eexists. split; [reflexivity|]. split; [reflexivity|].
  simpl. intros v Hv. apply find_some in Hv. by destruct Hv.
Qed.

(** ** Witnesses *)

Lemma listening_implies_active_witness :
  let st := fst (startListening De (new_SpeechService true true)) in
  speech_reachable st /\ isListening st = true /\ phase st = RecActive.
Proof.
  assert (Hr : speech_reachable (fst (startListening De (new_SpeechService true true))))
    by (eapply sr_step; [apply sr_init|apply sp_start]).
  split; [exact Hr|split; [reflexivity|]].
  apply listening_implies_active; [exact Hr|reflexivity].
Defined.
