(* ===== verification/SupabaseService.v ===== *)
(** * SupabaseService: [services/supabaseService.ts]

    A second wrapper of the Supabase client: auth, the [profiles] and
    [events] tables, and real-time channels.  In demo mode every method
    answers a constant (the mock profile, the id ['demo-user']) and
    subscriptions are no-ops; otherwise the calls go to the client, here
    the interface [SupabaseClient] over the state/exception monad [sb] of
    [AuthService].  Results are [{ data, error }]; an exception caught by a
    method becomes its [error].  Only [RealtimeService] is used by the app
    ([Forum.tsx]). *)

From Stdlib Require Import String NArith ZArith List Lia.
From stdpp Require Import base list options.
From S2P Require Import Prelude AuthService.

#[local] Open Scope string_scope.

(** ** Data *)

(** [const mockUserProfile: UserProfile] (its bio differs from the demo
    account of [authService.ts]). *)
Definition mockUserProfile : UserProfile := {|
  up_id := "demo-user-1"; up_name := "Demo Student"; up_email := "demo@uni-due.de";
  up_studentId := Some "UDE2024001"; up_program := Some "Computer Science";
  up_year := Some 2%Z; up_campus := Some Essen;
  up_interests := Some ["Technology"; "Research"; "International Exchange"];
  up_favoriteBuildings := Some ["library"; "student-center"];
  up_bio := Some "Demo user for UDECompass application.";
  up_isInternational := Some true; up_language := Some En; up_profilePhoto := None;
  up_notifications := Some (mkNotifications true true true false);
  up_accessibility := Some (mkAccessibility false false false) |}.

(** [{ data, error }]; [error] is the error object's message, or the
    exception a [catch] returned. *)
Record DbResult (A : Type) := mkDbResult { db_data : option A; db_error : option string }.
Arguments mkDbResult {A}.
Arguments db_data {A}.
Arguments db_error {A}.

(** A row of [profiles], as the code writes it: a partial profile. *)
Definition ProfileRow := ProfileUpdate.

(** [{ ...userData, email, id }]: the explicit fields win. *)
Definition with_email_id (u : ProfileUpdate) (email id : string) : ProfileRow :=
  mkUpdate (Some id) (pu_name u) (Some email) (pu_studentId u) (pu_program u) (pu_year u)
    (pu_campus u) (pu_interests u) (pu_favoriteBuildings u) (pu_bio u) (pu_isInternational u)
    (pu_language u) (pu_profilePhoto u) (pu_notifications u) (pu_accessibility u).

(** [{ ...profile, id: userId }] *)
Definition with_id (u : ProfileRow) (id : string) : ProfileRow :=
  mkUpdate (Some id) (pu_name u) (pu_email u) (pu_studentId u) (pu_program u) (pu_year u)
    (pu_campus u) (pu_interests u) (pu_favoriteBuildings u) (pu_bio u) (pu_isInternational u)
    (pu_language u) (pu_profilePhoto u) (pu_notifications u) (pu_accessibility u).

(** A profile as a row (every field present). *)
Definition row_of_profile (p : UserProfile) : ProfileRow :=
  mkUpdate (Some (up_id p)) (Some (up_name p)) (Some (up_email p)) (Some (up_studentId p))
    (Some (up_program p)) (Some (up_year p)) (Some (up_campus p)) (Some (up_interests p))
    (Some (up_favoriteBuildings p)) (Some (up_bio p)) (Some (up_isInternational p))
    (Some (up_language p)) (Some (up_profilePhoto p)) (Some (up_notifications p))
    (Some (up_accessibility p)).

(** ** The client *)

(** A channel of [supabase.channel(name).on(...).subscribe()]: its name
    and the tables it listens to. *)
Record Channel := mkChannel { ch_id : nat; ch_name : string; ch_tables : list string }.

(** The calls of this file; the event rows are of a type [Row] the code
    does not inspect.  [throw] is an exception of the client. *)
Class SupabaseClient (S Row : Type) := {
  c_auth_signUp : string -> string -> ProfileUpdate -> sb S (option SbUser * option string);
  c_auth_signIn : string -> string -> sb S (option SbUser * option string);
  c_auth_signOut : sb S (option string);
  c_auth_getUser : sb S (option SbUser * option string);
  c_profiles_insert : ProfileRow -> sb S (option ProfileRow * option string);
  c_profiles_get : string -> sb S (option ProfileRow * option string);
  c_profiles_update : string -> ProfileUpdate -> sb S (option ProfileRow * option string);
  c_events_list : sb S (option (list Row) * option string);
  c_channels : S -> list Channel;
  c_subscribe : string -> list string -> S -> S * Channel;
  c_removeChannel : Channel -> S -> S
}.

(** ** The methods

    The methods of the exported object [supabaseService], under its name:
    [authService] has methods of the same names. *)

Module supabaseService.

Section Service.
Context {S Row : Type} `{!SupabaseClient S Row}.
Variable isDemoMode : bool.
#[local] Open Scope sb_scope.

(** [try { ... } catch (error) { return { data: null, error } }]: a
    thrown call is reported with [thrown]. *)
Definition db_catch {A} (m : sb S (DbResult A)) (thrown : string) : S -> S * DbResult A :=
  sb_catch m (mkDbResult None (Some thrown)).

Definition db_result {A} (r : option A * option string) : DbResult A := mkDbResult (fst r) (snd r).

(** [createUserProfile(userId, profile)] *)
Definition createUserProfile (userId : string) (profile : ProfileRow) (thrown : string)
    : S -> S * DbResult ProfileRow :=
  if isDemoMode then fun s => (s, mkDbResult (Some (row_of_profile mockUserProfile)) None)
  else db_catch (r <- c_profiles_insert (with_id profile userId) ;; sb_ret (db_result r)) thrown.

(** [signUp(email, password, userData)]: the profile is created when the
    auth call returns a user and no error; its result is not read. *)
Definition signUp (email password : string) (userData : ProfileUpdate) (thrown : string)
    : S -> S * DbResult SbUser :=
  if isDemoMode then fun s => (s, mkDbResult (Some (mkSbUser "demo-user" (Some email))) None)
  else db_catch
    (r <- c_auth_signUp email password userData ;;
     match r with
     | (Some u, None) =>
         fun s => let '(s', _) := createUserProfile (sbu_id u) (with_email_id userData email (sbu_id u)) thrown s in
                  (s', Some (db_result r))
     | _ => sb_ret (db_result r)
     end) thrown.

Definition signIn (email password : string) (thrown : string) : S -> S * DbResult SbUser :=
  if isDemoMode then fun s => (s, mkDbResult (Some (mkSbUser "demo-user" (Some email))) None)
  else db_catch (r <- c_auth_signIn email password ;; sb_ret (db_result r)) thrown.

(** [signOut()] returns [{ error }]. *)
Definition signOut (thrown : string) : S -> S * option string :=
  if isDemoMode then fun s => (s, None)
  else sb_catch (e <- c_auth_signOut ;; sb_ret e) (Some thrown).

Definition getCurrentUser (thrown : string) : S -> S * DbResult SbUser :=
  if isDemoMode then fun s => (s, mkDbResult (Some (mkSbUser "demo-user" (Some "demo@uni-due.de"))) None)
  else db_catch (r <- c_auth_getUser ;; sb_ret (db_result r)) thrown.

Definition getUserProfile (userId : string) (thrown : string) : S -> S * DbResult ProfileRow :=
  if isDemoMode then fun s => (s, mkDbResult (Some (row_of_profile mockUserProfile)) None)
  else db_catch (r <- c_profiles_get userId ;; sb_ret (db_result r)) thrown.

(** [updateUserProfile(userId, updates)]: in demo mode the merge
    [{ ...mockUserProfile, ...updates }] is returned and not kept. *)
Definition updateUserProfile (userId : string) (updates : ProfileUpdate) (thrown : string)
    : S -> S * DbResult ProfileRow :=
  if isDemoMode then fun s => (s, mkDbResult (Some (row_of_profile (apply_updates mockUserProfile updates))) None)
  else db_catch (r <- c_profiles_update userId updates ;; sb_ret (db_result r)) thrown.

(** [getEvents()]: the [catch] answers [{ data: [], error }]. *)
Definition getEvents (thrown : string) : S -> S * DbResult (list Row) :=
  if isDemoMode then fun s => (s, mkDbResult (Some []) None)
  else sb_catch (r <- c_events_list ;; sb_ret (db_result r)) (mkDbResult (Some []) (Some thrown)).

(** What a subscription returns: the object [{ unsubscribe }] (a no-op in
    demo mode, or removing its channel), or the channel itself. *)
Inductive subscription := NoopUnsub | UnsubChannel (c : Channel) | ChannelHandle (c : Channel).

(** [supabaseService.subscribeToEvents(callback)] *)
Definition subscribeToEvents (s : S) : S * subscription :=
  if isDemoMode then (s, NoopUnsub)
  else let '(s', c) := c_subscribe "events" ["events"] s in (s', UnsubChannel c).

(** [RealtimeService.subscribeToEvents(callback)] *)
Definition realtime_subscribe (s : S) : S * subscription :=
  if isDemoMode then (s, NoopUnsub)
  else let '(s', c) := c_subscribe "forum-events" ["forum_posts"; "forum_comments"] s in (s', ChannelHandle c).

(** [RealtimeService.unsubscribe(channel)] *)
Definition realtime_unsubscribe (sub : subscription) (s : S) : S :=
  if isDemoMode then s
  else match sub with
       | ChannelHandle c | UnsubChannel c => c_removeChannel c s
       | NoopUnsub => s
       end.

End Service.

End supabaseService.
Export supabaseService.

(** What the real-time part of the client promises: a subscription adds
    a channel, and removing it gives back the channels there were. *)
Class ChannelLaws (S Row : Type) `{!SupabaseClient S Row} := {
  law_subscribe_remove name tables s :
    c_channels (c_removeChannel (snd (c_subscribe name tables s)) (fst (c_subscribe name tables s))) =
    c_channels s
}.

(** ** An in-memory client *)

(** Channels with fresh ids and a fixed answer for the auth and table
    calls: the test double of the witnesses. *)
Record MockClient := mkMockClient { mc_channels : list Channel; mc_next : nat; mc_rows : list ProfileRow }.

(** The latest channel with the id of [c] leaves the list. *)
Fixpoint remove_first (c : Channel) (l : list Channel) : list Channel :=
  match l with
  | [] => []
  | c' :: l' => if Nat.eqb (ch_id c') (ch_id c) then l' else c' :: remove_first c l'
  end.

Definition remove_latest (c : Channel) (l : list Channel) : list Channel := rev (remove_first c (rev l)).

#[export] Instance mock_client : SupabaseClient MockClient unit := {|
  c_auth_signUp e p d := fun s => (s, Some (Some (mkSbUser ("uid-" ++ e) (Some e)), None));
  c_auth_signIn e p := fun s => (s, Some (Some (mkSbUser ("uid-" ++ e) (Some e)), None));
  c_auth_signOut := fun s => (s, Some None);
  c_auth_getUser := fun s => (s, Some (None, None));
  c_profiles_insert r := fun s => (mkMockClient (mc_channels s) (mc_next s) (r :: mc_rows s), Some (Some r, None));
  c_profiles_get i := fun s => (s, Some (None, Some "not found"));
  c_profiles_update i u := fun s => (s, Some (None, Some "not found"));
  c_events_list := fun s => (s, Some (Some [], None));
  c_channels := mc_channels;
  c_subscribe n t s :=
    let c := mkChannel (mc_next s) n t in (mkMockClient (mc_channels s ++ [c]) (S (mc_next s)) (mc_rows s), c);
  c_removeChannel c s := mkMockClient (remove_latest c (mc_channels s)) (mc_next s) (mc_rows s)
|}.

#[export] Instance mock_client_laws : ChannelLaws MockClient unit.
Proof.
  split. intros name tables [chs next rows]. simpl.
  unfold remove_latest. rewrite rev_app_distr. simpl. rewrite Nat.eqb_refl. apply rev_involutive.
Qed.

(** ** Properties *)

Section Properties.
Context {S Row : Type} `{!SupabaseClient S Row}.

(** Outside demo mode, the profile [signUp] creates carries the id of
    the new auth user and the e-mail signed up with, whatever [id] or
    [email] the caller's [userData] holds ([{ ...userData, email, id }]
    then [{ ...profile, id: userId }]). *)
Theorem signUp_profile_identity email password userData thrown (s s1 : S) u :
  c_auth_signUp email password userData s = (s1, Some (Some u, None)) ->
  exists row, pu_id row = Some (sbu_id u) /\ pu_email row = Some email /\
    signUp false email password userData thrown s =
    (fst (c_profiles_insert row s1), mkDbResult (Some u) None).
Proof.
  intros H. exists (with_id (with_email_id userData email (sbu_id u)) (sbu_id u)).
  split; [reflexivity|split; [reflexivity|]].
  unfold signUp, db_catch, sb_catch, sb_bind. simpl. rewrite H. simpl.
  unfold createUserProfile, db_catch, sb_catch, sb_bind. simpl.
  destruct (c_profiles_insert _ s1) as [s2 [r|]]; reflexivity.
Qed.

(** With a client that keeps its channel laws, the forum's subscription
    and its clean-up leave the channels as they were, in both modes. *)
Lemma realtime_subscribe_unsubscribe `{!ChannelLaws S Row} (isDemoMode : bool) (s : S) :
  c_channels (realtime_unsubscribe isDemoMode (snd (realtime_subscribe isDemoMode s))
                (fst (realtime_subscribe isDemoMode s))) = c_channels s.
Proof.
  unfold realtime_unsubscribe, realtime_subscribe. destruct isDemoMode; [done|].
  pose proof (law_subscribe_remove "forum-events" ["forum_posts"; "forum_comments"] s) as L.
  destruct (c_subscribe _ _ s). exact L.
Qed.

End Properties.

(** In demo mode [updateUserProfile] answers the merged profile but keeps
    nothing: the next [getUserProfile] answers the mock profile again. *)
Example demo_update_not_kept :
  let upd := mkUpdate None (Some "Anna") None None None None None None None None None None None None None in
  db_data (snd (@updateUserProfile MockClient unit _ true "demo-user-1" upd "x" (mkMockClient [] 0 []))) =
    Some (row_of_profile (apply_updates mockUserProfile upd)) /\
  db_data (snd (@getUserProfile MockClient unit _ true "demo-user-1" "x"
                 (fst (@updateUserProfile MockClient unit _ true "demo-user-1" upd "x" (mkMockClient [] 0 []))))) =
    Some (row_of_profile mockUserProfile).
Proof. split; reflexivity. Qed.

(** ** Witnesses *)

Lemma signUp_profile_identity_witness :
  let u := mkSbUser "uid-anna@uni-due.de" (Some "anna@uni-due.de") in
  let userData := mkUpdate (Some "admin") (Some "Anna") (Some "root@uni-due.de") None None None None None
                    None None None None None None None in
  c_auth_signUp "anna@uni-due.de" "secret" userData (mkMockClient [] 0 []) =
    (mkMockClient [] 0 [], Some (Some u, None)) /\
  exists row, pu_id row = Some (sbu_id u) /\ pu_email row = Some "anna@uni-due.de" /\
    signUp false "anna@uni-due.de" "secret" userData "x" (mkMockClient [] 0 []) =
    (fst (c_profiles_insert row (mkMockClient [] 0 [])), mkDbResult (Some u) None).
Proof.
  split; [reflexivity|]. apply signUp_profile_identity. reflexivity.
Defined.
