(* ===== verification/Buildings.v ===== *)
(** * Buildings: the building data, the building pages and the views that
    select them

    [data/buildings/*.tsx] define the six buildings of the campus view and
    [data/buildingPages.tsx] the page of each ([Record<string,
    BuildingPageData>], here an association list in the literal's order).
    [SearchBar.tsx] filters the buildings by the typed query and moves a
    selection with the arrow keys; [CampusNavigator.tsx] shows the page of
    the selected building; [BuildingPage.tsx] localises the page's links
    and expands its maps; [hooks/useResponsive.ts] classifies the window
    width.  The icons are React elements: only their component name is
    kept.  Strings are JavaScript strings ([list N]) since the search
    lower-cases and searches them. *)

From Stdlib Require Import String NArith ZArith List Lia.
From stdpp Require Import base list options.
From S2P Require Import Prelude Language.

#[local] Open Scope js_scope.

(** ** Types of [types/Building.ts] *)

Record Building := mkBuilding {
  b_id : list N; b_name : list N; b_category : list N;
  b_x : Z; b_y : Z; b_width : Z; b_height : Z;
  b_color : list N; b_icon : list N; b_description : list N; b_services : list (list N);
  isMainBuilding : option bool }.

(** [links: Array<{ title, url, description }>] *)
Record LinkData := mkLink { l_title : list N; l_url : list N; l_description : list N }.

(** [interface MapLink] with its optional [submaps]. *)
Inductive MapLink := mkMapLink (m_title m_url m_description : list N) (submaps : option (list MapLink)).

Definition map_title (m : MapLink) : list N := let '(mkMapLink t _ _ _) := m in t.

(** [interface BuildingPageData] *)
Record BuildingPageData := mkPage {
  pg_id : list N; pg_title : list N; pg_description : list N; pg_content : list N;
  pg_links : list LinkData; backgroundColor : list N; textColor : list N;
  pg_maps : option (list MapLink); showForum : option bool }.

(** ** [data/buildings] *)

Definition library : Building :=
  mkBuilding ‹"library"› ‹"Central Library"› ‹"Academic Resources"› 50 50 180 120 ‹"#8B4513"› ‹"BookOpen"›
    ‹"Your gateway to academic excellence and research resources."›
    [‹"Digital Library Access"›; ‹"Study Rooms"›; ‹"Research Support"›; ‹"Printing Services"›] (Some true).

Definition studentCenter : Building :=
  mkBuilding ‹"student-center"› ‹"Student Center"› ‹"Student Life"› 310 50 180 120 ‹"#BE185D"› ‹"Users"›
    ‹"Hub for student activities, organizations, and community discussions."›
    [‹"Student Organizations"›; ‹"Event Spaces"›; ‹"Counseling Services"›; ‹"Career Center"›; ‹"Student Forum"›] None.

Definition cafeteria : Building :=
  mkBuilding ‹"cafeteria"› ‹"Cafeteria/Mensa"› ‹"Dining"› 570 50 180 120 ‹"#DC2626"› ‹"Utensils"›
    ‹"Delicious, affordable meals and vibrant dining atmosphere."›
    [‹"Daily Menus"›; ‹"Vegetarian Options"›; ‹"International Cuisine"›; ‹"Coffee & Snacks"›] None.

Definition visaServices : Building :=
  mkBuilding ‹"visa-services"› ‹"Visa Services"› ‹"International Support"› 50 250 180 120 ‹"#7C2D12"› ‹"FileText"›
    ‹"Comprehensive immigration and visa support for international students."›
    [‹"Visa Applications"›; ‹"Residence Permits"›; ‹"Document Verification"›; ‹"Immigration Consultation"›] None.

Definition administration : Building :=
  mkBuilding ‹"administration"› ‹"Administration Building"› ‹"Administrative Services"› 310 250 180 120 ‹"#059669"›
    ‹"Building2"›
    ‹"Central hub for student registration, academic records, and administrative services."›
    [‹"Student Registration"›; ‹"Academic Records"›; ‹"Financial Aid"›; ‹"Examination Office"›] None.

Definition udePortals : Building :=
  mkBuilding ‹"ude-portals"› ‹"UDE Portals"› ‹"Digital Services"› 570 250 180 120 ‹"#2563EB"› ‹"Globe"›
    ‹"Your digital gateway to all UDE online services and platforms."›
    [‹"Moodle LMS"›; ‹"Student Portals"›; ‹"Email Access"›; ‹"Campus Maps"›; ‹"WhatsApp Groups"›; ‹"Discord Server"›]
    (Some true).

(** [export const buildings: Building[]] *)
Definition buildings : list Building :=
  [library; studentCenter; cafeteria; visaServices; administration; udePortals].

(** ** [data/buildingPages.tsx] *)

Definition page_library : BuildingPageData :=
  mkPage ‹"library"› ‹"Central Library"›
    ‹"Your gateway to academic excellence and research resources at the University of Duisburg-Essen."›
    (‹"
      <h2>Welcome to the Central Library</h2>
      <p class="› ++ dquote ++ ‹"lead"› ++ dquote ++ ‹">The Central Library serves as the academic heart of UDE, providing comprehensive resources and services to support your studies and research endeavors.</p>
      
      <h3>📚 Library Hours</h3>
      <div class="› ++ dquote ++ ‹"hours-grid"› ++ dquote ++ ‹">
        <ul>
          <li><strong>Monday - Friday:</strong> 8:00 AM - 10:00 PM</li>
          <li><strong>Saturday:</strong> 9:00 AM - 8:00 PM</li>
          <li><strong>Sunday:</strong> 10:00 AM - 6:00 PM</li>
        </ul>
      </div>
      
      <h3>📖 Special Collections</h3>
      <p>Access rare books, manuscripts, and specialized research materials in our special collections department. Our curated collections include historical documents, academic archives, and unique research materials.</p>
      
      <h3>💻 Digital Resources</h3>
      <p>Explore our extensive digital library with thousands of e-books, academic journals, and research databases available 24/7 from anywhere on campus or at home.</p>
    "›)
    [mkLink ‹"Library Catalog"›
       ‹"https://www.uni-due.de/ub/en/atoz/access-from-home.php"›
       ‹"Access library resources from home and search the catalog"›;
     mkLink ‹"Digital Library"›
       ‹"https://primo.uni-due.de/discovery/search?vid=49HBZ_UDE:UDE&lang=en"›
       ‹"Search and access digital resources, e-books, and databases"›;
     mkLink ‹"Study Room Booking"›
       ‹"https://www.uni-due.de/ub/lernenundarbeiten.php"›
       ‹"Reserve individual and group study spaces"›]
    ‹"#8B4513"› ‹"#FFFFFF"›
    None
    None.

Definition page_student_center : BuildingPageData :=
  mkPage ‹"student-center"› ‹"Student Center"›
    ‹"The hub of student life, organizations, support services, and community discussions at UDE."›
    (‹"
      <h2>Student Life at UDE</h2>
      <p class="› ++ dquote ++ ‹"lead"› ++ dquote ++ ‹">The Student Center is your go-to place for getting involved in campus life, finding support, connecting with fellow students, and participating in community discussions.</p>
      
      <h3>💬 Student Forum</h3>
      <p>Join our vibrant student community forum where you can ask questions, share experiences, and help fellow students. Discuss everything from academic topics to campus life, visa services, and local recommendations. Our forum is organized by categories to help you find exactly what you're looking for.</p>
      
      <h3>🎯 Student Organizations</h3>
      <p>Join over 100 student organizations covering academics, sports, culture, and special interests. From academic societies to cultural clubs, there's something for everyone.</p>
      
      <h3>🤝 Support Services</h3>
      <p>Get help with academic planning, career guidance, and personal counseling services. Our dedicated staff is here to support your success throughout your university journey.</p>
      
      <h3>🎉 Events & Activities</h3>
      <p>Participate in regular events, workshops, and social activities that bring the campus community together. Check our calendar for upcoming events and opportunities to get involved.</p>
      
      <h3>📍 Facilities</h3>
      <p>Modern meeting rooms, event spaces, and collaborative areas designed to foster student engagement and community building.</p>
    "›)
    [mkLink ‹"HISiOne Student Portal"›
       ‹"https://campus.uni-due.de/cm/pages/cs/sys/portal/hisinoneStartPage.faces"›
       ‹"Access your student information system for enrollment, grades, and academic records"›;
     mkLink ‹"LSF Course Catalog"›
       ‹"https://campus.uni-due.de/lsf/rds?state=user&type=0"›
       ‹"Browse course offerings, schedules, and register for classes"›;
     mkLink ‹"Moodle Learning Platform"›
       ‹"https://lehre.moodle.uni-due.de"›
       ‹"Access course materials, assignments, and communicate with instructors"›;
     mkLink ‹"Study Drive"›
       ‹"https://www.studydrive.net"›
       ‹"Share study materials, notes, and connect with fellow students"›;
     mkLink ‹"Student Services Overview"›
       ‹"https://www.uni-due.de/en/student_services.php"›
       ‹"Complete overview of all student services at UDE"›;
     mkLink ‹"Student Organizations"›
       ‹"https://www.uni-due.de/en/organisation.php"›
       ‹"Explore clubs, societies, and student organizations to join"›;
     mkLink ‹"Career Services"›
       ‹"https://www.uni-due.de/career/"›
       ‹"Career counseling, job placement, and professional development"›;
     mkLink ‹"Counseling Services"›
       ‹"https://www.uni-due.de/en/studying/counselling.php"›
       ‹"Personal, academic, and psychological support services"›]
    ‹"#BE185D"› ‹"#FFFFFF"›
    None
    (Some true).

Definition page_cafeteria : BuildingPageData :=
  mkPage ‹"cafeteria"› ‹"Cafeteria/Mensa"›
    ‹"Delicious, affordable meals and a vibrant dining atmosphere for the UDE community."›
    (‹"
      <h2>Dining at UDE</h2>
      <p class="› ++ dquote ++ ‹"lead"› ++ dquote ++ ‹">Our cafeteria offers a wide variety of fresh, healthy, and affordable meals to fuel your academic journey.</p>
      
      <h3>🍽️ Dining Options</h3>
      <p>Multiple restaurants and cafeterias across campus offering diverse cuisines including German, international, and fusion dishes. From quick snacks to full meals, we have options for every appetite and schedule.</p>
      
      <h3>🌱 Special Diets</h3>
      <p>We cater to vegetarian, vegan, halal, and other dietary requirements with clearly marked options. Our nutritional information is available for all dishes to help you make informed choices.</p>
      
      <h3>☕ Coffee & Snacks</h3>
      <p>Multiple coffee shops and snack bars throughout campus for your caffeine fix and quick bites between classes.</p>
      
      <h3>💰 Student-Friendly Prices</h3>
      <p>Affordable pricing designed with students in mind. Meal plans and student discounts available to help you save money while eating well.</p>
    "›)
    [mkLink ‹"Catering Services"›
       ‹"https://www.stw-edu.de/en/catering"›
       ‹"Overview of all dining services and locations"›;
     mkLink ‹"Weekly Menu"›
       ‹"https://www.stw-edu.de/en/catering/menus"›
       ‹"Current meal offerings, prices, and dining locations"›]
    ‹"#DC2626"› ‹"#FFFFFF"›
    None
    None.

Definition page_visa_services : BuildingPageData :=
  mkPage ‹"visa-services"› ‹"Visa Services"›
    ‹"Comprehensive immigration and visa support for international students at UDE."›
    (‹"
      <h2>International Student Support</h2>
      <p class="› ++ dquote ++ ‹"lead"› ++ dquote ++ ‹">Our visa services team provides comprehensive support for all immigration-related matters for international students.</p>
      
      <h3>📋 Services Offered</h3>
      <ul>
        <li><strong>Visa Applications:</strong> Complete assistance with student visa applications and renewals</li>
        <li><strong>Residence Permits:</strong> Help with residence permit applications and extensions</li>
        <li><strong>Document Verification:</strong> Official verification and translation services</li>
        <li><strong>Immigration Consultation:</strong> Expert advice on German immigration law and procedures</li>
        <li><strong>Work Permits:</strong> Guidance on student work authorization and permits</li>
      </ul>
      
      <h3>🕒 Office Hours</h3>
      <p><strong>Monday - Friday:</strong> 9:00 AM - 4:00 PM<br>
      <em>Appointments recommended for personalized consultation</em></p>
      
      <h3>📞 Emergency Support</h3>
      <p>Urgent immigration matters can be addressed through our emergency contact system. We understand the importance of maintaining legal status and are here to help.</p>
    "›)
    [mkLink ‹"Visa Requirements"›
       ‹"https://www.uni-due.de/welcome-centre/en/visa_en.php"›
       ‹"Check visa requirements and application procedures"›;
     mkLink ‹"Document Checklist"›
       ‹"https://www.uni-due.de/welcome-centre/en/vde_check.php"›
       ‹"Required documents for visa and residence permit applications"›;
     mkLink ‹"Book Appointment"›
       ‹"https://www.uni-due.de/international/abh_en"›
       ‹"Schedule a consultation with our immigration specialists"›]
    ‹"#7C2D12"› ‹"#FFFFFF"›
    None
    None.

Definition page_administration : BuildingPageData :=
  mkPage ‹"administration"› ‹"Administration Building"›
    ‹"Central hub for student registration, academic records, and administrative services."›
    (‹"
      <h2>Administrative Services</h2>
      <p class="› ++ dquote ++ ‹"lead"› ++ dquote ++ ‹">The Administration Building houses all central administrative functions to support your academic journey at UDE.</p>
      
      <h3>🏢 Key Departments</h3>
      <ul>
        <li><strong>Student Registration Office:</strong> Enrollment, re-registration, and student status changes</li>
        <li><strong>Academic Records:</strong> Transcripts, certificates, and academic documentation</li>
        <li><strong>Financial Aid Office:</strong> Scholarships, grants, and financial assistance programs</li>
        <li><strong>International Student Office:</strong> Support for international students and exchange programs</li>
        <li><strong>Examination Office:</strong> Exam registration, results, and academic appeals</li>
      </ul>
      
      <h3>🕒 Service Hours</h3>
      <p><strong>Monday - Thursday:</strong> 8:00 AM - 4:00 PM<br>
      <strong>Friday:</strong> 8:00 AM - 2:00 PM</p>
      
      <h3>📱 Online Services</h3>
      <p>Many administrative tasks can be completed online through our student portal, including course registration, grade viewing, and document requests.</p>
    "›)
    [mkLink ‹"Student Portals"›
       ‹"https://www.uni-due.de/en/current.php"›
       ‹"Access current student information and university portals"›;
     mkLink ‹"Applications"›
       ‹"https://www.uni-due.de/en/studying/application.php"›
       ‹"Application forms and procedures for various programs"›;
     mkLink ‹"Financial Aid"›
       ‹"https://www.uni-due.de/en/studying/funding.php"›
       ‹"Information about scholarships, grants, and financial support"›;
     mkLink ‹"Uni-DUE Student Job Board (Werkstudentenstellen)"›
       ‹"https://www.uni-due.de/stellenmarkt/werkstudenten.shtml"›
       ‹"Find part-time job opportunities for students at UDE"›]
    ‹"#059669"› ‹"#FFFFFF"›
    None
    None.

Definition page_ude_portals : BuildingPageData :=
  mkPage ‹"ude-portals"› ‹"UDE Portals and Important Links"›
    ‹"Your digital gateway to all UDE online services, platforms, and essential resources."›
    (‹"
      <h2>Digital Services at UDE</h2>
      <p class="› ++ dquote ++ ‹"lead"› ++ dquote ++ ‹">Access all essential digital platforms and online services through our centralized portal system.</p>
      
      <h3>🖥️ Key Platforms</h3>
      <ul>
        <li><strong>Studierendenwerk Services:</strong> Housing, dining, and student welfare services</li>
        <li><strong>Moodle LMS:</strong> Learning management system for courses and materials</li>
        <li><strong>Email & Communication:</strong> University email and communication tools</li>
        <li><strong>IT Support:</strong> Technical help center and IT services</li>
        <li><strong>Campus Maps:</strong> Interactive maps and navigation tools</li>
      </ul>
      
      <h3>🔧 Technical Support</h3>
      <p>Get help with login issues, password resets, and technical problems through our IT support center. Our technical team provides comprehensive support for all digital services.</p>
      
      <h3>🗺️ Campus Navigation</h3>
      <p>Access detailed maps of both Duisburg and Essen campuses to help you navigate the university grounds and find specific buildings and facilities. Interactive maps include building information, accessibility features, and real-time updates.</p>
      
      <h3>📱 Mobile Access</h3>
      <p>Most services are optimized for mobile devices, allowing you to access important information and complete tasks on the go.</p>
      
      <h3>💬 Student Communication</h3>
      <p>Connect with fellow students through our official communication channels and stay updated with the latest campus news and announcements.</p>
    "›)
    [mkLink ‹"Studierendenwerk"›
       ‹"https://www.stw-edu.de/en/"›
       ‹"Student services including housing, dining, and financial aid"›;
     mkLink ‹"Moodle LMS"›
       ‹"https://www.uni-due.de/zim/services/moodle/index_eng.php"›
       ‹"Learning management system for courses and materials"›;
     mkLink ‹"UDE Webmail"›
       ‹"https://www.uni-due.de/zim/services/e-mail/webmail_login.php"›
       ‹"Access your university email account"›;
     mkLink ‹"IT Support"›
       ‹"https://www.uni-due.de/zim/hilfecenter/"›
       ‹"Technical help center and IT support services"›;
     mkLink ‹"University Addresses & Maps"›
       ‹"https://www.uni-due.de/en/university_addresses.shtml"›
       ‹"Complete overview of all university locations and addresses"›;
     mkLink ‹"Join WhatsApp Group"›
       ‹"https://chat.whatsapp.com/D5VuHyVefy2AjdDMShaxUr"›
       ‹"Connect with fellow UDE students on WhatsApp"›;
     mkLink ‹"Join Discord Server"›
       ‹"https://discord.gg/KGBeRefR"›
       ‹"Join our Discord community for real-time chat and study groups"›]
    ‹"#2563EB"› ‹"#FFFFFF"›
    (Some [mkMapLink ‹"Campus Duisburg"›
       ‹"https://www.uni-due.de/imperia/md/content/dokumente/lageplaene/map_standorte_duisburg_e_2020.jpg"›
       ‹"Overview map of Duisburg campus locations"›
       (Some [mkMapLink ‹"Duisburg: M-, L- & S-area"›
           ‹"https://www.uni-due.de/imperia/md/content/dokumente/lageplaene/map_duisburg_m_l_e_2020.jpg"›
           ‹"Detailed map of M-, L- and S-area buildings"›
           (None);
         mkMapLink ‹"Duisburg: B- & SK-area"›
           ‹"https://www.uni-due.de/imperia/md/content/dokumente/lageplaene/map_duisburg_b_e_2020.jpg"›
           ‹"Detailed map of B- and SK-area buildings"›
           (None);
         mkMapLink ‹"Duisburg: ST-area"›
           ‹"https://www.uni-due.de/imperia/md/content/dokumente/lageplaene/map_duisburg_st_e_2020.jpg"›
           ‹"Detailed map of ST-area buildings"›
           (None)]);
     mkMapLink ‹"Campus Essen"›
       ‹"https://www.uni-due.de/imperia/md/content/dokumente/lageplaene/map_standorte_essen_e_2020.jpg"›
       ‹"Overview map of Essen campus locations"›
       (Some [mkMapLink ‹"Campus Essen"›
           ‹"https://www.uni-due.de/imperia/md/content/dokumente/lageplaene/map_essen_campus_e_2020.jpg"›
           ‹"Detailed map of main Essen campus"›
           (None);
         mkMapLink ‹"Schützenbahn & Gerlingstraße Essen"›
           ‹"https://www.uni-due.de/imperia/md/content/dokumente/lageplaene/map_essen_schuetzenbahn_e_2020.jpg"›
           ‹"Map of Schützenbahn and Gerlingstraße area"›
           (None);
         mkMapLink ‹"WSC & WST Essen"›
           ‹"https://www.uni-due.de/imperia/md/content/dokumente/lageplaene/map_essen_weststadt_e_2020.jpg"›
           ‹"Map of WSC and WST Weststadt area"›
           (None);
         mkMapLink ‹"University Clinic Essen"›
           ‹"https://www.uni-due.de/imperia/md/content/dokumente/lageplaene/map_essen_klinikum_l_e_2020.jpg"›
           ‹"Map of University Hospital and medical facilities"›
           (None)])])
    None.

(** [export const buildingPagesData: Record<string, BuildingPageData>] *)
Definition buildingPagesData : list (list N * BuildingPageData) :=
  [(‹"library"›, page_library); (‹"student-center"›, page_student_center); (‹"cafeteria"›, page_cafeteria);
   (‹"visa-services"›, page_visa_services); (‹"administration"›, page_administration);
   (‹"ude-portals"›, page_ude_portals)].

(** ** [BuildingPage.tsx] *)

(** The table [germanUrls] of [getLocalizedLinks]. *)
Definition germanUrls : list (list N * list N) := [
  (‹"https://www.uni-due.de/ub/en/atoz/access-from-home.php"›, ‹"https://www.uni-due.de/ub/abisz/zugriff_von_zuhause.php"›);
  (‹"https://primo.uni-due.de/discovery/search?vid=49HBZ_UDE:UDE&lang=en"›, ‹"https://primo.uni-due.de/discovery/search?vid=49HBZ_UDE:UDE"›);
  (‹"https://www.uni-due.de/en/organisation.php"›, ‹"https://www.uni-due.de/de/organisation/"›);
  (‹"https://www.uni-due.de/career/"›, ‹"https://www.uni-due.de/karriere/"›);
  (‹"https://www.uni-due.de/en/studying/counselling.php"›, ‹"https://www.uni-due.de/de/studium/beratung.php"›);
  (‹"https://www.stw-edu.de/en/catering/menus"›, ‹"https://www.stw-edu.de/gastronomie/speiseplaene"›);
  (‹"https://www.uni-due.de/welcome-centre/en/visa_en.php"›, ‹"https://www.uni-due.de/welcome-centre/visa.php"›);
  (‹"https://www.uni-due.de/welcome-centre/en/vde_check.php"›, ‹"https://www.uni-due.de/welcome-centre/vde_checkliste.php"›);
  (‹"https://www.uni-due.de/international/abh_en"›, ‹"https://www.uni-due.de/international/abh"›);
  (‹"https://www.uni-due.de/en/current.php"›, ‹"https://www.uni-due.de/de/studium/organisation.php"›);
  (‹"https://www.uni-due.de/en/studying/application.php"›, ‹"https://www.uni-due.de/de/studium/bewerbung.php"›);
  (‹"https://www.uni-due.de/en/studying/funding.php"›, ‹"https://www.uni-due.de/de/studium/foerderung.php"›);
  (‹"https://www.stw-edu.de/en/"›, ‹"https://www.stw-edu.de/"›);
  (‹"https://www.uni-due.de/zim/services/moodle/index_eng.php"›, ‹"https://www.uni-due.de/zim/services/moodle/"›);
  (‹"https://www.uni-due.de/en/university_addresses.shtml"›, ‹"https://www.uni-due.de/de/universitaet/orientierung.php"›)].

(** [getLocalizedLinks()] *)
Definition getLocalizedLinks (lang : language) (pageData : BuildingPageData) : list LinkData :=
  map (fun link =>
         match lang with
         | De => mkLink (l_title link) (default (l_url link) (assoc_get (l_url link) germanUrls)) (l_description link)
         | En => link
         end) (pg_links pageData).

(** [expandedMaps] and [toggleMapExpansion(mapTitle)]: [!prev[mapTitle]]
    with [undefined] read as false. *)
Definition map_expanded (expanded : list (list N * bool)) (title : list N) : bool :=
  default false (assoc_get title expanded).

Definition toggleMapExpansion (title : list N) (expanded : list (list N * bool)) : list (list N * bool) :=
  assoc_set title (negb (map_expanded expanded title)) expanded.

(** ** [SearchBar.tsx] *)

(** [filteredBuildings]: the first five buildings whose name, category or
    one of whose services contains the lower-cased query. *)
Definition building_matches (q : list N) (b : Building) : bool :=
  let lq := js_toLowerCase q in
  includes (js_toLowerCase (b_name b)) lq || includes (js_toLowerCase (b_category b)) lq ||
  existsb (fun s => includes (js_toLowerCase s) lq) (b_services b).

Definition filteredBuildings (query : list N) : list Building :=
  take 5 (List.filter (building_matches query) buildings).

(** The state: [query], [isOpen], [selectedIndex]. *)
Record SearchState := mkSearch { query : list N; isOpen : bool; selectedIndex : Z }.

Definition search_initial : SearchState := mkSearch [] false (-1).

Inductive key := ArrowDown | ArrowUp | Enter | Escape | OtherKey.

(** [handleInputChange(e)] *)
Definition handleInputChange (value : list N) (st : SearchState) : SearchState :=
  mkSearch value (Nat.ltb 0 (length value)) (-1).

(** [handleBuildingSelect(building)]: the building is passed to
    [onBuildingSelect] (the second component) and the search is reset. *)
Definition handleBuildingSelect (b : Building) (st : SearchState) : SearchState * option Building :=
  (mkSearch [] false (-1), Some b).

(** [handleKeyDown(e)] *)
Definition handleKeyDown (k : key) (st : SearchState) : SearchState * option Building :=
  if negb (isOpen st) then (st, None)
  else
    let fb := filteredBuildings (query st) in
    match k with
    | ArrowDown =>
        let prev := selectedIndex st in
        (mkSearch (query st) (isOpen st) (if Z.ltb prev (Z.of_nat (length fb) - 1) then prev + 1 else prev)%Z, None)
    | ArrowUp =>
        let prev := selectedIndex st in
        (mkSearch (query st) (isOpen st) (if Z.ltb 0 prev then prev - 1 else -1)%Z, None)
    | Enter =>
        if Z.leb 0 (selectedIndex st) then
          match nth_error fb (Z.to_nat (selectedIndex st)) with
          | Some b => handleBuildingSelect b st
          | None => (st, None)
          end
        else (st, None)
    | Escape => (mkSearch (query st) false (-1), None)
    | OtherKey => (st, None)
    end.

(** [clearSearch()] and the [mousedown] listener outside the results. *)
Definition clearSearch (st : SearchState) : SearchState := mkSearch [] false (-1).

Definition clickOutside (st : SearchState) : SearchState := mkSearch (query st) false (-1).

Inductive search_step : SearchState -> SearchState -> Prop :=
  | ss_input v st : search_step st (handleInputChange v st)
  | ss_key k st : search_step st (fst (handleKeyDown k st))
  | ss_select b st : search_step st (fst (handleBuildingSelect b st))
  | ss_clear st : search_step st (clearSearch st)
  | ss_outside st : search_step st (clickOutside st).

Inductive search_reachable : SearchState -> Prop :=
  | sreach_init : search_reachable search_initial
  | sreach_step st st' : search_reachable st -> search_step st st' -> search_reachable st'.

(** ** [CampusNavigator.tsx] *)

(** A JSON value as the navigator uses it: a boolean, or another value
    kept with its truthiness. *)
Inductive json_value := JBool (b : bool) | JOther (truthy : bool).

(** [JSON.stringify(isDarkMode)] of a boolean. *)
Definition stringify_bool (b : bool) : list N := if b then js "true" else js "false".

(** The state of the navigator. *)
Record NavState := mkNav {
  selectedBuilding : option Building; showSidebar : bool; isDarkMode : json_value;
  isMobile : bool; viewMode : bool (* true: 'cards' *) }.

(** The mount: [saved ? JSON.parse(saved) : false], [None] when
    [JSON.parse] throws; [json_parse] is the engine's parser. *)
Definition saved_dark_mode (json_parse : list N -> option json_value) (saved : option (list N))
    : option json_value :=
  match saved with None | Some [] => Some (JBool false) | Some t => json_parse t end.

Definition nav_mount (json_parse : list N -> option json_value) (saved : option (list N)) (innerWidth : Z)
    : option NavState :=
  (fun d => mkNav None false d (Z.ltb innerWidth 768) true) <$> saved_dark_mode json_parse saved.

(** [useEffect(..., [isDarkMode])]: the flag written back. *)
Definition dark_mode_item (st : NavState) : option (list N) :=
  match isDarkMode st with JBool b => Some (stringify_bool b) | JOther _ => None end.

Definition toggleDarkMode (st : NavState) : NavState :=
  let d := match isDarkMode st with JBool b => negb b | JOther t => negb t end in
  mkNav (selectedBuilding st) (showSidebar st) (JBool d) (isMobile st) (viewMode st).

Definition handleBuildingClick (b : Building) (st : NavState) : NavState :=
  mkNav (Some b) false (isDarkMode st) (isMobile st) (viewMode st).

Definition handleBackToMap (st : NavState) : NavState :=
  mkNav None (showSidebar st) (isDarkMode st) (isMobile st) (viewMode st).

(** What the navigator renders. *)
Inductive nav_view := PageView (b : Building) (p : BuildingPageData) | CampusView.

Definition nav_render (st : NavState) : nav_view :=
  match selectedBuilding st with
  | Some b => match assoc_get (b_id b) buildingPagesData with Some p => PageView b p | None => CampusView end
  | None => CampusView
  end.

(** ** [hooks/useResponsive.ts] *)

Inductive device := Mobile | Tablet | Desktop | Wide.

Record BreakpointConfig := mkBreakpoints { bp_mobile : Z; bp_tablet : Z; bp_desktop : Z; bp_wide : Z }.

Definition defaultBreakpoints : BreakpointConfig := mkBreakpoints 768 1024 1280 1536.

(** [{ ...defaultBreakpoints, ...breakpoints }] *)
Definition merge_breakpoints (b : option Z * option Z * option Z * option Z) : BreakpointConfig :=
  let '(m, t, d, w) := b in
  mkBreakpoints (default (bp_mobile defaultBreakpoints) m) (default (bp_tablet defaultBreakpoints) t)
    (default (bp_desktop defaultBreakpoints) d) (default (bp_wide defaultBreakpoints) w).

(** The classification of [handleResize]. *)
Definition device_of (config : BreakpointConfig) (width : Z) : device :=
  if Z.ltb width (bp_mobile config) then Mobile
  else if Z.ltb width (bp_tablet config) then Tablet
  else if Z.ltb width (bp_desktop config) then Desktop
  else Wide.

(** The order of the device classes. *)
Definition device_rank (d : device) : nat := match d with Mobile => 0 | Tablet => 1 | Desktop => 2 | Wide => 3 end.

(** ** Properties *)

Definition search_inv (st : SearchState) : Prop :=
  (isOpen st = false -> selectedIndex st = (-1)%Z) /\
  (selectedIndex st = (-1)%Z \/
   (0 <= selectedIndex st /\ selectedIndex st < Z.of_nat (length (filteredBuildings (query st))))%Z).

Lemma search_inv_step st st' : search_inv st -> search_step st st' -> search_inv st'.
Proof.
  unfold search_inv. intros [Hc Hr] Hs.
  destruct Hs as [v st|k st|b st|st|st]; simpl; try (split; [done|by left]).
  unfold handleKeyDown. case_eq (isOpen st); intros Ho; simpl; [|exact (conj Hc Hr)].
  destruct k; simpl.
  - split; [intros [=]|].
    destruct (Z.ltb_spec (selectedIndex st) (Z.of_nat (length (filteredBuildings (query st))) - 1)); simpl;
      [right; lia|done].
  - split; [intros [=]|]. destruct (Z.ltb_spec 0 (selectedIndex st)); simpl; [right; lia|by left].
  - destruct (Z.leb 0 (selectedIndex st)); [|exact (conj Hc Hr)].
    destruct (nth_error _ _); simpl; [split; [done|by left]|exact (conj Hc Hr)].
  - split; [done|by left].
  - exact (conj Hc Hr).
Qed.

Lemma search_reachable_inv st : search_reachable st -> search_inv st.
Proof.
  induction 1 as [|st st' _ IH Hs]; [split; [done|by left]|by eapply search_inv_step].
Qed.

(** C37: In every state the search bar reaches, the selection is -1 or
    the index of a listed building, and is -1 when the list is closed:
    [Enter] with a selection always selects a building (the check
    [filteredBuildings[selectedIndex]] never fails). *)
Theorem search_selection_valid st :
  search_reachable st -> isOpen st = true -> (0 <= selectedIndex st)%Z ->
  exists b, nth_error (filteredBuildings (query st)) (Z.to_nat (selectedIndex st)) = Some b /\
    handleKeyDown Enter st = (search_initial, Some b).
Proof.
  intros Hr Ho Hpos.
  destruct (search_reachable_inv st Hr) as [_ [Hm|[_ Hlt]]]; [lia|].
  destruct (nth_error (filteredBuildings (query st)) (Z.to_nat (selectedIndex st))) as [b|] eqn:E.
  - exists b. split; [done|]. unfold handleKeyDown. rewrite Ho. simpl.
    destruct (Z.leb_spec 0 (selectedIndex st)); [|lia]. by rewrite E.
  - apply nth_error_None in E. lia.
Qed.

(** Every building of the campus data has a page, with the same id. *)
Lemma building_pages_complete :
  Forall (fun b => exists p, assoc_get (b_id b) buildingPagesData = Some p /\ pg_id p = b_id b) buildings.
Proof. repeat constructor; eexists; split; vm_compute; reflexivity. Qed.

(** Clicking any building of the campus (on the map, the cards, the
    sidebar or a search result) shows that building's page: the lookup
    [buildingPagesData[selectedBuilding.id]] never misses. *)
Theorem click_shows_page (b : Building) (st : NavState) :
  In b buildings ->
  exists p, nav_render (handleBuildingClick b st) = PageView b p /\ pg_id p = b_id b.
Proof.
  intros Hb. pose proof building_pages_complete as H. rewrite List.Forall_forall in H.
  destruct (H b Hb) as (p & Hp & Hid). exists p. unfold nav_render. simpl. by rewrite Hp.
Qed.

(** The flag a toggle writes back is read as that flag after a reload,
    with an engine that parses [true] and [false]. *)
Lemma dark_mode_reload (json_parse : list N -> option json_value) st w :
  json_parse (js "true") = Some (JBool true) -> json_parse (js "false") = Some (JBool false) ->
  option_map isDarkMode (nav_mount json_parse (dark_mode_item (toggleDarkMode st)) w) =
  Some (isDarkMode (toggleDarkMode st)).
Proof.
  intros Ht Hf. unfold dark_mode_item, toggleDarkMode. simpl.
  destruct (isDarkMode st) as [[]|[]]; simpl; unfold nav_mount; simpl;
    [rewrite Hf|rewrite Ht|rewrite Hf|rewrite Ht]; reflexivity.
Qed.

(** [device_of] is monotone in the width for ordered breakpoints. *)

Lemma device_of_monotone (c : BreakpointConfig) (w1 w2 : Z) :
  (bp_mobile c <= bp_tablet c <= bp_desktop c)%Z -> (w1 <= w2)%Z ->
  device_rank (device_of c w1) <= device_rank (device_of c w2).
Proof.
  intros Hc Hw. unfold device_of.
  repeat match goal with |- context [Z.ltb ?a ?b] => destruct (Z.ltb_spec a b) end; simpl; lia.
Qed.

(** ** Witnesses *)

Lemma search_selection_valid_witness :
  let st := fst (handleKeyDown ArrowDown (handleInputChange ‹"stud"› search_initial)) in
  search_reachable st /\ isOpen st = true /\ (0 <= selectedIndex st)%Z /\
  exists b, nth_error (filteredBuildings (query st)) (Z.to_nat (selectedIndex st)) = Some b /\
    handleKeyDown Enter st = (search_initial, Some b).
Proof.
  assert (Hr : search_reachable (fst (handleKeyDown ArrowDown (handleInputChange ‹"stud"› search_initial)))).
  { eapply sreach_step; [eapply sreach_step; [apply sreach_init|apply ss_input]|apply ss_key]. }
  assert (Ho : isOpen (fst (handleKeyDown ArrowDown (handleInputChange ‹"stud"› search_initial))) = true)
    by (vm_compute; reflexivity).
  assert (Hp : (0 <= selectedIndex (fst (handleKeyDown ArrowDown (handleInputChange ‹"stud"› search_initial))))%Z)
    by (vm_compute; discriminate).
  split; [exact Hr|split; [exact Ho|split; [exact Hp|]]].
  exact (search_selection_valid _ Hr Ho Hp).
Defined.

Lemma click_shows_page_witness :
  In udePortals buildings /\
  exists p, nav_render (handleBuildingClick udePortals (mkNav None false (JBool false) false true)) =
    PageView udePortals p /\ pg_id p = b_id udePortals.
Proof.
  assert (H : In udePortals buildings) by (simpl; tauto).
  split; [exact H|]. exact (click_shows_page udePortals _ H).
Defined.
