(* ===== verification/ChatAssistant.v ===== *)
(** * ChatAssistant: the keyword assistant of [components/chat/ChatAssistant.tsx]

    The floating chat of the campus views answers with [generateResponse],
    a cascade of [lowerMessage.includes(...)] tests over fixed bilingual
    texts, each building branch offering a quick action that selects the
    building.  The component keeps [isOpen], [messages], [inputValue],
    [isTyping] and [soundEnabled] in React state and defers work with
    [setTimeout]: the reply to a message (1-2 s), the send of a clicked
    suggestion (100 ms) and the welcome text after [clearChat] (500 ms).

    The state is a record, the handlers are functions on it, and the
    pending timers are explicit values carrying what their closures
    captured at the render that scheduled them; a timer fires as a step
    of its own, in any order, so that every interleaving of clicks and
    timers is a path of [chat_step].  The welcome effect runs when
    [isOpen] changes, as its dependency list says. *)

From Stdlib Require Import String NArith ZArith List Lia.
From stdpp Require Import base list options sets.
From S2P Require Import Prelude AuthService Buildings.

#[local] Open Scope js_scope.

(** The component [ChatAssistant] of [components/chat/ChatAssistant.tsx]: its handlers share names with those of [EnhancedAIAssistant]. *)
Module ChatAssistant.


(** ** Messages *)

(** [type: 'user' | 'assistant'] *)
Inductive msg_type := UserMsg | AssistantMsg.

(** [interface QuickAction]; its [action], [() => onBuildingSelect?.(id)],
    is kept as the building id it selects, and its icon is not modelled. *)
Record QuickAction := mkQuickAction { qa_id : list N; qa_label : list N; qa_target : list N }.

(** [interface Message]; [timestamp] is the [Date.now()] of its creation. *)
Record Message := mkMessage {
  m_id : list N; m_type : msg_type; m_content : list N; m_timestamp : N;
  m_suggestions : option (list (list N)); m_quickActions : option (list QuickAction) }.

(** A line feed, the [\n] of the literals. *)
Definition nl : list N := [10%N].

(** [user?.name || 'Student'] *)
Definition user_name (user : option AuthUser) : list N :=
  match user with
  | Some u => if String.eqb (au_name u) EmptyString then ‹"Student"› else js (au_name u)
  | None => ‹"Student"›
  end.

(** The welcome message of the mount effect. *)
Definition welcome_message (l : language) (user : option AuthUser) (now : N) : Message :=
  mkMessage ‹"welcome"› AssistantMsg
    (by_lang l
       (‹"Hello "› ++ user_name user ++ ‹"! 👋 I'm your UDE Campus Assistant. I can help you navigate the campus, find buildings, check services, and answer questions about university life. How can I assist you today?"›)
       (‹"Hallo "› ++ user_name user ++ ‹"! 👋 Ich bin Ihr UDE Campus-Assistent. Ich kann Ihnen helfen, sich auf dem Campus zurechtzufinden, Gebäude zu finden, Services zu überprüfen und Fragen zum Universitätsleben zu beantworten. Wie kann ich Ihnen heute helfen?"›))
    now
    (Some (match l with
           | En => [‹"Find the library"›; ‹"Show dining options"›; ‹"Campus map"›; ‹"Contact information"›]
           | De => [‹"Bibliothek finden"›; ‹"Speisemöglichkeiten zeigen"›; ‹"Campus-Karte"›; ‹"Kontaktinformationen"›]
           end))
    (Some [mkQuickAction ‹"library"› (by_lang l ‹"Library"› ‹"Bibliothek"›) ‹"library"›;
           mkQuickAction ‹"cafeteria"› (by_lang l ‹"Cafeteria"› ‹"Cafeteria"›) ‹"cafeteria"›;
           mkQuickAction ‹"student-center"› (by_lang l ‹"Student Center"› ‹"Studierendenzentrum"›) ‹"student-center"›]).

(** ** [generateResponse] *)

(** What a branch of [generateResponse] assigns to [response],
    [suggestions] and [quickActions]. *)
Record reply := mkReply { r_text : list N; r_suggestions : list (list N); r_actions : list QuickAction }.

(** [[{ id, label, action: () => onBuildingSelect?.(target) }]] *)
Definition visit (id target : list N) (l : language) (en de : list N) : list QuickAction :=
  [mkQuickAction id (by_lang l en de) target].

Definition library_reply (l : language) : reply :=
  mkReply (by_lang l
    ‹"The Central Library is your gateway to academic excellence! 📚 It offers digital resources, study rooms, research support, and printing services. Open Monday-Friday 8AM-10PM, weekends with reduced hours."›
    ‹"Die Zentralbibliothek ist Ihr Tor zur akademischen Exzellenz! 📚 Sie bietet digitale Ressourcen, Lernräume, Forschungsunterstützung und Druckdienste. Geöffnet Montag-Freitag 8-22 Uhr, Wochenenden mit reduzierten Öffnungszeiten."›)
    [] (visit ‹"library-visit"› ‹"library"› l ‹"Visit Library"› ‹"Bibliothek besuchen"›).

Definition cafeteria_reply (l : language) : reply :=
  mkReply (by_lang l
    ‹"The Cafeteria/Mensa offers delicious and affordable meals! 🍽️ We have daily menus, vegetarian options, international cuisine, and coffee & snacks. Student-friendly prices with meal plans available."›
    ‹"Die Cafeteria/Mensa bietet köstliche und erschwingliche Mahlzeiten! 🍽️ Wir haben Tagesmenüs, vegetarische Optionen, internationale Küche und Kaffee & Snacks. Studentenfreundliche Preise mit verfügbaren Menüplänen."›)
    [] (visit ‹"cafeteria-visit"› ‹"cafeteria"› l ‹"Visit Cafeteria"› ‹"Cafeteria besuchen"›).

Definition visa_reply (l : language) : reply :=
  mkReply (by_lang l
    ‹"Our Visa Services provide comprehensive immigration support! 📋 We help with visa applications, residence permits, document verification, and immigration consultation. Office hours: Monday-Friday 9AM-4PM."›
    ‹"Unsere Visa-Services bieten umfassende Einwanderungsunterstützung! 📋 Wir helfen bei Visa-Anträgen, Aufenthaltsgenehmigungen, Dokumentenprüfung und Einwanderungsberatung. Bürozeiten: Montag-Freitag 9-16 Uhr."›)
    [] (visit ‹"visa-visit"› ‹"visa-services"› l ‹"Visit Visa Services"› ‹"Visa-Services besuchen"›).

Definition student_center_reply (l : language) : reply :=
  mkReply (by_lang l
    ‹"The Student Center is the hub of campus life! 👥 Join student organizations, attend events, access counseling services, career guidance, and participate in our community forum. Over 100 organizations to choose from!"›
    ‹"Das Studierendenzentrum ist das Zentrum des Campus-Lebens! 👥 Treten Sie Studierendenorganisationen bei, besuchen Sie Veranstaltungen, nutzen Sie Beratungsdienste, Karriereberatung und nehmen Sie an unserem Community-Forum teil. Über 100 Organisationen zur Auswahl!"›)
    [] (visit ‹"student-center-visit"› ‹"student-center"› l ‹"Visit Student Center"› ‹"Studierendenzentrum besuchen"›).

Definition administration_reply (l : language) : reply :=
  mkReply (by_lang l
    ‹"The Administration Building handles all central services! 🏢 Student registration, academic records, financial aid, examination office, and international student support. Open Monday-Thursday 8AM-4PM, Friday 8AM-2PM."›
    ‹"Das Verwaltungsgebäude übernimmt alle zentralen Dienstleistungen! 🏢 Studierendenregistrierung, akademische Unterlagen, Finanzbeihilfe, Prüfungsamt und internationale Studierendenbetreuung. Geöffnet Montag-Donnerstag 8-16 Uhr, Freitag 8-14 Uhr."›)
    [] (visit ‹"admin-visit"› ‹"administration"› l ‹"Visit Administration"› ‹"Verwaltung besuchen"›).

Definition portals_reply (l : language) : reply :=
  mkReply (by_lang l
    ‹"UDE Portals provide access to all digital services! 💻 Including Moodle LMS, student portals, email access, campus maps, and communication channels like WhatsApp groups and Discord server."›
    ‹"UDE-Portale bieten Zugang zu allen digitalen Diensten! 💻 Einschließlich Moodle LMS, Studierendenportale, E-Mail-Zugang, Campus-Karten und Kommunikationskanäle wie WhatsApp-Gruppen und Discord-Server."›)
    [] (visit ‹"portals-visit"› ‹"ude-portals"› l ‹"Visit Portals"› ‹"Portale besuchen"›).

Definition hours_reply (l : language) : reply :=
  mkReply (by_lang l
    (‹"Here are the general operating hours:"› ++ nl ++ nl ++
     ‹"📚 Library: Mon-Fri 8AM-10PM, Sat 9AM-8PM, Sun 10AM-6PM"› ++ nl ++
     ‹"🍽️ Cafeteria: Mon-Fri 11AM-3PM, Sat 12PM-2PM"› ++ nl ++
     ‹"🏢 Administration: Mon-Thu 8AM-4PM, Fri 8AM-2PM"› ++ nl ++
     ‹"📋 Visa Services: Mon-Fri 9AM-4PM"›)
    (‹"Hier sind die allgemeinen Öffnungszeiten:"› ++ nl ++ nl ++
     ‹"📚 Bibliothek: Mo-Fr 8-22 Uhr, Sa 9-20 Uhr, So 10-18 Uhr"› ++ nl ++
     ‹"🍽️ Cafeteria: Mo-Fr 11-15 Uhr, Sa 12-14 Uhr"› ++ nl ++
     ‹"🏢 Verwaltung: Mo-Do 8-16 Uhr, Fr 8-14 Uhr"› ++ nl ++
     ‹"📋 Visa-Services: Mo-Fr 9-16 Uhr"›))
    [] [].

Definition contact_reply (l : language) : reply :=
  mkReply (by_lang l
    (‹"Contact Information:"› ++ nl ++ nl ++
     ‹"📞 Main Campus: +49 203 379-0"› ++ nl ++
     ‹"📧 General Info: info@uni-due.de"› ++ nl ++
     ‹"🌐 Website: www.uni-due.de"› ++ nl ++
     ‹"📍 Campus Essen: Universitätsstraße 2, 45141 Essen"› ++ nl ++
     ‹"📍 Campus Duisburg: Forsthausweg 2, 47057 Duisburg"›)
    (‹"Kontaktinformationen:"› ++ nl ++ nl ++
     ‹"📞 Hauptcampus: +49 203 379-0"› ++ nl ++
     ‹"📧 Allgemeine Info: info@uni-due.de"› ++ nl ++
     ‹"🌐 Website: www.uni-due.de"› ++ nl ++
     ‹"📍 Campus Essen: Universitätsstraße 2, 45141 Essen"› ++ nl ++
     ‹"📍 Campus Duisburg: Forsthausweg 2, 47057 Duisburg"›))
    [] [].

Definition help_reply (l : language) : reply :=
  mkReply (by_lang l
    (‹"I'm here to help! I can assist you with:"› ++ nl ++ nl ++
     ‹"🏛️ Finding buildings and services"› ++ nl ++ ‹"📍 Campus navigation"› ++ nl ++
     ‹"⏰ Operating hours and schedules"› ++ nl ++ ‹"📞 Contact information"› ++ nl ++
     ‹"🎓 Student services and support"› ++ nl ++ ‹"💻 Digital platforms and portals"› ++ nl ++ nl ++
     ‹"Just ask me anything about UDE!"›)
    (‹"Ich bin hier, um zu helfen! Ich kann Ihnen helfen bei:"› ++ nl ++ nl ++
     ‹"🏛️ Gebäude und Services finden"› ++ nl ++ ‹"📍 Campus-Navigation"› ++ nl ++
     ‹"⏰ Öffnungszeiten und Zeitpläne"› ++ nl ++ ‹"📞 Kontaktinformationen"› ++ nl ++
     ‹"🎓 Studierendenservices und Unterstützung"› ++ nl ++ ‹"💻 Digitale Plattformen und Portale"› ++ nl ++ nl ++
     ‹"Fragen Sie mich einfach alles über die UDE!"›))
    (match l with
     | En => [‹"Show all buildings"›; ‹"Campus hours"›; ‹"Contact info"›; ‹"Student services"›]
     | De => [‹"Alle Gebäude zeigen"›; ‹"Campus-Zeiten"›; ‹"Kontakt-Info"›; ‹"Studierendenservices"›]
     end)
    [].

Definition default_reply (l : language) : reply :=
  mkReply (by_lang l
    ‹"I can help you with information about UDE campus buildings, services, hours, and more! What would you like to know?"›
    ‹"Ich kann Ihnen mit Informationen über UDE Campus-Gebäude, Services, Öffnungszeiten und mehr helfen! Was möchten Sie wissen?"›)
    (match l with
     | En => [‹"Find buildings"›; ‹"Operating hours"›; ‹"Contact information"›; ‹"Student services"›; ‹"Digital portals"›]
     | De => [‹"Gebäude finden"›; ‹"Öffnungszeiten"›; ‹"Kontaktinformationen"›; ‹"Studierendenservices"›; ‹"Digitale Portale"›]
     end)
    [].

(** [kws.some(k => lowerMessage.includes(k))], the [||] of a branch's tests. *)
Definition mentions (lowerMessage : list N) (kws : list (list N)) : bool :=
  existsb (includes lowerMessage) kws.

(** The [if]/[else if] cascade of [generateResponse]: the first branch
    whose tests hold. *)
Definition select_reply (l : language) (lowerMessage : list N) : reply :=
  if mentions lowerMessage [‹"library"›; ‹"bibliothek"›] then library_reply l
  else if mentions lowerMessage [‹"cafeteria"›; ‹"mensa"›; ‹"food"›; ‹"essen"›] then cafeteria_reply l
  else if mentions lowerMessage [‹"visa"›; ‹"immigration"›] then visa_reply l
  else if mentions lowerMessage [‹"student center"›; ‹"studierendenzentrum"›; ‹"activities"›] then student_center_reply l
  else if mentions lowerMessage [‹"administration"›; ‹"verwaltung"›; ‹"registration"›] then administration_reply l
  else if mentions lowerMessage [‹"portal"›; ‹"online"›; ‹"digital"›; ‹"moodle"›] then portals_reply l
  else if mentions lowerMessage [‹"hours"›; ‹"time"›; ‹"open"›; ‹"öffnungszeiten"›] then hours_reply l
  else if mentions lowerMessage [‹"contact"›; ‹"phone"›; ‹"email"›; ‹"kontakt"›] then contact_reply l
  else if mentions lowerMessage [‹"help"›; ‹"hilfe"›; ‹"support"›] then help_reply l
  else default_reply l.

(** [generateResponse(userMessage)] at the instant [now] ([Date.now()]),
    in the [language] of the render that scheduled it. *)
Definition generateResponse (l : language) (now : N) (userMessage : list N) : Message :=
  let r := select_reply l (js_toLowerCase userMessage) in
  mkMessage (decimal now) AssistantMsg (r_text r) now (Some (r_suggestions r)) (Some (r_actions r)).

(** ** The component *)

(** A pending [setTimeout], with what its closure captured at the render
    that scheduled it. *)
Inductive timer :=
  (** [handleSendMessage]'s reply: the message sent and the language. *)
  | TReply (content : list N) (l : language)
  (** [handleSuggestionClick]'s [() => handleSendMessage()]: the
      [handleSendMessage] of the render of the click, which reads that
      render's [inputValue]. *)
  | TSend (input : list N) (l : language)
  (** [clearChat]'s welcome text. *)
  | TWelcome (l : language).

(** The component's state, with the values of the two contexts it reads
    ([language] and [user]) at the current render, and the pending
    timers in the order they were scheduled. *)
Record ChatState := mkChat {
  isOpen : bool; isMinimized : bool; messages : list Message; inputValue : list N;
  isTyping : bool; soundEnabled : bool; lang : language; cur_user : option AuthUser;
  timers : list timer }.

(** The first render: [useState(false)], [useState([])], [useState('')], ... *)
Definition chat_initial (l : language) (u : option AuthUser) : ChatState :=
  mkChat false false [] [] false true l u [].

Definition set_messages (ms : list Message) (st : ChatState) : ChatState :=
  mkChat (isOpen st) (isMinimized st) ms (inputValue st) (isTyping st) (soundEnabled st)
    (lang st) (cur_user st) (timers st).

(** The welcome effect: [if (isOpen && messages.length === 0)
    setMessages([welcomeMessage])]. *)
Definition welcome_effect (now : N) (st : ChatState) : ChatState :=
  if isOpen st && bool_decide (messages st = []) then
    set_messages [welcome_message (lang st) (cur_user st) now] st
  else st.

(** The chat button: [setIsOpen(true)], then the effect, whose dependency
    [isOpen] changed. *)
Definition open_chat (now : N) (st : ChatState) : ChatState :=
  welcome_effect now
    (mkChat true (isMinimized st) (messages st) (inputValue st) (isTyping st) (soundEnabled st)
       (lang st) (cur_user st) (timers st)).

(** The close button: [setIsOpen(false)]. *)
Definition close_chat (st : ChatState) : ChatState :=
  mkChat false (isMinimized st) (messages st) (inputValue st) (isTyping st) (soundEnabled st)
    (lang st) (cur_user st) (timers st).

Definition toggle_minimized (st : ChatState) : ChatState :=
  mkChat (isOpen st) (negb (isMinimized st)) (messages st) (inputValue st) (isTyping st)
    (soundEnabled st) (lang st) (cur_user st) (timers st).

Definition toggle_sound (st : ChatState) : ChatState :=
  mkChat (isOpen st) (isMinimized st) (messages st) (inputValue st) (isTyping st)
    (negb (soundEnabled st)) (lang st) (cur_user st) (timers st).

(** The input's [onChange]: [setInputValue(e.target.value)]. *)
Definition type_input (v : list N) (st : ChatState) : ChatState :=
  mkChat (isOpen st) (isMinimized st) (messages st) v (isTyping st) (soundEnabled st)
    (lang st) (cur_user st) (timers st).

(** [handleSendMessage] of a render whose [inputValue] is [input] and whose
    [language] is [l]: on a blank input it returns; otherwise it appends
    the user message (a functional update), clears the input, sets
    [isTyping] and schedules the reply. *)
Definition send_with (input : list N) (l : language) (now : N) (st : ChatState) : ChatState :=
  if bool_decide (js_trim input = []) then st
  else
    mkChat (isOpen st) (isMinimized st)
      (messages st ++ [mkMessage (decimal now) UserMsg (js_trim input) now None None])
      [] true (soundEnabled st) (lang st) (cur_user st)
      (timers st ++ [TReply (js_trim input) l]).

(** The send button and [Enter] ([handleKeyPress]) call the
    [handleSendMessage] of the current render. *)
Definition handleSendMessage (now : N) (st : ChatState) : ChatState :=
  send_with (inputValue st) (lang st) now st.

(** [handleSuggestionClick(suggestion)]: [setInputValue(suggestion)] and a
    timer that calls the [handleSendMessage] of this render. *)
Definition handleSuggestionClick (suggestion : list N) (st : ChatState) : ChatState :=
  mkChat (isOpen st) (isMinimized st) (messages st) suggestion (isTyping st) (soundEnabled st)
    (lang st) (cur_user st) (timers st ++ [TSend (inputValue st) (lang st)]).

(** [clearChat]: [setMessages([])] and the welcome timer. *)
Definition clearChat (st : ChatState) : ChatState :=
  mkChat (isOpen st) (isMinimized st) [] (inputValue st) (isTyping st) (soundEnabled st)
    (lang st) (cur_user st) (timers st ++ [TWelcome (lang st)]).

(** The message of [clearChat]'s timer. *)
Definition welcome_new (l : language) (now : N) : Message :=
  mkMessage ‹"welcome-new"› AssistantMsg
    (by_lang l ‹"Chat cleared! How can I help you today?"› ‹"Chat gelöscht! Wie kann ich Ihnen heute helfen?"›)
    now
    (Some (match l with
           | En => [‹"Find buildings"›; ‹"Campus hours"›; ‹"Contact info"›]
           | De => [‹"Gebäude finden"›; ‹"Campus-Zeiten"›; ‹"Kontakt-Info"›]
           end))
    None.

(** A timer's callback at the instant [now].  The reply appends
    [generateResponse] (a functional update) and clears [isTyping]; the
    notification sound is not state. *)
Definition run_timer (t : timer) (now : N) (st : ChatState) : ChatState :=
  match t with
  | TReply content l =>
      mkChat (isOpen st) (isMinimized st) (messages st ++ [generateResponse l now content])
        (inputValue st) false (soundEnabled st) (lang st) (cur_user st) (timers st)
  | TSend input l => send_with input l now st
  | TWelcome l => set_messages [welcome_new l now] st
  end.

(** The [i]-th pending timer fires: it leaves the queue, then runs. *)
Definition fire (i : nat) (now : N) (st : ChatState) : option ChatState :=
  match timers st !! i with
  | Some t =>
      Some (run_timer t now
              (mkChat (isOpen st) (isMinimized st) (messages st) (inputValue st) (isTyping st)
                 (soundEnabled st) (lang st) (cur_user st) (delete i (timers st))))
  | None => None
  end.

(** A quick action's button: [onBuildingSelect?.(target)]. *)
Definition quick_action_click (a : QuickAction) : list N := qa_target a.

(** The events of the chat: a user's action or a timer. *)
Inductive chat_step : ChatState -> ChatState -> Prop :=
  | cs_open now st : chat_step st (open_chat now st)
  | cs_close st : chat_step st (close_chat st)
  | cs_minimize st : chat_step st (toggle_minimized st)
  | cs_sound st : chat_step st (toggle_sound st)
  | cs_type v st : chat_step st (type_input v st)
  | cs_send now st : chat_step st (handleSendMessage now st)
  | cs_suggestion s st : chat_step st (handleSuggestionClick s st)
  | cs_clear st : chat_step st (clearChat st)
  | cs_fire i now st st' : fire i now st = Some st' -> chat_step st st'.

Inductive chat_reachable : ChatState -> Prop :=
  | creach_init l u : chat_reachable (chat_initial l u)
  | creach_step st st' : chat_reachable st -> chat_step st st' -> chat_reachable st'.

(** The steps of the environment alone: timers firing. *)
Inductive timer_step : ChatState -> ChatState -> Prop :=
  | ts_fire i now st st' : fire i now st = Some st' -> timer_step st st'.

(** [P] holds eventually along every schedule of the pending timers: now,
    or some timer is pending and every firing leads to a state where it
    eventually holds. *)
Inductive eventually (P : ChatState -> Prop) : ChatState -> Prop :=
  | ev_now st : P st -> eventually P st
  | ev_later st : timers st <> [] -> (forall st', timer_step st st' -> eventually P st') -> eventually P st.

(** A quick action selects a building that has a page. *)
Definition page_ids : list (list N) := map fst buildingPagesData.

Definition action_okb (a : QuickAction) : bool := bool_decide (qa_target a ∈ page_ids).

(** A message as the chat builds it: a user message is not blank and
    carries neither suggestions nor quick actions, and every quick action
    selects a building with a page. *)
Definition msg_ok (m : Message) : Prop :=
  (m_type m = UserMsg -> m_content m <> [] /\ m_suggestions m = None /\ m_quickActions m = None) /\
  Forall (fun a => action_okb a = true) (default [] (m_quickActions m)).

(** The invariant of the chat: its messages are well formed and the
    typing indicator is on only while a reply is pending. *)
Definition chat_inv (st : ChatState) : Prop :=
  Forall msg_ok (messages st) /\
  (isTyping st = true -> exists c l, TReply c l ∈ timers st).

(** The ten texts [generateResponse] can choose. *)
Definition all_replies (l : language) : list reply :=
  [library_reply l; cafeteria_reply l; visa_reply l; student_center_reply l;
   administration_reply l; portals_reply l; hours_reply l; contact_reply l;
   help_reply l; default_reply l].

(** A chat the witnesses use: opened, one message typed and sent. *)
Definition sample_chat : ChatState :=
  handleSendMessage 5 (type_input ‹"library"› (open_chat 0 (chat_initial En None))).

End ChatAssistant.
Export ChatAssistant.

#[local] Close Scope js_scope.

(** ** Lemmas *)

Lemma page_ids_eq :
  page_ids = [‹"library"›; ‹"student-center"›; ‹"cafeteria"›; ‹"visa-services"›;
              ‹"administration"›; ‹"ude-portals"›]%js.
Proof. reflexivity. Qed.

(** A list of quick actions whose targets are page ids. *)
Ltac solve_actions :=
  repeat (apply List.Forall_cons;
          [unfold action_okb; cbn [qa_target]; rewrite page_ids_eq; vm_compute; reflexivity|]);
  apply List.Forall_nil.

(** The texts are constants for the proofs below; [vm_compute] still
    evaluates them. *)
#[local] Opaque js.

Lemma select_reply_in l s : In (select_reply l s) (all_replies l).
Proof.
  unfold select_reply, all_replies.
  repeat destruct (mentions _ _); cbn [In];
    repeat (first [left; match goal with |- ?a = ?a => reflexivity end | right]).
Qed.

Lemma all_replies_actions l :
  Forall (fun r => Forall (fun a => action_okb a = true) (r_actions r)) (all_replies l).
Proof.
  unfold all_replies.
  repeat (apply List.Forall_cons;
          [cbn [r_actions library_reply cafeteria_reply visa_reply student_center_reply
                administration_reply portals_reply hours_reply contact_reply help_reply
                default_reply visit]; solve_actions|]).
  apply List.Forall_nil.
Qed.

Lemma generateResponse_ok l now s : msg_ok (generateResponse l now s).
Proof.
  split; [by intros [=]|]. simpl.
  pose proof (all_replies_actions l) as H. rewrite List.Forall_forall in H.
  exact (H _ (select_reply_in l (js_toLowerCase s))).
Qed.

Lemma welcome_message_ok l u now : msg_ok (welcome_message l u now).
Proof. split; [by intros [=]|]. cbn [welcome_message m_quickActions default]. solve_actions. Qed.

Lemma welcome_new_ok l now : msg_ok (welcome_new l now).
Proof. split; [by intros [=]|]. constructor. Qed.

Create HintDb chatdb.
#[local] Hint Resolve generateResponse_ok welcome_message_ok welcome_new_ok : chatdb.

Lemma send_with_inv input l now st : chat_inv st -> chat_inv (send_with input l now st).
Proof.
  intros [Hm Ht]. unfold send_with. case_bool_decide as Hb; [by split|].
  split; simpl.
  - apply Forall_app; split; [done|]. constructor; [|done]. by split.
  - intros _. exists (js_trim input), l. set_solver.
Qed.

Lemma fire_inv i now st st' : chat_inv st -> fire i now st = Some st' -> chat_inv st'.
Proof.
  unfold fire. intros [Hm Ht] Hf. case_match eqn:Hi; [|done]. injection Hf as <-.
  destruct t as [c l|input l|l]; simpl.
  - split; [apply Forall_app; split; [done|]; constructor; auto with chatdb|done].
  - apply send_with_inv. split; [done|]. simpl. intros Hty.
    destruct (Ht Hty) as (c & l' & Hin). exists c, l'.
    by apply (elem_of_delete_ne _ (TSend input l)).
  - split; [constructor; auto with chatdb|]. simpl. intros Hty.
    destruct (Ht Hty) as (c & l' & Hin). exists c, l'.
    by apply (elem_of_delete_ne _ (TWelcome l)).
Qed.

Lemma chat_inv_step st st' : chat_inv st -> chat_step st st' -> chat_inv st'.
Proof.
  intros Hinv Hs. destruct Hs as [now st|st|st|st|v st|now st|s st|st|i now st st' Hf];
    try exact Hinv.
  - unfold open_chat, welcome_effect. simpl. case_match; [|exact Hinv].
    split; [constructor; auto with chatdb|apply Hinv].
  - by apply send_with_inv.
  - destruct Hinv as [Hm Ht]. split; [done|]. simpl. intros Hty.
    destruct (Ht Hty) as (c & l & Hin). exists c, l. set_solver.
  - destruct Hinv as [Hm Ht]. split; [constructor|]. simpl. intros Hty.
    destruct (Ht Hty) as (c & l & Hin). exists c, l. set_solver.
  - by eapply fire_inv.
Qed.

Lemma chat_reachable_inv st : chat_reachable st -> chat_inv st.
Proof.
  induction 1 as [l u|st st' _ IH Hs]; [split; [constructor|by intros [=]]|].
  by eapply chat_inv_step.
Qed.

(** *** Timers drain *)

(** A timer's weight bounds the timers it can still schedule: a suggestion's
    send may schedule a reply. *)
Definition weight (t : timer) : nat := match t with TSend _ _ => 2 | _ => 1 end.

Definition timers_weight (l : list timer) : nat := sum_list_with weight l.

Lemma timers_weight_app l l' : timers_weight (l ++ l') = timers_weight l + timers_weight l'.
Proof. apply sum_list_with_app. Qed.

Lemma timers_weight_delete l i t :
  l !! i = Some t -> timers_weight (delete i l) + weight t = timers_weight l.
Proof.
  intros Hi. rewrite <- (take_drop_middle l i t Hi) at 2.
  rewrite delete_take_drop. unfold timers_weight. rewrite !sum_list_with_app. simpl. lia.
Qed.

Lemma fire_weight i now st st' :
  fire i now st = Some st' -> timers_weight (timers st') < timers_weight (timers st).
Proof.
  unfold fire. case_match eqn:Hi; [|done]. intros [= <-].
  pose proof (timers_weight_delete _ _ _ Hi).
  destruct t as [c l|input l|l]; simpl in *; [lia| |lia].
  unfold send_with. case_bool_decide; simpl; [lia|].
  rewrite timers_weight_app. simpl. lia.
Qed.

Lemma eventually_weaken (P Q : ChatState -> Prop) st :
  eventually P st -> (forall s, P s -> Q s) -> eventually Q st.
Proof.
  induction 1 as [st HP|st Hne _ IH]; intros HPQ; [by constructor; auto|].
  apply ev_later; [done|]. intros st' Hs. by apply IH.
Qed.

(** Every schedule of the pending timers empties the queue, keeping any
    property the firings keep. *)
Lemma eventually_drained (P : ChatState -> Prop) st :
  (forall s s', timer_step s s' -> P s -> P s') -> P st ->
  eventually (fun s => P s /\ timers s = []) st.
Proof.
  intros HP. remember (timers_weight (timers st)) as w eqn:Hw.
  revert st Hw. induction w as [w IH] using lt_wf_ind. intros st -> Hst.
  destruct (timers st) eqn:Ht; [by apply ev_now|].
  apply ev_later; [by rewrite Ht|]. intros st' Hs.
  assert (Hlt := Hs). destruct Hlt as [i now s s' Hf]. apply fire_weight in Hf.
  eapply IH; [rewrite <- Ht; exact Hf|done|eauto].
Qed.

Lemma timer_step_chat_step st st' : timer_step st st' -> chat_step st st'.
Proof. intros [i now s s' Hf]. by eapply cs_fire. Qed.

(** The only firing of a single pending timer. *)
Lemma fire_single i now st t st' :
  timers st = [t] -> fire i now st = Some st' ->
  i = 0 /\ st' = run_timer t now (mkChat (isOpen st) (isMinimized st) (messages st)
                                   (inputValue st) (isTyping st) (soundEnabled st) (lang st)
                                   (cur_user st) []).
Proof.
  unfold fire. intros -> Hf. destruct i as [|i]; simpl in Hf; [|done].
  by injection Hf as <-.
Qed.

(** ** Properties *)

(** C15: In every state the chat reaches, each message is well formed: a
    user message is not blank and carries no suggestions or quick
    actions, and every quick action, of the welcome or of a reply,
    selects a building that has a page. *)
Theorem chat_messages_well_formed st :
  chat_reachable st -> Forall msg_ok (messages st).
Proof. intros Hr. apply (chat_reachable_inv st Hr). Qed.

(** C14: Whatever the user did, once the user stops every schedule of the
    pending timers fires them all, and the chat then shows no typing
    indicator. *)
Theorem chat_timers_settle st :
  chat_reachable st ->
  eventually (fun s => chat_reachable s /\ timers s = [] /\ isTyping s = false) st.
Proof.
  intros Hr. eapply eventually_weaken.
  - apply (eventually_drained chat_reachable); [|exact Hr].
    intros s s' Hs Hrs. eapply creach_step; [exact Hrs|by apply timer_step_chat_step].
  - intros s [Hrs Ht]. split_and!; [done|done|].
    destruct (isTyping s) eqn:Hty; [|done].
    destruct (proj2 (chat_reachable_inv s Hrs) Hty) as (c & l & Hin). rewrite Ht in Hin. set_solver.
Qed.

(** A message sent with no timer pending is answered: the chat shows
    the trimmed message and then [generateResponse]'s reply to it, and
    the typing indicator goes off. *)
Theorem send_is_answered now st :
  timers st = [] -> js_trim (inputValue st) <> [] ->
  eventually (fun s => exists now',
      messages s = messages st ++
        [mkMessage (decimal now) UserMsg (js_trim (inputValue st)) now None None;
         generateResponse (lang st) now' (js_trim (inputValue st))] /\
      isTyping s = false /\ timers s = [])
    (handleSendMessage now st).
Proof.
  intros Ht Hne. unfold handleSendMessage, send_with.
  rewrite bool_decide_false by done. rewrite Ht.
  apply ev_later; [done|]. intros st' Hs. inversion Hs as [i now' s s' Hf]; subst.
  eapply fire_single in Hf; [|reflexivity]. destruct Hf as [_ ->].
  apply ev_now. exists now'. simpl. by rewrite <- app_assoc.
Qed.

(** A clicked suggestion is never sent: the timer of
    [handleSuggestionClick] calls the [handleSendMessage] of the render of
    the click, which reads that render's [inputValue].  With an empty
    input nothing is sent and the suggestion stays in the input. *)
Theorem suggestion_not_sent s st i now st' :
  js_trim (inputValue st) = [] -> timers st = [] ->
  fire i now (handleSuggestionClick s st) = Some st' ->
  messages st' = messages st /\ inputValue st' = s /\ timers st' = [] /\ isTyping st' = isTyping st.
Proof.
  intros Hb Ht Hf.
  eapply fire_single in Hf; [|by simpl; rewrite Ht]. destruct Hf as [_ ->].
  simpl. unfold send_with. by rewrite bool_decide_true.
Qed.

(** With a typed text, the same timer sends the typed text, not the
    suggestion, and clears the input. *)
Lemma suggestion_sends_stale_input s st now :
  timers st = [] ->
  fire 0 now (handleSuggestionClick s st) = Some (send_with (inputValue st) (lang st) now (type_input s st)).
Proof. intros Ht. unfold fire, handleSuggestionClick, type_input. rewrite Ht. reflexivity. Qed.

#[local] Open Scope js_scope.

(** The cascade tests substrings in a fixed order: a question about
    the campus in the city of Essen gets the cafeteria's text ('essen' is
    German for food), and 'When does the library open?' gets the
    library's text, not the opening hours. *)
Example generateResponse_keyword_order :
  m_quickActions (generateResponse En 0 ‹"How do I get to Campus Essen?"›) =
    Some (visit ‹"cafeteria-visit"› ‹"cafeteria"› En ‹"Visit Cafeteria"› ‹"Cafeteria besuchen"›) /\
  m_content (generateResponse En 0 ‹"When does the library open?"›) = r_text (library_reply En).
Proof. split; vm_compute; reflexivity. Qed.

(** [clearChat]'s delayed welcome replaces the whole list: a message
    sent within the 500 ms is wiped, and its reply then appears with no
    question before it. *)
Example clearChat_wipes_question :
  let st0 := open_chat 0 (chat_initial En None) in
  let st1 := handleSendMessage 100 (type_input ‹"library"› (clearChat st0)) in
  match fire 0 500 st1 with
  | Some st2 =>
      messages st2 = [welcome_new En 500] /\
      fire 0 1500 st2 = Some (mkChat true false [welcome_new En 500; generateResponse En 1500 ‹"library"›]
                                [] false true En None [])
  | None => False
  end.
Proof. vm_compute. split; reflexivity. Qed.

(** Two messages in a row: the first reply turns the typing indicator off
    while the second is still pending. *)
Example typing_indicator_off_early :
  let st0 := open_chat 0 (chat_initial En None) in
  let st1 := handleSendMessage 20 (type_input ‹"hours"› (handleSendMessage 10 (type_input ‹"help"› st0))) in
  option_map (fun s => (isTyping s, length (timers s))) (fire 0 1200 st1) = Some (false, 1).
Proof. vm_compute. reflexivity. Qed.

(** ** Witnesses *)

Lemma sample_chat_reachable : chat_reachable sample_chat.
Proof.
  eapply creach_step; [eapply creach_step; [eapply creach_step; [apply (creach_init En None)|]|]|].
  - apply cs_open.
  - apply cs_type.
  - apply cs_send.
Qed.

Lemma chat_messages_well_formed_witness : chat_reachable sample_chat /\ Forall msg_ok (messages sample_chat).
Proof. split; [exact sample_chat_reachable|exact (chat_messages_well_formed _ sample_chat_reachable)]. Defined.

Lemma chat_timers_settle_witness :
  chat_reachable sample_chat /\
  eventually (fun s => chat_reachable s /\ timers s = [] /\ isTyping s = false) sample_chat.
Proof. split; [exact sample_chat_reachable|exact (chat_timers_settle _ sample_chat_reachable)]. Defined.

Lemma send_is_answered_witness :
  let st := type_input ‹"Where is the library?"› (open_chat 0 (chat_initial De None)) in
  timers st = [] /\ js_trim (inputValue st) <> [] /\
  eventually (fun s => exists now',
      messages s = messages st ++
        [mkMessage (decimal 7) UserMsg (js_trim (inputValue st)) 7 None None;
         generateResponse (lang st) now' (js_trim (inputValue st))] /\
      isTyping s = false /\ timers s = [])
    (handleSendMessage 7 st).
Proof.
  simpl. split; [reflexivity|]. split; [vm_compute; discriminate|].
  apply (send_is_answered 7 (type_input ‹"Where is the library?"› (open_chat 0 (chat_initial De None))));
    [reflexivity|vm_compute; discriminate].
Defined.

Lemma suggestion_not_sent_witness :
  let st := open_chat 0 (chat_initial En None) in
  js_trim (inputValue st) = [] /\ timers st = [] /\
  exists st', fire 0 100 (handleSuggestionClick ‹"Find the library"› st) = Some st' /\
    messages st' = messages st /\ inputValue st' = ‹"Find the library"› /\ timers st' = [] /\
    isTyping st' = isTyping st.
Proof.
  simpl. split; [reflexivity|]. split; [reflexivity|].
  eexists. split; [reflexivity|].
  apply (suggestion_not_sent ‹"Find the library"› (open_chat 0 (chat_initial En None)) 0 100);
    [reflexivity|reflexivity|reflexivity].
Defined.
