(* ===== verification/Forum.v ===== *)
(** * Forum: the community forum of [components/Forum.tsx]

    The forum lists posts of a category filtered by a search text, and
    lets a signed-in user create a post, comment on one and like it.  Its
    posts are mock data built in the language of the first render
    ([loadPosts] runs in a mount effect, and again on every realtime
    event); every handler updates the post list with a functional
    [setPosts(prev => ...)].  The component's state is a record; each
    handler is a function on it, and [forum_step] is the relation of all
    handlers, over which the like counter is shown never to go negative.
    Liking twice gives the post back up to [isLiked] being [undefined]
    or [false], an equivalence of posts with its [Proper] instances. *)

From Stdlib Require Import String NArith ZArith List Lia.
From stdpp Require Import base list options.
From S2P Require Import Prelude AuthService Buildings.

#[local] Open Scope js_scope.

(** The component [Forum] of [components/Forum.tsx]. *)
Module Forum.


(** ** Data *)

(** [interface ForumCategory]; the icon is kept by its component name. *)
Record ForumCategory := mkCategory {
  fc_id : list N; fc_name : list N; fc_icon : list N; fc_color : list N; fc_description : list N }.

(** [interface ForumComment]; [created_at] is a time value in ms. *)
Record ForumComment := mkComment {
  c_id : list N; c_post_id : list N; c_content : list N; c_user_id : list N; c_user_name : list N;
  c_created_at : Z }.

(** [interface ForumPost] *)
Record ForumPost := mkPost {
  p_id : list N; p_title : list N; p_content : list N; p_category_id : list N;
  p_user_id : list N; p_user_name : list N; p_created_at : Z; p_comments : list ForumComment;
  likes : Z; isExpanded : option bool; isLiked : option bool }.

(** [const categories: ForumCategory[]] *)
Definition categories (l : language) : list ForumCategory :=
  [mkCategory ‹"all"› (by_lang l ‹"All Topics"› ‹"Alle Themen"›) ‹"MessageSquare"› ‹"bg-gray-500"›
     (by_lang l ‹"View all forum posts"› ‹"Alle Forum-Beiträge anzeigen"›);
   mkCategory ‹"library"› (by_lang l ‹"Library"› ‹"Bibliothek"›) ‹"BookOpen"› ‹"bg-blue-500"›
     (by_lang l ‹"Questions about library services"› ‹"Fragen zu Bibliotheksdiensten"›);
   mkCategory ‹"cafeteria"› (by_lang l ‹"Cafeteria"› ‹"Cafeteria"›) ‹"Coffee"› ‹"bg-red-500"›
     (by_lang l ‹"Dining and food-related discussions"› ‹"Diskussionen über Essen und Gastronomie"›);
   mkCategory ‹"visa-services"› (by_lang l ‹"Visa Services"› ‹"Visa-Services"›) ‹"FileText"› ‹"bg-orange-500"›
     (by_lang l ‹"Immigration and visa help"› ‹"Einwanderungs- und Visa-Hilfe"›);
   mkCategory ‹"student-center"› (by_lang l ‹"Student Life"› ‹"Studentenleben"›) ‹"Users"› ‹"bg-pink-500"›
     (by_lang l ‹"Student activities and organizations"› ‹"Studentische Aktivitäten und Organisationen"›);
   mkCategory ‹"administration"› (by_lang l ‹"Administration"› ‹"Verwaltung"›) ‹"Building"› ‹"bg-green-500"›
     (by_lang l ‹"Administrative procedures and help"› ‹"Verwaltungsverfahren und Hilfe"›);
   mkCategory ‹"international"› (by_lang l ‹"International"› ‹"International"›) ‹"Globe"› ‹"bg-purple-500"›
     (by_lang l ‹"International student support"› ‹"Unterstützung für internationale Studierende"›)].

(** [60 * 60 * 1000] and [60 * 1000] *)
Definition hour_ms : Z := 3600000.
Definition minute_ms : Z := 60000.

(** The posts of [loadPosts], built at the instant [now] in the language
    [l]. *)
Definition post_1 (l : language) (now : Z) : ForumPost :=
  mkPost ‹"1"› (by_lang l ‹"How to book study rooms in the library?"› ‹"Wie kann ich Lernräume in der Bibliothek buchen?"›)
    (by_lang l
       ‹"I'm new to UDE and I need to book a study room for my group project. Can someone guide me through the process? I've tried looking online but the process seems confusing."›
       ‹"Ich bin neu an der UDE und muss einen Lernraum für mein Gruppenprojekt buchen. Kann mir jemand durch den Prozess helfen? Ich habe online gesucht, aber der Prozess scheint verwirrend."›)
    ‹"library"› ‹"1"› ‹"Sarah M."› (now - 2 * hour_ms)
    [mkComment ‹"1"› ‹"1"›
       (by_lang l
          (‹"You can book study rooms online through the library portal. Just go to the library website and look for "› ++ dquote ++ ‹"Room Booking"› ++ dquote ++ ‹". You'll need your student ID to log in."›)
          (‹"Sie können Lernräume online über das Bibliotheksportal buchen. Gehen Sie einfach auf die Bibliotheks-Website und suchen Sie nach "› ++ dquote ++ ‹"Raumbuchung"› ++ dquote ++ ‹". Sie benötigen Ihre Studierenden-ID zum Einloggen."›))
       ‹"2"› ‹"Alex K."› (now - 1 * hour_ms);
     mkComment ‹"2"› ‹"1"›
       (by_lang l
          ‹"Also, book early! Popular time slots fill up quickly, especially during exam periods."›
          ‹"Buchen Sie auch früh! Beliebte Zeitfenster sind schnell ausgebucht, besonders während der Prüfungszeiten."›)
       ‹"3"› ‹"Maria L."› (now - 30 * minute_ms)]
    5 None None.

Definition post_2 (l : language) (now : Z) : ForumPost :=
  mkPost ‹"2"› (by_lang l ‹"Best vegetarian options in cafeteria?"› ‹"Beste vegetarische Optionen in der Cafeteria?"›)
    (by_lang l
       ‹"I'm looking for good vegetarian meals on campus. What are your recommendations? I'm particularly interested in protein-rich options."›
       ‹"Ich suche nach guten vegetarischen Mahlzeiten auf dem Campus. Was sind eure Empfehlungen? Ich interessiere mich besonders für proteinreiche Optionen."›)
    ‹"cafeteria"› ‹"3"› ‹"Maria L."› (now - 4 * hour_ms)
    [mkComment ‹"3"› ‹"2"›
       (by_lang l
          ‹"The pasta station usually has great vegetarian options, and they clearly mark all vegan dishes! The lentil curry is amazing."›
          ‹"Die Pasta-Station hat normalerweise tolle vegetarische Optionen, und sie kennzeichnen alle veganen Gerichte deutlich! Das Linsen-Curry ist fantastisch."›)
       ‹"4"› ‹"Tom R."› (now - 3 * hour_ms)]
    8 None None.

Definition post_3 (l : language) (now : Z) : ForumPost :=
  mkPost ‹"3"› (by_lang l ‹"Visa extension process - need help!"› ‹"Visa-Verlängerungsprozess - brauche Hilfe!"›)
    (by_lang l
       ‹"My student visa expires in 2 months. What documents do I need for extension? Any tips for the appointment? I'm quite nervous about the process."›
       ‹"Mein Studentenvisum läuft in 2 Monaten ab. Welche Dokumente brauche ich für die Verlängerung? Tipps für den Termin? Ich bin ziemlich nervös wegen des Prozesses."›)
    ‹"visa-services"› ‹"5"› ‹"Ahmed S."› (now - 6 * hour_ms)
    [mkComment ‹"4"› ‹"3"›
       (by_lang l
          ‹"Make sure you have your enrollment certificate, bank statements (last 3 months), and health insurance. Book the appointment early! The staff is usually very helpful."›
          ‹"Stellen Sie sicher, dass Sie Ihre Immatrikulationsbescheinigung, Kontoauszüge (letzte 3 Monate) und Krankenversicherung haben. Buchen Sie den Termin früh! Das Personal ist normalerweise sehr hilfsbereit."›)
       ‹"6"› ‹"Lisa W."› (now - 5 * hour_ms)]
    12 None None.

Definition post_4 (l : language) (now : Z) : ForumPost :=
  mkPost ‹"4"› (by_lang l ‹"Study groups for Computer Science?"› ‹"Lerngruppen für Informatik?"›)
    (by_lang l
       ‹"Looking for study partners for CS courses, especially algorithms and data structures. Anyone interested in forming a study group?"›
       ‹"Suche Lernpartner für Informatik-Kurse, besonders Algorithmen und Datenstrukturen. Jemand interessiert an einer Lerngruppe?"›)
    ‹"student-center"› ‹"7"› ‹"David K."› (now - 8 * hour_ms) [] 6 None None.

Definition post_5 (l : language) (now : Z) : ForumPost :=
  mkPost ‹"5"› (by_lang l ‹"WhatsApp and Discord groups for UDE students"› ‹"WhatsApp und Discord Gruppen für UDE Studierende"›)
    (by_lang l
       ‹"Hey everyone! I found some great communication channels for UDE students. Join our WhatsApp group for quick updates and our Discord server for study sessions and casual chat!"›
       ‹"Hallo alle! Ich habe einige großartige Kommunikationskanäle für UDE-Studierende gefunden. Tretet unserer WhatsApp-Gruppe für schnelle Updates und unserem Discord-Server für Lernsitzungen und lockere Gespräche bei!"›)
    ‹"student-center"› ‹"8"› ‹"Emma S."› (now - 12 * hour_ms)
    [mkComment ‹"5"› ‹"5"›
       (by_lang l
          ‹"Great initiative! These groups are super helpful for staying connected with fellow students."›
          ‹"Tolle Initiative! Diese Gruppen sind super hilfreich, um mit anderen Studierenden in Kontakt zu bleiben."›)
       ‹"9"› ‹"Max B."› (now - 10 * hour_ms)]
    15 None None.

(** [const mockPosts: ForumPost[]] *)
Definition mockPosts (l : language) (now : Z) : list ForumPost :=
  [post_1 l now; post_2 l now; post_3 l now; post_4 l now; post_5 l now].

(** ** The component *)

(** [newPost]: [{ title, content, category_id }] *)
Record NewPost := mkNewPost { np_title : list N; np_content : list N; np_category_id : list N }.

Definition empty_new_post : NewPost := mkNewPost [] [] [].

(** The component's state, with the values of the contexts ([language],
    [user]) at the current render and the language of the first render,
    which [loadPosts]'s closure keeps (the effect has no dependencies). *)
Record ForumState := mkForum {
  selectedCategory : list N; posts : list ForumPost; searchQuery : list N;
  showNewPostForm : bool; newPost : NewPost; newComment : list (list N * list N);
  loading : bool; f_lang : language; f_user : option AuthUser; mount_lang : language }.

(** The first render: [useState('all')], [useState([])], ... *)
Definition forum_initial (l : language) (u : option AuthUser) : ForumState :=
  mkForum ‹"all"› [] [] false empty_new_post [] true l u l.

Definition set_posts (ps : list ForumPost) (st : ForumState) : ForumState :=
  mkForum (selectedCategory st) ps (searchQuery st) (showNewPostForm st) (newPost st)
    (newComment st) (loading st) (f_lang st) (f_user st) (mount_lang st).

(** [loadPosts()] at the instant [now]: it has no [await], so
    [setLoading(true)], [setPosts(mockPosts)] and [setLoading(false)] run
    at once; the posts are in the language of the first render. *)
Definition loadPosts (now : Z) (st : ForumState) : ForumState :=
  mkForum (selectedCategory st) (mockPosts (mount_lang st) now) (searchQuery st) (showNewPostForm st)
    (newPost st) (newComment st) false (f_lang st) (f_user st) (mount_lang st).

(** [filteredPosts] *)
Definition post_matches (selectedCategory searchQuery : list N) (post : ForumPost) : bool :=
  let matchesCategory := jsstring_eqb selectedCategory ‹"all"› || jsstring_eqb (p_category_id post) selectedCategory in
  let matchesSearch := includes (js_toLowerCase (p_title post)) (js_toLowerCase searchQuery) ||
                       includes (js_toLowerCase (p_content post)) (js_toLowerCase searchQuery) in
  matchesCategory && matchesSearch.

Definition filteredPosts (st : ForumState) : list ForumPost :=
  List.filter (post_matches (selectedCategory st) (searchQuery st)) (posts st).

(** [handleCreatePost()] at [now] ([Date.now()]). *)
Definition handleCreatePost (now : N) (st : ForumState) : ForumState :=
  match f_user st with
  | Some u =>
      if truthy_str (np_title (newPost st)) && truthy_str (np_content (newPost st)) &&
         truthy_str (np_category_id (newPost st)) then
        let post := mkPost (decimal now) (np_title (newPost st)) (np_content (newPost st))
                      (np_category_id (newPost st)) (js (au_id u)) (js (au_name u)) (Z.of_N now)
                      [] 0 None None in
        mkForum (selectedCategory st) (post :: posts st) (searchQuery st) false empty_new_post
          (newComment st) (loading st) (f_lang st) (f_user st) (mount_lang st)
      else st
  | None => st
  end.

(** [{ ...post, comments: [...post.comments, comment] }] for the post
    [postId]. *)
Definition add_comment (postId : list N) (comment : ForumComment) (post : ForumPost) : ForumPost :=
  if jsstring_eqb (p_id post) postId then
    mkPost (p_id post) (p_title post) (p_content post) (p_category_id post) (p_user_id post)
      (p_user_name post) (p_created_at post) (p_comments post ++ [comment]) (likes post)
      (isExpanded post) (isLiked post)
  else post.

(** [handleAddComment(postId)] at [now]. *)
Definition handleAddComment (now : N) (postId : list N) (st : ForumState) : ForumState :=
  match assoc_get postId (newComment st), f_user st with
  | Some commentText, Some u =>
      if truthy_str commentText then
        let comment := mkComment (decimal now) postId commentText (js (au_id u)) (js (au_name u)) (Z.of_N now) in
        mkForum (selectedCategory st) (map (add_comment postId comment) (posts st)) (searchQuery st)
          (showNewPostForm st) (newPost st) (assoc_set postId [] (newComment st)) (loading st)
          (f_lang st) (f_user st) (mount_lang st)
      else st
  | _, _ => st
  end.

(** [post.isLiked] as a condition: [undefined] is false. *)
Definition liked (post : ForumPost) : bool := default false (isLiked post).

(** The update of [handleLikePost] on one post. *)
Definition like_post (postId : list N) (post : ForumPost) : ForumPost :=
  if jsstring_eqb (p_id post) postId then
    mkPost (p_id post) (p_title post) (p_content post) (p_category_id post) (p_user_id post)
      (p_user_name post) (p_created_at post) (p_comments post)
      (if liked post then likes post - 1 else likes post + 1)%Z
      (isExpanded post) (Some (negb (liked post)))
  else post.

Definition handleLikePost (postId : list N) (st : ForumState) : ForumState :=
  set_posts (map (like_post postId) (posts st)) st.

(** The update of [togglePostExpansion] on one post. *)
Definition expand_post (postId : list N) (post : ForumPost) : ForumPost :=
  if jsstring_eqb (p_id post) postId then
    mkPost (p_id post) (p_title post) (p_content post) (p_category_id post) (p_user_id post)
      (p_user_name post) (p_created_at post) (p_comments post) (likes post)
      (Some (negb (default false (isExpanded post)))) (isLiked post)
  else post.

Definition togglePostExpansion (postId : list N) (st : ForumState) : ForumState :=
  set_posts (map (expand_post postId) (posts st)) st.

(** [formatTimeAgo(date)] at the instant [now]: [Math.floor] of the
    difference in minutes (of integers of ms, so the floor division). *)
Definition formatTimeAgo (l : language) (now date : Z) : list N :=
  let diffInMinutes := ((now - date) / minute_ms)%Z in
  if (diffInMinutes <? 60)%Z then
    by_lang l (zdecimal diffInMinutes ++ ‹"m ago"›) (‹"vor "› ++ zdecimal diffInMinutes ++ ‹"m"›)
  else if (diffInMinutes <? 1440)%Z then
    let hours := (diffInMinutes / 60)%Z in
    by_lang l (zdecimal hours ++ ‹"h ago"›) (‹"vor "› ++ zdecimal hours ++ ‹"h"›)
  else
    let days := (diffInMinutes / 1440)%Z in
    by_lang l (zdecimal days ++ ‹"d ago"›) (‹"vor "› ++ zdecimal days ++ ‹"d"›).

(** The inputs of the form: [setNewPost(prev => ({ ...prev, field }))]. *)
Inductive post_field := FTitle | FContent | FCategory.

Definition edit_new_post (f : post_field) (v : list N) (st : ForumState) : ForumState :=
  let np := newPost st in
  let np' := match f with
             | FTitle => mkNewPost v (np_content np) (np_category_id np)
             | FContent => mkNewPost (np_title np) v (np_category_id np)
             | FCategory => mkNewPost (np_title np) (np_content np) v
             end in
  mkForum (selectedCategory st) (posts st) (searchQuery st) (showNewPostForm st) np'
    (newComment st) (loading st) (f_lang st) (f_user st) (mount_lang st).

(** A comment input: [setNewComment(prev => ({ ...prev, [post.id]: value }))]. *)
Definition edit_comment (postId v : list N) (st : ForumState) : ForumState :=
  mkForum (selectedCategory st) (posts st) (searchQuery st) (showNewPostForm st) (newPost st)
    (assoc_set postId v (newComment st)) (loading st) (f_lang st) (f_user st) (mount_lang st).

Definition set_search (q : list N) (st : ForumState) : ForumState :=
  mkForum (selectedCategory st) (posts st) q (showNewPostForm st) (newPost st)
    (newComment st) (loading st) (f_lang st) (f_user st) (mount_lang st).

Definition select_category (c : list N) (st : ForumState) : ForumState :=
  mkForum c (posts st) (searchQuery st) (showNewPostForm st) (newPost st)
    (newComment st) (loading st) (f_lang st) (f_user st) (mount_lang st).

(** The "new post" and "cancel" buttons: [setShowNewPostForm(b)]. *)
Definition show_form (b : bool) (st : ForumState) : ForumState :=
  mkForum (selectedCategory st) (posts st) (searchQuery st) b (newPost st)
    (newComment st) (loading st) (f_lang st) (f_user st) (mount_lang st).

(** A new value of the language context: the component renders again. *)
Definition change_language (l : language) (st : ForumState) : ForumState :=
  mkForum (selectedCategory st) (posts st) (searchQuery st) (showNewPostForm st) (newPost st)
    (newComment st) (loading st) l (f_user st) (mount_lang st).

(** The events of the forum after its mount: the handlers, and
    [loadPosts] again from the realtime subscription's callback. *)
Inductive forum_step : ForumState -> ForumState -> Prop :=
  | fs_create now st : forum_step st (handleCreatePost now st)
  | fs_comment now pid st : forum_step st (handleAddComment now pid st)
  | fs_like pid st : forum_step st (handleLikePost pid st)
  | fs_expand pid st : forum_step st (togglePostExpansion pid st)
  | fs_edit f v st : forum_step st (edit_new_post f v st)
  | fs_edit_comment pid v st : forum_step st (edit_comment pid v st)
  | fs_search q st : forum_step st (set_search q st)
  | fs_category c st : forum_step st (select_category c st)
  | fs_form b st : forum_step st (show_form b st)
  | fs_language l st : forum_step st (change_language l st)
  | fs_reload now st : forum_step st (loadPosts now st).

(** The mount runs [loadPosts]; then any sequence of events. *)
Inductive forum_reachable : ForumState -> Prop :=
  | freach_mount l u now : forum_reachable (loadPosts now (forum_initial l u))
  | freach_step st st' : forum_reachable st -> forum_step st st' -> forum_reachable st'.

(** Posts that differ at most in [isLiked] being [undefined] or [false]:
    the component cannot tell them apart. *)
Definition normalize (post : ForumPost) : ForumPost :=
  mkPost (p_id post) (p_title post) (p_content post) (p_category_id post) (p_user_id post)
    (p_user_name post) (p_created_at post) (p_comments post) (likes post)
    (isExpanded post) (Some (liked post)).

Definition post_equiv (p q : ForumPost) : Prop := normalize p = normalize q.

(** The like counter of a post is never negative, and at least one while
    the post is liked. *)
Definition likes_ok (post : ForumPost) : Prop :=
  (0 <= likes post)%Z /\ (liked post = true -> (1 <= likes post)%Z).

End Forum.
Export Forum.

#[local] Close Scope js_scope.

(** ** Lemmas *)

(** The texts are constants for the proofs below. *)
#[local] Opaque js.

#[export] Instance post_equiv_equivalence : Equivalence post_equiv.
Proof.
  unfold post_equiv. split; [by intros ?|by intros ?? ->|by intros ??? -> ->].
Qed.

Lemma like_post_normalize pid p : normalize (like_post pid p) = normalize (like_post pid (normalize p)).
Proof. destruct p as [? ? ? ? ? ? ? ? ? ? []]; unfold like_post; simpl; by case_match. Qed.

#[export] Instance like_post_proper pid : Proper (post_equiv ==> post_equiv) (like_post pid).
Proof. intros p q H. unfold post_equiv in *. by rewrite like_post_normalize, H, <- like_post_normalize. Qed.

(** What the component shows of a post's likes: the counter and the
    filled heart. *)
#[export] Instance likes_shown_proper : Proper (post_equiv ==> eq) (fun p => (likes p, liked p)).
Proof.
  intros p q H. unfold post_equiv, normalize in H. injection H as ? ? ? ? ? ? ? ? Hl ? Hk.
  by rewrite Hl, Hk.
Qed.

Lemma like_post_twice pid p : post_equiv (like_post pid (like_post pid p)) p.
Proof.
  destruct p as [i ? ? ? ? ? ? ? k ? [[]|]]; unfold post_equiv, like_post, normalize, liked; simpl;
    destruct (jsstring_eqb i pid) eqn:Hid; simpl; rewrite ?Hid; simpl; try reflexivity; f_equal; lia.
Qed.

Lemma like_post_ok pid p : likes_ok p -> likes_ok (like_post pid p).
Proof.
  unfold like_post, likes_ok, liked. intros [H0 H1]. case_match; [|done]. simpl.
  destruct (isLiked p) as [[]|]; simpl in *; [specialize (H1 eq_refl)|..];
    split; intros; try discriminate; lia.
Qed.

Lemma add_comment_ok pid c p : likes_ok p -> likes_ok (add_comment pid c p).
Proof. unfold add_comment. by case_match. Qed.

Lemma expand_post_ok pid p : likes_ok p -> likes_ok (expand_post pid p).
Proof. unfold expand_post. by case_match. Qed.

Lemma mockPosts_ok l now : Forall likes_ok (mockPosts l now).
Proof.
  unfold mockPosts, likes_ok, liked.
  repeat constructor; cbn [likes isLiked post_1 post_2 post_3 post_4 post_5 default]; lia || discriminate.
Qed.

Lemma Forall_map_ok (f : ForumPost -> ForumPost) ps :
  (forall p, likes_ok p -> likes_ok (f p)) -> Forall likes_ok ps -> Forall likes_ok (map f ps).
Proof. intros Hf H. apply Forall_map. eapply Forall_impl; [exact H|exact Hf]. Qed.

Lemma forum_step_ok st st' : Forall likes_ok (posts st) -> forum_step st st' -> Forall likes_ok (posts st').
Proof.
  intros H Hs. destruct Hs; try exact H; simpl.
  - unfold handleCreatePost. repeat case_match; try exact H. constructor; [|exact H].
    unfold likes_ok, liked. simpl. split; [lia|discriminate].
  - unfold handleAddComment. repeat case_match; try exact H. apply Forall_map_ok; [|exact H].
    apply add_comment_ok.
  - apply Forall_map_ok; [apply like_post_ok|exact H].
  - apply Forall_map_ok; [apply expand_post_ok|exact H].
  - apply mockPosts_ok.
Qed.

Lemma handleCreatePost_posts now st u :
  f_user st = Some u -> truthy_str (np_title (newPost st)) = true ->
  truthy_str (np_content (newPost st)) = true -> truthy_str (np_category_id (newPost st)) = true ->
  length (posts (handleCreatePost now st)) = S (length (posts st)).
Proof. intros Hu Ht Hc Hk. unfold handleCreatePost. by rewrite Hu, Ht, Hc, Hk. Qed.

(** ** Properties *)

(** C16: In every state the forum reaches, no like counter is negative,
    and a liked post has at least one like: unliking never goes below the
    count the post was loaded or created with. *)
Theorem forum_likes_nonnegative st :
  forum_reachable st -> Forall likes_ok (posts st).
Proof.
  induction 1 as [l u now|st st' _ IH Hs]; [apply mockPosts_ok|].
  by eapply forum_step_ok.
Qed.

(** Liking a post twice gives every post back, up to [isLiked] being
    [undefined] before and [false] after: the counter and the heart are
    those of before. *)
Theorem handleLikePost_twice pid st :
  Forall2 post_equiv (posts (handleLikePost pid (handleLikePost pid st))) (posts st).
Proof.
  cbn [handleLikePost set_posts posts]. rewrite map_map.
  induction (posts st) as [|p ps IH]; constructor; [apply like_post_twice|exact IH].
Qed.

(** [handleCreatePost] does nothing exactly when there is no signed-in
    user or the title, the content or the category is empty. *)
Theorem handleCreatePost_guard now st :
  handleCreatePost now st = st <->
  f_user st = None \/ np_title (newPost st) = [] \/ np_content (newPost st) = [] \/
  np_category_id (newPost st) = [].
Proof.
  split.
  - intros Heq. destruct (f_user st) as [u|] eqn:Hu; [right|by left].
    rewrite <- !truthy_str_false.
    destruct (truthy_str (np_title (newPost st))) eqn:Ht; [|by left].
    destruct (truthy_str (np_content (newPost st))) eqn:Hc; [|by right; left].
    destruct (truthy_str (np_category_id (newPost st))) eqn:Hk; [|by right; right].
    pose proof (handleCreatePost_posts now st u Hu Ht Hc Hk) as Hl. rewrite Heq in Hl. lia.
  - unfold handleCreatePost. rewrite <- !truthy_str_false.
    intros [ Hx | [ Hx | [ Hx | Hx ] ] ]; rewrite Hx; [done|..]; destruct (f_user st); by rewrite ?andb_false_r.
Qed.

(** For a date in the past, [formatTimeAgo] shows minutes below 60,
    hours from 1 to 23, or a positive number of days. *)
Theorem formatTimeAgo_units l now date :
  (date <= now)%Z ->
  exists n, (formatTimeAgo l now date = by_lang l (zdecimal n ++ js "m ago") (js "vor " ++ zdecimal n ++ js "m") /\ (0 <= n < 60)%Z) \/
            (formatTimeAgo l now date = by_lang l (zdecimal n ++ js "h ago") (js "vor " ++ zdecimal n ++ js "h") /\ (1 <= n < 24)%Z) \/
            (formatTimeAgo l now date = by_lang l (zdecimal n ++ js "d ago") (js "vor " ++ zdecimal n ++ js "d") /\ (1 <= n)%Z).
Proof.
  intros Hd. unfold formatTimeAgo, minute_ms.
  assert (H0 : (0 <= (now - date) / 60000)%Z) by (apply Z.div_pos; lia).
  destruct (Z.ltb_spec ((now - date) / 60000) 60) as [Hm|Hm].
  - exists ((now - date) / 60000)%Z. left. split; [done|lia].
  - destruct (Z.ltb_spec ((now - date) / 60000) 1440) as [Hh|Hh].
    + exists ((now - date) / 60000 / 60)%Z. right; left. split; [done|].
      split; [apply Z.div_le_lower_bound|apply Z.div_lt_upper_bound]; lia.
    + exists ((now - date) / 60000 / 1440)%Z. right; right. split; [done|].
      apply Z.div_le_lower_bound; lia.
Qed.

#[local] Open Scope js_scope.

(** [loadPosts] replaces the whole list, and it is also the callback
    of the realtime subscription: the first realtime event after a user
    created a post or a comment discards it (outside demo mode, where the
    subscription exists). *)
Example realtime_reload_discards_post :
  let u := mkAuthUser "u-1" "student@uni-due.de" "Student" in
  let st0 := loadPosts 0 (forum_initial En (Some u)) in
  let st1 := edit_new_post FCategory ‹"library"› (edit_new_post FContent ‹"Where is room S05?"›
               (edit_new_post FTitle ‹"Room S05"› st0)) in
  let st2 := handleCreatePost 60000 st1 in
  map p_id (posts st2) = [‹"60000"›; ‹"1"›; ‹"2"›; ‹"3"›; ‹"4"›; ‹"5"›] /\
  map p_id (posts (loadPosts 120000 st2)) = [‹"1"›; ‹"2"›; ‹"3"›; ‹"4"›; ‹"5"›].
Proof. split; vm_compute; reflexivity. Qed.

(** The posts stay in the language of the first render: after switching
    to English the categories are English and the posts German. *)
Example posts_keep_mount_language :
  let st := change_language En (loadPosts 0 (forum_initial De None)) in
  map fc_name (categories (f_lang st)) = map fc_name (categories En) /\
  option_map p_title (head (posts st)) = Some ‹"Wie kann ich Lernräume in der Bibliothek buchen?"›.
Proof. split; reflexivity. Qed.

(** ** Witnesses *)

Lemma forum_likes_nonnegative_witness :
  let st := handleLikePost ‹"1"› (loadPosts 0 (forum_initial En None)) in
  forum_reachable st /\ Forall likes_ok (posts st).
Proof.
  assert (Hr : forum_reachable (handleLikePost ‹"1"› (loadPosts 0 (forum_initial En None)))).
  { eapply freach_step; [apply (freach_mount En None 0)|apply fs_like]. }
  split; [exact Hr|exact (forum_likes_nonnegative _ Hr)].
Defined.

Lemma formatTimeAgo_units_witness :
  (0 <= 7200000)%Z /\
  exists n, (formatTimeAgo En 7200000 0 = by_lang En (zdecimal n ++ js "m ago") (js "vor " ++ zdecimal n ++ js "m") /\ (0 <= n < 60)%Z) \/
            (formatTimeAgo En 7200000 0 = by_lang En (zdecimal n ++ js "h ago") (js "vor " ++ zdecimal n ++ js "h") /\ (1 <= n < 24)%Z) \/
            (formatTimeAgo En 7200000 0 = by_lang En (zdecimal n ++ js "d ago") (js "vor " ++ zdecimal n ++ js "d") /\ (1 <= n)%Z).
Proof. split; [lia|apply (formatTimeAgo_units En 7200000 0); lia]. Defined.
