(* ===== verification/LoginPage.v ===== *)
(** * LoginPage: the sign-in and sign-up form of [components/LoginPage.tsx]

    The page keeps the form fields, the error text and the flags of the
    form in React state.  [handleSubmit] validates the name and awaits
    the [login] or [signup] of [AuthContext] ([AuthContext.login],
    [AuthContext.signup]), which call the auth service; the page then
    navigates to [/campus] or shows the error.  Here the page is a record,
    each handler a function on it, and [handleSubmit] is cut at its
    [await] into [submit_request], which yields the call it makes, and
    [submit_resume], which takes the call's [Outcome]; [page_submit]
    composes them with the provider of [AuthContext] over any [AuthApi].
    A photo upload validates the file and resizes the image in the
    [onload] callback of the browser's image decoder.

    The form's strings are JavaScript strings; the service's model takes
    Rocq strings, and [Prelude.utf8_of_js] passes them on ([js] inverts
    it, so nothing is lost). *)

From Stdlib Require Import String NArith ZArith QArith Qfield List Lia Lqa.
From stdpp Require Import base list options relations.
From S2P Require Import Prelude AuthService AuthContext Buildings.

#[local] Open Scope js_scope.

(** The component [LoginPage] of [components/LoginPage.tsx]. *)
Module LoginPage.


(** ** The page *)

(** The page's state: [useState] of the fields, and where it navigated. *)
Record LoginState := mkLogin {
  email : list N; password : list N; name : list N; studentId : list N; program : list N;
  year : Z; campus_choice : campus; profilePhoto : option (list N);
  showPassword : bool; error : list N; isLoading : bool; isSignUp : bool;
  isUploadingPhoto : bool; isDarkMode : json_value; navigated : option (list N) }.

(** The first render; the dark-mode flag is read as [CampusNavigator]
    reads it ([Buildings.saved_dark_mode]). *)
Definition login_initial (json_parse : list N -> option json_value) (saved : option (list N))
    : option LoginState :=
  (fun d => mkLogin [] [] [] [] [] 1 Essen None false [] false false false d None)
    <$> saved_dark_mode json_parse saved.

(** The inputs of the form. *)
Inductive field := FEmail | FPassword | FName | FStudentId | FProgram.

Definition set_field (f : field) (v : list N) (st : LoginState) : LoginState :=
  mkLogin (if f is FEmail then v else email st) (if f is FPassword then v else password st)
    (if f is FName then v else name st) (if f is FStudentId then v else studentId st)
    (if f is FProgram then v else program st) (year st) (campus_choice st) (profilePhoto st)
    (showPassword st) (error st) (isLoading st) (isSignUp st) (isUploadingPhoto st)
    (isDarkMode st) (navigated st).

(** The year select: [setYear(parseInt(e.target.value))] of an option
    [1] to [6]; the campus buttons: [setCampus(c)]. *)
Definition set_year (y : Z) (st : LoginState) : LoginState :=
  mkLogin (email st) (password st) (name st) (studentId st) (program st) y (campus_choice st)
    (profilePhoto st) (showPassword st) (error st) (isLoading st) (isSignUp st)
    (isUploadingPhoto st) (isDarkMode st) (navigated st).

Definition set_campus (c : campus) (st : LoginState) : LoginState :=
  mkLogin (email st) (password st) (name st) (studentId st) (program st) (year st) c
    (profilePhoto st) (showPassword st) (error st) (isLoading st) (isSignUp st)
    (isUploadingPhoto st) (isDarkMode st) (navigated st).

Definition toggle_show_password (st : LoginState) : LoginState :=
  mkLogin (email st) (password st) (name st) (studentId st) (program st) (year st) (campus_choice st)
    (profilePhoto st) (negb (showPassword st)) (error st) (isLoading st) (isSignUp st)
    (isUploadingPhoto st) (isDarkMode st) (navigated st).

Definition set_error (e : list N) (st : LoginState) : LoginState :=
  mkLogin (email st) (password st) (name st) (studentId st) (program st) (year st) (campus_choice st)
    (profilePhoto st) (showPassword st) e (isLoading st) (isSignUp st)
    (isUploadingPhoto st) (isDarkMode st) (navigated st).

Definition set_uploading (b : bool) (st : LoginState) : LoginState :=
  mkLogin (email st) (password st) (name st) (studentId st) (program st) (year st) (campus_choice st)
    (profilePhoto st) (showPassword st) (error st) (isLoading st) (isSignUp st)
    b (isDarkMode st) (navigated st).

(** [toggleLanguage]: [setLanguage(language === 'en' ? 'de' : 'en')] of
    [LanguageContext] ([Language.handleSetLanguage]). *)
Definition toggleLanguage (l : language) : language := match l with En => De | De => En end.

(** [toggleDarkMode] and the effect that stores the flag. *)
Definition toggleDarkMode (st : LoginState) : LoginState :=
  let d := match isDarkMode st with JBool b => negb b | JOther t => negb t end in
  mkLogin (email st) (password st) (name st) (studentId st) (program st) (year st) (campus_choice st)
    (profilePhoto st) (showPassword st) (error st) (isLoading st) (isSignUp st)
    (isUploadingPhoto st) (JBool d) (navigated st).

(** [resetForm] *)
Definition resetForm (st : LoginState) : LoginState :=
  mkLogin [] [] [] [] [] 1 Essen None (showPassword st) [] (isLoading st) (isSignUp st)
    (isUploadingPhoto st) (isDarkMode st) (navigated st).

(** [handleModeSwitch]: [setIsSignUp(!isSignUp)] and [resetForm()]. *)
Definition handleModeSwitch (st : LoginState) : LoginState :=
  resetForm (mkLogin (email st) (password st) (name st) (studentId st) (program st) (year st)
    (campus_choice st) (profilePhoto st) (showPassword st) (error st) (isLoading st)
    (negb (isSignUp st)) (isUploadingPhoto st) (isDarkMode st) (navigated st)).

(** ** The photo *)

(** The [File] the input yields: its MIME type and size in bytes. *)
Record FileInfo := mkFile { f_type : list N; f_size : Z }.

(** [handlePhotoUpload(event)]: the checks and the start of the upload;
    the image is then decoded by the browser, whose [onload] is
    [photo_loaded].  No [onerror] is installed. *)
Definition handlePhotoUpload (file : option FileInfo) (st : LoginState) : LoginState :=
  match file with
  | None => st
  | Some f =>
      if negb (is_prefix ‹"image/"› (f_type f)) then set_error ‹"Please select an image file"› st
      else if (f_size f >? 2 * 1024 * 1024)%Z then set_error ‹"Image size must be less than 2MB"› st
      else set_error [] (set_uploading true st)
  end.

(** The resizing of [img.onload] to at most 200 x 200, keeping the
    aspect ratio. *)
Definition resize (width height : Q) : Q * Q :=
  let maxSize := 200%Q in
  if Qlt_le_dec height width then
    if Qlt_le_dec maxSize width then (maxSize, (height * maxSize / width)%Q) else (width, height)
  else
    if Qlt_le_dec maxSize height then ((width * maxSize / height)%Q, maxSize) else (width, height).

(** [img.onload]: [setProfilePhoto(canvas.toDataURL(...))] and
    [setIsUploadingPhoto(false)]; the data URL is the canvas's. *)
Definition photo_loaded (dataUrl : list N) (st : LoginState) : LoginState :=
  mkLogin (email st) (password st) (name st) (studentId st) (program st) (year st) (campus_choice st)
    (Some dataUrl) (showPassword st) (error st) (isLoading st) (isSignUp st)
    false (isDarkMode st) (navigated st).

(** [s.split(sep)] *)
Fixpoint split_on (sep : N) (s : list N) : list (list N) :=
  match s with
  | [] => [[]]
  | c :: s' =>
      if (c =? sep)%N then [] :: split_on sep s'
      else match split_on sep s' with
           | w :: ws => (c :: w) :: ws
           | [] => [[c]]
           end
  end.

(** [getAvatarInitials(name)]: [n[0]] of an empty word is [undefined],
    which [join] writes as the empty string. *)
Definition getAvatarInitials (n : list N) : list N :=
  js_toUpperCase (concat (map (take 1) (split_on 32 n))).

(** ** [handleSubmit] *)

Definition set_loading (b : bool) (st : LoginState) : LoginState :=
  mkLogin (email st) (password st) (name st) (studentId st) (program st) (year st) (campus_choice st)
    (profilePhoto st) (showPassword st) (error st) b (isSignUp st)
    (isUploadingPhoto st) (isDarkMode st) (navigated st).

(** [navigate(path)] *)
Definition navigate (path : list N) (st : LoginState) : LoginState :=
  mkLogin (email st) (password st) (name st) (studentId st) (program st) (year st) (campus_choice st)
    (profilePhoto st) (showPassword st) (error st) (isLoading st) (isSignUp st)
    (isUploadingPhoto st) (isDarkMode st) (Some path).

(** The call [handleSubmit] awaits. *)
Inductive request := ReqSignup (d : SignUpData) | ReqLogin (e p : string).

(** [s.trim() || undefined] *)
Definition trimmed_or_undefined (s : list N) : option string :=
  if bool_decide (js_trim s = []) then None else Some (utf8_of_js (js_trim s)).

(** [profilePhoto || undefined] *)
Definition photo_or_undefined (p : option (list N)) : option string :=
  match p with Some u => if bool_decide (u = []) then None else Some (utf8_of_js u) | None => None end.

(** The argument of [signup]. *)
Definition signup_data (st : LoginState) : SignUpData :=
  mkSignUp (utf8_of_js (email st)) (utf8_of_js (password st)) (utf8_of_js (js_trim (name st)))
    (trimmed_or_undefined (studentId st)) (trimmed_or_undefined (program st)) (Some (year st))
    (Some (campus_choice st)) (photo_or_undefined (profilePhoto st)).

(** [handleSubmit] up to its [await]: [setError('')], [setIsLoading(true)],
    the name check, whose [return] runs the [finally], and the call. *)
Definition submit_request (st : LoginState) : LoginState * option request :=
  let st0 := set_loading true (set_error [] st) in
  if isSignUp st then
    if bool_decide (js_trim (name st) = []) then (set_loading false (set_error ‹"Name is required"› st0), None)
    else (st0, Some (ReqSignup (signup_data st)))
  else (st0, Some (ReqLogin (utf8_of_js (email st)) (utf8_of_js (password st)))).

(** [handleSubmit] after its [await]: navigate on success, else
    [setError(error || fallback)]; then the [finally]. *)
Definition submit_resume (fallback : list N) (o : Outcome) (st : LoginState) : LoginState :=
  set_loading false
    (if success o then navigate ‹"/campus"› st
     else set_error (match out_error o with
                     | Some e => if String.eqb e EmptyString then fallback else js e
                     | None => fallback
                     end) st).

(** The browser submits the form only when its constraints hold: the
    e-mail and password are filled and the e-mail is well formed
    ([email_ok], the browser's check of [type="email"]), the name is
    filled in sign-up mode, and the submit button is enabled. *)
Definition form_submits (email_ok : list N -> bool) (st : LoginState) : bool :=
  truthy_str (email st) && email_ok (email st) && truthy_str (password st) &&
  (negb (isSignUp st) || truthy_str (name st)) && negb (isLoading st).

Section WithProvider.
Context {W : Type} `{!AuthApi W}.

(** [handleSubmit] with the provider of [AuthContext]: the awaited
    [signup] or [login] ([AuthContext.signup], [AuthContext.login]).  Their
    promises never reject (both catch), so the page's [catch] is not
    reached. *)
Definition page_submit (now : N) (st : LoginState) (p : Provider W) : LoginState * Provider W :=
  match submit_request st with
  | (st1, Some (ReqSignup d)) =>
      match signup now d p with
      | Some (p', Some o) => (submit_resume ‹"Signup failed"› o st1, p')
      | _ => (st1, p)
      end
  | (st1, Some (ReqLogin e pw)) =>
      match login e pw p with
      | Some (p', Some o) => (submit_resume ‹"Login failed"› o st1, p')
      | _ => (st1, p)
      end
  | (st1, None) => (st1, p)
  end.

End WithProvider.

(** The page's events when no image finishes loading: the handlers, and
    the two halves of [handleSubmit] with any outcome. *)
Inductive page_step_no_load : LoginState -> LoginState -> Prop :=
  | ps_field f v st : page_step_no_load st (set_field f v st)
  | ps_year y st : page_step_no_load st (set_year y st)
  | ps_campus c st : page_step_no_load st (set_campus c st)
  | ps_show st : page_step_no_load st (toggle_show_password st)
  | ps_dark st : page_step_no_load st (toggleDarkMode st)
  | ps_mode st : page_step_no_load st (handleModeSwitch st)
  | ps_photo f st : isUploadingPhoto st = false -> page_step_no_load st (handlePhotoUpload f st)
  | ps_submit st : page_step_no_load st (fst (submit_request st))
  | ps_resume fb o st : page_step_no_load st (submit_resume fb o st).

End LoginPage.
Export LoginPage.

#[local] Close Scope js_scope.

(** ** Lemmas *)

Section ProviderLemmas.
Context {W : Type} `{!AuthApi W}.

Lemma signup_result now d (p : Provider W) :
  signup now d p =
  let '(r, w') := api_signUp now d (world p) in
  let '(c', o) := settle "Signup failed" r (mkCtx (ctx_user (ctx p)) true) in
  Some (mkProvider c' w' (inflight p), Some o).
Proof.
  unfold signup, call_signup. destruct (api_signUp now d (world p)) as [r w'].
  rewrite resume_last. simpl. by destruct (settle _ _ _).
Qed.

Lemma login_result e pw (p : Provider W) :
  login e pw p =
  let '(r, w') := api_signIn e pw (world p) in
  let '(c', o) := settle "Login failed" r (mkCtx (ctx_user (ctx p)) true) in
  Some (mkProvider c' w' (inflight p), Some o).
Proof.
  unfold login, call_login. destruct (api_signIn e pw (world p)) as [r w'].
  rewrite resume_last. simpl. by destruct (settle _ _ _).
Qed.

Lemma logout_world (p p' : Provider W) o :
  logout p = Some (p', o) -> world p' = snd (api_signOut (world p)).
Proof.
  unfold logout, call_logout. destruct (api_signOut (world p)) as [x w'].
  rewrite resume_last. simpl. by intros [= <- _].
Qed.

End ProviderLemmas.

(** A successful outcome comes from an answer with a user. *)
Lemma settle_true fb r c c' o :
  settle fb r c = (c', o) -> success o = true -> exists u, ar_user r = Some u.
Proof.
  unfold settle. destruct (truthy (ar_error r)); [by intros [= _ <-]|].
  destruct (ar_user r) as [u|]; [by eauto|by intros [= _ <-]].
Qed.

Lemma settle_user fb u c : settle fb (mkAuthResult (Some u) None) c = (mkCtx (Some u) false, mkOutcome true None).
Proof. reflexivity. Qed.

Lemma submit_resume_navigated fb o st :
  navigated (submit_resume fb o st) = if success o then Some (js "/campus") else navigated st.
Proof. unfold submit_resume. by destruct (success o). Qed.

Lemma drop_spaces_Forall (P : N -> Prop) s : Forall P s -> Forall P (drop_spaces s).
Proof. induction 1 as [|c s Hc Hs IH]; simpl; [constructor|]. case_match; [done|by constructor]. Qed.

Lemma js_trim_Forall (P : N -> Prop) s : Forall P s -> Forall P (js_trim s).
Proof.
  intros H. unfold js_trim. apply Forall_rev, drop_spaces_Forall, Forall_rev, drop_spaces_Forall, H.
Qed.

(** The image is at most 200 x 200 and keeps its aspect ratio. *)
Lemma Qdiv_pos (a b : Q) : (0 < a -> 0 < b -> 0 < a / b)%Q.
Proof. intros Ha Hb. apply Qlt_shift_div_l; [done|]. by rewrite Qmult_0_l. Qed.

(** ** Properties *)

Section Properties.
Context {W : Type} `{!AuthApi W}.

(** A sign-up whose name is only white space (the browser's
    [required] lets it through) is refused with 'Name is required'
    before the service is called; the spinner stops. *)
Theorem blank_name_rejected now st (p : Provider W) :
  isSignUp st = true -> js_trim (name st) = [] ->
  exists st', page_submit now st p = (st', p) /\ error st' = js "Name is required" /\
    isLoading st' = false /\ navigated st' = navigated st.
Proof.
  intros Hs Hb. unfold page_submit, submit_request. rewrite Hs, bool_decide_true by done.
  by eexists.
Qed.

Context {Hlaws : AuthApiLaws W}.

(** C17: Against any auth service satisfying the [AuthApi] laws, a
    successful sign-up on the page, a logout, and a login on a fresh page
    with the same e-mail and password lead to [/campus]. *)
Theorem signup_then_login_navigates now now' st fresh (p p1 p2 : Provider W) st1 o :
  isSignUp st = true -> navigated st = None ->
  page_submit now st p = (st1, p1) -> navigated st1 = Some (js "/campus") ->
  logout p1 = Some (p2, o) -> isSignUp fresh = false ->
  navigated (fst (page_submit now' (set_field FPassword (password st) (set_field FEmail (email st) fresh)) p2))
    = Some (js "/campus").
Proof using Hlaws.
  intros Hs Hn Hsub Hnav Hout Hf.
  unfold page_submit, submit_request in Hsub. rewrite Hs in Hsub.
  case_bool_decide; [injection Hsub as <- _; simpl in Hnav; congruence|].
  rewrite signup_result in Hsub. destruct (api_signUp now (signup_data st) (world p)) as [r w'] eqn:Hsu.
  destruct (settle _ r _) as [c' o'] eqn:Hset. injection Hsub as <- <-.
  rewrite submit_resume_navigated in Hnav. destruct (success o') eqn:Hso; [|simpl in Hnav; congruence].
  destruct (settle_true _ _ _ _ _ Hset Hso) as [u Hu].
  pose proof (law_signIn_after_signUp now (signup_data st) (world p) u) as Hl.
  rewrite Hsu in Hl. specialize (Hl Hu). cbn [fst snd signup_data sd_email sd_password] in Hl.
  apply logout_world in Hout. cbn [world] in Hout.
  unfold page_submit, submit_request. cbn [isSignUp set_field]. rewrite Hf.
  rewrite login_result, Hout. cbn [email password set_field].
  pose proof (law_signOut_signIn w' (utf8_of_js (email st)) (utf8_of_js (password st))) as Ho.
  rewrite Hl in Ho. destruct (api_signIn _ _ (snd (api_signOut w'))) as [r2 w2]. cbn [fst] in Ho. subst r2.
  by rewrite settle_user.
Qed.

End Properties.

(** The name a demo-mode sign-up stores, read back as a JavaScript
    string (as the chat's greeting and the header show it), is the name
    typed in the form, trimmed. *)
Theorem signup_name_roundtrip now st s r s' u :
  valid_units (name st) ->
  signUp_demo now (signup_data st) s = (r, s') -> ar_user r = Some u ->
  js (au_name u) = js_trim (name st).
Proof.
  intros Hu. unfold signUp_demo. destruct (map_has _ _); [by intros [= <- _]|].
  intros [= <- _] [= <-]. cbn [au_name signup_data sd_name].
  by apply js_utf8_of_js, js_trim_Forall.
Qed.

(** [img.onload] draws the photo at most 200 x 200, with positive
    sides and the aspect ratio of the image, and leaves an image that
    fits unchanged. *)
Theorem resize_bounds w h :
  (0 < w)%Q -> (0 < h)%Q ->
  (0 < fst (resize w h) <= 200)%Q /\ (0 < snd (resize w h) <= 200)%Q /\
  (fst (resize w h) * h == snd (resize w h) * w)%Q /\
  ((w <= 200)%Q -> (h <= 200)%Q -> resize w h = (w, h)).
Proof.
  intros Hw Hh. unfold resize. cbv zeta.
  destruct (Qlt_le_dec h w) as [Hhw|Hwh]; [destruct (Qlt_le_dec 200 w) as [Hm|Hm]|destruct (Qlt_le_dec 200 h) as [Hm|Hm]];
    cbn [fst snd].
  - split_and!; try lra.
    + apply Qdiv_pos; lra.
    + apply Qle_shift_div_r; lra.
    + field. intros E. rewrite E in Hw. discriminate.
  - split_and!; try lra. done.
  - split_and!; try lra.
    + apply Qdiv_pos; lra.
    + apply Qle_shift_div_r; lra.
    + field. intros E. rewrite E in Hh. discriminate.
  - split_and!; try lra. done.
Qed.

Lemma no_load_uploading st st' :
  isUploadingPhoto st = true -> page_step_no_load st st' -> isUploadingPhoto st' = true.
Proof.
  intros Hu Hs. destruct Hs; cbn; try done; [congruence| |].
  - unfold submit_request. by repeat case_match.
  - unfold submit_resume. by case_match.
Qed.

(** The page installs no [onerror] on the image: once an upload has
    started, until the browser decodes the image nothing clears
    [isUploadingPhoto], so for a file that is not a decodable image the
    photo input stays disabled whatever the user does. *)
Theorem upload_without_onload_stays_disabled st st' :
  isUploadingPhoto st = true -> rtc page_step_no_load st st' -> isUploadingPhoto st' = true.
Proof. intros Hu Hr. induction Hr as [|x y z Hxy _ IH]; [done|]. by apply IH, (no_load_uploading x). Qed.

(** ** Witnesses *)

#[local] Open Scope js_scope.

Lemma blank_name_rejected_witness :
  let st := set_field FName ‹"   "› (handleModeSwitch (mkLogin [] [] [] [] [] 1 Essen None false [] false false false (JBool false) None)) in
  let p := @mount _ demo_auth_api (constructor (mkStorage None []), mkMock [] [] false false) in
  isSignUp st = true /\ js_trim (name st) = [] /\
  exists st', page_submit 0 st p = (st', p) /\ error st' = js "Name is required" /\
    isLoading st' = false /\ navigated st' = navigated st.
Proof.
  intros st p. split; [reflexivity|]. split; [vm_compute; reflexivity|].
  apply (blank_name_rejected 0 st p); [reflexivity|vm_compute; reflexivity].
Defined.

Lemma signup_then_login_navigates_witness :
  let st := set_field FPassword ‹"secret-2"› (set_field FEmail ‹"ben@uni-due.de"› (set_field FName ‹"Ben"›
              (handleModeSwitch (mkLogin [] [] [] [] [] 1 Essen None false [] false false false (JBool false) None)))) in
  let fresh := mkLogin [] [] [] [] [] 1 Essen None false [] false false false (JBool false) None in
  let p := @mount _ demo_auth_api (constructor (mkStorage None []), mkMock [] [] false false) in
  isSignUp st = true /\ navigated st = None /\ navigated (fst (page_submit 0 st p)) = Some (js "/campus") /\
  exists p2 o, logout (snd (page_submit 0 st p)) = Some (p2, o) /\
    navigated (fst (page_submit 1 (set_field FPassword (password st) (set_field FEmail (email st) fresh)) p2))
      = Some (js "/campus").
Proof.
  intros st fresh p. split; [reflexivity|]. split; [reflexivity|]. split; [vm_compute; reflexivity|].
  destruct (logout (snd (page_submit 0 st p))) as [[p2 o]|] eqn:E; [|vm_compute in E; discriminate].
  exists p2, o. split; [reflexivity|].
  apply (signup_then_login_navigates 0 1 st fresh p (snd (page_submit 0 st p)) p2 (fst (page_submit 0 st p)) o);
    [reflexivity|reflexivity|apply surjective_pairing|vm_compute; reflexivity|exact E|reflexivity].
Defined.

Lemma signup_name_roundtrip_witness :
  let st := set_field FName ‹"  Jürgen Groß "› (handleModeSwitch (mkLogin [] [] [] [] [] 1 Essen None false [] false false false (JBool false) None)) in
  let s := constructor (mkStorage None []) in
  valid_units (name st) /\
  exists u, ar_user (fst (signUp_demo 7 (signup_data st) s)) = Some u /\ js (au_name u) = ‹"Jürgen Groß"›.
Proof.
  intros st s. split; [apply valid_units_check; vm_compute; reflexivity|].
  destruct (signUp_demo 7 (signup_data st) s) as [r s'] eqn:E.
  destruct (ar_user r) as [u|] eqn:Hu; [|vm_compute in E; injection E as <- _; discriminate].
  exists u. split; [exact Hu|].
  rewrite (signup_name_roundtrip 7 st s r s' u); [vm_compute; reflexivity|apply valid_units_check; vm_compute; reflexivity|exact E|exact Hu].
Defined.

Lemma resize_bounds_witness :
  (0 < 1200)%Q /\ (0 < 900)%Q /\
  (0 < fst (resize 1200 900) <= 200)%Q /\ (0 < snd (resize 1200 900) <= 200)%Q /\
  (fst (resize 1200 900) * 900 == snd (resize 1200 900) * 1200)%Q /\
  ((1200 <= 200)%Q -> (900 <= 200)%Q -> resize 1200 900 = (1200%Q, 900%Q)).
Proof. split; [lra|]. split; [lra|]. apply resize_bounds; lra. Defined.

Lemma upload_without_onload_stays_disabled_witness :
  let st := handlePhotoUpload (Some (mkFile ‹"application/x-corrupt-image"› 10)) (mkLogin [] [] [] [] [] 1 Essen None false [] false false false (JBool false) None) in
  let st0 := handlePhotoUpload (Some (mkFile ‹"image/heic"› 1000)) (mkLogin [] [] [] [] [] 1 Essen None false [] false false false (JBool false) None) in
  error st = js "Please select an image file" /\
  isUploadingPhoto st0 = true /\ rtc page_step_no_load st0 (handleModeSwitch (toggleDarkMode st0)) /\
  isUploadingPhoto (handleModeSwitch (toggleDarkMode st0)) = true.
Proof.
  intros st st0. split; [vm_compute; reflexivity|]. split; [reflexivity|].
  assert (Hr : rtc page_step_no_load st0 (handleModeSwitch (toggleDarkMode st0))).
  { eapply rtc_l; [apply ps_dark|]. eapply rtc_l; [apply ps_mode|]. apply rtc_refl. }
  split; [exact Hr|]. exact (upload_without_onload_stays_disabled st0 _ eq_refl Hr).
Defined.
