(* ===== verification/SettingsModal.v ===== *)
(** * SettingsModal: the settings dialog of [components/SettingsModal.tsx]

    The dialog edits a [UserSettings] object kept in React state: it is
    loaded from [localStorage['ude-settings']] when the dialog mounts
    ([{ ...defaultSettings, ...JSON.parse(saved) }]), changed by the
    toggles and buttons of its tabs ([updateSettings(section, key,
    value)]), reset to the defaults, and saved back, which also syncs the
    app's dark mode with the chosen theme.  It shows the profile photo
    stored under [ude-profile-photo-<user id>], the key [authService]'s
    sign-up writes.

    The settings are a JSON value ([Prelude.json]), as the code treats
    them ([value: any], spreads, [JSON.stringify]); [localStorage] is the
    [Storage] of [AuthService]; [JSON.parse] and [JSON.stringify] are the
    engine's ([JsonEngine]).  The controls of the tabs are a table of
    (section, key) pairs, so that the step relation offers exactly the
    changes the rendered dialog offers. *)

From Stdlib Require Import String Ascii NArith ZArith List Lia.
From stdpp Require Import base list options relations.
From S2P Require Import Prelude AuthService Language LoginPage.

#[local] Open Scope js_scope.

(** ** Settings *)

Definition field (k : string) (v : json) : list N * json := (js k, v).

(** [const defaultSettings: UserSettings] *)
Definition defaultSettings : json :=
  JObj [field "notifications" (JObj [field "enabled" (JBool true); field "sound" (JBool true);
                                      field "email" (JBool false); field "updates" (JBool true);
                                      field "events" (JBool true)]);
        field "display" (JObj [field "theme" (JStr ‹"light"›); field "fontSize" (JStr ‹"medium"›);
                                field "animations" (JBool true); field "compactMode" (JBool false)]);
        field "campus" (JObj [field "defaultView" (JStr ‹"2d"›); field "showLabels" (JBool true);
                               field "autoZoom" (JBool true); field "favoriteBuildings" (JArr [])]);
        field "accessibility" (JObj [field "highContrast" (JBool false); field "reduceMotion" (JBool false);
                                      field "screenReader" (JBool false); field "keyboardNav" (JBool false)]);
        field "privacy" (JObj [field "analytics" (JBool true); field "locationTracking" (JBool false);
                                field "personalizedContent" (JBool true)])].

(** [settings[section][key]]; [None] is [undefined] (or a [TypeError]
    when the section itself is missing, which [json_get] also gives as
    [None]). *)
Definition setting (section key : list N) (s : json) : option json :=
  json_get section s ≫= json_get key.

(** [v === t] for a string [t]. *)
Definition theme_is (t : list N) (v : option json) : bool :=
  match v with Some (JStr s) => bool_decide (s = t) | _ => false end.

(** The fields of an object, as a spread copies them. *)
Definition fields_of (v : json) : list (list N * json) := obj_spread [] v.

(** ** The dialog *)

(** The dialog's state with what it changes outside: the [isOpen] and
    [isDarkMode] props of [App] (changed through [onClose] and
    [onToggleDarkMode]), the language, and [localStorage]. *)
Record SettingsState := mkSettings {
  activeTab : list N; settings : json; hasChanges : bool; isMobile : bool;
  profilePhoto : option (list N); isUploadingPhoto : bool; alerts : list (list N);
  s_user : option AuthUser; isOpen : bool; appDark : bool; lang : string; localStorage : Storage }.

(** [localStorage.getItem(key)] of the items other than the user list. *)
Definition ls_getItem (k : string) (s : Storage) : option string := map_get k (ls_items s).

Definition ls_setItem (k v : string) (s : Storage) : Storage := mkStorage (ls_users s) (map_set k v (ls_items s)).

(** [`ude-profile-photo-${user?.id}`] *)
Definition photo_key (user : option AuthUser) : string :=
  "ude-profile-photo-" ++ match user with Some u => au_id u | None => "undefined" end.

Section Dialog.
Context `{!JsonEngine}.

(** The first render and its two effects: [checkMobile], and the loading
    of the saved settings ([JSON.parse] may throw, which is caught) and
    of the photo. *)
Definition settings_mount (user : option AuthUser) (innerWidth : Z) (isOpen appDark : bool)
    (lang : string) (s : Storage) : SettingsState :=
  let settings :=
    match ls_getItem "ude-settings" s with
    | Some saved =>
        if String.eqb saved EmptyString then defaultSettings
        else match json_parse saved with
             | Some parsed => JObj (obj_spread (fields_of defaultSettings) parsed)
             | None => defaultSettings
             end
    | None => defaultSettings
    end in
  let photo :=
    match ls_getItem (photo_key user) s with
    | Some p => if String.eqb p EmptyString then None else Some (js p)
    | None => None
    end in
  mkSettings ‹"general"› settings false (Z.ltb innerWidth 768) photo false [] user isOpen appDark lang s.

(** [updateSettings(section, key, value)]: [{ ...prev, [section]: {
    ...prev[section], [key]: value } }] and [setHasChanges(true)];
    [updateNestedField] has the same body. *)
Definition updateSettings (section key : list N) (value : json) (st : SettingsState) : SettingsState :=
  let prev := settings st in
  let sec := JObj (assoc_set key value (fields_of (default JNull (json_get section prev)))) in
  mkSettings (activeTab st) (JObj (assoc_set section sec (fields_of prev))) true (isMobile st)
    (profilePhoto st) (isUploadingPhoto st) (alerts st) (s_user st) (isOpen st) (appDark st) (lang st) (localStorage st).

Definition updateNestedField (parent fld : list N) (value : json) (st : SettingsState) : SettingsState :=
  updateSettings parent fld value st.

(** [saveSettings]: store the settings, clear [hasChanges], sync the
    app's dark mode with the theme ('auto' leaves it), close. *)
Definition saveSettings (st : SettingsState) : SettingsState :=
  let theme := setting ‹"display"› ‹"theme"› (settings st) in
  let dark' :=
    if theme_is ‹"dark"› theme && negb (appDark st) then negb (appDark st)
    else if theme_is ‹"light"› theme && appDark st then negb (appDark st)
    else appDark st in
  mkSettings (activeTab st) (settings st) false (isMobile st) (profilePhoto st) (isUploadingPhoto st)
    (alerts st) (s_user st) false dark' (lang st) (ls_setItem "ude-settings" (json_stringify (settings st)) (localStorage st)).

End Dialog.

(** [resetSettings] *)
Definition resetSettings (st : SettingsState) : SettingsState :=
  mkSettings (activeTab st) defaultSettings true (isMobile st) (profilePhoto st) (isUploadingPhoto st)
    (alerts st) (s_user st) (isOpen st) (appDark st) (lang st) (localStorage st).

(** A tab button: [setActiveTab(tab.id)]. *)
Definition set_tab (tab : list N) (st : SettingsState) : SettingsState :=
  mkSettings tab (settings st) (hasChanges st) (isMobile st) (profilePhoto st) (isUploadingPhoto st)
    (alerts st) (s_user st) (isOpen st) (appDark st) (lang st) (localStorage st).

(** The language buttons: [setLanguage(l)] of [LanguageContext]
    ([Language.handleSetLanguage]), which stores the choice. *)
Definition choose_language (l : language) (st : SettingsState) : SettingsState :=
  let '(code, items) := handleSetLanguage l (ls_items (localStorage st)) in
  mkSettings (activeTab st) (settings st) (hasChanges st) (isMobile st) (profilePhoto st)
    (isUploadingPhoto st) (alerts st) (s_user st) (isOpen st) (appDark st) code (mkStorage (ls_users (localStorage st)) items).

(** The close buttons and the backdrop: [onClose]. *)
Definition close (st : SettingsState) : SettingsState :=
  mkSettings (activeTab st) (settings st) (hasChanges st) (isMobile st) (profilePhoto st)
    (isUploadingPhoto st) (alerts st) (s_user st) false (appDark st) (lang st) (localStorage st).

(** ** The profile photo *)

(** [handlePhotoUpload(event)]: the checks (an [alert] each) and the
    start of the read; the reader's [onload] is [photo_read].  The input
    is disabled while a photo is uploading. *)
Definition handlePhotoUpload (file : option FileInfo) (st : SettingsState) : SettingsState :=
  match file with
  | None => st
  | Some f =>
      if negb (is_prefix ‹"image/"› (f_type f)) then
        mkSettings (activeTab st) (settings st) (hasChanges st) (isMobile st) (profilePhoto st)
          (isUploadingPhoto st) (alerts st ++ [‹"Please select an image file"›]) (s_user st)
          (isOpen st) (appDark st) (lang st) (localStorage st)
      else if (f_size f >? 5 * 1024 * 1024)%Z then
        mkSettings (activeTab st) (settings st) (hasChanges st) (isMobile st) (profilePhoto st)
          (isUploadingPhoto st) (alerts st ++ [‹"Image size must be less than 5MB"›]) (s_user st)
          (isOpen st) (appDark st) (lang st) (localStorage st)
      else
        mkSettings (activeTab st) (settings st) (hasChanges st) (isMobile st) (profilePhoto st)
          true (alerts st) (s_user st) (isOpen st) (appDark st) (lang st) (localStorage st)
  end.

(** [reader.onload]: show the data URL, store it under the user's photo
    key, and end the upload. *)
Definition photo_read (dataUrl : list N) (st : SettingsState) : SettingsState :=
  mkSettings (activeTab st) (settings st) (hasChanges st) (isMobile st) (Some dataUrl)
    false (alerts st) (s_user st) (isOpen st) (appDark st) (lang st)
    (ls_setItem (photo_key (s_user st)) (utf8_of_js dataUrl) (localStorage st)).

(** [getAvatarInitials(name)], the same body as the login page's. *)
Definition settings_initials (n : list N) : list N :=
  js_toUpperCase (concat (map (take 1) (split_on 32 n))).

(** ** The controls *)

(** The tabs, by [id]. *)
Definition tabs : list (list N) :=
  [‹"general"›; ‹"notifications"›; ‹"display"›; ‹"campus"›; ‹"accessibility"›; ‹"privacy"›].

(** JavaScript truthiness of a value read from the settings. *)
Definition json_truthy (v : option json) : bool :=
  match v with
  | None | Some JNull => false
  | Some (JBool b) => b
  | Some (JNum z) => negb (Z.eqb z 0)
  | Some (JStr s) => truthy_str s
  | Some (JArr _) | Some (JObj _) => true
  end.

(** The toggle switches of [renderTabContent]: the tab that shows it, and
    the (section, key) it reads and writes. *)
Definition toggles : list (list N * (list N * list N)) :=
  [(‹"notifications"›, (‹"notifications"›, ‹"enabled"›));
   (‹"notifications"›, (‹"notifications"›, ‹"sound"›));
   (‹"notifications"›, (‹"notifications"›, ‹"updates"›));
   (‹"notifications"›, (‹"notifications"›, ‹"events"›));
   (‹"display"›, (‹"display"›, ‹"animations"›));
   (‹"display"›, (‹"display"›, ‹"compactMode"›));
   (‹"campus"›, (‹"campus"›, ‹"showLabels"›));
   (‹"campus"›, (‹"campus"›, ‹"autoZoom"›));
   (‹"accessibility"›, (‹"accessibility"›, ‹"highContrast"›));
   (‹"accessibility"›, (‹"accessibility"›, ‹"reduceMotion"›));
   (‹"accessibility"›, (‹"accessibility"›, ‹"keyboardNav"›));
   (‹"privacy"›, (‹"privacy"›, ‹"analytics"›));
   (‹"privacy"›, (‹"privacy"›, ‹"personalizedContent"›))].

(** [disabled={!settings.notifications.enabled}] of the sound, updates
    and events switches. *)
Definition toggle_disabled (section key : list N) (s : json) : bool :=
  bool_decide (section = ‹"notifications"›) && negb (bool_decide (key = ‹"enabled"›)) &&
  negb (json_truthy (setting ‹"notifications"› ‹"enabled"› s)).

(** A click on a switch: [!disabled && onChange(!enabled)]. *)
Definition toggle_click (section key : list N) (st : SettingsState) : SettingsState :=
  if toggle_disabled section key (settings st) then st
  else updateSettings section key (JBool (negb (json_truthy (setting section key (settings st))))) st.

(** The buttons of the display tab: [updateSettings('display', 'theme',
    theme)] and [updateSettings('display', 'fontSize', size)]. *)
Definition choices : list (list N * list N * list N) :=
  [(‹"display"›, ‹"theme"›, ‹"light"›); (‹"display"›, ‹"theme"›, ‹"dark"›); (‹"display"›, ‹"theme"›, ‹"auto"›);
   (‹"display"›, ‹"fontSize"›, ‹"small"›); (‹"display"›, ‹"fontSize"›, ‹"medium"›);
   (‹"display"›, ‹"fontSize"›, ‹"large"›)].

(** The gear button of [Header]: [setShowSettings(true)].  The dialog
    stays mounted while closed ([if (!isOpen) return null] comes after
    its hooks), so its state is kept. *)
Definition reopen (st : SettingsState) : SettingsState :=
  mkSettings (activeTab st) (settings st) (hasChanges st) (isMobile st) (profilePhoto st)
    (isUploadingPhoto st) (alerts st) (s_user st) true (appDark st) (lang st) (localStorage st).

Section Steps.
Context `{!JsonEngine}.

(** The events of the mounted dialog: what the rendered controls of the
    active tab offer, the reader's [onload], and the gear button. *)
Inductive settings_step : SettingsState -> SettingsState -> Prop :=
  | ss_tab t st : isOpen st = true -> t ∈ tabs -> settings_step st (set_tab t st)
  | ss_toggle tab sec key st : isOpen st = true -> (tab, (sec, key)) ∈ toggles -> activeTab st = tab ->
      settings_step st (toggle_click sec key st)
  | ss_choice sec key v st : isOpen st = true -> (sec, key, v) ∈ choices -> activeTab st = ‹"display"› ->
      settings_step st (updateSettings sec key (JStr v) st)
  | ss_language l st : isOpen st = true -> activeTab st = ‹"general"› ->
      settings_step st (choose_language l st)
  | ss_photo f st : isOpen st = true -> activeTab st = ‹"general"› -> isUploadingPhoto st = false ->
      settings_step st (handlePhotoUpload f st)
  | ss_read d st : isUploadingPhoto st = true -> settings_step st (photo_read d st)
  | ss_reset st : isOpen st = true -> settings_step st (resetSettings st)
  | ss_save st : isOpen st = true -> hasChanges st = true -> settings_step st (saveSettings st)
  | ss_close st : isOpen st = true -> settings_step st (close st)
  | ss_open st : isOpen st = false -> settings_step st (reopen st).

End Steps.

(** The settings of [UserSettings] no control of the dialog writes. *)
Definition fixed_keys : list (list N * list N) :=
  [(‹"notifications"›, ‹"email"›); (‹"campus"›, ‹"defaultView"›); (‹"campus"›, ‹"favoriteBuildings"›);
   (‹"accessibility"›, ‹"screenReader"›); (‹"privacy"›, ‹"locationTracking"›)].

(** ** A sample engine for the examples

    An engine that knows one document, [{"display":{"theme":"dark"}}],
    the settings an older version of the dialog may have saved; it
    writes no other. *)
Definition dq : string := String (ascii_of_nat 34) EmptyString.

Definition sample_saved : string :=
  "{" ++ dq ++ "display" ++ dq ++ ":{" ++ dq ++ "theme" ++ dq ++ ":" ++ dq ++ "dark" ++ dq ++ "}}".

Definition sample_parsed : json := JObj [field "display" (JObj [field "theme" (JStr ‹"dark"›)])].

#[local] Instance sample_engine : JsonEngine := {|
  json_parse t := if String.eqb t sample_saved then Some sample_parsed else None;
  json_stringify v :=
    match v with
    | JObj [(k, JObj [(k', JStr t)])] =>
        if bool_decide (k = ‹"display"› /\ k' = ‹"theme"› /\ t = ‹"dark"›) then sample_saved else EmptyString
    | _ => EmptyString
    end |}.

(** The dialog mounted for a signed-out visitor on a wide screen, with
    an empty storage, and with the sample document saved. *)
Definition fresh_mount : SettingsState :=
  @settings_mount sample_engine None 1024 true false "en"%string (mkStorage None []).

Definition sample_mount : SettingsState :=
  @settings_mount sample_engine None 1024 true false "en"%string (mkStorage None [("ude-settings"%string, sample_saved)]).

#[local] Close Scope js_scope.

Definition sample_signup : SignUpData :=
  mkSignUp "ada@uni-due.de"%string "secret"%string "Ada"%string None None None None
    (Some "data:image/png;base64,AAAA"%string).

(** ** Reading and writing the settings *)

#[local] Opaque js.

Lemma index_keys_notin {A} (k : list N) (g : A -> json) (l : list A) :
  word_key k = true -> k ∉ (rev (imap (fun i x => (decimal (N.of_nat i), g x)) l)).*1.
Proof.
  intros Hw Hin. apply list_elem_of_fmap in Hin as [[k' x] [-> Hin]].
  apply list_elem_of_In, in_rev, list_elem_of_In, list_elem_of_lookup in Hin as [i Hi].
  apply list_lookup_imap_Some in Hi as (y & _ & Heq). injection Heq as -> _.
  by eapply word_key_not_index.
Qed.

(** A spread copy reads as the value for the keys of the code. *)
Lemma fields_of_get (v : json) (k : list N) :
  json_wf v = true -> word_key k = true -> assoc_get k (fields_of v) = json_get k v.
Proof.
  intros Hv Hk. unfold fields_of. rewrite assoc_get_spread.
  destruct v as [| | |s|items|fs]; simpl; try done.
  - by rewrite (assoc_get_notin _ _ (index_keys_notin k (fun c => JStr [c]) s Hk)).
  - by rewrite (assoc_get_notin _ _ (index_keys_notin k (fun x => x) items Hk)).
  - apply json_wf_obj in Hv as [Hnd _]. rewrite assoc_get_rev_nodup by done.
    by destruct (assoc_get k fs).
Qed.

Lemma json_get_wf (v w : json) (k : list N) :
  json_wf v = true -> json_get k v = Some w -> json_wf w = true.
Proof.
  destruct v as [| | | | |fs]; try discriminate. intros [_ Hf]%json_wf_obj Hg.
  unfold json_get, assoc_get in Hg. destruct (find _ fs) as [[k' x]|] eqn:Hfd; [|discriminate].
  injection Hg as <-. apply find_some in Hfd as [Hin _].
  apply list_elem_of_In in Hin. by eapply Forall_forall in Hf; [|exact Hin].
Qed.

Lemma fields_of_wf (v : json) : json_wf v = true -> json_wf (JObj (fields_of v)) = true.
Proof. intros Hv. by apply obj_spread_wf. Qed.

#[local] Hint Resolve fields_of_wf assoc_set_wf : core.

Lemma updateSettings_wf (sec key : list N) (v : json) (st : SettingsState) :
  json_wf (settings st) = true -> json_wf v = true ->
  json_wf (settings (updateSettings sec key v st)) = true.
Proof.
  intros Hs Hv. simpl. apply assoc_set_wf; [auto|]. apply assoc_set_wf; [|done].
  apply fields_of_wf. destruct (json_get sec (settings st)) eqn:Hg; [|done].
  simpl. by eapply json_get_wf; [exact Hs|exact Hg].
Qed.

Lemma setting_update_same (sec key : list N) (v : json) (st : SettingsState) :
  setting sec key (settings (updateSettings sec key v st)) = Some v.
Proof.
  unfold setting. simpl. rewrite assoc_get_set, bool_decide_true by done. simpl.
  by rewrite assoc_get_set, bool_decide_true.
Qed.

(** [updateSettings] leaves every other setting as it was. *)
Lemma setting_update_other (sec key sec' key' : list N) (v : json) (st : SettingsState) :
  json_wf (settings st) = true -> word_key sec' = true -> word_key key' = true ->
  (sec', key') <> (sec, key) ->
  setting sec' key' (settings (updateSettings sec key v st)) = setting sec' key' (settings st).
Proof.
  intros Hs Hsec Hkey Hne. unfold setting. simpl. rewrite assoc_get_set.
  destruct (decide (sec = sec')) as [<-|Hsne].
  - rewrite bool_decide_true by done. simpl. rewrite assoc_get_set, bool_decide_false by congruence.
    destruct (json_get sec (settings st)) as [w|] eqn:Hg; simpl; [|done].
    apply fields_of_get; [by eapply json_get_wf; [exact Hs|exact Hg]|done].
  - rewrite bool_decide_false by done. by rewrite fields_of_get.
Qed.

(** ** The controls never write a fixed setting *)

Lemma toggles_table :
  Forall (fun e => e.2 ∉ fixed_keys) toggles.
Proof. apply (bool_decide_unpack _). vm_compute. reflexivity. Qed.

Lemma choices_table :
  Forall (fun e => (e.1.1, e.1.2) ∉ fixed_keys) choices.
Proof. apply (bool_decide_unpack _). vm_compute. reflexivity. Qed.

Lemma fixed_keys_words :
  Forall (fun sk => word_key sk.1 = true /\ word_key sk.2 = true) fixed_keys.
Proof. apply (bool_decide_unpack _). vm_compute. reflexivity. Qed.

Lemma defaultSettings_wf : json_wf defaultSettings = true.
Proof. vm_compute. reflexivity. Qed.

Lemma settings_step_wf `{!JsonEngine} (st st' : SettingsState) :
  settings_step st st' -> json_wf (settings st) = true -> json_wf (settings st') = true.
Proof.
  intros Hs Hwf. destruct Hs; simpl.
  - done.
  - unfold toggle_click. case_match; [done|]. by apply updateSettings_wf.
  - by apply updateSettings_wf.
  - done.
  - destruct f as [f|]; [|done]. simpl. by repeat case_match.
  - done.
  - apply defaultSettings_wf.
  - done.
  - done.
  - done.
Qed.

(** A write of the dialog to a setting that is not fixed. *)
Lemma update_fixed_frame (sec key : list N) (v : json) (st : SettingsState) (sk : list N * list N) :
  json_wf (settings st) = true -> (sec, key) ∉ fixed_keys -> sk ∈ fixed_keys ->
  setting sk.1 sk.2 (settings (updateSettings sec key v st)) = setting sk.1 sk.2 (settings st).
Proof.
  intros Hwf Hn Hsk. pose proof fixed_keys_words as Hw. eapply Forall_forall in Hw as [Hw1 Hw2]; [|exact Hsk].
  apply setting_update_other; try done. destruct sk; intros [= -> ->]. by apply Hn.
Qed.

Lemma settings_step_fixed `{!JsonEngine} (st st' : SettingsState) (sk : list N * list N) :
  settings_step st st' -> json_wf (settings st) = true -> sk ∈ fixed_keys ->
  setting sk.1 sk.2 (settings st') = setting sk.1 sk.2 (settings st) \/
  setting sk.1 sk.2 (settings st') = setting sk.1 sk.2 defaultSettings.
Proof.
  intros Hs Hwf Hsk. destruct Hs as [| tab sec key st _ Ht _ | sec key v st _ Hc _ | | | | | | |]; simpl.
  - auto.
  - unfold toggle_click. case_match; [auto|]. left. apply update_fixed_frame; try done.
    pose proof toggles_table as Htt. by eapply Forall_forall in Htt; [|exact Ht].
  - left. apply update_fixed_frame; try done.
    pose proof choices_table as Hct. by eapply Forall_forall in Hct; [|exact Hc].
  - auto.
  - destruct f as [f|]; [|auto]. simpl. repeat case_match; auto.
  - auto.
  - auto.
  - auto.
  - auto.
  - auto.
Qed.

Lemma settings_rtc_fixed `{!JsonEngine} (st0 st : SettingsState) (sk : list N * list N) :
  rtc settings_step st0 st -> json_wf (settings st0) = true -> sk ∈ fixed_keys ->
  setting sk.1 sk.2 (settings st) = setting sk.1 sk.2 (settings st0) \/
  setting sk.1 sk.2 (settings st) = setting sk.1 sk.2 defaultSettings.
Proof.
  intros Hr. revert sk. induction Hr as [x|x y z Hxy Hyz IH]; intros sk Hwf Hsk; [by left|].
  destruct (IH sk (settings_step_wf _ _ Hxy Hwf) Hsk) as [->| ->]; [|by right].
  by eapply settings_step_fixed.
Qed.

Lemma settings_mount_wf `{JsonLaws} user w o d l s :
  json_wf (settings (settings_mount user w o d l s)) = true.
Proof.
  unfold settings_mount; simpl. repeat case_match; try apply defaultSettings_wf.
  apply obj_spread_wf; [apply fields_of_wf, defaultSettings_wf|by eapply json_parse_wf].
Qed.

Lemma toggles_words :
  Forall (fun e => word_key e.2.1 = true /\ word_key e.2.2 = true) toggles.
Proof. apply (bool_decide_unpack _). vm_compute. reflexivity. Qed.

(** A write to a switch does not change whether that switch is disabled. *)
Lemma toggle_disabled_update (sec key : list N) (v : json) (st : SettingsState) :
  json_wf (settings st) = true ->
  toggle_disabled sec key (settings (updateSettings sec key v st)) = toggle_disabled sec key (settings st).
Proof.
  intros Hwf. unfold toggle_disabled.
  destruct (decide (sec = ‹"notifications"›%js)) as [Es|Hs]; [subst sec|by rewrite !(bool_decide_false (sec = _))].
  destruct (decide (key = ‹"enabled"›%js)) as [Ek|Hk]; [subst key; by rewrite !bool_decide_true|].
  rewrite (bool_decide_false (key = _)) by done.
  rewrite setting_update_other; try done; [vm_compute; reflexivity..|congruence].
Qed.


(** ** Claims *)

(** C18: The dialog never changes a setting it has no control for
    ([notifications.email], [campus.defaultView],
    [campus.favoriteBuildings], [accessibility.screenReader],
    [privacy.locationTracking]): in every state reached from the mount,
    such a setting reads as it was loaded or as its default. *)
Theorem fixed_settings_kept `{JsonLaws} user w o d l s st sec key :
  rtc settings_step (settings_mount user w o d l s) st -> (sec, key) ∈ fixed_keys ->
  setting sec key (settings st) = setting sec key (settings (settings_mount user w o d l s)) \/
  setting sec key (settings st) = setting sec key defaultSettings.
Proof.
  intros Hr Hk. exact (settings_rtc_fixed _ _ (sec, key) Hr (settings_mount_wf _ _ _ _ _ _) Hk).
Qed.


(** Two clicks on an enabled switch of the dialog give the setting
    back, and mark the settings as changed. *)
Theorem toggle_click_twice st tab sec key b :
  (tab, (sec, key)) ∈ toggles -> json_wf (settings st) = true ->
  toggle_disabled sec key (settings st) = false -> setting sec key (settings st) = Some (JBool b) ->
  setting sec key (settings (toggle_click sec key (toggle_click sec key st))) = Some (JBool b) /\
  hasChanges (toggle_click sec key (toggle_click sec key st)) = true.
Proof.
  intros Ht Hwf Hd Hb.
  assert (E1 : toggle_click sec key st = updateSettings sec key (JBool (negb b)) st)
    by (unfold toggle_click; rewrite Hd, Hb; reflexivity).
  rewrite E1. unfold toggle_click. rewrite toggle_disabled_update, Hd, !setting_update_same by done.
  cbn [json_truthy]. by rewrite negb_involutive.
Qed.

(** The photo [authService.signUp] stores for a new account is the
    one the dialog shows to the signed-up user. *)
Theorem signup_photo_in_settings `{!JsonEngine} now data ast r ast' w o d l :
  signUp_demo now data ast = (r, ast') -> map_has (sd_email data) (users ast) = false ->
  truthy (sd_profilePhoto data) = true ->
  profilePhoto (settings_mount (ar_user r) w o d l (AuthService.store ast')) =
  Some (js (default EmptyString (sd_profilePhoto data))).
Proof.
  intros Hs Hnew Hp. unfold signUp_demo in Hs. rewrite Hnew, Hp in Hs. injection Hs as <- <-.
  unfold settings_mount, ls_getItem. simpl. rewrite map_get_set_eq.
  destruct (sd_profilePhoto data) as [p|]; [|discriminate]. simpl in Hp |- *.
  by destruct (String.eqb p EmptyString).
Qed.

(** A photo the reader has loaded is the photo the dialog shows when
    it is mounted again for the same user. *)
Theorem photo_read_reload `{!JsonEngine} d st w o dk l :
  valid_units d -> d <> [] ->
  profilePhoto (settings_mount (s_user st) w o dk l (localStorage (photo_read d st))) = Some d.
Proof.
  intros Hv Hne. unfold settings_mount, ls_getItem. simpl. rewrite map_get_set_eq.
  exact (stored_js_string d None Some Hv Hne).
Qed.

(** ** Witnesses *)

#[local] Instance sample_engine_laws : JsonLaws.
Proof.
  intros t v. simpl. destruct (String.eqb t sample_saved); [|discriminate].
  intros [= <-]. vm_compute. reflexivity.
Qed.

Ltac decide_table := apply (bool_decide_unpack _); vm_compute; first [exact I|reflexivity].

Lemma fixed_settings_kept_witness :
  let st := toggle_click ‹"notifications"›%js ‹"enabled"›%js (set_tab ‹"notifications"›%js sample_mount) in
  rtc settings_step sample_mount st /\ (‹"privacy"›%js, ‹"locationTracking"›%js) ∈ fixed_keys /\
  (setting ‹"privacy"›%js ‹"locationTracking"›%js (settings st) =
     setting ‹"privacy"›%js ‹"locationTracking"›%js (settings sample_mount) \/
   setting ‹"privacy"›%js ‹"locationTracking"›%js (settings st) =
     setting ‹"privacy"›%js ‹"locationTracking"›%js defaultSettings).
Proof.
  assert (Hr : rtc settings_step sample_mount
    (toggle_click ‹"notifications"›%js ‹"enabled"›%js (set_tab ‹"notifications"›%js sample_mount))).
  { eapply rtc_l; [apply (ss_tab ‹"notifications"›%js); [reflexivity|decide_table]|].
    eapply rtc_l; [apply (ss_toggle ‹"notifications"›%js ‹"notifications"›%js ‹"enabled"›%js);
                   [reflexivity|decide_table|reflexivity]|].
    apply rtc_refl. }
  assert (Hk : (‹"privacy"›%js, ‹"locationTracking"›%js) ∈ fixed_keys) by decide_table.
  split; [exact Hr|split; [exact Hk|]]. exact (fixed_settings_kept None 1024 true false "en"%string
    (mkStorage None [("ude-settings"%string, sample_saved)]) _ _ _ Hr Hk).
Defined.

Lemma toggle_click_twice_witness :
  let st := set_tab ‹"notifications"›%js fresh_mount in
  (‹"notifications"›%js, (‹"notifications"›%js, ‹"sound"›%js)) ∈ toggles /\ json_wf (settings st) = true /\
  toggle_disabled ‹"notifications"›%js ‹"sound"›%js (settings st) = false /\
  setting ‹"notifications"›%js ‹"sound"›%js (settings st) = Some (JBool true) /\
  setting ‹"notifications"›%js ‹"sound"›%js
    (settings (toggle_click ‹"notifications"›%js ‹"sound"›%js
                 (toggle_click ‹"notifications"›%js ‹"sound"›%js st))) = Some (JBool true).
Proof.
  assert (H1 : (‹"notifications"›%js, (‹"notifications"›%js, ‹"sound"›%js)) ∈ toggles) by decide_table.
  assert (H2 : json_wf (settings (set_tab ‹"notifications"›%js fresh_mount)) = true)
    by (vm_compute; reflexivity).
  assert (H3 : toggle_disabled ‹"notifications"›%js ‹"sound"›%js
                 (settings (set_tab ‹"notifications"›%js fresh_mount)) = false) by (vm_compute; reflexivity).
  assert (H4 : setting ‹"notifications"›%js ‹"sound"›%js
                 (settings (set_tab ‹"notifications"›%js fresh_mount)) = Some (JBool true))
    by (vm_compute; reflexivity).
  cbv zeta. split; [exact H1|split; [exact H2|split; [exact H3|split; [exact H4|]]]].
  exact (proj1 (toggle_click_twice _ _ _ _ _ H1 H2 H3 H4)).
Defined.

Lemma signup_photo_in_settings_witness :
  let res := signUp_demo 1735689600000 sample_signup (AuthService.constructor (mkStorage None [])) in
  map_has (sd_email sample_signup) (users (AuthService.constructor (mkStorage None []))) = false /\
  truthy (sd_profilePhoto sample_signup) = true /\
  profilePhoto (@settings_mount sample_engine (ar_user res.1) 1024 true false "en" (AuthService.store res.2)) =
    Some (js "data:image/png;base64,AAAA").
Proof.
  assert (H1 : map_has (sd_email sample_signup) (users (AuthService.constructor (mkStorage None []))) = false)
    by reflexivity.
  assert (H2 : truthy (sd_profilePhoto sample_signup) = true) by reflexivity.
  cbv zeta. split; [exact H1|split; [exact H2|]].
  exact (signup_photo_in_settings _ _ _ _ _ _ _ _ _ (surjective_pairing _) H1 H2).
Defined.

Lemma photo_read_reload_witness :
  valid_units ‹"data:image/png;base64,AAAA"›%js /\ ‹"data:image/png;base64,AAAA"›%js <> [] /\
  profilePhoto (@settings_mount sample_engine None 1024 true false "en"
    (localStorage (photo_read ‹"data:image/png;base64,AAAA"›%js fresh_mount))) =
  Some ‹"data:image/png;base64,AAAA"›%js.
Proof.
  assert (H1 : valid_units ‹"data:image/png;base64,AAAA"›%js) by (apply valid_units_check; vm_compute; reflexivity).
  assert (H2 : ‹"data:image/png;base64,AAAA"›%js <> []) by (vm_compute; congruence).
  split; [exact H1|split; [exact H2|]]. exact (photo_read_reload _ fresh_mount _ _ _ _ H1 H2).
Defined.

(** ** What the model shows *)

(** The load is a shallow merge: settings saved with only a theme
    lose the default font size and the other display settings, which
    then read as [undefined]. *)
Example saved_theme_drops_fontSize :
  setting ‹"display"›%js ‹"theme"›%js (settings sample_mount) = Some (JStr ‹"dark"›%js) /\
  setting ‹"display"›%js ‹"fontSize"›%js (settings sample_mount) = None /\
  setting ‹"display"›%js ‹"fontSize"›%js defaultSettings = Some (JStr ‹"medium"›%js).
Proof. split_and!; vm_compute; reflexivity. Qed.

(** Closing the dialog does not discard unsaved changes: the dialog
    stays mounted, and reopening it shows the edited settings, which are
    not stored, with the save button still enabled. *)
Example cancel_keeps_edits :
  let st := reopen (close (toggle_click ‹"display"›%js ‹"animations"›%js (set_tab ‹"display"›%js fresh_mount))) in
  isOpen st = true /\ hasChanges st = true /\
  setting ‹"display"›%js ‹"animations"›%js (settings st) = Some (JBool false) /\
  setting ‹"display"›%js ‹"animations"›%js defaultSettings = Some (JBool true) /\
  ls_getItem "ude-settings"%string (localStorage st) = None.
Proof. split_and!; vm_compute; reflexivity. Qed.
