(* ===== verification/UserProfileModal.v ===== *)
(** * UserProfileModal: the profile dialog of [components/UserProfileModal.tsx]

    The dialog keeps two copies of a [UserProfile] in React state: the
    [profile] it shows and the [editedProfile] its inputs change.  The
    pencil button starts editing, Save copies the edited profile into the
    shown one, Cancel copies the shown one back.  An effect on [user]
    copies the signed-in user's name and e-mail into both copies and loads
    the photo stored under [ude-profile-photo-<user id>], the key that
    [authService]'s sign-up and the settings dialog also use; a new photo
    is read with a [FileReader] and stored under that key when a user is
    signed in.  Like the settings dialog it stays mounted while closed.

    The profile is [AuthService.UserProfile]; [localStorage] is
    [AuthService.Storage]; the photo's data URL is a JavaScript string. *)

From Stdlib Require Import String Ascii NArith ZArith List Lia.
From stdpp Require Import base list options relations.
From S2P Require Import Prelude AuthService LoginPage SettingsModal.

#[local] Open Scope string_scope.

(** The component [UserProfileModal] of [components/UserProfileModal.tsx]. *)
Module UserProfileModal.


(** ** The profile *)

(** [a || b] of two strings. *)
Definition or_str (a b : string) : string := if String.eqb a EmptyString then b else a.

(** The [useState] initial profile of the first render. *)
Definition initial_profile (user : option AuthUser) (l : language) : UserProfile := {|
  up_id := or_str (default EmptyString (au_id <$> user)) "demo-user";
  up_name := or_str (default EmptyString (au_name <$> user)) "Demo Student";
  up_email := or_str (default EmptyString (au_email <$> user)) "demo@uni-due.de";
  up_studentId := Some "UDE2024001"; up_program := Some "Computer Science";
  up_year := Some 2%Z; up_campus := Some Essen;
  up_interests := Some ["Technology"; "Research"; "International Exchange"];
  up_favoriteBuildings := Some ["library"; "student-center"];
  up_bio := Some ("Passionate computer science student interested in AI and machine learning. " ++
                  "Love exploring new technologies and connecting with fellow students.");
  up_isInternational := Some true; up_language := Some l; up_profilePhoto := None;
  up_notifications := Some (mkNotifications true true true false);
  up_accessibility := Some (mkAccessibility false false false) |}.

(** The inputs of the edit form, with the value each writes. *)
Inductive profile_field :=
  | PName (v : string) | PStudentId (v : string) | PProgram (v : string)
  | PYear (y : Z) | PCampus (c : campus) | PBio (v : string).

(** [setEditedProfile(prev => ({ ...prev, [field]: value }))] *)
Definition set_profile_field (f : profile_field) (p : UserProfile) : UserProfile :=
  match f with
  | PName v => {| up_id := up_id p; up_name := v; up_email := up_email p; up_studentId := up_studentId p;
                  up_program := up_program p; up_year := up_year p; up_campus := up_campus p;
                  up_interests := up_interests p; up_favoriteBuildings := up_favoriteBuildings p;
                  up_bio := up_bio p; up_isInternational := up_isInternational p; up_language := up_language p;
                  up_profilePhoto := up_profilePhoto p; up_notifications := up_notifications p;
                  up_accessibility := up_accessibility p |}
  | PStudentId v => {| up_id := up_id p; up_name := up_name p; up_email := up_email p; up_studentId := Some v;
                  up_program := up_program p; up_year := up_year p; up_campus := up_campus p;
                  up_interests := up_interests p; up_favoriteBuildings := up_favoriteBuildings p;
                  up_bio := up_bio p; up_isInternational := up_isInternational p; up_language := up_language p;
                  up_profilePhoto := up_profilePhoto p; up_notifications := up_notifications p;
                  up_accessibility := up_accessibility p |}
  | PProgram v => {| up_id := up_id p; up_name := up_name p; up_email := up_email p; up_studentId := up_studentId p;
                  up_program := Some v; up_year := up_year p; up_campus := up_campus p;
                  up_interests := up_interests p; up_favoriteBuildings := up_favoriteBuildings p;
                  up_bio := up_bio p; up_isInternational := up_isInternational p; up_language := up_language p;
                  up_profilePhoto := up_profilePhoto p; up_notifications := up_notifications p;
                  up_accessibility := up_accessibility p |}
  | PYear y => {| up_id := up_id p; up_name := up_name p; up_email := up_email p; up_studentId := up_studentId p;
                  up_program := up_program p; up_year := Some y; up_campus := up_campus p;
                  up_interests := up_interests p; up_favoriteBuildings := up_favoriteBuildings p;
                  up_bio := up_bio p; up_isInternational := up_isInternational p; up_language := up_language p;
                  up_profilePhoto := up_profilePhoto p; up_notifications := up_notifications p;
                  up_accessibility := up_accessibility p |}
  | PCampus c => {| up_id := up_id p; up_name := up_name p; up_email := up_email p; up_studentId := up_studentId p;
                  up_program := up_program p; up_year := up_year p; up_campus := Some c;
                  up_interests := up_interests p; up_favoriteBuildings := up_favoriteBuildings p;
                  up_bio := up_bio p; up_isInternational := up_isInternational p; up_language := up_language p;
                  up_profilePhoto := up_profilePhoto p; up_notifications := up_notifications p;
                  up_accessibility := up_accessibility p |}
  | PBio v => {| up_id := up_id p; up_name := up_name p; up_email := up_email p; up_studentId := up_studentId p;
                  up_program := up_program p; up_year := up_year p; up_campus := up_campus p;
                  up_interests := up_interests p; up_favoriteBuildings := up_favoriteBuildings p;
                  up_bio := Some v; up_isInternational := up_isInternational p; up_language := up_language p;
                  up_profilePhoto := up_profilePhoto p; up_notifications := up_notifications p;
                  up_accessibility := up_accessibility p |}
  end.

(** [{ ...prev, name: user.name, email: user.email }] *)
Definition with_user (u : AuthUser) (p : UserProfile) : UserProfile :=
  {| up_id := up_id p; up_name := au_name u; up_email := au_email u; up_studentId := up_studentId p;
     up_program := up_program p; up_year := up_year p; up_campus := up_campus p;
     up_interests := up_interests p; up_favoriteBuildings := up_favoriteBuildings p;
     up_bio := up_bio p; up_isInternational := up_isInternational p; up_language := up_language p;
     up_profilePhoto := up_profilePhoto p; up_notifications := up_notifications p;
     up_accessibility := up_accessibility p |}.

(** ** The dialog *)

(** The dialog's state, the [user] of [AuthContext] it was last rendered
    with, its [isOpen] prop (the [showProfile] flag of [Header]) and
    [localStorage]. *)
Record ProfileState := mkPState {
  isEditing : bool; pm_photo : option (list N); pm_uploading : bool;
  profile : UserProfile; editedProfile : UserProfile; pm_alerts : list (list N);
  pm_user : option AuthUser; pm_open : bool; pm_storage : Storage }.

(** [if (user?.id)] *)
Definition user_id_truthy (user : option AuthUser) : bool :=
  match user with Some u => negb (String.eqb (au_id u) EmptyString) | None => false end.

(** The effect on [[user]]: copy the user's name and e-mail into both
    profiles, then load the stored photo when there is one. *)
Definition user_effect (user : option AuthUser) (st : ProfileState) : ProfileState :=
  let '(p, e) := match user with
                 | Some u => (with_user u (profile st), with_user u (editedProfile st))
                 | None => (profile st, editedProfile st)
                 end in
  let photo :=
    if user_id_truthy user then
      match ls_getItem (photo_key user) (pm_storage st) with
      | Some saved => if String.eqb saved EmptyString then pm_photo st else Some (js saved)
      | None => pm_photo st
      end
    else pm_photo st in
  mkPState (isEditing st) photo (pm_uploading st) p e (pm_alerts st) user (pm_open st) (pm_storage st).

(** The first render with [user] and [language], and its effect. *)
Definition profile_mount (user : option AuthUser) (l : language) (open : bool) (s : Storage) : ProfileState :=
  user_effect user (mkPState false None false (initial_profile user l) (initial_profile user l) [] user open s).

(** The pencil button: [setIsEditing(true)]. *)
Definition start_edit (st : ProfileState) : ProfileState :=
  mkPState true (pm_photo st) (pm_uploading st) (profile st) (editedProfile st) (pm_alerts st)
    (pm_user st) (pm_open st) (pm_storage st).

(** An input of the form. *)
Definition edit_field (f : profile_field) (st : ProfileState) : ProfileState :=
  mkPState (isEditing st) (pm_photo st) (pm_uploading st) (profile st) (set_profile_field f (editedProfile st))
    (pm_alerts st) (pm_user st) (pm_open st) (pm_storage st).

(** [handleSave]: [setProfile(editedProfile)], [setIsEditing(false)];
    nothing is sent to [authService]. *)
Definition handleSave (st : ProfileState) : ProfileState :=
  mkPState false (pm_photo st) (pm_uploading st) (editedProfile st) (editedProfile st) (pm_alerts st)
    (pm_user st) (pm_open st) (pm_storage st).

(** [handleCancel]: [setEditedProfile(profile)], [setIsEditing(false)]. *)
Definition handleCancel (st : ProfileState) : ProfileState :=
  mkPState false (pm_photo st) (pm_uploading st) (profile st) (profile st) (pm_alerts st)
    (pm_user st) (pm_open st) (pm_storage st).

#[local] Open Scope js_scope.

(** [handlePhotoUpload(event)]: the checks (an [alert] each) and the
    start of the read; the reader's [onload] is [photo_read]. *)
Definition handlePhotoUpload (file : option FileInfo) (st : ProfileState) : ProfileState :=
  match file with
  | None => st
  | Some f =>
      if negb (is_prefix ‹"image/"› (f_type f)) then
        mkPState (isEditing st) (pm_photo st) (pm_uploading st) (profile st) (editedProfile st)
          (pm_alerts st ++ [‹"Please select an image file"›]) (pm_user st) (pm_open st) (pm_storage st)
      else if (f_size f >? 5 * 1024 * 1024)%Z then
        mkPState (isEditing st) (pm_photo st) (pm_uploading st) (profile st) (editedProfile st)
          (pm_alerts st ++ [‹"Image size must be less than 5MB"›]) (pm_user st) (pm_open st) (pm_storage st)
      else
        mkPState (isEditing st) (pm_photo st) true (profile st) (editedProfile st)
          (pm_alerts st) (pm_user st) (pm_open st) (pm_storage st)
  end.

#[local] Close Scope js_scope.

(** [reader.onload]: show the data URL, store it under the user's photo
    key when a user is signed in, end the upload. *)
Definition photo_read (dataUrl : list N) (st : ProfileState) : ProfileState :=
  mkPState (isEditing st) (Some dataUrl) false (profile st) (editedProfile st) (pm_alerts st)
    (pm_user st) (pm_open st)
    (if user_id_truthy (pm_user st)
     then ls_setItem (photo_key (pm_user st)) (utf8_of_js dataUrl) (pm_storage st)
     else pm_storage st).

(** The close buttons and the backdrop ([onClose]), and the profile
    button of [Header] ([setShowProfile(true)]). *)
Definition profile_close (st : ProfileState) : ProfileState :=
  mkPState (isEditing st) (pm_photo st) (pm_uploading st) (profile st) (editedProfile st) (pm_alerts st)
    (pm_user st) false (pm_storage st).

Definition profile_reopen (st : ProfileState) : ProfileState :=
  mkPState (isEditing st) (pm_photo st) (pm_uploading st) (profile st) (editedProfile st) (pm_alerts st)
    (pm_user st) true (pm_storage st).

(** ** What the dialog shows *)

(** [getAvatarInitials(profile.name)], the same body as the login
    page's. *)
Definition profile_initials (p : UserProfile) : list N :=
  js_toUpperCase (concat (map (take 1) (split_on 32 (js (up_name p))))).

(** [getCampusDisplayName(profile.campus || 'essen')] *)
Definition getCampusDisplayName (c : option campus) : string :=
  match default Essen c with Essen => "Campus Essen" | Duisburg => "Campus Duisburg" end.

(** [s.replace(/\b\w/g, l => l.toUpperCase())]: the first word character
    after a non-word character (or at the start) is upper-cased. *)
Fixpoint capitalize_words (prev_word : bool) (s : list N) : list N :=
  match s with
  | [] => []
  | c :: s' =>
      (if is_word_char c && negb prev_word then to_upper_unit c else [c])
      ++ capitalize_words (is_word_char c) s'
  end.

(** The label of a favourite building. *)
Definition building_label (buildingId : string) : list N :=
  capitalize_words false (replace_first 45 32 (js buildingId)).

(** ** The events *)

(** The years the select offers. *)
Definition field_ok (f : profile_field) : bool :=
  match f with PYear y => (1 <=? y)%Z && (y <=? 6)%Z | _ => true end.

(** The events of the mounted dialog: the controls its render offers, the
    reader's [onload], a change of the signed-in user, and the buttons of
    [Header]. *)
Inductive profile_step : ProfileState -> ProfileState -> Prop :=
  | ps_start st : pm_open st = true -> isEditing st = false -> profile_step st (start_edit st)
  | ps_field f st : pm_open st = true -> isEditing st = true -> field_ok f = true ->
      profile_step st (edit_field f st)
  | ps_save st : pm_open st = true -> isEditing st = true -> profile_step st (handleSave st)
  | ps_cancel st : pm_open st = true -> isEditing st = true -> profile_step st (handleCancel st)
  | ps_photo f st : pm_open st = true -> isEditing st = true -> pm_uploading st = false ->
      profile_step st (handlePhotoUpload f st)
  | ps_read d st : pm_uploading st = true -> profile_step st (photo_read d st)
  | ps_user u st : profile_step st (user_effect u st)
  | ps_close st : pm_open st = true -> profile_step st (profile_close st)
  | ps_open st : pm_open st = false -> profile_step st (profile_reopen st).

(** A signed-in user and the dialog mounted for that user on an empty storage,
    for the examples. *)
Definition ada : AuthUser := mkAuthUser "user-1735689600000" "ada@uni-due.de" "Ada Lovelace".

Definition ada_mount : ProfileState := profile_mount (Some ada) En true (mkStorage None []).

End UserProfileModal.
Export UserProfileModal.
#[local] Open Scope js_scope.

(** ** Lemmas *)

(** What every event keeps: outside editing, the form shows the profile. *)
Lemma user_effect_synced (u : option AuthUser) (st : ProfileState) :
  (isEditing st = false -> editedProfile st = profile st) ->
  isEditing (user_effect u st) = false -> editedProfile (user_effect u st) = profile (user_effect u st).
Proof. intros H He. destruct u; simpl in *; by rewrite H. Qed.

Lemma profile_step_synced (st st' : ProfileState) :
  profile_step st st' ->
  (isEditing st = false -> editedProfile st = profile st) ->
  isEditing st' = false -> editedProfile st' = profile st'.
Proof.
  intros Hs H He. destruct Hs; simpl in *; try congruence; auto.
  - destruct f as [f|]; simpl in *; [|congruence]. repeat case_match; simpl in *; congruence.
  - by apply user_effect_synced.
Qed.

(** No event of the dialog writes the accounts of [authService]. *)
Lemma profile_step_users (st st' : ProfileState) :
  profile_step st st' -> ls_users (pm_storage st') = ls_users (pm_storage st).
Proof.
  intros Hs. destruct Hs; simpl; try done.
  - destruct f as [f|]; [|done]. simpl. by repeat case_match.
  - by case_match.
  - unfold user_effect. by destruct u.
Qed.

Lemma edits_profile (fs : list profile_field) (st : ProfileState) :
  profile (foldl (fun s f => edit_field f s) st fs) = profile st /\
  editedProfile (foldl (fun s f => edit_field f s) st fs) =
    foldl (fun p f => set_profile_field f p) (editedProfile st) fs /\
  pm_storage (foldl (fun s f => edit_field f s) st fs) = pm_storage st.
Proof. revert st. induction fs as [|f fs IH]; intros st; [done|]. apply (IH (edit_field f st)). Qed.

(** A stored photo of a signed-in user is the one [user_effect] loads. *)
Lemma user_effect_photo (u : AuthUser) (d : list N) (st : ProfileState) :
  au_id u <> EmptyString -> valid_units d -> d <> [] ->
  ls_getItem (photo_key (Some u)) (pm_storage st) = Some (utf8_of_js d) ->
  pm_photo (user_effect (Some u) st) = Some d.
Proof.
  intros Hid Hv Hne Hg. unfold user_effect. simpl.
  rewrite (proj2 (String.eqb_neq _ _) Hid). simpl. rewrite Hg.
  exact (stored_js_string d (pm_photo st) Some Hv Hne).
Qed.

(** ** Claims *)

(** C20: In every state the profile dialog reaches from its mount, the
    edit form shows the displayed profile whenever the dialog is not
    editing: Save, Cancel and the user effect keep the two copies
    together. *)
Theorem profile_form_synced user l o s st :
  rtc profile_step (profile_mount user l o s) st ->
  isEditing st = false -> editedProfile st = profile st.
Proof.
  intros Hr. assert (H0 : isEditing (profile_mount user l o s) = false ->
    editedProfile (profile_mount user l o s) = profile (profile_mount user l o s))
    by (apply user_effect_synced; done).
  induction Hr as [x|x y z Hxy _ IH]; [exact H0|].
  apply IH. by apply (profile_step_synced x y).
Qed.

(** Editing then cancelling leaves the profile as it was and resets
    the form to it; editing then saving shows the edited form. *)
Theorem edit_then_cancel_or_save (fs : list profile_field) (st : ProfileState) :
  let st1 := foldl (fun s f => edit_field f s) (start_edit st) fs in
  profile (handleCancel st1) = profile st /\ editedProfile (handleCancel st1) = profile st /\
  profile (handleSave st1) = foldl (fun p f => set_profile_field f p) (editedProfile st) fs /\
  isEditing (handleCancel st1) = false /\ isEditing (handleSave st1) = false.
Proof.
  cbv zeta. destruct (edits_profile fs (start_edit st)) as (Hp & He & _).
  simpl. rewrite Hp, He. by split_and!.
Qed.

(** The dialog never reaches [authService]: in every state it
    reaches, the stored accounts are those it started with, so a saved
    profile is not kept by the service. *)
Theorem profile_never_saved (st0 st : ProfileState) :
  rtc profile_step st0 st -> ls_users (pm_storage st) = ls_users (pm_storage st0).
Proof.
  induction 1 as [x|x y z Hxy _ IH]; [done|]. rewrite IH. by apply profile_step_users.
Qed.

(** C21: The photo key is shared: a photo a signed-in user uploads in the
    profile dialog is the photo the settings dialog and a new profile
    dialog show for that user. *)
Theorem profile_photo_shared `{!JsonEngine} (u : AuthUser) d st w o dk l l' o' :
  pm_user st = Some u -> au_id u <> EmptyString -> valid_units d -> d <> [] ->
  profilePhoto (settings_mount (Some u) w o dk l (pm_storage (photo_read d st))) = Some d /\
  pm_photo (profile_mount (Some u) l' o' (pm_storage (photo_read d st))) = Some d.
Proof.
  intros Hu Hid Hv Hne.
  assert (Hs : ls_getItem (photo_key (Some u)) (pm_storage (photo_read d st)) = Some (utf8_of_js d)).
  { simpl. rewrite Hu. simpl. rewrite (proj2 (String.eqb_neq _ _) Hid). simpl. apply map_get_set_eq. }
  split.
  - unfold settings_mount. cbv beta zeta. cbn [profilePhoto]. rewrite Hs.
    exact (stored_js_string d None Some Hv Hne).
  - by apply user_effect_photo.
Qed.

(** ** Witnesses *)

Lemma ada_saved_reachable :
  rtc profile_step ada_mount (handleSave (edit_field (PName "Ada King") (start_edit ada_mount))).
Proof.
  eapply rtc_l; [apply ps_start; reflexivity|].
  eapply rtc_l; [apply (ps_field (PName "Ada King")); reflexivity|].
  eapply rtc_l; [apply ps_save; reflexivity|]. apply rtc_refl.
Qed.

Lemma profile_form_synced_witness :
  let st := handleSave (edit_field (PName "Ada King") (start_edit ada_mount)) in
  rtc profile_step (profile_mount (Some ada) En true (mkStorage None [])) st /\ isEditing st = false /\
  editedProfile st = profile st.
Proof.
  split; [exact ada_saved_reachable|split; [reflexivity|]].
  exact (profile_form_synced _ _ _ _ _ ada_saved_reachable eq_refl).
Defined.

Lemma profile_never_saved_witness :
  let st := handleSave (edit_field (PName "Ada King") (start_edit ada_mount)) in
  rtc profile_step ada_mount st /\ ls_users (pm_storage st) = ls_users (pm_storage ada_mount).
Proof. split; [exact ada_saved_reachable|exact (profile_never_saved _ _ ada_saved_reachable)]. Defined.

Lemma profile_photo_shared_witness :
  let d := js "data:image/png;base64,AAAA" in
  pm_user ada_mount = Some ada /\ au_id ada <> EmptyString /\ valid_units d /\ d <> [] /\
  profilePhoto (@settings_mount sample_engine (Some ada) 1024 true false "en"
                  (pm_storage (photo_read d ada_mount))) = Some d.
Proof.
  assert (H1 : pm_user ada_mount = Some ada) by reflexivity.
  assert (H2 : au_id ada <> EmptyString) by discriminate.
  assert (H3 : valid_units (js "data:image/png;base64,AAAA")) by (apply valid_units_check; vm_compute; reflexivity).
  assert (H4 : js "data:image/png;base64,AAAA" <> []) by (vm_compute; congruence).
  cbv zeta. split; [exact H1|split; [exact H2|split; [exact H3|split; [exact H4|]]]].
  exact (proj1 (@profile_photo_shared sample_engine ada _ ada_mount 1024 true false "en" En true H1 H2 H3 H4)).
Defined.

(** ** What the model shows *)

(** Saving keeps the edit only in the dialog's state: after a save,
    a new mount (a reload) on the same storage shows the hard-coded
    student number again. *)
Example profile_edit_lost_on_reload :
  let st := handleSave (edit_field (PStudentId "UDE2025042") (start_edit ada_mount)) in
  up_studentId (profile st) = Some "UDE2025042" /\
  up_studentId (profile (profile_mount (Some ada) En true (pm_storage st))) = Some "UDE2024001".
Proof. split; reflexivity. Qed.

(** The user effect runs whenever [AuthContext] provides a new user
    object, also during editing: it overwrites a name being edited. *)
Example user_effect_overwrites_edit :
  let st := user_effect (Some ada) (edit_field (PName "Ada King") (start_edit ada_mount)) in
  isEditing st = true /\ up_name (editedProfile st) = "Ada Lovelace".
Proof. split; reflexivity. Qed.

(** The effect does nothing without a user: after a sign-out the dialog
    still shows the last user's name and e-mail. *)
Example signout_keeps_identity :
  let st := user_effect None ada_mount in
  pm_user st = None /\ up_name (profile st) = "Ada Lovelace" /\ up_email (profile st) = "ada@uni-due.de".
Proof. split_and!; reflexivity. Qed.
