(* ===== verification/LiveUpdates.v ===== *)
(** * LiveUpdates: the notification feed of [components/LiveUpdates.tsx]

    The feed generates "contextual updates" from the hour and weekday:
    [generateContextualUpdate] collects the templates that apply now (the
    webmail reminder always, others by time of day and day of week) and
    returns one of them, picked with [Math.random()], with an id and a
    timestamp.  An effect on [language] fills the feed with two updates,
    sets the unread counter to 2 and starts an interval that prepends an
    update every 30 s, keeping the 8 most recent, and counts it as unread.
    The bell opens and closes the panel and clears the counter when it
    opens; the badge shows the counter, as '9+' above 9.

    The clock is an input: [hour] and [day] are [getHours()] and
    [getDay()] of [new Date()], [now] is [Date.now()]; [Math.random()] is
    a rational in [0, 1) with the text its [toString] gives.  Icons are
    kept by component name. *)

From Stdlib Require Import String Ascii NArith ZArith QArith Qround List Lia.
From stdpp Require Import base list options relations.
From S2P Require Import Prelude.

#[local] Open Scope js_scope.

(** ** Updates *)

(** [type: 'event' | 'alert' | 'service' | 'announcement' | 'webmail'] *)
Inductive update_type := UEvent | UAlert | UService | UAnnouncement | UWebmail.

(** [priority: 'low' | 'medium' | 'high'] *)
Inductive priority := Low | Medium | High.

(** An element of [contextualUpdates]: a [LiveUpdate] without [id] and
    [timestamp]. *)
Record Template := mkTemplate {
  t_type : update_type; t_title : list N; t_message : list N; t_priority : priority;
  t_building : option (list N); t_icon : list N; t_actionUrl : option (list N);
  t_actionText : option (list N) }.

(** [interface LiveUpdate]: [{ id, timestamp, ...contextualUpdates[i] }];
    the spread of an index out of range ([undefined]) adds nothing, which
    [u_body = None] records. *)
Record LiveUpdate := mkUpdate { u_id : list N; u_timestamp : Z; u_body : option Template }.

Definition webmail_update (l : language) : Template :=
  mkTemplate UWebmail (by_lang l ‹"Check Your UDE Email"› ‹"UDE E-Mail prüfen"›)
    (by_lang l ‹"You have unread messages in your university email account. Stay connected with important updates."›
                   ‹"Sie haben ungelesene Nachrichten in Ihrem Universitäts-E-Mail-Konto. Bleiben Sie über wichtige Updates informiert."›)
    Medium None ‹"Mail"› (Some ‹"https://www.uni-due.de/zim/services/e-mail/webmail_login.php"›)
    (Some (by_lang l ‹"Open Webmail"› ‹"Webmail öffnen"›)).

Definition morning_update (l : language) : Template :=
  mkTemplate UService (by_lang l ‹"Morning Coffee Available"› ‹"Morgenkaffee verfügbar"›)
    (by_lang l ‹"Start your day right! Fresh coffee and breakfast options are now available at the cafeteria."›
                   ‹"Starten Sie richtig in den Tag! Frischer Kaffee und Frühstücksoptionen sind jetzt in der Cafeteria verfügbar."›)
    Low (Some ‹"cafeteria"›) ‹"Utensils"› None None.

Definition lunch_update (l : language) : Template :=
  mkTemplate UService (by_lang l ‹"Lunch Menu Available"› ‹"Mittagsmenü verfügbar"›)
    (by_lang l ‹"Today's lunch special includes vegetarian and international options. Check out our weekly menu online!"›
                   ‹"Das heutige Mittagsspecial umfasst vegetarische und internationale Optionen. Schauen Sie sich unseren Wochenplan online an!"›)
    Medium (Some ‹"cafeteria"›) ‹"Utensils"› (Some ‹"https://www.stw-edu.de/gastronomie/speiseplaene"›)
    (Some (by_lang l ‹"View Menu"› ‹"Menü anzeigen"›)).

Definition study_update (l : language) : Template :=
  mkTemplate UService (by_lang l ‹"Study Rooms Available"› ‹"Lernräume verfügbar"›)
    (by_lang l ‹"Quiet study spaces are available at the Central Library. Book your room online for focused study time."›
                   ‹"Ruhige Lernräume sind in der Zentralbibliothek verfügbar. Buchen Sie Ihren Raum online für konzentrierte Lernzeit."›)
    Medium (Some ‹"library"›) ‹"BookOpen"› (Some ‹"https://www.uni-due.de/ub/lernenundarbeiten.php"›)
    (Some (by_lang l ‹"Book Room"› ‹"Raum buchen"›)).

Definition evening_update (l : language) : Template :=
  mkTemplate UEvent (by_lang l ‹"Evening Study Groups"› ‹"Abend-Lerngruppen"›)
    (by_lang l ‹"Join evening study groups for collaborative learning. Check the Student Center for available sessions."›
                   ‹"Nehmen Sie an Abend-Lerngruppen für kollaboratives Lernen teil. Schauen Sie im Studierendenzentrum nach verfügbaren Sitzungen."›)
    Low (Some ‹"student-center"›) ‹"Users"› None None.

Definition weekday_update (l : language) : Template :=
  mkTemplate UAnnouncement (by_lang l ‹"Administrative Services Open"› ‹"Verwaltungsservices geöffnet"›)
    (by_lang l ‹"All administrative offices are open today. Visit for student registration, academic records, and other services."›
                   ‹"Alle Verwaltungsbüros sind heute geöffnet. Besuchen Sie uns für Studierendenregistrierung, akademische Unterlagen und andere Services."›)
    Low (Some ‹"administration"›) ‹"Clock"› None None.

Definition weekend_update (l : language) : Template :=
  mkTemplate UService (by_lang l ‹"Weekend Library Hours"› ‹"Wochenend-Bibliothekszeiten"›)
    (by_lang l ‹"The library is open with reduced hours on weekends. Perfect for quiet study sessions!"›
                   ‹"Die Bibliothek ist am Wochenende mit reduzierten Öffnungszeiten geöffnet. Perfekt für ruhige Lernsitzungen!"›)
    Medium (Some ‹"library"›) ‹"BookOpen"› None None.

Definition visa_update (l : language) : Template :=
  mkTemplate UAlert (by_lang l ‹"Visa Services Available"› ‹"Visa-Services verfügbar"›)
    (by_lang l ‹"International students: Visa consultation services are available. Book an appointment for document verification."›
                   ‹"Internationale Studierende: Visa-Beratungsservices sind verfügbar. Buchen Sie einen Termin für die Dokumentenprüfung."›)
    Medium (Some ‹"visa-services"›) ‹"AlertCircle"› (Some ‹"https://www.uni-due.de/international/abh"›)
    (Some (by_lang l ‹"Book Appointment"› ‹"Termin buchen"›)).

(** [contextualUpdates]: the pushes of [generateContextualUpdate], in
    order, for the hour and weekday of the call. *)
Definition contextualUpdates (l : language) (hour day : Z) : list Template :=
  [webmail_update l]
  ++ (if (6 <=? hour)%Z && (hour <? 11)%Z then [morning_update l] else [])
  ++ (if (11 <=? hour)%Z && (hour <? 14)%Z then [lunch_update l] else [])
  ++ (if (14 <=? hour)%Z && (hour <? 20)%Z then [study_update l] else [])
  ++ (if (18 <=? hour)%Z && (hour <? 22)%Z then [evening_update l] else [])
  ++ (if (1 <=? day)%Z && (day <=? 5)%Z then [weekday_update l] else [])
  ++ (if (day =? 0)%Z || (day =? 6)%Z then [weekend_update l] else [])
  ++ (if (1 <=? day)%Z && (day <=? 4)%Z then [visa_update l] else []).

(** What one call of [generateContextualUpdate] reads of the world: the
    hour and weekday of [new Date()], [Date.now()], and [Math.random()]
    (twice: once in the id, once for the pick) with the text of the
    first. *)
Record Clock := mkClock { c_hour : Z; c_day : Z; c_now : Z; c_id_rnd : list N; c_pick : Q }.

(** [Math.floor(Math.random() * contextualUpdates.length)] *)
Definition pick_index (r : Q) (n : nat) : Z := Qfloor (r * inject_Z (Z.of_nat n)).

(** [contextualUpdates[i]] of a JavaScript array: [undefined] out of
    range. *)
Definition js_index {A} (l : list A) (i : Z) : option A :=
  if (0 <=? i)%Z then nth_error l (Z.to_nat i) else None.

(** [generateContextualUpdate()] *)
Definition generateContextualUpdate (l : language) (c : Clock) : LiveUpdate :=
  let cs := contextualUpdates l (c_hour c) (c_day c) in
  mkUpdate (zdecimal (c_now c) ++ c_id_rnd c) (c_now c) (js_index cs (pick_index (c_pick c) (length cs))).

(** ** The component *)

(** The feed's state, with the language of the last effect and the URLs
    [handleUpdateAction] opened. *)
Record FeedState := mkFeed {
  updates : list LiveUpdate; showNotifications : bool; unreadCount : Z; feed_lang : language;
  opened : list (list N) }.

(** The effect on [[language]]: two fresh updates, the counter set to 2,
    and a new interval ([tick]). *)
Definition feed_effect (l : language) (c1 c2 : Clock) (st : FeedState) : FeedState :=
  let initialUpdates := [generateContextualUpdate l c1; generateContextualUpdate l c2] in
  mkFeed initialUpdates (showNotifications st) (Z.of_nat (length initialUpdates)) l (opened st).

(** The first render ([showNotifications] starts as [isExpanded]) and the
    effect. *)
Definition feed_mount (l : language) (isExpanded : bool) (c1 c2 : Clock) : FeedState :=
  feed_effect l c1 c2 (mkFeed [] isExpanded 0 l []).

(** The interval's callback: [setUpdates(prev => [newUpdate,
    ...prev.slice(0, 7)])] and [setUnreadCount(prev => prev + 1)]. *)
Definition tick (c : Clock) (st : FeedState) : FeedState :=
  mkFeed (generateContextualUpdate (feed_lang st) c :: take 7 (updates st)) (showNotifications st)
    (unreadCount st + 1) (feed_lang st) (opened st).

(** [handleNotificationClick] *)
Definition handleNotificationClick (st : FeedState) : FeedState :=
  mkFeed (updates st) (negb (showNotifications st))
    (if negb (showNotifications st) then 0 else unreadCount st) (feed_lang st) (opened st).

(** The panel's close button: [setShowNotifications(false)]. *)
Definition close_panel (st : FeedState) : FeedState :=
  mkFeed (updates st) false (unreadCount st) (feed_lang st) (opened st).

(** [handleUpdateAction(update)]: [window.open(update.actionUrl, ...)]
    when the update has a URL. *)
Definition handleUpdateAction (u : LiveUpdate) (st : FeedState) : FeedState :=
  match u_body u ≫= t_actionUrl with
  | Some url => mkFeed (updates st) (showNotifications st) (unreadCount st) (feed_lang st) (opened st ++ [url])
  | None => st
  end.

(** The bell's badge: shown when [unreadCount > 0], '9+' above 9. *)
Definition badge (st : FeedState) : option (list N) :=
  if (0 <? unreadCount st)%Z then Some (if (9 <? unreadCount st)%Z then ‹"9+"› else zdecimal (unreadCount st))
  else None.

(** [getPriorityColor] and [getTypeColor] *)
Definition getPriorityColor (p : priority) : list N :=
  match p with
  | High => ‹"text-red-500 bg-red-100 dark:bg-red-900/20"›
  | Medium => ‹"text-yellow-500 bg-yellow-100 dark:bg-yellow-900/20"›
  | Low => ‹"text-green-500 bg-green-100 dark:bg-green-900/20"›
  end.

Definition getTypeColor (t : update_type) : list N :=
  match t with
  | UEvent => ‹"bg-purple-500"› | UAlert => ‹"bg-red-500"› | UService => ‹"bg-green-500"›
  | UAnnouncement => ‹"bg-blue-500"› | UWebmail => ‹"bg-indigo-500"›
  end.

(** The label of an update's building: [update.building.replace('-', ' ')]. *)
Definition building_tag (u : LiveUpdate) : option (list N) :=
  replace_first 45 32 <$> (u_body u ≫= t_building).

(** ** The events *)

(** A reading of the clock as the browser gives it. *)
Definition clock_ok (c : Clock) : bool :=
  (0 <=? c_hour c)%Z && (c_hour c <? 24)%Z && (0 <=? c_day c)%Z && (c_day c <? 7)%Z &&
  Qle_bool 0 (c_pick c) && negb (Qle_bool 1 (c_pick c)).

Inductive feed_step : FeedState -> FeedState -> Prop :=
  | fs_tick c st : clock_ok c = true -> feed_step st (tick c st)
  | fs_language l c1 c2 st : clock_ok c1 = true -> clock_ok c2 = true -> feed_step st (feed_effect l c1 c2 st)
  | fs_bell st : feed_step st (handleNotificationClick st)
  | fs_close st : showNotifications st = true -> feed_step st (close_panel st)
  | fs_action u st : u ∈ updates st -> feed_step st (handleUpdateAction u st).

(** A sample clock: Monday 19:00 (five templates apply). *)
Definition monday_7pm (pick : Q) : Clock := mkClock 19%Z 1%Z 1736791200000%Z ‹"0.5"› pick.

(** What every event keeps. *)
Definition feed_ok (st : FeedState) : Prop :=
  (length (updates st) <= 8)%nat /\ Forall (fun u => is_Some (u_body u)) (updates st).

#[local] Close Scope js_scope.

(** ** Lemmas *)

(** The number of templates, computed for every hour and weekday. *)
Lemma contextual_length_table :
  forallb (fun h => forallb (fun d =>
      (2 <=? length (contextualUpdates En (Z.of_nat h) (Z.of_nat d)))%nat &&
      (length (contextualUpdates En (Z.of_nat h) (Z.of_nat d)) <=? 5)%nat) (seq 0 7)) (seq 0 24) = true.
Proof. vm_compute. reflexivity. Qed.

Lemma contextual_length_lang (l : language) (h d : Z) :
  length (contextualUpdates l h d) = length (contextualUpdates En h d).
Proof. unfold contextualUpdates. rewrite !length_app. by repeat case_match. Qed.

Lemma pick_index_range (r : Q) (n : nat) :
  (0 <= r)%Q -> (r < 1)%Q -> (0 < n)%nat -> (0 <= pick_index r n < Z.of_nat n)%Z.
Proof.
  intros H0 H1 Hn. unfold pick_index.
  assert (Hn' : (0 < inject_Z (Z.of_nat n))%Q) by (unfold Qlt; simpl; lia).
  split.
  - change 0%Z with (Qfloor 0). apply Qfloor_resp_le. apply Qmult_le_0_compat; [done|].
    by apply Qlt_le_weak.
  - rewrite Zlt_Qlt. eapply Qle_lt_trans; [apply Qfloor_le|].
    rewrite <-(Qmult_1_l (inject_Z (Z.of_nat n))) at 2. by apply Qmult_lt_r.
Qed.

Lemma js_index_some {A} (l : list A) (i : Z) :
  (0 <= i < Z.of_nat (length l))%Z -> is_Some (js_index l i).
Proof.
  intros Hi. unfold js_index. rewrite (proj2 (Z.leb_le 0 i)) by lia.
  destruct (nth_error l (Z.to_nat i)) eqn:E; [by eexists|].
  apply nth_error_None in E. lia.
Qed.

Lemma clock_ok_spec (c : Clock) :
  clock_ok c = true ->
  (0 <= c_hour c < 24)%Z /\ (0 <= c_day c < 7)%Z /\ (0 <= c_pick c)%Q /\ (c_pick c < 1)%Q.
Proof.
  unfold clock_ok. intros H. repeat rewrite andb_true_iff in H.
  destruct H as [[[[[H1 H2] H3] H4] H5] H6]. apply negb_true_iff in H6.
  apply Z.leb_le in H1. apply Z.ltb_lt in H2. apply Z.leb_le in H3. apply Z.ltb_lt in H4.
  apply Qle_bool_iff in H5. split_and!; try lia; [done|].
  apply Qnot_le_lt. intros Hc. apply Qle_bool_iff in Hc. congruence.
Qed.

(** Whatever the hour and weekday, two to five templates apply. *)
Lemma contextual_length (l : language) (h d : Z) :
  (0 <= h < 24)%Z -> (0 <= d < 7)%Z -> (2 <= length (contextualUpdates l h d) <= 5)%nat.
Proof.
  intros Hh Hd. rewrite contextual_length_lang.
  pose proof contextual_length_table as T. rewrite forallb_forall in T.
  assert (Hh' : In (Z.to_nat h) (seq 0 24)) by (apply in_seq; lia).
  assert (Hd' : In (Z.to_nat d) (seq 0 7)) by (apply in_seq; lia).
  specialize (T _ Hh'). rewrite forallb_forall in T. specialize (T _ Hd').
  rewrite !Z2Nat.id in T by lia. apply andb_true_iff in T as [T1 T2].
  apply Nat.leb_le in T1, T2. lia.
Qed.

(** The pick of a clock the browser gives is an element of the list. *)
Lemma generate_body_some (l : language) (c : Clock) :
  clock_ok c = true -> is_Some (u_body (generateContextualUpdate l c)).
Proof.
  intros (Hh & Hd & Hr0 & Hr1)%clock_ok_spec. simpl. apply js_index_some.
  pose proof (contextual_length l (c_hour c) (c_day c) Hh Hd).
  apply pick_index_range; [done|done|lia].
Qed.

Lemma feed_step_ok (st st' : FeedState) : feed_step st st' -> feed_ok st -> feed_ok st'.
Proof.
  intros Hs [Hlen Hb]. destruct Hs; unfold feed_ok; simpl.
  - split; [rewrite length_take; lia|]. constructor; [by apply generate_body_some|].
    by apply Forall_take.
  - split; [simpl; lia|]. repeat constructor; by apply generate_body_some.
  - done.
  - done.
  - unfold handleUpdateAction. by case_match.
Qed.

Lemma feed_rtc_ok (st st' : FeedState) : rtc feed_step st st' -> feed_ok st -> feed_ok st'.
Proof. induction 1 as [|x y z Hxy _ IH]; [done|]. intros H. by apply IH, (feed_step_ok x). Qed.

Lemma feed_mount_ok l e c1 c2 :
  clock_ok c1 = true -> clock_ok c2 = true -> feed_ok (feed_mount l e c1 c2).
Proof. intros H1 H2. split; [simpl; lia|]. repeat constructor; by apply generate_body_some. Qed.

(** ** Claims *)

(** C22: In every state the feed reaches from its mount, with clocks the
    browser gives, the feed holds at most 8 updates and each of them is a
    real template: [Math.floor(Math.random() * length)] never reads past
    the array. *)
Theorem feed_bounded l e c1 c2 st :
  clock_ok c1 = true -> clock_ok c2 = true -> rtc feed_step (feed_mount l e c1 c2) st ->
  (length (updates st) <= 8)%nat /\ Forall (fun u => is_Some (u_body u)) (updates st).
Proof. intros H1 H2 Hr. exact (feed_rtc_ok _ _ Hr (feed_mount_ok l e c1 c2 H1 H2)). Qed.

(** C23: At every hour of every weekday, between two and five templates
    apply: the webmail reminder, at most two by the hour, and one or two
    by the weekday. *)
Theorem contextualUpdates_count (l : language) (hour day : Z) :
  (0 <= hour < 24)%Z -> (0 <= day < 7)%Z ->
  (2 <= length (contextualUpdates l hour day) <= 5)%nat /\
  head (contextualUpdates l hour day) = Some (webmail_update l).
Proof. intros Hh Hd. split; [by apply contextual_length|reflexivity]. Qed.

(** Opening the panel with the bell clears the counter and hides the
    badge; closing it with the bell keeps the counter. *)
Theorem bell_clears_badge (st : FeedState) :
  (showNotifications st = false ->
     showNotifications (handleNotificationClick st) = true /\ badge (handleNotificationClick st) = None) /\
  (showNotifications st = true ->
     showNotifications (handleNotificationClick st) = false /\
     unreadCount (handleNotificationClick st) = unreadCount st).
Proof. unfold handleNotificationClick. split; intros ->; done. Qed.

(** ** Witnesses *)

Lemma monday_clock_ok : clock_ok (monday_7pm (1 # 2)) = true.
Proof. reflexivity. Qed.

Lemma feed_bounded_witness :
  let st := tick (monday_7pm (9 # 10)) (handleNotificationClick (feed_mount En false (monday_7pm 0) (monday_7pm (1 # 2)))) in
  clock_ok (monday_7pm 0) = true /\ clock_ok (monday_7pm (1 # 2)) = true /\
  rtc feed_step (feed_mount En false (monday_7pm 0) (monday_7pm (1 # 2))) st /\
  (length (updates st) <= 8)%nat.
Proof.
  assert (H1 : clock_ok (monday_7pm 0) = true) by reflexivity.
  assert (Hr : rtc feed_step (feed_mount En false (monday_7pm 0) (monday_7pm (1 # 2)))
    (tick (monday_7pm (9 # 10)) (handleNotificationClick (feed_mount En false (monday_7pm 0) (monday_7pm (1 # 2)))))).
  { eapply rtc_l; [apply fs_bell|]. eapply rtc_l; [apply (fs_tick (monday_7pm (9 # 10))); reflexivity|].
    apply rtc_refl. }
  cbv zeta. split; [exact H1|split; [exact monday_clock_ok|split; [exact Hr|]]].
  exact (proj1 (feed_bounded _ _ _ _ _ H1 monday_clock_ok Hr)).
Defined.

Lemma contextualUpdates_count_witness :
  (0 <= 19 < 24)%Z /\ (0 <= 1 < 7)%Z /\ (2 <= length (contextualUpdates De 19 1) <= 5)%nat.
Proof.
  assert (H1 : (0 <= 19 < 24)%Z) by lia. assert (H2 : (0 <= 1 < 7)%Z) by lia.
  split; [exact H1|split; [exact H2|]]. exact (proj1 (contextualUpdates_count De 19 1 H1 H2)).
Defined.

(** ** What the model shows *)

(** The counter counts updates, not the entries shown: ten minutes
    after the mount, with the panel closed, the badge reads '9+' over a
    list of 8 updates, and updates that arrive while the panel is open
    are counted as unread after it is closed. *)
Example unread_exceeds_feed :
  let st0 := feed_mount En false (monday_7pm 0) (monday_7pm (1 # 2)) in
  let st := Nat.iter 8 (tick (monday_7pm (1 # 2))) st0 in
  length (updates st) = 8%nat /\ unreadCount st = 10%Z /\ badge st = Some (js "9+") /\
  badge (close_panel (tick (monday_7pm (1 # 2)) (handleNotificationClick st0))) = Some (js "1").
Proof. split_and!; vm_compute; reflexivity. Qed.

(** A change of language replaces the whole feed by two new updates and
    sets the counter back to 2, also when they were read. *)
Example language_change_resets_feed :
  let st0 := handleNotificationClick (Nat.iter 3 (tick (monday_7pm (1 # 2))) (feed_mount En false (monday_7pm 0) (monday_7pm (1 # 2)))) in
  let st := feed_effect De (monday_7pm 0) (monday_7pm 0) st0 in
  length (updates st0) = 5%nat /\ unreadCount st0 = 0%Z /\ length (updates st) = 2%nat /\ unreadCount st = 2%Z.
Proof. split_and!; vm_compute; reflexivity. Qed.
