(* ===== verification/EnhancedAssistant.v ===== *)
(** * EnhancedAssistant: the NLP chat of [components/chat/EnhancedAIAssistant.tsx]

    The enhanced assistant answers each message with the classifier of
    [chatNLP.ts]: its [generateEnhancedResponse] runs
    [ChatResponse.generateEnhancedResponse] (intent, entities, template)
    and wraps the result in a bot [Message] whose quick actions call
    [onBuildingSelect].  [handleSendMessage(messageText?)] appends the
    user's message and schedules the reply 1.5 to 2.5 s later; when the
    message came as an argument (a voice transcript, but also a clicked
    suggestion) and sound is on, the reply is read aloud 500 ms after it
    appears.  An effect on [language] rewrites the first message as the
    greeting.

    As in [ChatAssistant], the [setTimeout] callbacks are pending [etimer]
    values that capture what their closures read ([soundEnabled],
    [language], the text); [speechService.speak] and [onBuildingSelect]
    are recorded as the calls they make. *)

From Stdlib Require Import String Ascii NArith ZArith QArith List Lia.
From stdpp Require Import base list options relations sets.
From S2P Require Import Prelude ChatNLP ChatResponse.

#[local] Open Scope js_scope.

(** ** Messages *)

(** [type?: 'text' | 'voice' | 'suggestion'] *)
Inductive msg_kind := KText | KVoice | KSuggestion.

(** A quick action of a bot message: [action.buildingId] is what its
    [action] closure passes to [onBuildingSelect]. *)
Record EAction := mkEAction { ea_id : string; ea_label : string; ea_buildingId : option (list N) }.

(** [interface Message] *)
Record EMessage := mkEMsg {
  em_id : list N; em_text : list N; em_isBot : bool; em_timestamp : Z;
  em_type : option msg_kind; em_suggestions : option (list (list N));
  em_quickActions : option (list EAction) }.

Definition greeting_text (l : language) : list N :=
  by_lang l ‹"Hello! 👋 I'm your enhanced UDE Campus Assistant with advanced AI capabilities. I can help you navigate the campus, find buildings, check services, answer questions about university life, and even understand voice commands. How can I assist you today?"›
            ‹"Hallo! 👋 Ich bin Ihr verbesserter UDE Campus-Assistent mit erweiterten KI-Fähigkeiten. Ich kann Ihnen helfen, sich auf dem Campus zurechtzufinden, Gebäude zu finden, Services zu überprüfen, Fragen zum Universitätsleben zu beantworten und sogar Sprachbefehle zu verstehen. Wie kann ich Ihnen heute helfen?"›.

Definition greeting_suggestions (l : language) : list (list N) :=
  match l with
  | En => [‹"Find the library"›; ‹"Show dining options"›; ‹"Campus map"›; ‹"Voice commands"›]
  | De => [‹"Bibliothek finden"›; ‹"Speisemöglichkeiten zeigen"›; ‹"Campus-Karte"›; ‹"Sprachbefehle"›]
  end.

(** The [useState] initial message. *)
Definition greeting (l : language) (now : Z) : EMessage :=
  mkEMsg ‹"1"› (greeting_text l) true now (Some KText) (Some (greeting_suggestions l)) None.

(** [generateEnhancedResponse(userMessage)] of the component: the
    classifier's response as a bot message. *)
Definition bot_response (userMessage : list N) (l : language) (now : Z) : EMessage :=
  let nlpResponse := ChatResponse.generateEnhancedResponse userMessage l in
  mkEMsg (zdecimal now) (js (response nlpResponse)) true now (Some KText)
    (Some (map js (suggestions nlpResponse)))
    (Some (map (fun a => mkEAction (qa_id a) (qa_label a) (qa_buildingId a)) (quickActions nlpResponse))).

(** [clearChat]'s message. *)
Definition cleared (l : language) (now : Z) : EMessage :=
  mkEMsg ‹"welcome-new"› (by_lang l ‹"Chat cleared! How can I help you today?"› ‹"Chat gelöscht! Wie kann ich Ihnen heute helfen?"›)
    true now (Some KText)
    (Some match l with
          | En => [‹"Find buildings"›; ‹"Campus hours"›; ‹"Contact info"›]
          | De => [‹"Gebäude finden"›; ‹"Campus-Zeiten"›; ‹"Kontakt-Info"›]
          end) None.

(** ** The component *)

(** The pending [setTimeout] callbacks: the reply to [text] (with
    [messageText] given or not, and the captured [soundEnabled] and
    [language]), and the read-aloud of a reply. *)
Inductive etimer :=
  | EReply (text : list N) (viaArgument : bool) (sound : bool) (l : language)
  | ESpeak (text : list N) (l : language).

Record EState := mkEState {
  e_isOpen : bool; e_isMinimized : bool; inputText : list N; e_isTyping : bool;
  showVoiceControls : bool; e_soundEnabled : bool; e_lang : language;
  e_messages : list EMessage; e_timers : list etimer;
  synthesis : bool; spoken : list (list N * language); selected : list (list N) }.

(** The first render; [synthesis] is [speechService.isSpeechSynthesisSupported()]. *)
Definition enhanced_initial (l : language) (now : Z) (synth : bool) : EState :=
  mkEState false false [] false false true l [greeting l now] [] synth [] [].

(** [handleSendMessage(messageText?)]: [messageText || inputText], the
    blank check, the user's message (['voice'] when [messageText] is
    truthy), and the scheduled reply. *)
Definition handleSendMessage (messageText : option (list N)) (now : Z) (st : EState) : EState :=
  let viaArgument := match messageText with Some m => truthy_str m | None => false end in
  let textToSend := match messageText with Some m => if truthy_str m then m else inputText st | None => inputText st end in
  if bool_decide (js_trim textToSend = []) then st
  else
    let userMessage := mkEMsg (zdecimal now) textToSend false now (Some (if viaArgument then KVoice else KText)) None None in
    mkEState (e_isOpen st) (e_isMinimized st) [] true (showVoiceControls st) (e_soundEnabled st) (e_lang st)
      (e_messages st ++ [userMessage])
      (e_timers st ++ [EReply textToSend viaArgument (e_soundEnabled st) (e_lang st)])
      (synthesis st) (spoken st) (selected st).

(** [handleSuggestionClick(suggestion)] and [handleVoiceInput(transcript)]
    both call [handleSendMessage] with an argument. *)
Definition handleSuggestionClick (s : list N) (now : Z) (st : EState) : EState :=
  handleSendMessage (Some s) now st.

Definition handleVoiceInput (transcript : list N) (now : Z) (st : EState) : EState :=
  handleSendMessage (Some transcript) now st.

(** [handleSpeakResponse(text)]: [speechService.speak] when sound is on. *)
Definition handleSpeakResponse (text : list N) (st : EState) : EState :=
  if e_soundEnabled st then
    mkEState (e_isOpen st) (e_isMinimized st) (inputText st) (e_isTyping st) (showVoiceControls st)
      (e_soundEnabled st) (e_lang st) (e_messages st) (e_timers st) (synthesis st)
      (spoken st ++ [(text, e_lang st)]) (selected st)
  else st.

(** A timer firing at [now]. *)
Definition run_etimer (t : etimer) (now : Z) (st : EState) : EState :=
  match t with
  | EReply text viaArgument sound l =>
      let botResponse := bot_response text l now in
      mkEState (e_isOpen st) (e_isMinimized st) (inputText st) false (showVoiceControls st)
        (e_soundEnabled st) (e_lang st) (e_messages st ++ [botResponse])
        (e_timers st ++ (if viaArgument && sound && synthesis st then [ESpeak (em_text botResponse) l] else []))
        (synthesis st) (spoken st) (selected st)
  | ESpeak text l =>
      mkEState (e_isOpen st) (e_isMinimized st) (inputText st) (e_isTyping st) (showVoiceControls st)
        (e_soundEnabled st) (e_lang st) (e_messages st) (e_timers st) (synthesis st)
        (spoken st ++ [(text, l)]) (selected st)
  end.

Definition efire (i : nat) (now : Z) (st : EState) : option EState :=
  match e_timers st !! i with
  | Some t =>
      Some (run_etimer t now
              (mkEState (e_isOpen st) (e_isMinimized st) (inputText st) (e_isTyping st) (showVoiceControls st)
                 (e_soundEnabled st) (e_lang st) (e_messages st) (delete i (e_timers st)) (synthesis st)
                 (spoken st) (selected st)))
  | None => None
  end.

(** [clearChat] *)
Definition clearChat (now : Z) (st : EState) : EState :=
  mkEState (e_isOpen st) (e_isMinimized st) (inputText st) (e_isTyping st) (showVoiceControls st)
    (e_soundEnabled st) (e_lang st) [cleared (e_lang st) now] (e_timers st) (synthesis st)
    (spoken st) (selected st).

(** The effect on [[language]]: the message at index 0 gets the greeting's
    text and suggestions, whatever message it is. *)
Definition language_effect (l : language) (st : EState) : EState :=
  let fix rewrite_first (ms : list EMessage) :=
    match ms with
    | [] => []
    | m :: ms' => mkEMsg (em_id m) (greeting_text l) (em_isBot m) (em_timestamp m) (em_type m)
                    (Some (greeting_suggestions l)) (em_quickActions m) :: ms'
    end in
  mkEState (e_isOpen st) (e_isMinimized st) (inputText st) (e_isTyping st) (showVoiceControls st)
    (e_soundEnabled st) l (rewrite_first (e_messages st)) (e_timers st) (synthesis st)
    (spoken st) (selected st).

(** A quick action's button: [onBuildingSelect(action.buildingId)] when
    the id is truthy. *)
Definition quick_action (a : EAction) (st : EState) : EState :=
  match ea_buildingId a with
  | Some b => if truthy_str b then
      mkEState (e_isOpen st) (e_isMinimized st) (inputText st) (e_isTyping st) (showVoiceControls st)
        (e_soundEnabled st) (e_lang st) (e_messages st) (e_timers st) (synthesis st)
        (spoken st) (selected st ++ [b])
      else st
  | None => st
  end.

(** The buttons of the header, the input, and the chat button. *)
Definition set_open (b : bool) (st : EState) : EState :=
  mkEState b (e_isMinimized st) (inputText st) (e_isTyping st) (showVoiceControls st)
    (e_soundEnabled st) (e_lang st) (e_messages st) (e_timers st) (synthesis st) (spoken st) (selected st).

Definition toggle_minimized (st : EState) : EState :=
  mkEState (e_isOpen st) (negb (e_isMinimized st)) (inputText st) (e_isTyping st) (showVoiceControls st)
    (e_soundEnabled st) (e_lang st) (e_messages st) (e_timers st) (synthesis st) (spoken st) (selected st).

Definition toggle_sound (st : EState) : EState :=
  mkEState (e_isOpen st) (e_isMinimized st) (inputText st) (e_isTyping st) (showVoiceControls st)
    (negb (e_soundEnabled st)) (e_lang st) (e_messages st) (e_timers st) (synthesis st) (spoken st) (selected st).

Definition toggle_voice_controls (st : EState) : EState :=
  mkEState (e_isOpen st) (e_isMinimized st) (inputText st) (e_isTyping st) (negb (showVoiceControls st))
    (e_soundEnabled st) (e_lang st) (e_messages st) (e_timers st) (synthesis st) (spoken st) (selected st).

Definition type_text (v : list N) (st : EState) : EState :=
  mkEState (e_isOpen st) (e_isMinimized st) v (e_isTyping st) (showVoiceControls st)
    (e_soundEnabled st) (e_lang st) (e_messages st) (e_timers st) (synthesis st) (spoken st) (selected st).

(** The send button: [disabled={!inputText.trim() || isTyping}]. *)
Definition send_enabled (st : EState) : bool :=
  negb (bool_decide (js_trim (inputText st) = [])) && negb (e_isTyping st).

(** ** The events *)

(** The controls of the open, maximised chat (the header's buttons also
    when minimised), the chat button, the timers and a change of
    language. *)
Inductive enhanced_step : EState -> EState -> Prop :=
  | es_open st : e_isOpen st = false -> enhanced_step st (set_open true st)
  | es_close st : e_isOpen st = true -> enhanced_step st (set_open false st)
  | es_minimize st : e_isOpen st = true -> enhanced_step st (toggle_minimized st)
  | es_sound st : e_isOpen st = true -> enhanced_step st (toggle_sound st)
  | es_voice st : e_isOpen st = true -> enhanced_step st (toggle_voice_controls st)
  | es_clear now st : e_isOpen st = true -> enhanced_step st (clearChat now st)
  | es_type v st : e_isOpen st = true -> e_isMinimized st = false -> enhanced_step st (type_text v st)
  | es_enter now st : e_isOpen st = true -> e_isMinimized st = false ->
      enhanced_step st (handleSendMessage None now st)
  | es_button now st : e_isOpen st = true -> e_isMinimized st = false -> send_enabled st = true ->
      enhanced_step st (handleSendMessage None now st)
  | es_suggestion m s now st : e_isOpen st = true -> e_isMinimized st = false -> m ∈ e_messages st ->
      s ∈ default [] (em_suggestions m) -> enhanced_step st (handleSuggestionClick s now st)
  | es_transcript t now st : e_isOpen st = true -> e_isMinimized st = false -> showVoiceControls st = true ->
      enhanced_step st (handleVoiceInput t now st)
  | es_read m st : e_isOpen st = true -> e_isMinimized st = false -> m ∈ e_messages st -> em_isBot m = true ->
      enhanced_step st (handleSpeakResponse (em_text m) st)
  | es_action m a st : e_isOpen st = true -> e_isMinimized st = false -> m ∈ e_messages st ->
      a ∈ default [] (em_quickActions m) -> enhanced_step st (quick_action a st)
  | es_timer i now st st' : efire i now st = Some st' -> enhanced_step st st'
  | es_language l st : enhanced_step st (language_effect l st).

(** What every event keeps: every quick action of a message names a
    building of the keyword table, every building selected is one, and
    the typing indicator is on only while a reply is pending. *)
Definition actions_ok (m : EMessage) : Prop :=
  forall a b, a ∈ default [] (em_quickActions m) -> ea_buildingId a = Some b -> In b (map fst buildingKeywords).

Definition enhanced_ok (st : EState) : Prop :=
  Forall actions_ok (e_messages st) /\ Forall (fun b => In b (map fst buildingKeywords)) (selected st) /\
  (e_isTyping st = true -> exists t v s l, EReply t v s l ∈ e_timers st).

(** A sample session: the chat opened in English, the greeting's first
    suggestion clicked at 1 s, its reply at 2.5 s, and the reply's first
    quick action. *)
Definition ea_asked : EState :=
  handleSuggestionClick ‹"Find the library"› 1000 (set_open true (enhanced_initial En 0 true)).

Definition ea_reply : EMessage := bot_response ‹"Find the library"› En 2500.

Definition ea_answered : EState := default ea_asked (efire 0 2500 ea_asked).

Definition ea_visit : EAction := mkEAction "visit" "Visit Building" (Some ‹"library"›).

Definition library_session : EState := quick_action ea_visit ea_answered.

#[local] Close Scope js_scope.

(** ** Lemmas *)

#[local] Opaque js.

Lemma bot_response_ok (text : list N) (l : language) (now : Z) : actions_ok (bot_response text l now).
Proof.
  intros a b Ha Hb. simpl in Ha. apply list_elem_of_fmap in Ha as [qa [-> Hqa]].
  apply (enhanced_quickAction_keyword text l qa); [by apply list_elem_of_In|done].
Qed.

Lemma no_actions_ok (m : EMessage) : em_quickActions m = None -> actions_ok m.
Proof. intros Hn a b Ha. rewrite Hn in Ha. set_solver. Qed.


Lemma language_effect_messages (l : language) (st : EState) :
  Forall actions_ok (e_messages st) -> Forall actions_ok (e_messages (language_effect l st)).
Proof.
  simpl. destruct (e_messages st) as [|m ms]; [done|]. intros Hm%Forall_cons. destruct Hm as [Hm Hms].
  constructor; [|done]. intros a b Ha Hb. by apply (Hm a b).
Qed.

Lemma handleSendMessage_ok (mt : option (list N)) (now : Z) (st : EState) :
  enhanced_ok st -> enhanced_ok (handleSendMessage mt now st).
Proof.
  intros (Hm & Hs & Ht). unfold handleSendMessage. case_bool_decide; [done|].
  split_and!; simpl.
  - apply Forall_app; split; [done|]. constructor; [by apply no_actions_ok|done].
  - done.
  - intros _. do 4 eexists. apply list_elem_of_In, in_or_app. right. left. reflexivity.
Qed.

Lemma efire_ok (i : nat) (now : Z) (st st' : EState) :
  efire i now st = Some st' -> enhanced_ok st -> enhanced_ok st'.
Proof.
  unfold efire. destruct (e_timers st !! i) as [t|] eqn:Ei; [|discriminate].
  intros [= <-] (Hm & Hs & Ht). destruct t as [text v s l|text l]; simpl; split_and!; try done.
  - apply Forall_app; split; [done|]. constructor; [apply bot_response_ok|done].
  - intros Hty. destruct (Ht Hty) as (t' & v' & s' & l' & Hin). exists t', v', s', l'.
    by apply (elem_of_delete_ne _ (ESpeak text l)).
Qed.

Lemma quick_action_ok (m : EMessage) (a : EAction) (st : EState) :
  m ∈ e_messages st -> a ∈ default [] (em_quickActions m) -> enhanced_ok st -> enhanced_ok (quick_action a st).
Proof.
  intros Hm Ha (Hms & Hs & Ht). unfold quick_action.
  destruct (ea_buildingId a) as [b|] eqn:Eb; [|done]. case_match; [|done].
  split_and!; simpl; try done. apply Forall_app; split; [done|]. constructor; [|done].
  eapply Forall_forall in Hms; [|exact Hm]. by apply (Hms a).
Qed.

Lemma enhanced_step_ok (st st' : EState) : enhanced_step st st' -> enhanced_ok st -> enhanced_ok st'.
Proof.
  intros Hs Hok. destruct Hs; try done.
  - destruct Hok as (Hm & Hs & Ht). split_and!; simpl; [|done|done]. constructor; [|done].
    by apply no_actions_ok.
  - by apply handleSendMessage_ok.
  - by apply handleSendMessage_ok.
  - by apply handleSendMessage_ok.
  - by apply handleSendMessage_ok.
  - unfold handleSpeakResponse. by case_match.
  - by eapply quick_action_ok.
  - by eapply efire_ok.
  - destruct Hok as (Hm & Hs & Ht). split_and!; [by apply language_effect_messages|done|done].
Qed.

Lemma enhanced_rtc_ok (st st' : EState) : rtc enhanced_step st st' -> enhanced_ok st -> enhanced_ok st'.
Proof. induction 1 as [|x y z Hxy _ IH]; [done|]. intros H. by apply IH, (enhanced_step_ok x). Qed.

Lemma enhanced_initial_ok (l : language) (now : Z) (synth : bool) : enhanced_ok (enhanced_initial l now synth).
Proof. split_and!; [|done|discriminate]. constructor; [by apply no_actions_ok|done]. Qed.

Lemma nonblank_truthy (s : list N) : js_trim s <> [] -> truthy_str s = true.
Proof. intros Hs. destruct (truthy_str s) eqn:E; [done|]. apply truthy_str_false in E as ->. done. Qed.

(** A reachable state of the chat, from its first render. *)
Lemma enhanced_reachable_ok (l : language) (now : Z) (synth : bool) (st : EState) :
  rtc enhanced_step (enhanced_initial l now synth) st -> enhanced_ok st.
Proof. intros H. eapply enhanced_rtc_ok; [exact H|apply enhanced_initial_ok]. Qed.

#[local] Transparent js.

(** C24: Every building the assistant's quick actions hand to
    [onBuildingSelect], in any run of the chat from its first render, is
    a building of the classifier's keyword table: the bot messages carry
    only actions built from [generateContextualResponse], and no other
    control selects a building. *)
Theorem enhanced_selected_keyword (l : language) (now : Z) (synth : bool) (st : EState) :
  rtc enhanced_step (enhanced_initial l now synth) st ->
  Forall (fun b => In b (map fst buildingKeywords)) (selected st).
Proof. intros H. by destruct (enhanced_reachable_ok l now synth st H) as (_ & Hs & _). Qed.

(** C25: In any run of the chat from its first render, the "AI
    thinking" indicator is shown only while a reply timer is pending, so
    it always goes out when that reply arrives. *)
Theorem enhanced_typing_pending (l : language) (now : Z) (synth : bool) (st : EState) :
  rtc enhanced_step (enhanced_initial l now synth) st -> e_isTyping st = true ->
  exists text v s l', EReply text v s l' ∈ e_timers st.
Proof. intros H. by destruct (enhanced_reachable_ok l now synth st H) as (_ & _ & Ht). Qed.

(** A clicked suggestion goes through [handleSendMessage(suggestion)]
    like a voice transcript: the user's message is tagged ['voice'], and
    with sound on the reply is read aloud 500 ms after it appears. *)
Theorem suggestion_reply_spoken (s : list N) (now now' : Z) (st : EState) :
  js_trim s <> [] -> e_soundEnabled st = true -> synthesis st = true -> e_timers st = [] ->
  let st1 := handleSuggestionClick s now st in
  last (e_messages st1) = Some (mkEMsg (zdecimal now) s false now (Some KVoice) None None) /\
  exists st2, efire 0 now' st1 = Some st2 /\
    e_timers st2 = [ESpeak (em_text (bot_response s (e_lang st) now')) (e_lang st)].
Proof.
  intros Hs Hsnd Hsyn Ht. unfold handleSuggestionClick, handleSendMessage.
  rewrite (nonblank_truthy s Hs). rewrite bool_decide_false by done. simpl.
  split; [by rewrite last_snoc|]. rewrite Ht. simpl. eexists; split; [reflexivity|]. simpl.
  by rewrite Hsnd, Hsyn.
Qed.

(** After "clear chat", a change of language replaces the "Chat
    cleared!" message by the full greeting of the new language: the
    effect rewrites whatever message is at index 0. *)
Theorem clear_then_language_greets (l : language) (now : Z) (st : EState) :
  e_messages (language_effect l (clearChat now st)) =
  [mkEMsg (js "welcome-new") (greeting_text l) true now (Some KText) (Some (greeting_suggestions l)) None].
Proof. reflexivity. Qed.

(** Enter sends while a reply is pending: the send button is then
    disabled, but [handleKeyPress] calls [handleSendMessage()] without the
    [isTyping] guard, so a second reply timer is scheduled. *)
Theorem enter_while_typing (now : Z) (st : EState) :
  e_isTyping st = true -> js_trim (inputText st) <> [] ->
  send_enabled st = false /\
  e_timers (handleSendMessage None now st) =
    e_timers st ++ [EReply (inputText st) false (e_soundEnabled st) (e_lang st)].
Proof.
  intros Hty Hs. unfold send_enabled, handleSendMessage. rewrite Hty, andb_false_r.
  split; [done|]. by rewrite bool_decide_false.
Qed.

Lemma ea_asked_reachable : rtc enhanced_step (enhanced_initial En 0 true) ea_asked.
Proof.
  apply (rtc_l _ _ (set_open true (enhanced_initial En 0 true))); [by apply es_open|].
  apply (rtc_l _ _ ea_asked); [apply (es_suggestion (greeting En 0)); [reflexivity|reflexivity|left|left]|].
  apply rtc_refl.
Qed.

Lemma library_session_reachable : rtc enhanced_step (enhanced_initial En 0 true) library_session.
Proof.
  eapply rtc_trans; [apply ea_asked_reachable|].
  apply (rtc_l _ _ ea_answered); [apply (es_timer 0 2500); vm_compute; reflexivity|].
  apply (rtc_l _ _ library_session); [|apply rtc_refl]. apply (es_action ea_reply); [reflexivity|reflexivity|..].
  - apply list_elem_of_In. vm_compute. right; right; left. reflexivity.
  - apply list_elem_of_In. vm_compute. left. reflexivity.
Qed.

Lemma enhanced_selected_keyword_witness :
  selected library_session = [js "library"] /\
  Forall (fun b => In b (map fst buildingKeywords)) (selected library_session).
Proof.
  split; [vm_compute; reflexivity|].
  apply (enhanced_selected_keyword En 0 true). apply library_session_reachable.
Defined.

Lemma enhanced_typing_pending_witness :
  e_isTyping ea_asked = true /\ exists text v s l', EReply text v s l' ∈ e_timers ea_asked.
Proof.
  split; [reflexivity|]. apply (enhanced_typing_pending En 0 true); [apply ea_asked_reachable|reflexivity].
Defined.

Lemma suggestion_reply_spoken_witness :
  let st := set_open true (enhanced_initial En 0 true) in
  let st1 := handleSuggestionClick (js "Find the library") 1000 st in
  last (e_messages st1) = Some (mkEMsg (zdecimal 1000) (js "Find the library") false 1000 (Some KVoice) None None) /\
  exists st2, efire 0 2500 st1 = Some st2 /\ e_timers st2 = [ESpeak (em_text (bot_response (js "Find the library") En 2500)) En].
Proof.
  apply (suggestion_reply_spoken (js "Find the library") 1000 2500 (set_open true (enhanced_initial En 0 true)));
    [vm_compute; discriminate|reflexivity|reflexivity|reflexivity].
Defined.

Lemma enter_while_typing_witness :
  let st := type_text (js "hello") ea_asked in
  send_enabled st = false /\
  e_timers (handleSendMessage None 1200 st) = e_timers st ++ [EReply (js "hello") false true En].
Proof. apply (enter_while_typing 1200 (type_text (js "hello") ea_asked)); [reflexivity|vm_compute; discriminate]. Defined.
