(* ===== verification/Calendar.v ===== *)
(** * Calendar: the component of [components/EventsCalendar.tsx]

    The calendar loads the events through [eventsService] (its
    [loadEvents], modelled in [Events]), filters them by category and day,
    and shows them as a list or as a month grid with a panel for the
    selected day; each event is an [EventCard] with a share button.

    Dates: a [Date] is its time value in milliseconds on the local time
    line (as in [Events]); the getters the code calls and that date-fns
    calls for it ([getFullYear], [getMonth], [getDate], [getDay]) are
    ECMA-262's [YearFromTime], [MonthFromTime], [DateFromTime] and
    [WeekDay] (§21.4.1).  [YearFromDay] computes the year with one
    division and one correction, and [YearFromDay_spec] shows it is the
    year ECMA-262 defines.

    The component's state is [CalState]; [loadEvents] is split at its
    [await] into [load_call] and [load_resume]; both mock queries wait
    800 ms, so pending loads resume in the order they were called (a
    queue).  While [isLoading] the component renders only the spinner, so
    no control is available. *)

From Stdlib Require Import String NArith ZArith QArith List Lia.
From stdpp Require Import base list options relations.
From S2P Require Import Prelude Events.

(** ** ECMA-262 dates *)

(** A first guess of the year of day [d], at most one year off. *)
Definition year_guess (d : Z) : Z := (1970 + (400 * d) / 146097)%Z.

(** [YearFromTime] on the day number: the largest [y] with
    [DayFromYear y <= d]. *)
Definition YearFromDay (d : Z) : Z :=
  let y := year_guess d in
  if (DayFromYear (y + 1) <=? d)%Z then (y + 1)%Z
  else if (DayFromYear y <=? d)%Z then y else (y - 1)%Z.

Definition YearFromTime (t : Z) : Z := YearFromDay (Day t).

(** [DayWithinYear(t)] *)
Definition DayWithinYear (t : Z) : Z := (Day t - DayFromYear (YearFromTime t))%Z.

(** [MonthFromTime(t)] from its day within the year, by ECMA-262's
    ranges. *)
Definition MonthFromDay (leap : bool) (dwy : Z) : Z :=
  let l := if leap then 1%Z else 0%Z in
  if (dwy <? 31)%Z then 0 else if (dwy <? 59 + l)%Z then 1
  else if (dwy <? 90 + l)%Z then 2 else if (dwy <? 120 + l)%Z then 3
  else if (dwy <? 151 + l)%Z then 4 else if (dwy <? 181 + l)%Z then 5
  else if (dwy <? 212 + l)%Z then 6 else if (dwy <? 243 + l)%Z then 7
  else if (dwy <? 273 + l)%Z then 8 else if (dwy <? 304 + l)%Z then 9
  else if (dwy <? 334 + l)%Z then 10 else 11.

Definition MonthFromTime (t : Z) : Z :=
  MonthFromDay (leap_year (YearFromTime t)) (DayWithinYear t).

(** [DateFromTime(t)] *)
Definition DateFromTime (t : Z) : Z :=
  (DayWithinYear t - month_start (leap_year (YearFromTime t)) (MonthFromTime t) + 1)%Z.

(** [WeekDay(t)]: 0 is Sunday. *)
Definition WeekDay (t : Z) : Z := ((Day t + 4) mod 7)%Z.

(** The number of days of month [m] (0-11). *)
Definition days_in_month (y m : Z) : Z :=
  (if (m =? 11)%Z then (if leap_year y then 366 else 365)
   else month_start (leap_year y) (m + 1)) - month_start (leap_year y) m.

(** ** date-fns *)

(** [startOfMonth(t)], [endOfMonth(t)] (the month's last millisecond)
    and [eachDayOfInterval({ start, end })]: the local midnights from
    the start's day to the end's. *)
Definition startOfMonth (t : Z) : Z := new_Date (YearFromTime t) (MonthFromTime t) 1.

Definition endOfMonth (t : Z) : Z :=
  (new_Date (YearFromTime t) (MonthFromTime t + 1) 0 + msPerDay - 1)%Z.

Definition eachDayOfInterval (s e : Z) : list Z :=
  map (fun i => ((Day s + Z.of_nat i) * msPerDay)%Z) (seq 0 (Z.to_nat (Day e - Day s + 1))).

(** [new Date(currentMonth.getFullYear(), currentMonth.getMonth() - 1)]
    and [... + 1)]: the first of the previous and the next month. *)
Definition prev_month (t : Z) : Z := new_Date (YearFromTime t) (MonthFromTime t - 1) 1.

Definition next_month (t : Z) : Z := new_Date (YearFromTime t) (MonthFromTime t + 1) 1.

(** date-fns' [format(t, 'MMMM yyyy')] and [format(t, 'd')]; [yyyy]
    pads the year to four digits. *)
Definition month_names : list (list N) :=
  map js ["January"; "February"; "March"; "April"; "May"; "June"; "July"; "August";
          "September"; "October"; "November"; "December"]%string.

Definition pad4 (s : list N) : list N := repeat 48%N (4 - length s) ++ s.

Definition format_MMMM_yyyy (t : Z) : list N :=
  nth (Z.to_nat (MonthFromTime t)) month_names [] ++ [32%N] ++ pad4 (zdecimal (YearFromTime t)).

Definition format_d (t : Z) : list N := zdecimal (DateFromTime t).

(** date-fns' [isToday(day)] for the clock's [now]. *)
Definition isToday (now t : Z) : bool := isSameDay t now.

(** ** The component *)

#[local] Open Scope js_scope.

(** The component [EventsCalendar] of [components/EventsCalendar.tsx]. *)
Module EventsCalendar.

Inductive view_mode := CalendarView | ListView.

(** The calls of [handleShare]: [navigator.share({ title, text, url })]
    or, without it, [navigator.clipboard.writeText(...)]. *)
Inductive share_call := NavShare (t text url : list N) | Clipboard (text : list N).

(** The component's state with the shared [mockEvents] array ([cal_store]),
    the queries of the loads in flight ([pending]), the URLs opened and the
    share calls made. *)
Record CalState := mkCal {
  cal_events : list CampusEvent; isLoading : bool; selectedDate : Z; currentMonth : Z;
  selectedCategory : list N; viewMode : view_mode; searchQuery : list N; showFilters : bool;
  cal_store : list CampusEvent; pending : list (list N); cal_opened : list (list N); shares : list share_call }.

(** The first render at [now]. *)
Definition cal_initial (now : Z) (store : list CampusEvent) : CalState :=
  mkCal [] true now now ‹"all"› ListView [] false store [] [] [].

(** [loadEvents()] up to its [await]: [setIsLoading(true)] and the two
    queries started with the render's [searchQuery]. *)
Definition load_call (st : CalState) : CalState :=
  mkCal (cal_events st) true (selectedDate st) (currentMonth st) (selectedCategory st) (viewMode st)
    (searchQuery st) (showFilters st) (cal_store st) (pending st ++ [searchQuery st]) (cal_opened st) (shares st).

(** The mount: the first render and the effect on [[searchQuery]]. *)
Definition cal_mount (now : Z) (store : list CampusEvent) : CalState := load_call (cal_initial now store).

(** The rest of the oldest load, at [now]: [setEvents(allEvents)] and,
    in [finally], [setIsLoading(false)]; [searchFirst] says which query
    sorts the array first. *)
Definition load_resume (now : Z) (searchFirst : bool) (st : CalState) : option CalState :=
  match pending st with
  | [] => None
  | q :: rest =>
      let '(allEvents, store') := Events.loadEvents q now searchFirst (cal_store st) in
      Some (mkCal allEvents false (selectedDate st) (currentMonth st) (selectedCategory st) (viewMode st)
              (searchQuery st) (showFilters st) store' rest (cal_opened st) (shares st))
  end.

(** [handleSearch(query)]: [setSearchQuery(query)] and, when the value
    changes, the effect on [[searchQuery]]. *)
Definition handleSearch (query : list N) (st : CalState) : CalState :=
  let st' := mkCal (cal_events st) (isLoading st) (selectedDate st) (currentMonth st) (selectedCategory st)
               (viewMode st) query (showFilters st) (cal_store st) (pending st) (cal_opened st) (shares st) in
  if bool_decide (query = searchQuery st) then st' else load_call st'.

(** [clearSearch] *)
Definition clearSearch (st : CalState) : CalState := handleSearch [] st.

(** The category buttons, the filter and view toggles, the month arrows,
    a day of the grid and the "View All Events" button. *)
Definition select_category (c : list N) (st : CalState) : CalState :=
  mkCal (cal_events st) (isLoading st) (selectedDate st) (currentMonth st) c (viewMode st)
    (searchQuery st) (showFilters st) (cal_store st) (pending st) (cal_opened st) (shares st).

Definition toggle_filters (st : CalState) : CalState :=
  mkCal (cal_events st) (isLoading st) (selectedDate st) (currentMonth st) (selectedCategory st) (viewMode st)
    (searchQuery st) (negb (showFilters st)) (cal_store st) (pending st) (cal_opened st) (shares st).

Definition toggle_view (st : CalState) : CalState :=
  mkCal (cal_events st) (isLoading st) (selectedDate st) (currentMonth st) (selectedCategory st)
    (match viewMode st with CalendarView => ListView | ListView => CalendarView end)
    (searchQuery st) (showFilters st) (cal_store st) (pending st) (cal_opened st) (shares st).

Definition set_month (t : Z) (st : CalState) : CalState :=
  mkCal (cal_events st) (isLoading st) (selectedDate st) t (selectedCategory st) (viewMode st)
    (searchQuery st) (showFilters st) (cal_store st) (pending st) (cal_opened st) (shares st).

Definition select_date (d : Z) (st : CalState) : CalState :=
  mkCal (cal_events st) (isLoading st) d (currentMonth st) (selectedCategory st) (viewMode st)
    (searchQuery st) (showFilters st) (cal_store st) (pending st) (cal_opened st) (shares st).

Definition view_all (st : CalState) : CalState :=
  mkCal (cal_events st) (isLoading st) (selectedDate st) (currentMonth st) (selectedCategory st) (viewMode st)
    (searchQuery st) (showFilters st) (cal_store st) (pending st)
    (cal_opened st ++ [‹"https://www.uni-due.de/en/events.php"›]) (shares st).

(** [EventCard]'s [handleShare]; [canShare] is [navigator.share]'s
    presence and [href] is [window.location.href]. *)
Definition handleShare (canShare : bool) (href : list N) (e : CampusEvent) (st : CalState) : CalState :=
  mkCal (cal_events st) (isLoading st) (selectedDate st) (currentMonth st) (selectedCategory st) (viewMode st)
    (searchQuery st) (showFilters st) (cal_store st) (pending st) (cal_opened st)
    (shares st ++ [if canShare then NavShare (title e) (description e) href
                   else Clipboard (title e ++ ‹" - "› ++ description e)]).

(** ** What the component renders *)

(** [categories]: the ids and labels of the filter buttons. *)
Definition categories (l : language) : list (list N * list N) :=
  [(‹"all"›, by_lang l ‹"All Events"› ‹"Alle Veranstaltungen"›);
   (‹"academic"›, by_lang l ‹"Academic"› ‹"Akademisch"›);
   (‹"international"›, ‹"International"›);
   (‹"social"›, by_lang l ‹"Social"› ‹"Sozial"›);
   (‹"cultural"›, by_lang l ‹"Cultural"› ‹"Kulturell"›);
   (‹"sports"›, by_lang l ‹"Sports"› ‹"Sport"›)].

(** The three renders: the spinner while loading, the month grid or the
    list. *)
Inductive cal_view := VLoading | VCalendar | VList.

Definition view_of (st : CalState) : cal_view :=
  if isLoading st then VLoading else match viewMode st with CalendarView => VCalendar | ListView => VList end.

(** [days] of [renderCalendarView]. *)
Definition calendar_days (st : CalState) : list Z :=
  eachDayOfInterval (startOfMonth (currentMonth st)) (endOfMonth (currentMonth st)).

(** The grid has seven columns: the headers ['Sun', ..., 'Sat'] fill the
    first row and the [i]-th day button (from 0) the cell after them, so
    it sits in column [i mod 7], under that header. *)
Definition weekday_headers : list (list N) := map js ["Sun"; "Mon"; "Tue"; "Wed"; "Thu"; "Fri"; "Sat"]%string.

Definition grid_column (i : nat) : nat := i mod 7.

(** A day button: its label, whether it is the selected day, and the
    dot shown when the day has events. *)
Definition day_button (st : CalState) (d : Z) : list N * bool * bool :=
  (format_d d, isSameDay d (selectedDate st),
   negb (bool_decide (getEventsForDate (selectedCategory st) (cal_events st) d = []))).

(** The event cards of the render: the selected day's events in the
    grid, the first ten filtered events in the list. *)
Definition displayed_cards (st : CalState) : list CampusEvent :=
  match view_of st with
  | VLoading => []
  | VCalendar => getEventsForDate (selectedCategory st) (cal_events st) (selectedDate st)
  | VList => take 10 (filteredEvents (selectedCategory st) (cal_events st))
  end.

(** [EventCard]: the participants line [{event.maxParticipants && ...}]
    (React renders a falsy number as text, so a [0] shows "0"), the
    first three tags and the register link. *)
Definition participants_node (e : CampusEvent) : option (list N) :=
  match maxParticipants e with
  | None => None
  | Some 0%Z => Some ‹"0"›
  | Some m => Some (zdecimal (default 0%Z (currentParticipants e)) ++ ‹"/"› ++ zdecimal m)
  end.

Definition tags_shown (e : CampusEvent) : list (list N) :=
  map (fun tag => ‹"#"› ++ tag) (take 3 (default [] (tags e))).

Definition register_link (l : language) (e : CampusEvent) : option (list N * list N) :=
  if registrationRequired e then
    match registrationUrl e with
    | Some u => if truthy_str u then Some (u, by_lang l ‹"Register"› ‹"Anmelden"›) else None
    | None => None
    end
  else None.

(** ** The events *)

(** The controls of each render, the resumption of a pending load and the
    share button of a card. *)
Inductive cal_step (l : language) : CalState -> CalState -> Prop :=
  | cs_resume now b st st' : load_resume now b st = Some st' -> cal_step l st st'
  | cs_search q st : view_of st <> VLoading -> showFilters st = true -> cal_step l st (handleSearch q st)
  | cs_clear st : view_of st <> VLoading -> showFilters st = true -> truthy_str (searchQuery st) = true ->
      cal_step l st (clearSearch st)
  | cs_category c st : view_of st <> VLoading -> showFilters st = true -> c ∈ map fst (categories l) ->
      cal_step l st (select_category c st)
  | cs_filters st : view_of st <> VLoading -> cal_step l st (toggle_filters st)
  | cs_view st : view_of st <> VLoading -> cal_step l st (toggle_view st)
  | cs_prev st : view_of st = VCalendar -> cal_step l st (set_month (prev_month (currentMonth st)) st)
  | cs_next st : view_of st = VCalendar -> cal_step l st (set_month (next_month (currentMonth st)) st)
  | cs_day d st : view_of st = VCalendar -> d ∈ calendar_days st -> cal_step l st (select_date d st)
  | cs_share b href e st : e ∈ displayed_cards st -> cal_step l st (handleShare b href e st)
  | cs_all st : view_of st <> VLoading -> cal_step l st (view_all st).

(** The query [loadEvents] runs for [searchQuery]. *)
Definition run_query (q : list N) (s : list CampusEvent) : list CampusEvent * list CampusEvent :=
  if negb (bool_decide (q = [])) then searchEvents q s else getCampusEvents s.

(** What every event keeps: a load is in flight exactly while the
    spinner shows, for the current query, and otherwise the events shown
    are that query's results on the shared array. *)
Definition cal_ok (st : CalState) : Prop :=
  (isLoading st = true /\ pending st = [searchQuery st]) \/
  (isLoading st = false /\ pending st = [] /\ cal_events st = fst (run_query (searchQuery st) (cal_store st))).

(** Samples: the calendar mounted on 15 January 2025 at 10:00 on the mock
    events, and an event open to no one ([maxParticipants: 0]). *)
Definition jan15 : Z := (new_Date 2025 0 15 + 36000000)%Z.

Definition cal_jan : CalState := cal_mount jan15 mockEvents.

(** The mounted calendar after its first load, and after a search for
    "career" typed in the filter panel and its load. *)
Definition cal_loaded : CalState := default cal_jan (load_resume jan15 true cal_jan).

Definition cal_searched : CalState :=
  default cal_loaded (load_resume (jan15 + 2000)%Z true (handleSearch ‹"career"› (toggle_filters cal_loaded))).

Definition closed_event : CampusEvent :=
  mock_event ‹"99"› ‹"Closed Workshop"› ‹"By invitation"› (new_Date 2025 0 20) ‹"10:00"› ‹"Room S05"›
    Academic ‹"UDE"› false None false (Some 0%Z) None [] [] LangEn None.

End EventsCalendar.
Export EventsCalendar.

#[local] Close Scope js_scope.

(** ** Lemmas on dates *)

Section Dates.
#[local] Open Scope Z_scope.

Lemma leap_year_spec y : leap_year y = true <-> (y mod 4 = 0 /\ y mod 100 <> 0) \/ y mod 400 = 0.
Proof.
  unfold leap_year. rewrite orb_true_iff, andb_true_iff, negb_true_iff, !Z.eqb_eq, Z.eqb_neq. done.
Qed.

Lemma DayFromYear_succ y :
  DayFromYear (y + 1) = DayFromYear y + if leap_year y then 366 else 365.
Proof.
  destruct (leap_year y) eqn:E; [apply leap_year_spec in E|];
  [|assert (~ ((y mod 4 = 0 /\ y mod 100 <> 0) \/ y mod 400 = 0)) by (rewrite <- leap_year_spec; congruence)];
  unfold DayFromYear; Z.div_mod_to_equations; lia.
Qed.

Lemma DayFromYear_mono y y' : y < y' -> DayFromYear y < DayFromYear y'.
Proof. intros H. unfold DayFromYear. Z.div_mod_to_equations. lia. Qed.

Lemma year_guess_bounds d : DayFromYear (year_guess d - 1) <= d < DayFromYear (year_guess d + 2).
Proof. unfold DayFromYear, year_guess. Z.div_mod_to_equations. lia. Qed.

Lemma YearFromDay_spec d : DayFromYear (YearFromDay d) <= d < DayFromYear (YearFromDay d + 1).
Proof.
  pose proof (year_guess_bounds d). unfold YearFromDay.
  destruct (Z.leb_spec (DayFromYear (year_guess d + 1)) d) as [H1|H1].
  - replace (year_guess d + 1 + 1) with (year_guess d + 2) by lia. lia.
  - destruct (Z.leb_spec (DayFromYear (year_guess d)) d); [lia|].
    replace (year_guess d - 1 + 1) with (year_guess d) by lia. lia.
Qed.

Lemma YearFromDay_unique y d : DayFromYear y <= d < DayFromYear (y + 1) -> YearFromDay d = y.
Proof.
  intros Hd. pose proof (YearFromDay_spec d) as Hs.
  destruct (Z.lt_total (YearFromDay d) y) as [Hlt|[Heq|Hgt]]; [|done|].
  - pose proof (DayFromYear_mono (YearFromDay d + 1) y). assert (YearFromDay d + 1 = y \/ YearFromDay d + 1 < y) as [E|E] by lia;
    [subst; lia|specialize (H E); lia].
  - pose proof (DayFromYear_mono (y + 1) (YearFromDay d)). assert (y + 1 = YearFromDay d \/ y + 1 < YearFromDay d) as [E|E] by lia;
    [rewrite <- E in Hs; lia|specialize (H E); lia].
Qed.

Lemma Day_new_Date y m d : Day (new_Date y m d) = MakeDay y m d.
Proof. unfold Day, new_Date, msPerDay. apply Z.div_mul. lia. Qed.

Lemma MonthFromDay_range leap dwy : 0 <= MonthFromDay leap dwy < 12.
Proof. unfold MonthFromDay. repeat case_match; lia. Qed.

(** A month index is one of the twelve [Z.of_nat k]; [nat_cases k]
    splits [k] into its values below the bound [lia] knows. *)
Lemma month_index m : 0 <= m < 12 -> exists k : nat, m = Z.of_nat k /\ (k < 12)%nat.
Proof. intros Hm. exists (Z.to_nat m). lia. Qed.

Ltac nat_cases k := first [lia | destruct k as [|k]; [|nat_cases k]].

Lemma MonthFromDay_start leap m dd :
  0 <= m < 12 -> 1 <= dd -> month_start leap m + dd - 1 <
    (if (m =? 11) then (if leap then 366 else 365) else month_start leap (m + 1)) ->
  MonthFromDay leap (month_start leap m + dd - 1) = m.
Proof.
  intros Hm Hd. destruct (month_index m Hm) as (k & -> & Hk). nat_cases k; simpl Z.of_nat;
  destruct leap; unfold month_start; simpl Z.to_nat; simpl nth; simpl Z.eqb; cbv iota; intros Hlt; unfold MonthFromDay;
  repeat (case Z.ltb_spec; intros); lia.
Qed.


Lemma month_start_days y m : 0 <= m < 12 ->
  0 <= month_start (leap_year y) m /\
  month_start (leap_year y) m + days_in_month y m <= (if leap_year y then 366 else 365) /\
  28 <= days_in_month y m <= 31 /\
  days_in_month y m = (if (m =? 11) then (if leap_year y then 366 else 365) else month_start (leap_year y) (m + 1))
                      - month_start (leap_year y) m.
Proof.
  intros Hm. unfold days_in_month. destruct (leap_year y);
  destruct (month_index m Hm) as (k & -> & Hk); nat_cases k; simpl Z.of_nat;
  unfold month_start; simpl Z.to_nat; simpl nth; simpl Z.eqb; cbv iota; lia.
Qed.

Lemma MakeDay_in_range y m d : 0 <= m < 12 -> MakeDay y m d = DayFromYear y + month_start (leap_year y) m + d - 1.
Proof. intros Hm. unfold MakeDay. rewrite Z.div_small, Z.mod_small by lia. rewrite Z.add_0_r. done. Qed.

Lemma new_Date_fields y m d : 0 <= m < 12 -> 1 <= d <= days_in_month y m ->
  YearFromTime (new_Date y m d) = y /\ MonthFromTime (new_Date y m d) = m /\ DateFromTime (new_Date y m d) = d.
Proof.
  intros Hm Hd. destruct (month_start_days y m Hm) as (H0 & H1 & H2 & H3).
  assert (Hy : YearFromTime (new_Date y m d) = y).
  { unfold YearFromTime. rewrite Day_new_Date, MakeDay_in_range by done. apply YearFromDay_unique.
    rewrite DayFromYear_succ. lia. }
  assert (Hw : DayWithinYear (new_Date y m d) = month_start (leap_year y) m + d - 1).
  { unfold DayWithinYear. rewrite Hy, Day_new_Date, MakeDay_in_range by done. lia. }
  assert (Hmo : MonthFromTime (new_Date y m d) = m).
  { unfold MonthFromTime. rewrite Hy, Hw. apply MonthFromDay_start; lia. }
  split_and!; [done|done|]. unfold DateFromTime. rewrite Hmo, Hy, Hw. lia.
Qed.


Lemma MonthFromTime_range t : 0 <= MonthFromTime t < 12.
Proof. apply MonthFromDay_range. Qed.





End Dates.

(** ** The month grid *)

Section Grid.
#[local] Open Scope Z_scope.

Lemma Day_end_of_day d : Day (d * msPerDay + msPerDay - 1) = d.
Proof. unfold Day, msPerDay. Z.div_mod_to_equations. lia. Qed.

Lemma MakeDay_add y m d k : MakeDay y m d + k = MakeDay y m (d + k).
Proof. unfold MakeDay. lia. Qed.

Lemma MakeDay_month_end y m : 0 <= m < 12 -> MakeDay y (m + 1) 0 = MakeDay y m 1 + days_in_month y m - 1.
Proof.
  intros Hm. destruct (month_start_days y m Hm) as (_ & _ & _ & Hd).
  rewrite (MakeDay_in_range y m) by done.
  destruct (Z.eq_dec m 11) as [->|Hne].
  - unfold MakeDay at 1. change (11 + 1) with 12. change (12 / 12) with 1. change (12 mod 12) with 0.
    change (month_start (leap_year (y + 1)) 0) with 0. rewrite DayFromYear_succ, Hd. simpl (11 =? 11).
    cbv iota. lia.
  - rewrite MakeDay_in_range by lia. rewrite Hd. apply Z.eqb_neq in Hne. rewrite Hne. lia.
Qed.

(** The days of the month of [t] are the first to the last of that month,
    one per day. *)
Lemma month_days_spec t :
  let y := YearFromTime t in let m := MonthFromTime t in
  eachDayOfInterval (startOfMonth t) (endOfMonth t) =
  map (fun i => new_Date y m (1 + Z.of_nat i)) (seq 0 (Z.to_nat (days_in_month y m))).
Proof.
  intros y m. pose proof (MonthFromTime_range t) as Hm.
  unfold eachDayOfInterval, startOfMonth, endOfMonth. fold y m.
  rewrite Day_new_Date. unfold new_Date. rewrite Day_end_of_day, MakeDay_month_end by done.
  replace (MakeDay y m 1 + days_in_month y m - 1 - MakeDay y m 1 + 1) with (days_in_month y m) by lia.
  apply map_ext. intros i. unfold new_Date. rewrite MakeDay_add. done.
Qed.


End Grid.

(** ** Lemmas on the component *)

Lemma view_not_loading st : view_of st <> VLoading -> isLoading st = false.
Proof. unfold view_of. by destruct (isLoading st). Qed.

(** Both queries of [loadEvents] sort the shared array, so the events
    it returns are the query's result on the array it leaves. *)
Lemma loadEvents_run_query q now b s :
  fst (Events.loadEvents q now b s) = fst (run_query q (snd (Events.loadEvents q now b s))).
Proof.
  unfold Events.loadEvents, run_query, searchEvents, getUpcomingEvents, getCampusEvents.
  destruct b, (negb _); simpl; by rewrite ?sort_by_date_idem.
Qed.

Lemma handleSearch_ok q st : isLoading st = false -> cal_ok st -> cal_ok (handleSearch q st).
Proof.
  intros Hl [(Hl' & _)|(_ & Hp & He)]; [congruence|]. unfold handleSearch. case_bool_decide as Hq.
  - right. subst q. done.
  - left. simpl. by rewrite Hp.
Qed.

Lemma load_resume_ok now b st st' : load_resume now b st = Some st' -> cal_ok st -> cal_ok st'.
Proof.
  unfold load_resume. intros Hr [(_ & Hp)|(_ & Hp & _)]; rewrite Hp in Hr; [|done].
  pose proof (loadEvents_run_query (searchQuery st) now b (cal_store st)) as Hq.
  destruct (Events.loadEvents _ _ _ _) as [all s'] eqn:E. injection Hr as <-. right. done.
Qed.

Lemma cal_step_ok l st st' : cal_step l st st' -> cal_ok st -> cal_ok st'.
Proof.
  intros Hs Hok. destruct Hs as [now b st0 st' Hr|q st0 Hv|st0 Hv| | | | | | | |];
    try (destruct Hok as [Hc|Hc]; [left|right]; exact Hc).
  - by apply (load_resume_ok now b st0 st').
  - apply handleSearch_ok; [by apply view_not_loading|done].
  - apply handleSearch_ok; [by apply view_not_loading|done].
Qed.

Lemma cal_rtc_ok l st st' : rtc (cal_step l) st st' -> cal_ok st -> cal_ok st'.
Proof. induction 1 as [|x y z Hxy _ IH]; [done|]. intros H. by apply IH, (cal_step_ok l x). Qed.

Lemma cal_mount_ok now s : cal_ok (cal_mount now s).
Proof. by left. Qed.

(** ** Properties of the calendar *)

(** C26: In every state the calendar reaches from its mount, at most one
    load is in flight, the spinner shows exactly while one is, and
    otherwise the events shown are the results of the current search on
    the shared event array. *)
Theorem calendar_loads_consistent l now s st :
  rtc (cal_step l) (cal_mount now s) st ->
  (length (pending st) <= 1)%nat /\ (isLoading st = true <-> pending st <> []) /\
  (isLoading st = false -> cal_events st = fst (run_query (searchQuery st) (cal_store st))).
Proof.
  intros Hr. destruct (cal_rtc_ok l _ _ Hr (cal_mount_ok now s)) as [(Hl & Hp)|(Hl & Hp & He)];
    rewrite Hp, Hl; split_and!; simpl; try done; lia.
Qed.


(** C28: The grid shows every day of the displayed month once, in order:
    between 28 and 31 buttons, the [i]-th being day [i + 1] of that month
    and year. *)
Theorem calendar_days_month (st : CalState) :
  (28 <= Z.of_nat (length (calendar_days st)) <= 31)%Z /\
  forall i d, calendar_days st !! i = Some d ->
    YearFromTime d = YearFromTime (currentMonth st) /\ MonthFromTime d = MonthFromTime (currentMonth st) /\
    DateFromTime d = (1 + Z.of_nat i)%Z.
Proof.
  unfold calendar_days. rewrite month_days_spec.
  pose proof (MonthFromTime_range (currentMonth st)) as Hm.
  destruct (month_start_days (YearFromTime (currentMonth st)) _ Hm) as (_ & _ & Hd & _).
  split.
  - rewrite length_map, length_seq. lia.
  - intros i d Hi. apply list_lookup_fmap_Some in Hi as (k & -> & Hk).
    apply lookup_seq in Hk as [-> Hk]. apply new_Date_fields; lia.
Qed.


(** Every keystroke that changes the search starts a load, and while
    it runs the component renders only the spinner: the search field is
    unmounted after each character typed. *)
Theorem search_keystroke_unmounts_input (q : list N) (st : CalState) :
  q <> searchQuery st ->
  view_of (handleSearch q st) = VLoading /\ pending (handleSearch q st) = pending st ++ [q].
Proof. intros Hq. unfold handleSearch. by rewrite bool_decide_false. Qed.

(** The first of January 2025 is a Wednesday, but the grid draws it as
    its first cell, under "Sun". *)
Example january_2025_misdrawn :
  calendar_days cal_jan !! 0%nat = Some (new_Date 2025 0 1) /\
  nth (grid_column 0) weekday_headers [] = js "Sun" /\ WeekDay (new_Date 2025 0 1) = 3%Z.
Proof. split_and!; vm_compute; reflexivity. Qed.

(** [{event.maxParticipants && ...}] renders the number [0] itself: an
    event with no places shows a stray "0" instead of no line. *)
Example zero_capacity_renders_zero : participants_node closed_event = Some (js "0").
Proof. reflexivity. Qed.

Lemma cal_searched_reachable : rtc (cal_step En) (cal_mount jan15 mockEvents) cal_searched.
Proof.
  apply (rtc_l _ _ cal_loaded); [apply (cs_resume En jan15 true); vm_compute; reflexivity|].
  apply (rtc_l _ _ (toggle_filters cal_loaded)); [apply cs_filters; vm_compute; discriminate|].
  apply (rtc_l _ _ (handleSearch (js "career") (toggle_filters cal_loaded))).
  { apply cs_search; [vm_compute; discriminate|reflexivity]. }
  apply (rtc_l _ _ cal_searched); [|apply rtc_refl].
  apply (cs_resume En (jan15 + 2000)%Z true). vm_compute. reflexivity.
Qed.

Lemma calendar_loads_consistent_witness :
  isLoading cal_searched = false /\ length (cal_events cal_searched) = 1%nat /\
  cal_events cal_searched = fst (run_query (searchQuery cal_searched) (cal_store cal_searched)).
Proof.
  split; [reflexivity|]. split; [vm_compute; reflexivity|].
  apply (calendar_loads_consistent En jan15 mockEvents cal_searched cal_searched_reachable). reflexivity.
Defined.


Lemma search_keystroke_unmounts_input_witness :
  view_of (handleSearch (js "w") cal_jan) = VLoading /\
  pending (handleSearch (js "w") cal_jan) = pending cal_jan ++ [js "w"].
Proof. apply search_keystroke_unmounts_input. vm_compute. discriminate. Defined.
