(* ===== verification/CampusViews.v ===== *)
(** * CampusViews: [components/campus/MobileCampusView.tsx] and [DesktopCampusView.tsx]

    The two campus views list the buildings as cards, filtered by a
    search field and a category, with buttons for the weather and events
    widgets, the notifications panel and the settings dialog.  Their
    filter, categories and widget handlers are the same code in both
    files; the mobile view adds a scroll container whose snap position is
    [currentIndex], navigation dots and a footer naming the current
    building.

    The filter reuses [Buildings.building_matches] (the search bar's
    predicate, which the views' [matchesSearch] repeats) and adds the
    category test.  The scroll event is modelled by the rectangles the
    browser reports ([getBoundingClientRect]), as exact rationals. *)

From Stdlib Require Import String NArith ZArith QArith Qabs List Lia.
From stdpp Require Import base list options relations.
From S2P Require Import Prelude Buildings.

#[local] Open Scope js_scope.

(** ** The filter *)

(** [matchesCategory]: ['all'] or a category containing the id. *)
Definition matchesCategory (selectedCategory : list N) (b : Building) : bool :=
  jsstring_eqb selectedCategory ‹"all"› || includes (js_toLowerCase (b_category b)) selectedCategory.

(** [filteredBuildings] *)
Definition campus_filter (searchQuery selectedCategory : list N) (bs : list Building) : list Building :=
  List.filter (fun b => building_matches searchQuery b && matchesCategory selectedCategory b) bs.

(** [categories]: the ids and labels of the filter buttons (the same in
    both views). *)
Definition categories : list (list N * list N) :=
  [(‹"all"›, ‹"All"›); (‹"academic"›, ‹"Academic"›); (‹"dining"›, ‹"Dining"›);
   (‹"student"›, ‹"Student Life"›); (‹"administrative"›, ‹"Admin"›); (‹"digital"›, ‹"Digital"›)].

(** The results counter: ["N building(s) found"]. *)
Definition results_counter (n : nat) : list N :=
  zdecimal (Z.of_nat n) ++ ‹" "› ++ (if Nat.eqb n 1 then ‹"building"› else ‹"buildings"›) ++ ‹" found"›.

(** ** The widget panel *)

(** [activeWidget] ('weather', 'events' or null) and [showNotifications]. *)
Record Widgets := mkWidgets { activeWidget : option (list N); showNotifications : bool }.

(** [handleWidgetToggle(widgetName)] *)
Definition handleWidgetToggle (widgetName : list N) (w : Widgets) : Widgets :=
  if bool_decide (activeWidget w = Some widgetName) then mkWidgets None (showNotifications w)
  else mkWidgets (Some widgetName) (if showNotifications w then false else showNotifications w).

(** [handleNotificationsToggle]: both updates read the render's
    [showNotifications]. *)
Definition handleNotificationsToggle (w : Widgets) : Widgets :=
  mkWidgets (if negb (showNotifications w) && bool_decide (is_Some (activeWidget w)) then None else activeWidget w)
    (negb (showNotifications w)).

(** The widget area: shown when a widget or the notifications are open,
    with the weather widget, the calendar and the expanded live updates. *)
Inductive panel := PWeather | PEvents | PNotifications.

Definition widget_area (w : Widgets) : list panel :=
  (if bool_decide (activeWidget w = Some ‹"weather"›) then [PWeather] else []) ++
  (if bool_decide (activeWidget w = Some ‹"events"›) then [PEvents] else []) ++
  (if showNotifications w then [PNotifications] else []).

(** ** The mobile scroll container *)

(** A rectangle as [getBoundingClientRect] reports its vertical extent. *)
Record Rect := mkRect { r_top : Q; r_height : Q }.

Definition center (r : Rect) : Q := r_top r + r_height r / 2.

(** The loop of [handleScroll]: the first child whose centre is closest
    to the container's; [closestDistance] starts at [Infinity] ([None]). *)
Definition closest_step (c : Q) (acc : nat * option Q * nat) (child : Rect) : nat * option Q * nat :=
  let '(closestIndex, closestDistance, index) := acc in
  let distance := Qabs (center child - c) in
  let closer := match closestDistance with None => true | Some d => negb (Qle_bool d distance) end in
  if closer then (index, Some distance, S index) else (closestIndex, closestDistance, S index).

Definition closest_index (container : Rect) (children : list Rect) : nat :=
  let '(i, _, _) := foldl (closest_step (center container)) (0%nat, None, 0%nat) children in i.

(** The mobile view's state. *)
Record MobileState := mkMobile {
  currentIndex : nat; m_query : list N; m_category : list N; m_showFilters : bool;
  m_widgets : Widgets; m_showSettings : bool; m_clicked : list (list N) }.

Definition mobile_initial : MobileState := mkMobile 0 [] ‹"all"› false (mkWidgets None false) false [].

Definition m_filtered (st : MobileState) : list Building := campus_filter (m_query st) (m_category st) buildings.

(** [handleScroll]: the children are the cards (or the "no buildings"
    message when nothing matches). *)
Definition handleScroll (container : Rect) (children : list Rect) (st : MobileState) : MobileState :=
  let closestIndex := closest_index container children in
  if Nat.eqb closestIndex (currentIndex st) then st
  else mkMobile closestIndex (m_query st) (m_category st) (m_showFilters st) (m_widgets st) (m_showSettings st) (m_clicked st).

(** [scrollToBuilding(index)]: only when the container has that child. *)
Definition scrollToBuilding (index : nat) (st : MobileState) : MobileState :=
  if Nat.ltb index (length (m_filtered st)) then
    mkMobile index (m_query st) (m_category st) (m_showFilters st) (m_widgets st) (m_showSettings st) (m_clicked st)
  else st.

(** The navigation dots (the first five cards, the current one wide, and
    a sixth when there are more) and the footer. *)
Definition nav_dots (st : MobileState) : list bool * bool :=
  (map (fun i => Nat.eqb i (currentIndex st)) (seq 0 (length (take 5 (m_filtered st)))),
   Nat.ltb 5 (length (m_filtered st))).

Definition footer (st : MobileState) : option (list N * list N) :=
  (fun b => (b_name b, zdecimal (Z.of_nat (S (currentIndex st))) ++ ‹" of "› ++
             zdecimal (Z.of_nat (length (m_filtered st))))) <$> m_filtered st !! currentIndex st.

(** The controls: the search input, the filter toggle and category
    buttons, the widget buttons, settings, the cards ([onBuildingClick])
    and the dots. *)
Definition m_set_query (q : list N) (st : MobileState) : MobileState :=
  mkMobile (currentIndex st) q (m_category st) (m_showFilters st) (m_widgets st) (m_showSettings st) (m_clicked st).

Definition m_set_category (c : list N) (st : MobileState) : MobileState :=
  mkMobile (currentIndex st) (m_query st) c (m_showFilters st) (m_widgets st) (m_showSettings st) (m_clicked st).

Definition m_toggle_filters (st : MobileState) : MobileState :=
  mkMobile (currentIndex st) (m_query st) (m_category st) (negb (m_showFilters st)) (m_widgets st) (m_showSettings st) (m_clicked st).

Definition m_widget (f : Widgets -> Widgets) (st : MobileState) : MobileState :=
  mkMobile (currentIndex st) (m_query st) (m_category st) (m_showFilters st) (f (m_widgets st)) (m_showSettings st) (m_clicked st).

Definition m_settings (b : bool) (st : MobileState) : MobileState :=
  mkMobile (currentIndex st) (m_query st) (m_category st) (m_showFilters st) (m_widgets st) b (m_clicked st).

Definition m_click (b : Building) (st : MobileState) : MobileState :=
  mkMobile (currentIndex st) (m_query st) (m_category st) (m_showFilters st) (m_widgets st) (m_showSettings st)
    (m_clicked st ++ [b_id b]).

Inductive mobile_step : MobileState -> MobileState -> Prop :=
  | ms_query q st : mobile_step st (m_set_query q st)
  | ms_filters st : mobile_step st (m_toggle_filters st)
  | ms_category c st : m_showFilters st = true -> c ∈ map fst categories -> mobile_step st (m_set_category c st)
  | ms_weather st : mobile_step st (m_widget (handleWidgetToggle ‹"weather"›) st)
  | ms_events st : mobile_step st (m_widget (handleWidgetToggle ‹"events"›) st)
  | ms_notifications st : mobile_step st (m_widget handleNotificationsToggle st)
  | ms_settings st : mobile_step st (m_settings true st)
  | ms_settings_close st : m_showSettings st = true -> mobile_step st (m_settings false st)
  | ms_scroll container children st : mobile_step st (handleScroll container children st)
  | ms_dot i st : (i < length (take 5 (m_filtered st)))%nat -> mobile_step st (scrollToBuilding i st)
  | ms_card b st : b ∈ m_filtered st -> mobile_step st (m_click b st).

(** At most one panel is open among the widgets and the notifications. *)
Definition widgets_exclusive (w : Widgets) : Prop := is_Some (activeWidget w) -> showNotifications w = false.

(** ** The desktop view *)

(** The desktop view's state: the same filter and widget state without
    the scroll position. *)
Record DesktopState := mkDesktop {
  d_query : list N; d_category : list N; d_showFilters : bool; d_widgets : Widgets;
  d_showSettings : bool; d_clicked : list (list N) }.

Definition desktop_initial : DesktopState := mkDesktop [] ‹"all"› false (mkWidgets None false) false [].

Definition d_filtered (st : DesktopState) : list Building := campus_filter (d_query st) (d_category st) buildings.

(** A card: the first three services (four on mobile), over the
    [createGridPattern] of twelve cells in four columns. *)
Definition desktop_services (b : Building) : list (list N) := take 3 (b_services b).

Definition mobile_services (b : Building) : list (list N) := take 4 (b_services b).

Definition createGridPattern (color : list N) : nat * list (list N) := (4%nat, repeat color 12).

Definition d_update (q c : list N) (f : bool) (w : Widgets) (s : bool) (st : DesktopState) : DesktopState :=
  mkDesktop q c f w s (d_clicked st).

Inductive desktop_step : DesktopState -> DesktopState -> Prop :=
  | ds_query q st : desktop_step st (d_update q (d_category st) (d_showFilters st) (d_widgets st) (d_showSettings st) st)
  | ds_filters st : desktop_step st (d_update (d_query st) (d_category st) (negb (d_showFilters st)) (d_widgets st) (d_showSettings st) st)
  | ds_category c st : d_showFilters st = true -> c ∈ map fst categories ->
      desktop_step st (d_update (d_query st) c (d_showFilters st) (d_widgets st) (d_showSettings st) st)
  | ds_widget name st : name ∈ [‹"weather"›; ‹"events"›] ->
      desktop_step st (d_update (d_query st) (d_category st) (d_showFilters st) (handleWidgetToggle name (d_widgets st)) (d_showSettings st) st)
  | ds_notifications st :
      desktop_step st (d_update (d_query st) (d_category st) (d_showFilters st) (handleNotificationsToggle (d_widgets st)) (d_showSettings st) st)
  | ds_settings b st : desktop_step st (d_update (d_query st) (d_category st) (d_showFilters st) (d_widgets st) b st)
  | ds_card b st : b ∈ d_filtered st -> desktop_step st (mkDesktop (d_query st) (d_category st) (d_showFilters st)
      (d_widgets st) (d_showSettings st) (d_clicked st ++ [b_id b])).

(** Samples: the mobile view with the weather widget then the
    notifications opened, and with the fourth card scrolled to. *)
Definition mobile_panels : MobileState :=
  m_widget handleNotificationsToggle (m_widget (handleWidgetToggle ‹"weather"›) mobile_initial).

Definition mobile_fourth : MobileState := scrollToBuilding 3 mobile_initial.

(** [handleScroll]'s choice as a specification: the first child at the
    smallest distance. *)
(** The distance [handleScroll] compares. *)
Definition dist (c : Q) (r : Rect) : Q := Qabs (center r - c).

Definition first_closest (c : Q) (ch : list Rect) : nat :=
  default 0%nat (fst <$> list_find (fun r => forallb (fun r' => Qle_bool (dist c r) (dist c r')) ch) ch).

#[local] Close Scope js_scope.

(** ** Lemmas *)

(** The loop of [handleScroll] keeps the first closest child seen so far. *)
Lemma closest_fold_spec c ch :
  let '(i, d, n) := foldl (closest_step c) (0%nat, None, 0%nat) ch in
  n = length ch /\
  match d with
  | None => ch = [] /\ i = 0%nat
  | Some dv => exists ri, ch !! i = Some ri /\ dv = dist c ri /\
      (forall j rj, ch !! j = Some rj -> (dist c ri <= dist c rj)%Q) /\
      (forall j rj, (j < i)%nat -> ch !! j = Some rj -> (dist c ri < dist c rj)%Q)
  end.
Proof.
  induction ch as [|x ch IH] using rev_ind; [done|]. rewrite foldl_app.
  revert IH. destruct (foldl (closest_step c) (0%nat, None, 0%nat) ch) as [[i d] n]. cbv beta iota.
  intros [-> Hd]. rewrite length_app. destruct d as [dv|]; cbn [foldl closest_step].
  - destruct Hd as (ri & Hri & -> & Hle & Hlt). fold (dist c x).
    destruct (Qle_bool _ _) eqn:E; cbn [negb]; (split; [simpl; lia|]).
    + apply Qle_bool_iff in E. exists ri. split_and!.
      * apply lookup_snoc_Some. left. split; [|done]. by apply lookup_lt_Some in Hri.
      * done.
      * intros j rj [[_ Hj]|[_ <-]]%lookup_snoc_Some; [by apply (Hle j)|done].
      * intros j rj Hji [[_ Hj]|[-> _]]%lookup_snoc_Some; [by apply (Hlt j)|].
        apply lookup_lt_Some in Hri. lia.
    + assert (E' : (dist c x < dist c ri)%Q).
      { apply Qnot_le_lt. intros Hle'. apply Qle_bool_iff in Hle'. unfold dist in *. congruence. }
      exists x. split_and!.
      * by rewrite lookup_snoc_Some; right.
      * done.
      * intros j rj [[_ Hj]|[_ <-]]%lookup_snoc_Some; [|apply Qle_refl].
        apply Qlt_le_weak. eapply Qlt_le_trans; [exact E'|]. by apply (Hle j).
      * intros j rj Hji [[_ Hj]|[-> _]]%lookup_snoc_Some; [|lia].
        eapply Qlt_le_trans; [exact E'|]. by apply (Hle j).
  - destruct Hd as [-> ->]. split; [done|]. exists x. split_and!; [done|done| |].
    + intros j rj Hj. apply list_lookup_singleton_Some in Hj as [_ <-]. apply Qle_refl.
    + intros j rj Hj. simpl in Hj. lia.
Qed.

Lemma closest_forallb c ch r :
  forallb (fun r' => Qle_bool (dist c r) (dist c r')) ch = true <->
  forall j rj, ch !! j = Some rj -> (dist c r <= dist c rj)%Q.
Proof.
  rewrite forallb_forall. split.
  - intros H j rj Hj. apply Qle_bool_iff, H. apply list_elem_of_In. by eapply list_elem_of_lookup_2.
  - intros H r' Hr'. apply list_elem_of_In, list_elem_of_lookup in Hr' as [j Hj]. apply Qle_bool_iff. by apply (H j).
Qed.

(** C30: [handleScroll]'s loop computes the first child at the smallest
    distance from the container's centre: it equals [first_closest], the
    first index of a list minimum, on every list of rectangles. *)
Theorem closest_index_first container ch :
  closest_index container ch = first_closest (center container) ch.
Proof.
  unfold closest_index, first_closest. pose proof (closest_fold_spec (center container) ch) as Hs.
  destruct (foldl _ _ ch) as [[i d] n]. destruct Hs as [_ Hd]. destruct d as [dv|].
  - destruct Hd as (ri & Hri & _ & Hle & Hlt).
    assert (Hf : list_find (fun r => forallb (fun r' => Qle_bool (dist (center container) r) (dist (center container) r')) ch) ch
                 = Some (i, ri)).
    { apply list_find_Some. split_and!; [done| |].
      - apply Is_true_true, closest_forallb. done.
      - intros j y Hj Hji Hy. apply Is_true_true in Hy. pose proof (proj1 (closest_forallb _ _ _) Hy i ri Hri) as Hy'.
        exact (Qlt_not_le _ _ (Hlt j y Hji Hj) Hy'). }
    by rewrite Hf.
  - by destruct Hd as [-> ->].
Qed.

Lemma handleWidgetToggle_ok name w : widgets_exclusive w -> widgets_exclusive (handleWidgetToggle name w).
Proof.
  unfold widgets_exclusive, handleWidgetToggle. intros _. case_bool_decide; simpl.
  - by intros [? ?].
  - intros _. by destruct (showNotifications w).
Qed.

Lemma handleNotificationsToggle_ok w : widgets_exclusive w -> widgets_exclusive (handleNotificationsToggle w).
Proof.
  unfold widgets_exclusive, handleNotificationsToggle. intros _.
  destruct (showNotifications w); simpl; [done|]. case_bool_decide; simpl; [by intros [? ?]|done].
Qed.

Lemma widget_area_single w : widgets_exclusive w -> (length (widget_area w) <= 1)%nat.
Proof.
  unfold widgets_exclusive, widget_area. intros H.
  destruct (activeWidget w) as [a|]; [rewrite H by done|]; repeat case_bool_decide; simplify_eq; simpl;
    try lia; destruct (showNotifications w); simpl; lia.
Qed.

Lemma mobile_step_widgets st st' : mobile_step st st' -> widgets_exclusive (m_widgets st) -> widgets_exclusive (m_widgets st').
Proof.
  destruct 1; simpl; auto using handleWidgetToggle_ok, handleNotificationsToggle_ok.
  - unfold handleScroll. by case_match.
  - unfold scrollToBuilding. by case_match.
Qed.

Lemma desktop_step_widgets st st' : desktop_step st st' -> widgets_exclusive (d_widgets st) -> widgets_exclusive (d_widgets st').
Proof. destruct 1; simpl; auto using handleWidgetToggle_ok, handleNotificationsToggle_ok. Qed.

Lemma rtc_preserved {S} (R : S -> S -> Prop) (P : S -> Prop) :
  (forall x y, R x y -> P x -> P y) -> forall x y, rtc R x y -> P x -> P y.
Proof. intros Hstep x y Hr. induction Hr as [|x y z Hxy _ IH]; [done|]. intros Hx. by apply IH, (Hstep x). Qed.

(** ** Properties of the campus views *)

(** C29: In every state either campus view reaches, the widget area shows
    at most one panel: opening a widget closes the notifications and
    opening the notifications closes the widget. *)
Theorem campus_widget_area_single (st : MobileState) (dt : DesktopState) :
  rtc mobile_step mobile_initial st -> rtc desktop_step desktop_initial dt ->
  (length (widget_area (m_widgets st)) <= 1)%nat /\ (length (widget_area (d_widgets dt)) <= 1)%nat.
Proof.
  intros Hm Hd. split; apply widget_area_single.
  - apply (rtc_preserved mobile_step (fun s => widgets_exclusive (m_widgets s)) mobile_step_widgets _ _ Hm).
    by intros [? ?].
  - apply (rtc_preserved desktop_step (fun s => widgets_exclusive (d_widgets s)) desktop_step_widgets _ _ Hd).
    by intros [? ?].
Qed.

(** The visa services building ("International Support") is shown by
    no category button but "All": every other id is contained in no part
    of its category. *)
Theorem visa_services_no_category (q c : list N) :
  c ∈ map fst categories -> c <> js "all" -> visaServices ∉ campus_filter q c buildings.
Proof.
  intros Hc Hne Hin. apply list_elem_of_In, filter_In in Hin as [_ Hm]. apply andb_true_iff in Hm as [_ Hm].
  assert (Hall : forallb (fun c => jsstring_eqb c (js "all") || negb (matchesCategory c visaServices))
                   (map fst categories) = true) by (vm_compute; reflexivity).
  rewrite forallb_forall in Hall. apply list_elem_of_In, Hall in Hc.
  rewrite Hm, orb_false_r in Hc. apply Hne. by apply bool_decide_eq_true in Hc.
Qed.

(** After the fourth card is scrolled to, a search that leaves one
    building keeps [currentIndex] at 3: the footer and the dots then show
    no current building. *)
Example search_keeps_stale_index :
  let st := m_set_query (js "library") mobile_fourth in
  currentIndex st = 3%nat /\ footer st = None /\ nav_dots st = ([false], false).
Proof. split_and!; vm_compute; reflexivity. Qed.

Lemma mobile_panels_reachable : rtc mobile_step mobile_initial mobile_panels.
Proof.
  apply (rtc_l _ _ (m_widget (handleWidgetToggle (js "weather")) mobile_initial)); [apply ms_weather|].
  apply (rtc_l _ _ mobile_panels); [apply ms_notifications|apply rtc_refl].
Qed.

Lemma campus_widget_area_single_witness :
  widget_area (m_widgets mobile_panels) = [PNotifications] /\
  (length (widget_area (m_widgets mobile_panels)) <= 1)%nat /\ (length (widget_area (d_widgets desktop_initial)) <= 1)%nat.
Proof.
  split; [vm_compute; reflexivity|].
  apply (campus_widget_area_single mobile_panels desktop_initial mobile_panels_reachable). apply rtc_refl.
Defined.

Lemma visa_services_no_category_witness : visaServices ∉ campus_filter [] (js "dining") buildings.
Proof.
  apply (visa_services_no_category [] (js "dining")).
  - apply list_elem_of_In. simpl. tauto.
  - vm_compute. discriminate.
Defined.
