(* ===== verification/Navigation.v ===== *)
(** * Navigation: the routes of [App.tsx] and the campus shell

    [App.tsx] routes between the login page and [CampusNavigator] by the
    [user] and [loading] of [AuthContext]; [CampusNavigator] (modelled in
    [Buildings]) holds the selected building, the sidebar flag, the dark
    mode and the view mode, and renders [Header], [Sidebar] and either
    [AdvancedCampusView] (which picks the mobile or desktop view) or
    [CampusMap].  This file models the routes, the sidebar, the map's zoom
    and drag state, the responsive switch of [AdvancedCampusView] with its
    150 ms timers, the header's dropdowns, dialogs and buttons, and the
    navigator's shell that receives the header's callbacks.

    Pointer coordinates and zoom levels are exact rationals; the browser's
    IEEE-754 rounding of [prev + 0.2] is not modelled (the clamps keep the
    same bounds either way). *)

From Stdlib Require Import String NArith ZArith QArith Qminmax Qround List Lia Lqa.
From stdpp Require Import base list options relations.
From S2P Require Import Prelude ChatNLP ChatResponse AuthService AuthContext Buildings CampusViews.

#[local] Open Scope js_scope.

(** ** The routes of [App.tsx] *)

(** What a route renders: the login page, the navigator, the spinner of
    [ProtectedRoute], or a [<Navigate to=... replace />]. *)
Inductive route_view := RLogin | RCampus | RSpinner | RRedirect (to : list N).

(** [ProtectedRoute] *)
Definition protected_route (user : option AuthUser) (loading : bool) (child : route_view) : route_view :=
  if loading then RSpinner else match user with Some _ => child | None => RRedirect ‹"/"› end.

(** [AppContent]'s [<Routes>]: ["/"], ["/campus"] and ["*"]. *)
Definition app_routes (user : option AuthUser) (loading : bool) (path : list N) : route_view :=
  if bool_decide (path = ‹"/"›) then match user with Some _ => RRedirect ‹"/campus"› | None => RLogin end
  else if bool_decide (path = ‹"/campus"›) then protected_route user loading RCampus
  else RRedirect ‹"/"›.

(** Following the redirects, at most [fuel] routes. *)
Fixpoint resolve (fuel : nat) (user : option AuthUser) (loading : bool) (path : list N)
    : option (list N * route_view) :=
  match fuel with
  | O => None
  | S f => match app_routes user loading path with
           | RRedirect to => resolve f user loading to
           | v => Some (path, v)
           end
  end.

(** ** [Sidebar.tsx] *)

(** The sidebar's categories (the campus views' ids with longer labels)
    and its social links. *)
Definition sidebar_categories : list (list N * list N) :=
  [(‹"all"›, ‹"All Buildings"›); (‹"academic"›, ‹"Academic"›); (‹"dining"›, ‹"Dining"›);
   (‹"student"›, ‹"Student Life"›); (‹"administrative"›, ‹"Administrative"›);
   (‹"digital"›, ‹"Digital Services"›)].

Definition socialMediaLinks : list (list N * list N) :=
  [(‹"Facebook"›, ‹"https://www.facebook.com/uni.due.de"›);
   (‹"Twitter"›, ‹"https://twitter.com/uni_due"›);
   (‹"Instagram"›, ‹"https://www.instagram.com/uni_due"›);
   (‹"YouTube"›, ‹"https://www.youtube.com/user/unidue"›);
   (‹"LinkedIn"›, ‹"https://www.linkedin.com/school/university-of-duisburg-essen"›)].

Record SidebarState := mkSidebar { sb_query : list N; sb_category : list N }.

Definition sidebar_initial : SidebarState := mkSidebar [] ‹"all"›.

(** The search input's [setSearchQuery(e.target.value)] and a category
    button's [setSelectedCategory(category.id)]. *)
Definition sb_set_query (q : list N) (st : SidebarState) : SidebarState := mkSidebar q (sb_category st).

Definition sb_set_category (c : list N) (st : SidebarState) : SidebarState := mkSidebar (sb_query st) c.

(** [filteredBuildings] (the campus views' filter) and
    [quickAccessBuildings]. *)
Definition sb_filtered (st : SidebarState) : list Building := campus_filter (sb_query st) (sb_category st) buildings.

Definition quickAccessBuildings : list Building :=
  List.filter (fun b => default false (isMainBuilding b)) buildings.

(** A building button: [onBuildingClick(building); onClose();], with the
    navigator's [handleBuildingClick] and [() => setShowSidebar(false)]. *)
Definition sidebar_click (b : Building) (nav : NavState) : NavState :=
  let nav1 := handleBuildingClick b nav in
  mkNav (selectedBuilding nav1) false (isDarkMode nav1) (isMobile nav1) (viewMode nav1).

(** ** [CampusMap.tsx] *)

(** A point of the pointer or of the map's offset. *)
Record Point := mkPoint { px : Q; py : Q }.

Record MapState := mkMap {
  zoom : Q; position : Point; isDragging : bool; dragStart : Point; hoveredBuilding : option (list N);
  map_clicked : list (list N) }.

Definition map_initial : MapState := mkMap 1%Q (mkPoint 0 0) false (mkPoint 0 0) None [].

Definition with_zoom (z : Q) (st : MapState) : MapState :=
  mkMap z (position st) (isDragging st) (dragStart st) (hoveredBuilding st) (map_clicked st).

(** [handleZoomIn], [handleZoomOut], [handleReset] *)
Definition handleZoomIn (st : MapState) : MapState := with_zoom (Qmin (zoom st + (1 # 5)) 3)%Q st.

Definition handleZoomOut (st : MapState) : MapState := with_zoom (Qmax (zoom st - (1 # 5)) (1 # 2))%Q st.

Definition handleReset (st : MapState) : MapState :=
  mkMap 1%Q (mkPoint 0 0) (isDragging st) (dragStart st) (hoveredBuilding st) (map_clicked st).

(** [handleMouseDown(e)]: a drag starts only when the map itself (not a
    building) is the target. *)
Definition handleMouseDown (onMap : bool) (client : Point) (st : MapState) : MapState :=
  if onMap then
    mkMap (zoom st) (position st) true (mkPoint (px client - px (position st))%Q (py client - py (position st))%Q)
      (hoveredBuilding st) (map_clicked st)
  else st.

(** [handleMouseMove(e)] *)
Definition handleMouseMove (client : Point) (st : MapState) : MapState :=
  if isDragging st then
    mkMap (zoom st) (mkPoint (px client - px (dragStart st))%Q (py client - py (dragStart st))%Q) true (dragStart st)
      (hoveredBuilding st) (map_clicked st)
  else st.

(** [handleMouseUp] and the document's [mouseup] listener. *)
Definition handleMouseUp (st : MapState) : MapState :=
  mkMap (zoom st) (position st) false (dragStart st) (hoveredBuilding st) (map_clicked st).

(** [handleWheel(e)]: [e.deltaY > 0 ? -0.1 : 0.1], clamped to [0.5, 3]. *)
Definition handleWheel (deltaY : Q) (st : MapState) : MapState :=
  let delta := (if Qle_bool deltaY 0 then 1 # 10 else - (1 # 10))%Q in
  with_zoom (Qmax (1 # 2) (Qmin 3 (zoom st + delta)))%Q st.

(** A building's [onMouseEnter], [onMouseLeave] and [onClick]. *)
Definition set_hover (h : option (list N)) (st : MapState) : MapState :=
  mkMap (zoom st) (position st) (isDragging st) (dragStart st) h (map_clicked st).

Definition map_click (b : Building) (st : MapState) : MapState :=
  mkMap (zoom st) (position st) (isDragging st) (dragStart st) (hoveredBuilding st) (map_clicked st ++ [b_id b]).

(** The zoom label: [Math.round(zoom * 100)%] (half up). *)
Definition zoom_label (st : MapState) : Z := Qfloor (zoom st * 100 + (1 # 2))%Q.

Inductive map_step : MapState -> MapState -> Prop :=
  | mp_zoom_in st : map_step st (handleZoomIn st)
  | mp_zoom_out st : map_step st (handleZoomOut st)
  | mp_reset st : map_step st (handleReset st)
  | mp_down onMap c st : map_step st (handleMouseDown onMap c st)
  | mp_move c st : map_step st (handleMouseMove c st)
  | mp_up st : map_step st (handleMouseUp st)
  | mp_wheel d st : map_step st (handleWheel d st)
  | mp_hover h st : map_step st (set_hover h st)
  | mp_click b st : b ∈ buildings -> map_step st (map_click b st).

(** The zoom stays within the clamps. *)
Definition zoom_ok (st : MapState) : Prop := (1 # 2 <= zoom st <= 3)%Q.

(** ** [campus/AdvancedCampusView.tsx] *)

Module AdvancedCampusView.

(** The responsive switch: [isMobile], [isTransitioning], the window's
    [innerWidth] and the pending 150 ms [setTimeout] callbacks, each with
    the [newIsMobile] it sets.  The callbacks all wait 150 ms, so they fire
    in the order they were scheduled. *)
Record Responsive := mkResp { am_mobile : bool; am_transitioning : bool; am_width : Z; am_timers : list bool }.

(** [checkMobile] of the listener registered with the render's [isMobile]. *)
Definition checkMobile (st : Responsive) : Responsive :=
  let newIsMobile := Z.ltb (am_width st) 768 in
  if Bool.eqb newIsMobile (am_mobile st) then st
  else mkResp (am_mobile st) true (am_width st) (am_timers st ++ [newIsMobile]).

(** The mount: [isMobile] false, and the effect's first [checkMobile()]. *)
Definition resp_mount (width : Z) : Responsive := checkMobile (mkResp false false width []).

(** A [resize] event. *)
Definition resp_resize (width : Z) (st : Responsive) : Responsive :=
  checkMobile (mkResp (am_mobile st) (am_transitioning st) width (am_timers st)).

(** The oldest timer: [setIsMobile(newIsMobile); setIsTransitioning(false)],
    then, when [isMobile] changed, the effect on [[isMobile]] runs
    [checkMobile()] again. *)
Definition resp_fire (st : Responsive) : option Responsive :=
  match am_timers st with
  | [] => None
  | v :: rest =>
      let st1 := mkResp v false (am_width st) rest in
      Some (if Bool.eqb v (am_mobile st) then st1 else checkMobile st1)
  end.

(** Firing the timers until none is left, at most [fuel] of them. *)
Fixpoint resp_settle (fuel : nat) (st : Responsive) : Responsive :=
  match fuel with
  | O => st
  | S f => match resp_fire st with Some st' => resp_settle f st' | None => st end
  end.

(** What the view renders: the spinner while transitioning, else the
    mobile or the desktop view. *)
Inductive resp_view := RTransition | RMobile | RDesktop.

Definition resp_render (st : Responsive) : resp_view :=
  if am_transitioning st then RTransition else if am_mobile st then RMobile else RDesktop.

(** [handleBuildingSelect(buildingId)] *)
Definition handleBuildingSelect (buildingId : list N) : option Building :=
  find (fun b => jsstring_eqb (b_id b) buildingId) buildings.

(** The view's [onBuildingSelect] as the assistant calls it: the
    navigator's [handleBuildingClick] runs only when the id names a
    building. *)
Definition advanced_select (buildingId : list N) (nav : NavState) : NavState :=
  match handleBuildingSelect buildingId with Some b => handleBuildingClick b nav | None => nav end.

(** The timers whose value is not the one the current width asks for. *)
Definition wrong_timers (st : Responsive) : nat :=
  length (List.filter (fun v => negb (Bool.eqb v (Z.ltb (am_width st) 768))) (am_timers st)).

(** What every event keeps: when the view is not the one the width asks
    for, a timer for that value is pending; the spinner shows only while
    a timer is. *)
Definition resp_inv (st : Responsive) : Prop :=
  (am_mobile st <> Z.ltb (am_width st) 768 -> Z.ltb (am_width st) 768 ∈ am_timers st) /\
  (am_transitioning st = true -> am_timers st <> []).

Inductive resp_step : Responsive -> Responsive -> Prop :=
  | rs_resize w st : resp_step st (resp_resize w st)
  | rs_fire st st' : resp_fire st = Some st' -> resp_step st st'.

(** The measure of the pending work: each timer, and once more each timer
    that sets the wrong value (its firing may schedule one more). *)
Definition resp_measure (st : Responsive) : nat := length (am_timers st) + wrong_timers st.

End AdvancedCampusView.
Export AdvancedCampusView.

(** ** [Header.tsx] *)

Module Header.

(** The header's state: the two modals, the open dropdown and its own
    [isMobile] (set once at mount and on every [resize]). *)
Record HeaderState := mkHeader {
  showSettings : bool; showProfile : bool; activeDropdown : option (list N); h_mobile : bool }.

Definition header_mount (width : Z) : HeaderState := mkHeader false false None (Z.ltb width 768).

(** [handleDropdownToggle(dropdownName)] and [closeAllDropdowns()] *)
Definition handleDropdownToggle (dropdownName : list N) (st : HeaderState) : HeaderState :=
  mkHeader (showSettings st) (showProfile st)
    (if bool_decide (activeDropdown st = Some dropdownName) then None else Some dropdownName) (h_mobile st).

Definition closeAllDropdowns (st : HeaderState) : HeaderState :=
  mkHeader (showSettings st) (showProfile st) None (h_mobile st).

(** What a header click asks of the rest of the app: [logout()],
    [navigate(to)], [setLanguage(l)], [onToggleDarkMode],
    [onToggleSidebar], [onViewModeChange(m)]. *)
Inductive header_effect :=
  | HLogout | HNavigate (to : list N) | HSetLanguage (l : language)
  | HToggleDark | HToggleSidebar | HViewMode (m : list N).

(** [handleLogout]: [logout()] is not awaited before [navigate('/')]. *)
Definition handleLogout : list header_effect := [HLogout; HNavigate ‹"/"›].

(** [toggleLanguage] *)
Definition toggleLanguage (l : language) : list header_effect := [HSetLanguage (by_lang l De En)].

(** The header's controls. *)
Inductive header_event :=
  | HE_sidebar | HE_view (m : list N) | HE_dropdown (name : list N) | HE_language | HE_dark
  | HE_settings_open | HE_settings_close | HE_profile_open | HE_profile_close
  | HE_logout | HE_overlay | HE_resize (width : Z).

(** A click on a control, [None] when the control is not rendered: the
    view toggle, the weather and events buttons and the settings button
    only when [!isMobile], the overlay only while a dropdown is open. *)
Definition header_handle (l : language) (ev : header_event) (st : HeaderState)
    : option (HeaderState * list header_effect) :=
  match ev with
  | HE_sidebar => Some (st, [HToggleSidebar])
  | HE_view m => if h_mobile st then None else Some (st, [HViewMode m])
  | HE_dropdown name => if h_mobile st then None else Some (handleDropdownToggle name st, [])
  | HE_language => Some (st, toggleLanguage l)
  | HE_dark => Some (st, [HToggleDark])
  | HE_settings_open =>
      if h_mobile st then None else Some (mkHeader true (showProfile st) (activeDropdown st) (h_mobile st), [])
  | HE_settings_close => Some (mkHeader false (showProfile st) (activeDropdown st) (h_mobile st), [])
  | HE_profile_open => Some (mkHeader (showSettings st) true (activeDropdown st) (h_mobile st), [])
  | HE_profile_close => Some (mkHeader (showSettings st) false (activeDropdown st) (h_mobile st), [])
  | HE_logout => Some (st, handleLogout)
  | HE_overlay => match activeDropdown st with Some _ => Some (closeAllDropdowns st, []) | None => None end
  | HE_resize w => Some (mkHeader (showSettings st) (showProfile st) (activeDropdown st) (Z.ltb w 768), [])
  end.

(** The dropdown panels: the weather widget or the events calendar. *)
Inductive dropdown_panel := PWeather | PEvents.

Definition dropdown_panels (st : HeaderState) : list dropdown_panel :=
  (if bool_decide (activeDropdown st = Some ‹"weather"›) then [PWeather] else []) ++
  (if bool_decide (activeDropdown st = Some ‹"events"›) then [PEvents] else []).

End Header.
Export Header.

(** ** The shell of [CampusNavigator.tsx] *)

(** [toggleSidebar] and the header's [onViewModeChange={setViewMode}]. *)
Definition toggleSidebar (st : NavState) : NavState :=
  mkNav (selectedBuilding st) (negb (showSidebar st)) (isDarkMode st) (isMobile st) (viewMode st).

Definition setViewMode (m : list N) (st : NavState) : NavState :=
  mkNav (selectedBuilding st) (showSidebar st) (isDarkMode st) (isMobile st) (bool_decide (m = ‹"cards"›)).

(** What a header effect does to the navigator: the sidebar, dark-mode
    and view-mode callbacks are the navigator's; [logout], [navigate] and
    [setLanguage] go to the providers and the router. *)
Definition nav_header_effect (st : NavState) (e : header_effect) : NavState :=
  match e with
  | HToggleSidebar => toggleSidebar st
  | HToggleDark => toggleDarkMode st
  | HViewMode m => setViewMode m st
  | HLogout | HNavigate _ | HSetLanguage _ => st
  end.

(** The parts of the campus shell: the header and the sidebar only when
    [!isMobile], then [AdvancedCampusView] when [viewMode === 'cards' ||
    isMobile], else [CampusMap]. *)
Inductive shell_part := SHeader | SSidebar (isOpen : bool) | SAdvanced | SMap.

Definition nav_shell (st : NavState) : list shell_part :=
  (if isMobile st then [] else [SHeader; SSidebar (showSidebar st)]) ++
  [if viewMode st || isMobile st then SAdvanced else SMap].

(** A desktop navigator on the card view, nothing selected. *)
Definition navigator_sample : NavState := mkNav None false (JBool false) false true.

(** ** Lemmas of the responsive switch *)

Section Responsive.

Lemma checkMobile_inv st :
  (am_transitioning st = true -> am_timers st <> []) -> resp_inv (checkMobile st).
Proof.
  unfold checkMobile, resp_inv; intros Htr.
  destruct (Bool.eqb (Z.ltb (am_width st) 768) (am_mobile st)) eqn:E; simpl.
  - apply Bool.eqb_prop in E; split; [congruence|exact Htr].
  - split; [intros _; apply list_elem_of_In, in_or_app; right; left; reflexivity|].
    intros _; destruct (am_timers st); discriminate.
Qed.

Lemma resp_mount_inv w : resp_inv (resp_mount w).
Proof. apply checkMobile_inv; discriminate. Qed.

Lemma resp_resize_inv w st : resp_inv st -> resp_inv (resp_resize w st).
Proof. intros [_ Ht]; apply checkMobile_inv, Ht. Qed.

Lemma resp_fire_inv st st' : resp_inv st -> resp_fire st = Some st' -> resp_inv st'.
Proof.
  destruct st as [m tr w [|v rest]]; unfold resp_fire; simpl; [discriminate|].
  intros [Hm _] [= <-].
  destruct (Bool.eqb v m) eqn:E; [|apply checkMobile_inv; discriminate].
  apply Bool.eqb_prop in E; subst m; split; simpl; [|discriminate].
  simpl in Hm; intros Hne; specialize (Hm Hne); apply elem_of_cons in Hm as [Hv|Hm]; [simpl in Hne; congruence|exact Hm].
Qed.

Lemma resp_step_inv st st' : resp_inv st -> resp_step st st' -> resp_inv st'.
Proof.
  intros Hi Hs; destruct Hs as [w st0|st0 st1 Hf]; [apply resp_resize_inv, Hi|eapply resp_fire_inv; eauto].
Qed.

Lemma resp_reachable_inv w0 st : rtc resp_step (resp_mount w0) st -> resp_inv st.
Proof.
  intros Hr; pose proof (resp_mount_inv w0) as Hi; revert Hi.
  induction Hr as [|x y z Hs _ IH]; [done|intros Hi; apply IH; eapply resp_step_inv; eauto].
Qed.

Lemma bool_eqb_comm a b : Bool.eqb a b = Bool.eqb b a.
Proof. now destruct a, b. Qed.

Lemma wrong_timers_cons m tr w v rest m' tr' :
  wrong_timers (mkResp m tr w (v :: rest)) =
  (if Bool.eqb v (Z.ltb w 768) then 0 else 1) + wrong_timers (mkResp m' tr' w rest).
Proof. unfold wrong_timers; simpl; destruct (Bool.eqb v (Z.ltb w 768)); reflexivity. Qed.

Lemma wrong_timers_snoc m tr w l m' tr' :
  wrong_timers (mkResp m tr w (l ++ [Z.ltb w 768])) = wrong_timers (mkResp m' tr' w l).
Proof. unfold wrong_timers; simpl; rewrite List.filter_app; simpl; rewrite Bool.eqb_reflx, length_app; simpl; lia. Qed.

(** Every firing leaves less work: one timer fewer, and when the firing
    sets a wrong value, one wrong timer fewer for the one it schedules. *)
Lemma resp_fire_measure st st' : resp_fire st = Some st' -> resp_measure st' < resp_measure st.
Proof.
  destruct st as [m tr w [|v rest]]; unfold resp_fire; simpl; [discriminate|].
  intros [= <-]; unfold resp_measure; rewrite (wrong_timers_cons _ _ _ _ _ v false).
  destruct (Bool.eqb v m); [simpl; lia|unfold checkMobile; simpl].
  destruct (Bool.eqb (Z.ltb w 768) v) eqn:E; simpl.
  - rewrite bool_eqb_comm, E; lia.
  - rewrite bool_eqb_comm, E, wrong_timers_snoc with (m' := v) (tr' := false), length_app; simpl; lia.
Qed.

Lemma resp_fire_width st st' : resp_fire st = Some st' -> am_width st' = am_width st.
Proof.
  destruct st as [m tr w [|v rest]]; unfold resp_fire, checkMobile; simpl; [discriminate|].
  intros [= <-]; destruct (Bool.eqb v m), (Bool.eqb (Z.ltb w 768) v); reflexivity.
Qed.

(** With no timer left, the invariant says the view is the right one. *)
Lemma resp_inv_idle st :
  resp_inv st -> am_timers st = [] -> am_mobile st = Z.ltb (am_width st) 768 /\ am_transitioning st = false.
Proof.
  intros [Hm Ht] He; rewrite He in Hm, Ht; split.
  - destruct (Bool.bool_dec (am_mobile st) (Z.ltb (am_width st) 768)) as [E|E]; [exact E|].
    apply Hm in E; apply elem_of_nil in E as [].
  - destruct (am_transitioning st); [now destruct (Ht eq_refl)|reflexivity].
Qed.

(** Enough fuel settles the switch: the timers run out, the width is the
    one of the start, and the view is the one that width asks for. *)
Lemma resp_settle_spec fuel st :
  resp_inv st -> resp_measure st <= fuel ->
  am_timers (resp_settle fuel st) = [] /\ am_width (resp_settle fuel st) = am_width st /\
  am_mobile (resp_settle fuel st) = Z.ltb (am_width st) 768 /\ am_transitioning (resp_settle fuel st) = false.
Proof.
  revert st; induction fuel as [|f IH]; intros st Hi Hle; simpl.
  - assert (He : am_timers st = []) by (unfold resp_measure in Hle; destruct (am_timers st); [done|simpl in Hle; lia]).
    pose proof (resp_inv_idle st Hi He); tauto.
  - destruct (resp_fire st) as [st'|] eqn:Ef.
    + pose proof (resp_fire_measure _ _ Ef); rewrite <- (resp_fire_width _ _ Ef).
      apply IH; [eapply resp_fire_inv; eauto|lia].
    + assert (He : am_timers st = []) by (destruct st as [? ? ? []]; [done|discriminate]).
      pose proof (resp_inv_idle st Hi He); tauto.
Qed.

End Responsive.

(** ** Lemmas of the map *)

Lemma zoom_in_ok st : zoom_ok st -> zoom_ok (handleZoomIn st).
Proof.
  unfold zoom_ok; simpl; intros Hz; split; [apply Q.min_glb; lra|apply Q.le_min_r].
Qed.

Lemma zoom_out_ok st : zoom_ok st -> zoom_ok (handleZoomOut st).
Proof.
  unfold zoom_ok; simpl; intros Hz; split; [apply Q.le_max_r|apply Q.max_lub; lra].
Qed.

Lemma wheel_ok d st : zoom_ok (handleWheel d st).
Proof.
  unfold zoom_ok; simpl; split; [apply Q.le_max_l|apply Q.max_lub; [lra|apply Q.le_min_l]].
Qed.

Lemma map_step_zoom_ok st st' : zoom_ok st -> map_step st st' -> zoom_ok st'.
Proof.
  intros Hz Hs; destruct Hs; auto using zoom_in_ok, zoom_out_ok, wheel_ok;
    unfold zoom_ok, handleMouseDown, handleMouseMove in *; repeat case_match; simpl; lra.
Qed.

(** A zoom in the clamps is labelled between 50% and 300%. *)
Lemma zoom_label_bounds st : zoom_ok st -> (50 <= zoom_label st <= 300)%Z.
Proof.
  unfold zoom_ok, zoom_label; intros [Hl Hu]; split.
  - change 50%Z with (Qfloor (101 # 2)); apply Qfloor_resp_le; lra.
  - change 300%Z with (Qfloor (601 # 2)); apply Qfloor_resp_le; lra.
Qed.

(** ** Lemmas of the navigator shell *)

(** Every building id of the assistant's keyword table names a building
    of the campus data. *)
Lemma handleBuildingSelect_keyword bid :
  In bid (map fst buildingKeywords) -> exists b, handleBuildingSelect bid = Some b /\ b_id b = bid /\ In b buildings.
Proof.
  simpl; intros H; repeat destruct H as [<-|H]; try destruct H;
    (eexists; split; [cbv; reflexivity|split; [reflexivity|simpl; tauto]]).
Qed.

(** ** Properties *)



(** C31: From the mount, whatever resizes and timers came, firing the pending
    timers (as many as [resp_measure] says) leaves none pending, the
    spinner gone, and the view the one the current width asks for. *)
Theorem resp_settles w0 st :
  rtc resp_step (resp_mount w0) st ->
  am_timers (resp_settle (resp_measure st) st) = [] /\
  resp_render (resp_settle (resp_measure st) st) = if Z.ltb (am_width st) 768 then RMobile else RDesktop.
Proof.
  intros Hr; destruct (resp_settle_spec (resp_measure st) st (resp_reachable_inv _ _ Hr) (le_n _))
    as (H1 & _ & H3 & H4).
  split; [exact H1|unfold resp_render; rewrite H4, H3; reflexivity].
Qed.

(** C33: Every state the map reaches keeps its zoom in [[0.5, 3]], and so its
    label between 50% and 300%. *)
Theorem map_zoom_bounded st :
  rtc map_step map_initial st -> zoom_ok st /\ (50 <= zoom_label st <= 300)%Z.
Proof.
  intros Hr; assert (Hz : zoom_ok st).
  { assert (H0 : zoom_ok map_initial) by (unfold zoom_ok; simpl; lra).
    revert H0; induction Hr as [|x y z Hs _ IH]; [done|intros Hx; apply IH; eapply map_step_zoom_ok; eauto]. }
  split; [exact Hz|apply zoom_label_bounds, Hz].
Qed.

(** A drag started on the map and moved moves the map by exactly the
    pointer's displacement. *)
Theorem drag_moves_by_pointer st c1 c2 :
  let st' := handleMouseMove c2 (handleMouseDown true c1 st) in
  isDragging st' = true /\
  (px (position st') == px (position st) + (px c2 - px c1))%Q /\
  (py (position st') == py (position st) + (py c2 - py c1))%Q.
Proof. simpl; split; [reflexivity|split; ring]. Qed.

(** A wheel event with [deltaY = 0] zooms in. *)
Example wheel_zero_zooms_in : zoom (handleWheel 0 map_initial) = (11 # 10)%Q.
Proof. reflexivity. Qed.

(** A signed-out user reloading at ["/"] sees the login page while the
    session check is still pending. *)
Example login_shown_while_loading : resolve 3 None true ‹"/"› = Some (‹"/"›, RLogin).
Proof. reflexivity. Qed.

Lemma resp_settles_witness :
  am_timers (resp_settle 4 (resp_resize 500 (resp_resize 1000 (mkResp true false 500 [])))) = [] /\
  resp_render (resp_settle 4 (resp_resize 500 (resp_resize 1000 (mkResp true false 500 [])))) = RMobile.
Proof.
  apply (resp_settles 500 (resp_resize 500 (resp_resize 1000 (mkResp true false 500 [])))).
  eapply rtc_l; [apply rs_fire; reflexivity|].
  eapply rtc_l; [apply (rs_resize 1000)|].
  eapply rtc_l; [apply (rs_resize 500)|].
  apply rtc_refl.
Defined.

Lemma map_zoom_bounded_witness :
  zoom_ok (handleWheel 0 (handleZoomIn map_initial)) /\
  (50 <= zoom_label (handleWheel 0 (handleZoomIn map_initial)) <= 300)%Z.
Proof.
  apply map_zoom_bounded.
  eapply rtc_l; [apply mp_zoom_in|]; eapply rtc_l; [apply (mp_wheel 0)|]; apply rtc_refl.
Defined.

(** C36: On a desktop header and navigator, the header's view toggle asks the
    navigator for that view mode, and the shell then shows the header, the
    sidebar and the card view for ['cards'], the map for any other mode. *)
Theorem header_view_switch l hst nav m :
  h_mobile hst = false -> isMobile nav = false ->
  exists effs, header_handle l (HE_view m) hst = Some (hst, effs) /\
    nav_shell (foldl nav_header_effect nav effs) =
    [SHeader; SSidebar (showSidebar nav); if bool_decide (m = ‹"cards"›) then SAdvanced else SMap].
Proof.
  intros Hh Hn; simpl; rewrite Hh; eexists; split; [reflexivity|].
  unfold nav_shell; simpl; rewrite Hn; simpl; destruct (bool_decide _); reflexivity.
Qed.

(** C34: A "visit" quick action of the enhanced assistant, passed to
    [AdvancedCampusView]'s [handleBuildingSelect], opens that building's
    page in the navigator: the assistant only names buildings the campus
    data has, and every one of them has a page. *)
Theorem assistant_visit_opens_page (m : list N) (lang : language) (qa : QuickAction) (bid : list N) (nav : NavState) :
  In qa (quickActions (generateEnhancedResponse m lang)) -> qa_buildingId qa = Some bid ->
  exists b p, advanced_select bid nav = handleBuildingClick b nav /\ b_id b = bid /\
    nav_render (advanced_select bid nav) = PageView b p.
Proof.
  intros Hq Hid.
  destruct (handleBuildingSelect_keyword bid (enhanced_quickAction_keyword m lang qa bid Hq Hid)) as (b & Hs & Hb & Hin).
  destruct (click_shows_page b nav Hin) as (p & Hp & _).
  unfold advanced_select; rewrite Hs; exists b, p; auto.
Qed.

Lemma header_view_switch_witness :
  h_mobile (header_mount 1024) = false /\ isMobile (navigator_sample) = false /\
  exists effs, header_handle En (HE_view ‹"map"›) (header_mount 1024) = Some (header_mount 1024, effs) /\
    nav_shell (foldl nav_header_effect (navigator_sample) effs) =
    [SHeader; SSidebar false; if bool_decide (‹"map"› = ‹"cards"›) then SAdvanced else SMap].
Proof.
  split; [reflexivity|split; [reflexivity|]].
  apply (header_view_switch En (header_mount 1024) (navigator_sample) ‹"map"›); reflexivity.
Defined.

Lemma assistant_visit_opens_page_witness :
  In (visit_action En ‹"library"›) (quickActions (generateEnhancedResponse ‹"Find the library"› En)) /\
  exists b p, advanced_select ‹"library"› navigator_sample = handleBuildingClick b navigator_sample /\
    b_id b = ‹"library"› /\ nav_render (advanced_select ‹"library"› navigator_sample) = PageView b p.
Proof.
  assert (Hq : In (visit_action En ‹"library"›) (quickActions (generateEnhancedResponse ‹"Find the library"› En)))
    by (vm_compute; left; reflexivity).
  split; [exact Hq|].
  apply (assistant_visit_opens_page ‹"Find the library"› En (visit_action En ‹"library"›)); [exact Hq|reflexivity].
Defined.
